(* ===== verification/_CoqProject ===== *)
-Q . S2P
Prelude.v
PyValue.v
Escaper.v
SqlScan.v
Driver.v
Builder.v
Injection.v
Accessors.v
Script.v
Loops.v
Catalog.v
UriSplit.v
Lexer.v
SqlParse.v
MiniDb.v
Readback.v
Refine.v
Equiv.v
Race.v
Concurrent.v
CatalogDb.v
ScriptDb.v
Schema.v
Session.v
Simulation.v
