(* ===== verification/Prelude.v ===== *)
(** * A verification development for [kbr.dbase]

    The program (src/kbr/dbase/__init__.py) is one Python class, [DB]: a thin
    layer over the [records] database library that builds SQL text from
    keyword maps and hands it to the driver.  Every public method either
    builds one statement and executes it, or is derived from a method that
    does.  The development models the class method by method and proves what
    each statement looks like, which errors are raised before anything is
    sent, how the derived accessors branch on what the driver returns, and,
    over a reference database that executes the statements, what every
    method does to the rows and what it returns.

    ** Files, in dependency order

    - [Prelude] (this file): the string lemmas the builders share
      (module [Str]), the pure error monad [res] and the state-and-error
      monad [serr] with their notations, the [serr] unfolding tactics, the
      predicate [preserves] with the lemmas that carry an invariant of the
      state through a computation, and the hint databases.
    - [PyValue]: the Python data the methods receive.  [value] is the
      tagged scalar ([None], [bool], [int], [float], [str]); [pydict] is a
      [dict] as an insertion-ordered association list with the invariant
      [dict_wf] (no key twice); [exn] lists the exceptions the code can
      raise.  [py_str], [isinstance_int], [re_sub_char], [dict_getitem],
      [dict_contains], [dict_eq_empty_list] model the builtins the source
      calls.  The class [NumberDetect] is the interface to
      [kbr.type_utils.is_number], which is not part of the sources; the
      instance [py_number_detect] is one implementation of it.
    - [Escaper]: the connection record [DB] ([__init__], lines 21-41) and
      [escape_string] (lines 226-237), with the reader [sql_read_literal]
      of a quoted SQL literal that the round-trip theorems are stated
      against.
    - [SqlScan]: what a database reads in a statement, as far as string
      literals go.  [sql_scan] is a three-state scanner that splits a
      statement into its skeleton (the text outside literals, a [?] for
      each literal) and the literals; [piece], [render] and [pieces_ok]
      describe a statement by the parts it was built from, and
      [scan_pieces] says the scanner finds those parts again.  This file
      models no code of the class: it is the specification that injection
      safety is stated against.
    - [Driver]: the class [Driver], the contract of [records.Database]
      ([query], [get_table_names], [close], and the method [get_as_dict]
      that the driver object may or may not have); the primitives [do],
      [get_as_dict], [count], [table_names], [close] (lines 50-55, 85-98,
      120-165) as [serr] computations over the driver's state; the
      instances [replay_driver] and [dict_driver], which answer from a
      list of canned replies, and [logged_driver], which wraps any driver
      and records the statements it receives; the class [DriverInv] of the
      invariants a driver keeps, and the class [IntIds] of the drivers
      whose rows carry an integer id.
    - [Builder]: the statement builders.  [get_filters] and [get_sql] are
      the body of [get] (lines 169-199); [add_sql], [add_bulk_values],
      [update_sql], [delete_sql], [purge_sql], [drop_table_sql] are the
      texts of [add], [add_bulk], [update], [delete], [purge] and
      [drop_table]; [get], [add], [add_bulk], [update], [delete], [purge],
      [drop_table], [drop_tables] are the methods themselves, guards and
      early raises included.
    - [Injection]: the statements of [add], [add_bulk], [update], [get]
      and [delete] as lists of pieces, and the theorems on their skeleton
      and literals.
    - [Accessors]: Python's keyword binding ([get_params], [get_values],
      [kwargs_clash]) and the derived accessors [get_single], [get_all],
      [get_by_id], [get_id] and [add_unique] (lines 202-283); the types
      [pytype] that the results of [get_id] are checked against
      ([has_type], [ids_type]).
    - [Script]: [from_file] (lines 58-83) over a file system that is a
      function from names to contents, with the string methods it calls
      ([str_replace], [str_split], [str_strip]).
    - [Loops]: the [for] statements of [from_file] and [drop_tables] as
      machines that take one element of the list a step ([loop_step],
      with the step function [loop_next]), next to the function
      [for_each] that the methods are written with.
    - [Catalog]: [table_exist] (lines 100-106), which looks the method
      [get_as_dict] up on the driver object.
    - [UriSplit]: [uri_split] (lines 44-48); the regular expression is the
      matcher [greedy], five groups that each take the longest text the
      rest of the expression allows, with backtracking ([last_split]).
    - [Lexer], [SqlParse], [MiniDb]: a reference database, which is no
      code of the class.  A statement is scanned ([SqlScan]), cut into
      words ([lex], [tokens]), parsed ([parse_sql], with keywords in any
      case) into a [stmt] and executed ([db_exec]) on tables of rows with
      ids from a counter and unique columns: [db_insert_all] for an INSERT
      of one or more rows, [db_select] for a SELECT with a WHERE clause of
      conditions joined by AND and OR ([dnf], [where_holds]) and the
      clauses ORDER BY ([ordered]) and LIMIT and OFFSET ([page]),
      [db_update], [db_delete], [db_drop] and [db_create]; [db_wf] is its
      invariant.
    - [Readback]: the words of each statement the builders write and the
      [stmt] the parser reads in them; [cell_of], [cond_of], [where_of],
      [set_of] and [eq_of] are the cells, conditions and assignments that
      Python values stand for.
    - [Refine]: the driver over the reference database ([mini_driver]),
      the contracts [lookup_ids], [lookup_single] and
      [insert_if_absent], and the theorems that [get], [add],
      [add_bulk], [update], [delete], [purge], [drop_tables],
      [get_single], [get_id], [get_by_id] and [add_unique] implement the
      operations of the database they stand for.
    - [Equiv]: the equivalence [same_rows] of WHERE clauses that the same
      rows meet, with the [Proper] instances that let the operations of
      the database be rewritten under it and under permutations of
      conditions.
    - [Race]: [racing_driver], the reference database with other
      writers that execute a batch of statements after each of ours, and
      what [add_unique] returns beside them.
    - [Concurrent]: one call of [add_unique] cut at its three statements
      ([phase], [phase_step]) and two calls interleaved by a schedule
      ([run_schedule]).
    - [CatalogDb]: [catalog_driver], the reference database behind a
      driver object that has the method [get_as_dict] and answers the
      catalog query from its tables ([to_regclass]), and [table_exist]
      on it.
    - [ScriptDb]: a script as the reference database executes it
      ([script_stmts], [db_script]), and [from_file] on it.
    - [Schema]: a table from the statement that makes it to the call
      that drops it: [table_exist], [drop_table] and [add_unique] on a
      table that a [CREATE TABLE] of a script or of [do] has made.
    - [Session]: the calls of the public methods as a datatype ([call],
      [run_call]) and the states a database reaches under the calls of
      any number of clients ([reachable], a step relation;
      [run_session], the same as a function of the list of calls).
    - [Simulation]: the relation [sim R] of two computations that give
      the same result from states related by [R] and leave related
      states, the class [DriverSim] of two drivers whose methods are so
      related, and the instances for the logging wrapper, for the
      database beside idle writers and for the diagonal of an invariant.

    ** How state and errors are modelled

    A method of [DB] is a function from the connection record and its
    arguments to a computation [serr St exn A = St -> (exn + A) * St], where
    [St] is the state of the driver (the database behind the connection).
    [inl e] is a raised exception, [inr a] a returned value; the state is
    threaded through every call of the driver, also when it raises, so a
    theorem that says the final state is the initial one says that no
    statement reached the driver.  A bare [except:] is [try_except].
    Connections that write to one database are one state with the
    statements of the other writers queued in it ([racing]), a batch
    after each statement of ours: the interleaving is explicit.  Two
    calls of [add_unique] at once are two machines over one database
    that take their steps, a statement each, in the order of a schedule,
    a list of booleans ([Concurrent]).

    ** What the theorems show

    - Escaper: the three branches of [escape_string] (number, [None],
      quoted text); the round trip of a quoted literal through
      [sql_read_literal], with any text following it; that the quoted text
      holds no unpaired quote; that a connection whose URI does not start
      with "sqlite" has no [_sqlite] attribute, so quoting raises
      [AttributeError].
    - Builder: the exact text of each statement; the WHERE clause has one
      filter per key, in insertion order, and is absent for an empty filter
      map; [add] and [add_bulk] raise before the driver is reached when the
      input is empty or the key lists differ; [add_bulk] of one entry is
      [add]; the SET clause of [update] holds exactly the entry keys that
      are no condition keys; an empty condition dictionary is not
      rejected.
    - Injection: for table and column names without a quote, every
      statement of [add], [add_bulk], [update] and [get] scans to a
      skeleton that depends on the names, on the numbers and on which
      values are [None], and to the list of the texts of the other values:
      no text value can end its literal.  [delete] has this property for an
      integer id only, and [get] does not escape colons.
    - Accessors: the three-way cardinality contracts of [get_single] and
      [get_id]; [add_unique] returns the existing id without inserting,
      otherwise inserts, swallows any failure of the insert and returns
      what the second lookup finds; keyword names that collide with the
      parameters of [get] are bound as parameters, not as filters; every
      method sends at most one statement ([sends]), [add_unique] at most
      three.
    - Script: what [from_file] sends (the parts of the content between
      semicolons that are not blank, a prefix of them when a statement
      raises, at most one more than there are semicolons); that the
      commands are whole statements when no literal holds a semicolon, and
      are not when one does.
    - Loops: the loop machine has one next configuration at most
      ([loop_step_det]), each step leaves fewer elements, so no execution
      is infinite and a list of [n] elements is done within [n + 1]
      steps; the configuration the machine halts in is the result of
      [for_each] ([for_each_halts]), and so is that of the machine run
      for that many steps ([loop_run_enough]).
    - Catalog, UriSplit: the answer of [table_exist] on each reply, and
      its [AttributeError] on a driver object without [get_as_dict]; the
      groups of [uri_split] give the URI back, a URI made of five well
      formed parts splits into them, a URI without [@] raises.
    - Readback: every statement of the builders parses to the statement
      it stands for (the lemmas [parse_..._text]): what is written is
      read back, for identifiers and plain values.
    - Refine: [add] is the insertion of the entry's cells and [add_bulk]
      that of a row per entry, all or none; [get] returns the rows that
      meet all or any of the filters, sorted, paged, and two pages that
      follow each other make up the page of both; [update] assigns the
      items that are no condition keys in the rows that meet the
      conditions, and a condition on [None] meets no row; [delete]
      removes the rows with the id, [purge] all rows and [drop_tables]
      every table; [get_single] returns the row that meets the filters
      and raises when there are two; [get_id] returns the ids of the rows
      that meet the filters, of type [ids_type], and [add_unique] is
      insert-if-absent;
      a second [add_unique] returns the ids of the first; every method
      that writes keeps [db_wf]; a unique key gives [get_id] at most one
      id, and [get_by_id] never meets two rows; on sqlite a key with a
      colon is stored but never found; [delete] with a text for an id
      deletes rows of other ids.
    - Equiv: [get], [get_id] and [update] do the same whatever the order
      of their filters and conditions, although the statements differ as
      texts.
    - Race: when another writer inserts between the lookup and the insert
      of [add_unique], the failure is swallowed and the other writer's id
      returned; progress: beside writers that only insert and select,
      [add_unique] on a table whose only unique column is the key returns
      an id, however many of their statements fall between its own, and
      it may return [None] when another writer deletes or another column
      is unique.
    - Concurrent: run alone, the machine of phases is [add_unique]; two
      calls with the same key value on a table whose only unique column
      is the key return the same id under every schedule, by an
      invariant of what each phase knows of the database
      ([phase_ok]); without the unique column both store a row.
    - CatalogDb: on a driver object that has [get_as_dict],
      [table_exist] of a name without a quote answers whether the
      reference database has the table.
    - Schema: [table_exist] answers [True] after the statement that makes
      a table and [False] after [drop_table]; the first [add_unique] into
      a new table returns the id it stores; a setup script, two calls of
      [add_unique] and [drop_tables] run from the empty database to the
      empty database.
    - Session: by induction on [reachable], every invariant of the
      driver's methods holds in every state that calls of the public
      methods lead to; for the reference database, [db_wf].
    - Simulation: every method of the class, and every session, is
      related to itself over two drivers that simulate each other (the
      lemmas named [..._sim], in the hint database [sim]); so the logging
      wrapper changes no result and no state of the driver it wraps, and
      [add_unique] beside writers that do nothing is [add_unique] on the
      database alone.
    - ScriptDb: [from_file] executes the statements of the script in
      order; a statement that fails leaves the database as it was
      ([db_exec_error]) and ends the script, with the statements before
      it executed; a script of statements joined by semicolons executes
      those statements when none of them holds a semicolon or a newline.

    ** Interfaces and assumptions

    The two collaborators that are not part of the sources are classes:
    [NumberDetect] ([kbr.type_utils.is_number]) with the two laws the
    escaper relies on, and [Driver] ([records.Database]).  The theorems of
    [Escaper], [Builder], [Injection], [Accessors], [Script] and [Catalog]
    hold for every instance; the concrete runs use the instances of
    [PyValue] and [Driver].  [DriverInv D I] says that the methods of the
    driver [D] keep the invariant [I]; every method of the class then
    keeps [I] (the lemmas named [..._preserves], in the hint database
    [preserves]), and [Refine] gives the instance for the reference
    database and [db_wf].  [IntIds D] says that every row [D] returns
    carries an integer id; [get_id] and [add_unique] then return values of
    [ids_type] ([Accessors]), and [Refine] gives the instance for the
    reference database.  [DriverSim D1 D2 R] says that the methods of two
    drivers give the same results from states related by [R] and leave
    related states ([Simulation]); [DriverInv D I] is the case of one
    driver and the diagonal of [I].  The structure theorems assume what the code
    assumes of its caller: names (table, columns, [logic], [order]) hold no
    quote, and the rendering of a [float] is made of the characters of a
    number ([value_wf]).  The refinement theorems take tables and columns
    named by one word without a quote ([ident]), filter columns that are
    no parameter name of [get] ([column]), and values that are integers,
    [None] or texts that [is_number] rejects ([plain]).  The arguments
    [logic], [order], [limit] and [offset] of [get] are taken as a keyword
    [AND] or [OR], a column with or without [DESC], and two numbers
    ([logic_word], [order_value], [count_value]).

    ** Bounds and fuel

    No definition uses fuel: every recursion is structural on a string or a
    list (the sort of ORDER BY is stdpp's [merge_sort]), so every model
    function is total and the theorems on results are unconditional.
    That the loops of the class terminate is not left to this: [Loops]
    gives them as step relations and proves that no execution is
    infinite, with the bound of one step for each element and one to
    leave the loop.  Integers are unbounded ([Z]),
    as Python's are; the numbers of LIMIT and OFFSET are naturals.  A
    [float] is carried as its [str()] rendering, since the code only ever
    formats it.  The other writers of [Race] execute a batch of
    statements after each statement of ours; the batches are lists of
    any length, so the theorems on [racing_driver] cover every
    interleaving of a call with finitely many statements of others.  A
    schedule of [Concurrent] is complete when each caller has three
    turns, the statements a call can send; turns after a caller has
    returned change nothing, so the theorem covers the twenty
    interleavings of two calls and every longer schedule.

    ** Not modelled

    Opening the connection ([records.Database(url)]) and the I/O errors of
    [open] and [read] in [from_file] are the library's and the operating
    system's.  The reference database has no types and keeps of a
    [CREATE TABLE] the name and the unique columns only: a cell is a text
    or NULL, a row holds the columns it was inserted with, whether they
    were declared or not, and texts are ordered as texts; a column
    definition with a parenthesis (a type with a length, a default
    expression) is not read.  It reads one ORDER BY column, conditions
    of the forms [column = value] and [column is NULL], and neither
    comments nor expressions.  Of the functions of SQL only
    [to_regclass] is answered, and only in the one query [table_exist]
    sends ([CatalogDb]).  A script of [from_file] is executed as far as
    its commands are statements of these forms ([ScriptDb], [Schema]);
    indexes, views, transactions and the other statements a setup script
    may hold are syntax errors of the reference database.  [order] is passed on as text by [get]
    ([Builder]); the refinement theorems cover a column name with or
    without [DESC].  Of the regular expression language only the
    expression of [uri_split] is modelled. *)

From stdpp Require Export base tactics option list strings pretty.
From Stdlib Require Export ZArith Lia Ascii.

(** * Strings

    Stdlib strings with stdpp's [+:+].  [String.app] does not unfold under
    [simpl], so the equations below are the rewrite rules of the hint
    database [str]. *)
Module Str.

Lemma app_nil_l (s : string) : "" +:+ s = s.
Proof. reflexivity. Qed.

Lemma app_cons (a : ascii) (s t : string) :
  String a s +:+ t = String a (s +:+ t).
Proof. reflexivity. Qed.

Lemma app_nil_r (s : string) : s +:+ "" = s.
Proof. induction s as [|a s IH]; [done|]. by rewrite app_cons, IH. Qed.

Lemma app_assoc (s t u : string) : (s +:+ t) +:+ u = s +:+ (t +:+ u).
Proof. induction s as [|a s IH]; [done|]. by rewrite !app_cons, IH. Qed.

Lemma length_app (s t : string) :
  String.length (s +:+ t) = String.length s + String.length t.
Proof. induction s as [|a s IH]; [done|]. rewrite app_cons. simpl. lia. Qed.

(** [mem c s]: the character [c] occurs in [s]. *)
Fixpoint mem (c : ascii) (s : string) : bool :=
  match s with
  | EmptyString => false
  | String a s' => if Ascii.eqb a c then true else mem c s'
  end.

Lemma mem_app (c : ascii) (s t : string) :
  mem c (s +:+ t) = mem c s || mem c t.
Proof.
  induction s as [|a s IH]; [done|].
  rewrite app_cons. simpl. by destruct (Ascii.eqb a c).
Qed.

(** [head_is c s]: [s] starts with the character [c]. *)
Definition head_is (c : ascii) (s : string) : bool :=
  match s with
  | EmptyString => false
  | String a _ => Ascii.eqb a c
  end.

(** [flat_map f s]: every character replaced by a string. *)
Fixpoint flat_map (f : ascii -> string) (s : string) : string :=
  match s with
  | EmptyString => EmptyString
  | String a s' => f a +:+ flat_map f s'
  end.

Lemma flat_map_app (f : ascii -> string) (s t : string) :
  flat_map f (s +:+ t) = flat_map f s +:+ flat_map f t.
Proof.
  induction s as [|a s IH]; [done|].
  rewrite app_cons. simpl. by rewrite IH, app_assoc.
Qed.

(** [forallb p s]: every character of [s] satisfies [p]. *)
Fixpoint forallb (p : ascii -> bool) (s : string) : bool :=
  match s with
  | EmptyString => true
  | String a s' => p a && forallb p s'
  end.

Lemma forallb_app (p : ascii -> bool) (s t : string) :
  forallb p (s +:+ t) = forallb p s && forallb p t.
Proof.
  induction s as [|a s IH]; [done|].
  rewrite app_cons. simpl. by rewrite IH, andb_assoc.
Qed.

Lemma forallb_not_mem (p : ascii -> bool) (c : ascii) (s : string) :
  p c = false -> forallb p s = true -> mem c s = false.
Proof.
  intros Hc. induction s as [|a s IH]; [done|]. simpl.
  intros [Ha Hs]%andb_prop. destruct (Ascii.eqb_spec a c) as [->|_]; [congruence|auto].
Qed.

Lemma flat_map_id_on (f : ascii -> string) (s : string) :
  (forall a, mem a s = true -> f a = String a "") -> flat_map f s = s.
Proof.
  induction s as [|a s IH]; intros Hf; [done|]. simpl.
  rewrite Hf by (simpl; by rewrite Ascii.eqb_refl).
  rewrite app_cons, app_nil_l, IH; [done|].
  intros b Hb. apply Hf. simpl. by rewrite Hb, Tauto.if_same.
Qed.

Lemma concat_cons2 (sep x y : string) (l : list string) :
  String.concat sep (x :: y :: l) = x +:+ sep +:+ String.concat sep (y :: l).
Proof. reflexivity. Qed.

Lemma concat_singleton (sep x : string) : String.concat sep [x] = x.
Proof. reflexivity. Qed.

(** A character that is in no part and not in the separator is not in the
    join. *)
Lemma mem_concat (c : ascii) (sep : string) (l : list string) :
  mem c sep = false -> Forall (fun t => mem c t = false) l ->
  mem c (String.concat sep l) = false.
Proof.
  intros Hsep Hl. induction Hl as [|x l Hx Hl IH]; [done|].
  destruct l as [|y l]; [done|].
  by rewrite concat_cons2, !mem_app, Hx, Hsep, IH.
Qed.

Lemma app_not_nil (s t : string) : s <> "" -> s +:+ t <> "".
Proof. by destruct s. Qed.

End Str.

Create Rewrite HintDb str.
#[export] Hint Rewrite Str.app_nil_l Str.app_cons Str.app_nil_r Str.app_assoc
  Str.mem_app Str.flat_map_app Str.forallb_app Str.concat_cons2 Str.concat_singleton : str.

(** * The pure error monad

    [res E A] is a computation that returns an [A] or raises an [E]. *)
Definition res (E A : Type) : Type := E + A.

Definition res_bind {E A B : Type} (m : res E A) (k : A -> res E B) : res E B :=
  match m with
  | inl e => inl e
  | inr a => k a
  end.

Declare Scope res_scope.
Delimit Scope res_scope with res.
Bind Scope res_scope with res.
Notation "x ← m ; k" := (res_bind m (fun x => k))
  (at level 20, m at level 100, k at level 200, only parsing) : res_scope.

(** [res_mapM f l]: [f] over [l] from the left, stopping at the first error
    (what forcing [map(f, l)] does when [f] raises). *)
Fixpoint res_mapM {E A B : Type} (f : A -> res E B) (l : list A) : res E (list B) :=
  match l with
  | [] => inr []
  | x :: l' =>
      match f x with
      | inl e => inl e
      | inr y => match res_mapM f l' with
                 | inl e => inl e
                 | inr ys => inr (y :: ys)
                 end
      end
  end.

(** * The state-and-error monad

    [serr St E A]: a computation over a state [St] that returns an [A] or
    raises an [E]; the state survives a raise. *)
Definition serr (St E A : Type) : Type := St -> (E + A) * St.

Definition ret {St E A : Type} (a : A) : serr St E A := fun st => (inr a, st).

Definition raise {St E A : Type} (e : E) : serr St E A := fun st => (inl e, st).

Definition bind {St E A B : Type} (m : serr St E A) (k : A -> serr St E B) :
  serr St E B :=
  fun st =>
    match m st with
    | (inl e, st') => (inl e, st')
    | (inr a, st') => k a st'
    end.

(** A pure computation run inside a stateful one. *)
Definition lift {St E A : Type} (m : res E A) : serr St E A :=
  fun st => (m, st).

(** [try: m except: h]: a handler for every exception. *)
Definition try_except {St E A : Type} (m : serr St E A) (h : E -> serr St E A) :
  serr St E A :=
  fun st =>
    match m st with
    | (inl e, st') => h e st'
    | (inr a, st') => (inr a, st')
    end.

(** [for x in l: f x], stopping at the first raise. *)
Fixpoint for_each {St E A : Type} (f : A -> serr St E unit) (l : list A) :
  serr St E unit :=
  match l with
  | [] => ret tt
  | x :: l' => bind (f x) (fun _ => for_each f l')
  end.

Declare Scope serr_scope.
Delimit Scope serr_scope with serr.
Bind Scope serr_scope with serr.
Notation "x ← m ; k" := (bind m (fun x => k))
  (at level 20, m at level 100, k at level 200, only parsing) : serr_scope.
Notation "m ;; k" := (bind m (fun _ => k))
  (at level 100, k at level 200, only parsing, right associativity) : serr_scope.

Section serr_laws.
Context {St E : Type}.

Lemma bind_ret_l {A B : Type} (a : A) (k : A -> serr St E B) (st : St) :
  bind (ret a) k st = k a st.
Proof. reflexivity. Qed.

Lemma bind_raise_l {A B : Type} (e : E) (k : A -> serr St E B) (st : St) :
  bind (raise e) k st = (inl e, st).
Proof. reflexivity. Qed.

Lemma bind_assoc {A B C : Type} (m : serr St E A) (k : A -> serr St E B)
    (h : B -> serr St E C) (st : St) :
  bind (bind m k) h st = bind m (fun a => bind (k a) h) st.
Proof. unfold bind. by destruct (m st) as [[e|a] st']. Qed.

(** The run of a bind, from the run of its first part. *)
Lemma bind_run_inr {A B : Type} (m : serr St E A) (k : A -> serr St E B)
    (st st' : St) (a : A) :
  m st = (inr a, st') -> bind m k st = k a st'.
Proof. unfold bind. by intros ->. Qed.

Lemma bind_run_inl {A B : Type} (m : serr St E A) (k : A -> serr St E B)
    (st st' : St) (e : E) :
  m st = (inl e, st') -> bind m k st = (inl e, st').
Proof. unfold bind. by intros ->. Qed.

Lemma try_except_inr {A : Type} (m : serr St E A) (h : E -> serr St E A)
    (st st' : St) (a : A) :
  m st = (inr a, st') -> try_except m h st = (inr a, st').
Proof. unfold try_except. by intros ->. Qed.

Lemma try_except_inl {A : Type} (m : serr St E A) (h : E -> serr St E A)
    (st st' : St) (e : E) :
  m st = (inl e, st') -> try_except m h st = h e st'.
Proof. unfold try_except. by intros ->. Qed.

Lemma lift_run {A : Type} (m : res E A) (st : St) : lift m st = (m, st).
Proof. reflexivity. Qed.

Lemma bind_lift_inr {A B : Type} (a : A) (k : A -> serr St E B) (st : St) :
  bind (lift (inr a)) k st = k a st.
Proof. reflexivity. Qed.

Lemma bind_lift_inl {A B : Type} (e : E) (k : A -> serr St E B) (st : St) :
  bind (lift (inl e)) k st = (inl e, st).
Proof. reflexivity. Qed.

End serr_laws.

Create Rewrite HintDb serr.
#[export] Hint Rewrite @bind_ret_l @bind_raise_l @bind_lift_inr @bind_lift_inl
  @lift_run : serr.

(** [serr_unfold]: expose the state passing of a computation. *)
Ltac serr_unfold :=
  unfold bind, ret, raise, lift, try_except, res_bind in *.

(** [serr_run H]: rewrite the run of the first part of a bind with [H]. *)
Ltac serr_run H :=
  first [ rewrite (bind_run_inr _ _ _ _ _ H)
        | rewrite (bind_run_inl _ _ _ _ _ H)
        | rewrite (try_except_inr _ _ _ _ _ H)
        | rewrite (try_except_inl _ _ _ _ _ H) ].

(** [serr_cases]: case analysis on every run and every test in the goal. *)
Ltac serr_cases :=
  serr_unfold; repeat (case_match; simplify_eq/=); try done.

(** ** Invariants of the state

    [preserves I m]: the computation [m] keeps the invariant [I] of the
    state, whether it returns or raises.  The lemmas follow the shape of a
    computation, so that an invariant of the primitive steps is one of
    every computation built from them. *)
Definition preserves {St E A : Type} (I : St -> Prop) (m : serr St E A) : Prop :=
  forall st, I st -> I (m st).2.

Section preserves.
Context {St E : Type} (I : St -> Prop).

Lemma preserves_ret {A : Type} (a : A) : preserves I (ret (E:=E) a).
Proof. by intros st. Qed.

Lemma preserves_raise {A : Type} (e : E) : preserves I (raise (A:=A) e).
Proof. by intros st. Qed.

Lemma preserves_lift {A : Type} (m : res E A) : preserves I (lift m).
Proof. by intros st. Qed.

Lemma preserves_bind {A B : Type} (m : serr St E A) (k : A -> serr St E B) :
  preserves I m -> (forall a, preserves I (k a)) -> preserves I (bind m k).
Proof.
  intros Hm Hk st Hst. specialize (Hm st Hst). unfold bind.
  destruct (m st) as [[e|a] st']; [done|]. by apply Hk.
Qed.

Lemma preserves_try_except {A : Type} (m : serr St E A) (h : E -> serr St E A) :
  preserves I m -> (forall e, preserves I (h e)) -> preserves I (try_except m h).
Proof.
  intros Hm Hh st Hst. specialize (Hm st Hst). unfold try_except.
  destruct (m st) as [[e|a] st']; [|done]. by apply Hh.
Qed.

Lemma preserves_for_each {A : Type} (f : A -> serr St E unit) (l : list A) :
  (forall x, preserves I (f x)) -> preserves I (for_each f l).
Proof.
  intros Hf. induction l as [|x l IH]; [apply preserves_ret|].
  apply preserves_bind; [apply Hf|by intros _].
Qed.

Lemma preserves_if {A : Type} (b : bool) (m1 m2 : serr St E A) :
  preserves I m1 -> preserves I m2 -> preserves I (if b then m1 else m2).
Proof. by destruct b. Qed.

Lemma preserves_option {A B : Type} (o : option B) (m1 : B -> serr St E A)
    (m2 : serr St E A) :
  (forall b, preserves I (m1 b)) -> preserves I m2 ->
  preserves I (match o with Some b => m1 b | None => m2 end).
Proof. by destruct o. Qed.

End preserves.

Create HintDb preserves discriminated.
#[export] Hint Resolve preserves_ret preserves_raise preserves_lift preserves_bind
  preserves_try_except preserves_for_each preserves_if preserves_option : preserves.

(** [solve_preserves]: an invariant of a computation from the invariants of
    its parts, which are lemmas of the database [preserves]. *)
Ltac solve_preserves :=
  repeat first [ progress intros | case_match ]; eauto 12 with preserves.

(** * Lists *)

(** Among elements whose images under [f] are all different, at most one
    has the image [x]. *)
Lemma filter_omap_nil {A B : Type} `{EqDecision B} (f : A -> option B) (x : B)
    (l : list A) :
  x ∉ omap f l -> filter (fun a => f a = Some x) l = [].
Proof.
  intros Hx. induction l as [|a l IH]; [done|].
  rewrite filter_cons_False.
  - apply IH. intros Hin. apply Hx. simpl. destruct (f a); [by right|done].
  - intros Ha. apply Hx. simpl. rewrite Ha. by left.
Qed.

Lemma filter_omap_NoDup {A B : Type} `{EqDecision B} (f : A -> option B) (x : B)
    (l : list A) :
  NoDup (omap f l) -> length (filter (fun a => f a = Some x) l) <= 1.
Proof.
  induction l as [|a l IH]; simpl; [lia|]. intros Hnd.
  destruct (decide (f a = Some x)) as [Ha|Ha].
  - rewrite filter_cons_True by done. rewrite Ha in Hnd.
    apply NoDup_cons in Hnd as [Hx _]. rewrite filter_omap_nil by done. simpl. lia.
  - rewrite filter_cons_False by done. apply IH.
    destruct (f a); [by apply NoDup_cons in Hnd as [_ ?]|done].
Qed.

(** The images of the elements a filter keeps are among the images of
    all, in order. *)
Lemma omap_filter_sublist {A B : Type} (f : A -> option B) (P : A -> Prop)
    `{!forall a, Decision (P a)} (l : list A) :
  omap f (filter P l) `sublist_of` omap f l.
Proof.
  induction l as [|a l IH]; [done|]. rewrite filter_cons. simpl.
  case_decide; simpl; destruct (f a); try done; by constructor.
Qed.

Lemma filter_fmap_NoDup {A B : Type} `{EqDecision B} (f : A -> B) (x : B) (l : list A) :
  NoDup (f <$> l) -> length (filter (fun a => f a = x) l) <= 1.
Proof.
  intros Hnd. rewrite (list_filter_iff _ (fun a => Some (f a) = Some x))
    by (intros a; split; congruence).
  apply filter_omap_NoDup.
  replace (omap (fun a => Some (f a)) l) with (f <$> l); [done|].
  clear Hnd. induction l as [|a l IH]; [done|]. simpl. by f_equal.
Qed.

Lemma res_mapM_inr {E A B : Type} (f : A -> res E B) (g : A -> B) (l : list A) :
  (forall x, x ∈ l -> f x = inr (g x)) -> res_mapM f l = inr (g <$> l).
Proof.
  induction l as [|x l IH]; intros Hf; [done|]. simpl.
  rewrite (Hf x) by left. rewrite IH; [done|].
  intros y Hy. apply Hf. by right.
Qed.

Lemma res_mapM_length {E A B : Type} (f : A -> res E B) (l : list A) (ys : list B) :
  res_mapM f l = inr ys -> length ys = length l.
Proof.
  revert ys. induction l as [|x l IH]; intros ys; simpl; [by intros [= <-]|].
  destruct (f x) as [e|y]; [done|].
  destruct (res_mapM f l) as [e|ys']; [done|].
  intros [= <-]. simpl. f_equal. by apply IH.
Qed.

(** A traversal whose function can only fail with [e] fails with [e] as
    soon as it fails on one element. *)
Lemma res_mapM_inl {E A B : Type} (f : A -> res E B) (e : E) (l : list A) (x : A) :
  (forall y, y ∈ l -> f y = inl e \/ exists b, f y = inr b) ->
  x ∈ l -> f x = inl e -> res_mapM f l = inl e.
Proof.
  induction l as [|y l IH]; intros Hf Hx Hfx; [by apply elem_of_nil in Hx|]. simpl.
  destruct (Hf y ltac:(left)) as [Hy|[b Hy]]; rewrite Hy; [done|].
  apply elem_of_cons in Hx as [->|Hx]; [congruence|].
  rewrite IH; [done| |done..]. intros z Hz. apply Hf. by right.
Qed.

(** A loop that skips the elements satisfying [p] is the loop over the
    others. *)
Lemma for_each_skip {St E A : Type} (p : A -> bool) (g : A -> serr St E unit)
    (l : list A) (st : St) :
  for_each (fun x => if p x then ret tt else g x) l st
  = for_each g (filter (fun x => p x = false) l) st.
Proof.
  revert st. induction l as [|x l IH]; intros st; [done|]. simpl.
  destruct (p x) eqn:Hp.
  - rewrite filter_cons_False by (by rewrite Hp). rewrite bind_ret_l. apply IH.
  - rewrite filter_cons_True by done. simpl. unfold bind.
    destruct (g x st) as [[e|[]] st']; [done|]. apply IH.
Qed.

Lemma filter_none {A : Type} (P : A -> Prop) `{!forall x, Decision (P x)} (l : list A) :
  (forall x, ~ P x) -> filter P l = [].
Proof.
  intros HP. induction l as [|x l IH]; [done|]. by rewrite filter_cons_False.
Qed.

Lemma filter_all {A : Type} (P : A -> Prop) `{!forall x, Decision (P x)} (l : list A) :
  (forall x, x ∈ l -> P x) -> filter P l = l.
Proof.
  induction l as [|x l IH]; intros HP; [done|].
  rewrite filter_cons_True by (apply HP; left). f_equal. apply IH.
  intros y Hy. apply HP. by right.
Qed.

(** What holds of every element holds of those a filter keeps. *)
Lemma Forall_filter {A : Type} (P Q : A -> Prop) `{!forall x, Decision (Q x)} (l : list A) :
  Forall P l -> Forall P (filter Q l).
Proof.
  intros Hl. apply Forall_forall. intros x [_ Hin]%list_elem_of_filter.
  by apply (proj1 (Forall_forall _ _) Hl).
Qed.
