(* ===== verification/PyValue.v ===== *)
(** * Python values, dictionaries and exceptions

    The data the methods of [DB] receive and return, and the builtins they
    call on it: [str()] and [format], [isinstance(_, int)], [re.sub] with a
    one-character pattern, and the [dict] operations.  The last part is the
    interface to [kbr.type_utils.is_number], which the class imports. *)

From S2P Require Import Prelude.

(** ** Scalars *)

(** A value a caller passes as a filter or column value, or a driver
    returns in a row.  A [float] is carried as the text [str()] gives for
    it: the code never computes with one, it only formats it. *)
Inductive value : Type :=
| VNone
| VBool (b : bool)
| VInt (z : Z)
| VFloat (r : string)
| VStr (s : string).

#[export] Instance value_eq_dec : EqDecision value.
Proof. solve_decision. Defined.

(** The exceptions of the code: the four builtin ones it raises or can
    provoke, and whatever the driver raises. *)
Inductive exn : Type :=
| RuntimeError (msg : string)
| KeyError (key : string)
| AttributeError (name : string)
| TypeError (msg : string)
| IndexError (msg : string)
| DriverError (msg : string).

#[export] Instance exn_eq_dec : EqDecision exn.
Proof. solve_decision. Defined.

(** [str(v)], which is also what ["{}".format(v)] inserts. *)
Definition py_str (v : value) : string :=
  match v with
  | VNone => "None"
  | VBool true => "True"
  | VBool false => "False"
  | VInt z => pretty z
  | VFloat r => r
  | VStr s => s
  end.

(** [v is None]. *)
Definition is_None (v : value) : bool :=
  match v with
  | VNone => true
  | _ => false
  end.

(** [isinstance(v, int)]: [bool] is a subclass of [int]. *)
Definition isinstance_int (v : value) : bool :=
  match v with
  | VInt _ | VBool _ => true
  | _ => false
  end.

(** [re.sub(c, repl, s)] for a pattern that is the one literal character
    [c] and a replacement without group references. *)
Definition re_sub_char (c : ascii) (repl : string) (s : string) : string :=
  Str.flat_map (fun a => if Ascii.eqb a c then repl else String a "") s.

(** ** Character classes *)

Definition is_digit (c : ascii) : bool :=
  (48 <=? nat_of_ascii c)%nat && (nat_of_ascii c <=? 57)%nat.

Definition is_alpha (c : ascii) : bool :=
  let n := nat_of_ascii c in
  ((65 <=? n) && (n <=? 90) || (97 <=? n) && (n <=? 122))%nat.

(** The characters a number's rendering can hold: letters and digits,
    sign, point, underscore and blanks.  No quote, no backslash, no
    punctuation of SQL. *)
Definition is_sign (c : ascii) : bool := Ascii.eqb c "+" || Ascii.eqb c "-".

Definition is_point (c : ascii) : bool := Ascii.eqb c ".".

Definition raw_char (c : ascii) : bool :=
  is_digit c || is_alpha c || Ascii.is_space c || is_sign c || is_point c ||
  Ascii.eqb c "_".

(** ** Dictionaries

    A [dict] keeps its items in insertion order and holds a key once;
    [kwargs] are a [dict] too. *)
Abbreviation pydict := (list (string * value)).

Definition dict_wf (d : pydict) : Prop := NoDup d.*1.

(** [list(d.keys())] and [d.values()]. *)
Definition dict_keys (d : pydict) : list string := d.*1.
Definition dict_values (d : pydict) : list value := d.*2.

(** [d == {}]. *)
Definition dict_is_empty (d : pydict) : bool :=
  match d with
  | [] => true
  | _ => false
  end.

(** [d == []]: a [dict] never equals a [list]. *)
Definition dict_eq_empty_list (d : pydict) : bool := false.

(** [l == {}] for a list [l]: never. *)
Definition list_eq_empty_dict {A : Type} (l : list A) : bool := false.

(** [d.get(k)] as an option. *)
Fixpoint dict_lookup (k : string) (d : pydict) : option value :=
  match d with
  | [] => None
  | (k', v) :: d' => if decide (k' = k) then Some v else dict_lookup k d'
  end.

(** [d[k]]: raises [KeyError]. *)
Definition dict_getitem (k : string) (d : pydict) : res exn value :=
  match dict_lookup k d with
  | Some v => inr v
  | None => inl (KeyError k)
  end.

(** [k in d]. *)
Definition dict_contains (k : string) (d : pydict) : bool :=
  bool_decide (k ∈ dict_keys d).

(** ** The numeric-detection predicate

    [kbr.type_utils.is_number] is imported by the class and not part of its
    sources.  What the class needs of it: [None] is no number, and a string
    it takes for a number is made of the characters of a number. *)
Class NumberDetect : Type := {
  is_number : value -> bool;
  is_number_None : is_number VNone = false;
  is_number_str_raw (s : string) :
    is_number (VStr s) = true -> Str.forallb raw_char s = true
}.

(** Detection by type: the numeric types and nothing else. *)
Definition typed_is_number (v : value) : bool :=
  match v with
  | VBool _ | VInt _ | VFloat _ => true
  | VNone | VStr _ => false
  end.

(** Detection by conversion, for decimal literals: an optional sign, then
    digits with at most one point and at least one digit.  The states of
    the recogniser, in the order a literal goes through them. *)
Inductive num_state : Type :=
| NStart | NSign | NInt | NPoint | NFrac | NBad.

#[export] Instance num_state_eq_dec : EqDecision num_state.
Proof. solve_decision. Defined.

Definition num_step (st : num_state) (c : ascii) : num_state :=
  match st with
  | NStart =>
      if is_digit c then NInt else if is_sign c then NSign
      else if is_point c then NPoint else NBad
  | NSign => if is_digit c then NInt else if is_point c then NPoint else NBad
  | NInt => if is_digit c then NInt else if is_point c then NFrac else NBad
  | NPoint | NFrac => if is_digit c then NFrac else NBad
  | NBad => NBad
  end.

Fixpoint num_run (st : num_state) (s : string) : num_state :=
  match s with
  | EmptyString => st
  | String c s' => num_run (num_step st c) s'
  end.

Definition is_decimal (s : string) : bool :=
  match num_run NStart s with
  | NInt | NFrac => true
  | _ => false
  end.

Definition py_is_number (v : value) : bool :=
  match v with
  | VNone => false
  | VBool _ | VInt _ | VFloat _ => true
  | VStr s => is_decimal s
  end.

(** ** Lemmas *)

Lemma is_digit_raw (c : ascii) : is_digit c = true -> raw_char c = true.
Proof. unfold raw_char. by intros ->. Qed.

Lemma pretty_N_char_raw (n : N) : raw_char (pretty_N_char n) = true.
Proof. unfold pretty_N_char. by repeat case_match. Qed.

(** The decimal rendering of an integer is made of digits and a minus
    sign, so every predicate that holds of those holds of it. *)
Section numerals.
Context (p : ascii -> bool) (Hdigit : forall n, p (pretty_N_char n) = true).

Lemma pretty_N_go_forallb (x : N) (s : string) :
  Str.forallb p s = true -> Str.forallb p (pretty_N_go x s) = true.
Proof.
  revert s. induction (N.lt_wf_0 x) as [x _ IH]; intros s Hs.
  destruct (decide (x = 0)%N) as [->|Hx]; [by rewrite pretty_N_go_0|].
  rewrite pretty_N_go_step by lia. apply IH; [apply N.div_lt; lia|].
  simpl. by rewrite Hdigit.
Qed.

Lemma pretty_N_forallb (x : N) : Str.forallb p (pretty x) = true.
Proof.
  unfold pretty, pretty_N. case_decide; [|by apply pretty_N_go_forallb].
  simpl. by rewrite (Hdigit 0 : p "0" = true).
Qed.

Lemma pretty_Z_forallb (z : Z) : p "-" = true -> Str.forallb p (pretty z) = true.
Proof.
  intros Hm. pose proof (Hdigit 0 : p "0" = true) as H0.
  destruct z as [|q|q]; [by simpl; rewrite H0|apply pretty_N_forallb|].
  unfold pretty, pretty_Z. rewrite Str.forallb_app. simpl. rewrite Hm.
  apply pretty_N_forallb.
Qed.

End numerals.

Lemma pretty_N_go_nonempty (x : N) (s : string) :
  s <> EmptyString -> pretty_N_go x s <> EmptyString.
Proof.
  revert s. induction (N.lt_wf_0 x) as [x _ IH]; intros s Hs.
  destruct (decide (x = 0)%N) as [->|Hx]; [by rewrite pretty_N_go_0|].
  rewrite pretty_N_go_step by lia. apply IH; [apply N.div_lt; lia|done].
Qed.

Lemma pretty_N_nonempty (x : N) : pretty x <> EmptyString.
Proof.
  unfold pretty, pretty_N. case_decide; [done|].
  rewrite pretty_N_go_step by lia. by apply pretty_N_go_nonempty.
Qed.

Lemma pretty_Z_nonempty (z : Z) : pretty z <> EmptyString.
Proof. destruct z; [done|apply pretty_N_nonempty|done]. Qed.

Lemma pretty_N_raw (x : N) : Str.forallb raw_char (pretty x) = true.
Proof. apply pretty_N_forallb, pretty_N_char_raw. Qed.

Lemma pretty_Z_raw (z : Z) : Str.forallb raw_char (pretty z) = true.
Proof. by apply pretty_Z_forallb; [apply pretty_N_char_raw|]. Qed.

(** The rendering of an [int] (a [bool] included) is raw text. *)
Lemma py_str_int_raw (v : value) :
  isinstance_int v = true -> Str.forallb raw_char (py_str v) = true.
Proof. destruct v as [|[]| | |]; try done. intros _. apply pretty_Z_raw. Qed.

Lemma re_sub_char_hit (c : ascii) (repl s : string) :
  re_sub_char c repl (String c s) = repl +:+ re_sub_char c repl s.
Proof. unfold re_sub_char. simpl. by rewrite Ascii.eqb_refl. Qed.

Lemma re_sub_char_miss (c a : ascii) (repl s : string) :
  a <> c -> re_sub_char c repl (String a s) = String a (re_sub_char c repl s).
Proof.
  intros Ha%Ascii.eqb_neq. unfold re_sub_char. simpl. by rewrite Ha.
Qed.

Lemma re_sub_char_app (c : ascii) (repl s t : string) :
  re_sub_char c repl (s +:+ t) = re_sub_char c repl s +:+ re_sub_char c repl t.
Proof. apply Str.flat_map_app. Qed.

(** Substitution leaves a string without the character alone. *)
Lemma re_sub_char_absent (c : ascii) (repl s : string) :
  Str.mem c s = false -> re_sub_char c repl s = s.
Proof.
  intros Hc. apply Str.flat_map_id_on. intros a Ha.
  destruct (Ascii.eqb_spec a c) as [->|]; [congruence|done].
Qed.

Lemma dict_lookup_Some_elem (k : string) (d : pydict) (v : value) :
  dict_lookup k d = Some v -> (k, v) ∈ d.
Proof.
  induction d as [|[k' v'] d IH]; [done|]. simpl.
  case_decide; [intros [= <-]; subst; left | intros; right; auto].
Qed.

Lemma dict_lookup_None (k : string) (d : pydict) :
  dict_lookup k d = None <-> k ∉ dict_keys d.
Proof.
  unfold dict_keys. induction d as [|[k' v'] d IH]; simpl.
  - split; [intros _; apply not_elem_of_nil | done].
  - rewrite not_elem_of_cons. case_decide; [split; [done|intros [? _]; congruence]|].
    rewrite IH. split; [auto|by intros [_ ?]].
Qed.

Lemma dict_contains_lookup (k : string) (d : pydict) :
  dict_contains k d = bool_decide (is_Some (dict_lookup k d)).
Proof.
  unfold dict_contains. apply bool_decide_ext.
  rewrite <- not_eq_None_Some, dict_lookup_None.
  destruct (decide (k ∈ dict_keys d)); naive_solver.
Qed.

Lemma dict_getitem_elem (k : string) (d : pydict) (v : value) :
  dict_getitem k d = inr v -> (k, v) ∈ d.
Proof.
  unfold dict_getitem. destruct (dict_lookup k d) eqn:E; [|done].
  intros [= <-]. by apply dict_lookup_Some_elem.
Qed.

Lemma dict_wf_cons (k : string) (v : value) (d : pydict) :
  dict_wf ((k, v) :: d) <-> (k ∉ dict_keys d) /\ dict_wf d.
Proof. unfold dict_wf, dict_keys. simpl. apply NoDup_cons. Qed.

(** ** The two detectors implement the interface *)

Lemma num_run_bad (s : string) : num_run NBad s = NBad.
Proof. by induction s. Qed.

Lemma num_step_raw (st : num_state) (c : ascii) :
  num_step st c <> NBad -> raw_char c = true.
Proof.
  unfold raw_char. destruct st; simpl; repeat case_match; try done; intros _;
    repeat match goal with H : _ = true |- _ => rewrite H; clear H end;
    by rewrite ?orb_true_r.
Qed.

Lemma num_run_raw (st : num_state) (s : string) :
  num_run st s <> NBad -> Str.forallb raw_char s = true.
Proof.
  revert st. induction s as [|c s IH]; intros st; [done|]. simpl. intros H.
  destruct (decide (num_step st c = NBad)) as [E|E].
  - rewrite E, num_run_bad in H. done.
  - rewrite (num_step_raw _ _ E). by apply (IH (num_step st c)).
Qed.

Lemma is_decimal_raw (s : string) :
  is_decimal s = true -> Str.forallb raw_char s = true.
Proof.
  unfold is_decimal. intros H. apply (num_run_raw NStart).
  by destruct (num_run NStart s).
Qed.

#[export] Program Instance typed_number_detect : NumberDetect :=
  {| is_number := typed_is_number |}.
Next Obligation. reflexivity. Qed.
Next Obligation. intros s. discriminate. Qed.

Program Definition py_number_detect : NumberDetect :=
  {| is_number := py_is_number |}.
Next Obligation. reflexivity. Qed.
Next Obligation. intros s. apply is_decimal_raw. Qed.
