(* ===== verification/Escaper.v ===== *)
(** * The connection record and the escaper

    [DB] holds what [__init__] stores on the object; [escape_string] turns a
    value into the text of an SQL literal.  [sql_read_literal] reads a
    quoted literal back the way an SQL lexer does (a quote opens it, two
    quotes stand for one, a single quote closes it), and is what the
    round-trip and safety theorems are stated against. *)

From S2P Require Import Prelude PyValue.

(** ** The connection *)

(** The attributes of a [DB] object besides the driver handle.  [_sqlite]
    is [None] when the attribute was never assigned. *)
Record DB : Type := {
  _uri : string;
  _fetchall : bool;
  _sqlite : option bool
}.

(** [DB(uri)]: [_fetchall] is always assigned, [_sqlite] only for an URI
    that starts with "sqlite". *)
Definition __init__ (uri : string) : DB :=
  if String.prefix "sqlite" uri
  then {| _uri := uri; _fetchall := true; _sqlite := Some true |}
  else {| _uri := uri; _fetchall := false; _sqlite := None |}.

(** [self._sqlite]: reading an attribute that was never assigned raises. *)
Definition getattr_sqlite (self : DB) : res exn bool :=
  match _sqlite self with
  | Some b => inr b
  | None => inl (AttributeError "_sqlite")
  end.

(** ** Reading a literal back *)

(** The text after an opening quote: the literal's value and what follows
    its closing quote; [None] when the literal is never closed. *)
Fixpoint sql_read_quoted (s : string) : option (string * string) :=
  match s with
  | EmptyString => None
  | String c s' =>
      if Ascii.eqb c "'" then
        match s' with
        | EmptyString => Some (EmptyString, EmptyString)
        | String c' s'' =>
            if Ascii.eqb c' "'"
            then prod_map (String "'") id <$> sql_read_quoted s''
            else Some (EmptyString, s')
        end
      else prod_map (String c) id <$> sql_read_quoted s'
  end.

Definition sql_read_literal (s : string) : option (string * string) :=
  match s with
  | EmptyString => None
  | String c s' => if Ascii.eqb c "'" then sql_read_quoted s' else None
  end.

(** A colon that no backslash precedes; [prev] tells whether the character
    before [s] was a backslash. *)
Fixpoint bare_colon (prev : bool) (s : string) : bool :=
  match s with
  | EmptyString => false
  | String c s' =>
      (Ascii.eqb c ":" && negb prev) || bare_colon (Ascii.eqb c "\") s'
  end.

(** A value whose rendering as a number is raw text: every value but a
    [float] carried with a rendering that is none. *)
Definition value_wf (v : value) : Prop :=
  match v with
  | VFloat r => Str.forallb raw_char r = true
  | _ => True
  end.

(** ** The escaper *)

Section escaper.
Context {ND : NumberDetect}.

(** [sql_quote s]: [s] between quotes, its quotes doubled. *)
Definition sql_quote (s : string) : string :=
  "'" +:+ re_sub_char "'" "''" s +:+ "'".

Definition escape_string (self : DB) (v : value) : res exn string :=
  if is_number v then inr (py_str v)
  else if is_None v then inr "NULL"
  else
    let s := re_sub_char "'" "''" (py_str v) in
    match getattr_sqlite self with
    | inl e => inl e
    | inr sqlite =>
        let s := if sqlite then re_sub_char ":" "\:" s else s in
        inr ("'" +:+ s +:+ "'")
    end.

(** ** Lemmas on the reader *)

Lemma sql_read_quoted_close (rest : string) :
  Str.head_is "'" rest = false ->
  sql_read_quoted (String "'" rest) = Some (EmptyString, rest).
Proof. destruct rest as [|c rest]; [done|]. simpl. by intros ->. Qed.

(** The reader undoes the doubling of quotes, whatever follows the closing
    quote, as long as that is no quote. *)
Lemma sql_read_quoted_sub (s rest : string) :
  Str.head_is "'" rest = false ->
  sql_read_quoted (re_sub_char "'" "''" s +:+ String "'" rest) = Some (s, rest).
Proof.
  intros Hrest. induction s as [|a s IH].
  - by apply sql_read_quoted_close.
  - destruct (decide (a = "'"%char)) as [->|Ha].
    + rewrite re_sub_char_hit. autorewrite with str. simpl. by rewrite IH.
    + rewrite re_sub_char_miss by done. autorewrite with str. simpl.
      apply Ascii.eqb_neq in Ha. by rewrite Ha, IH.
Qed.

Lemma sql_read_literal_quote (s rest : string) :
  Str.head_is "'" rest = false ->
  sql_read_literal (sql_quote s +:+ rest) = Some (s, rest).
Proof.
  intros Hrest. unfold sql_quote. autorewrite with str. simpl.
  by apply sql_read_quoted_sub.
Qed.

Lemma sql_quote_inj : Inj (=) (=) sql_quote.
Proof.
  intros s t E.
  pose proof (sql_read_literal_quote s "" eq_refl) as Hs.
  pose proof (sql_read_literal_quote t "" eq_refl) as Ht.
  rewrite E in Hs. congruence.
Qed.

(** Escaping colons leaves none bare. *)
Lemma bare_colon_sub (prev : bool) (s : string) :
  bare_colon prev (re_sub_char ":" "\:" s) = false.
Proof.
  revert prev. induction s as [|a s IH]; intros prev; [done|].
  destruct (decide (a = ":"%char)) as [->|Ha].
  - rewrite re_sub_char_hit. autorewrite with str. simpl. apply IH.
  - rewrite re_sub_char_miss by done. simpl.
    apply Ascii.eqb_neq in Ha. rewrite Ha. apply IH.
Qed.

(** ** The branches of [escape_string] *)

Lemma escape_string_number (self : DB) (v : value) :
  is_number v = true -> escape_string self v = inr (py_str v).
Proof. unfold escape_string. by intros ->. Qed.

Lemma escape_string_None (self : DB) : escape_string self VNone = inr "NULL".
Proof. unfold escape_string. by rewrite is_number_None. Qed.

(** The colons can be escaped before the quotes are doubled: neither
    replacement holds the other's character. *)
Lemma re_sub_colon_quote (s : string) :
  re_sub_char ":" "\:" (re_sub_char "'" "''" s)
  = re_sub_char "'" "''" (re_sub_char ":" "\:" s).
Proof.
  induction s as [|a s IH]; [done|].
  destruct (decide (a = "'"%char)) as [->|Hq].
  { rewrite re_sub_char_hit, (re_sub_char_miss ":") by done.
    rewrite re_sub_char_hit, re_sub_char_app, IH. by rewrite !re_sub_char_miss. }
  destruct (decide (a = ":"%char)) as [->|Hc].
  { rewrite re_sub_char_hit, (re_sub_char_miss "'") by done.
    rewrite re_sub_char_hit, re_sub_char_app, IH. by rewrite !re_sub_char_miss. }
  by rewrite !re_sub_char_miss, IH.
Qed.

(** The text the quoted branch puts between the quotes. *)
Definition literal_text (sqlite : bool) (s : string) : string :=
  if sqlite then re_sub_char ":" "\:" s else s.

Lemma escape_string_quoted (self : DB) (v : value) (sqlite : bool) :
  is_number v = false -> v <> VNone -> _sqlite self = Some sqlite ->
  escape_string self v = inr (sql_quote (literal_text sqlite (py_str v))).
Proof.
  unfold escape_string, getattr_sqlite, sql_quote, literal_text. intros -> Hv ->.
  destruct v; try done; destruct sqlite; by rewrite ?re_sub_colon_quote.
Qed.

(** What [escape_string] returns on a connection that has the attribute:
    the three branches as one total function. *)
Definition escaped_text (sqlite : bool) (v : value) : string :=
  if is_number v then py_str v
  else if is_None v then "NULL"
  else sql_quote (literal_text sqlite (py_str v)).

Lemma escape_string_text (self : DB) (sqlite : bool) (v : value) :
  _sqlite self = Some sqlite -> escape_string self v = inr (escaped_text sqlite v).
Proof.
  intros Hsq. unfold escaped_text. destruct (is_number v) eqn:Hn.
  { by apply escape_string_number. }
  destruct (decide (v = VNone)) as [->|Hv]; [apply escape_string_None|].
  rewrite (escape_string_quoted self v sqlite) by done. by destruct v.
Qed.

(** A number's rendering is raw text. *)
(** A connection made from an URI that does not start with "sqlite" has
    no attribute [_sqlite], and quoting on a connection without it
    raises. *)
Lemma init_no_sqlite (uri : string) :
  String.prefix "sqlite" uri = false -> _sqlite (__init__ uri) = None.
Proof. unfold __init__. by intros ->. Qed.

Lemma escape_string_missing_attr (self : DB) (v : value) :
  _sqlite self = None -> is_number v = false -> v <> VNone ->
  escape_string self v = inl (AttributeError "_sqlite").
Proof.
  unfold escape_string, getattr_sqlite. intros -> -> Hv. by destruct v.
Qed.

Lemma is_number_raw (v : value) :
  value_wf v -> is_number v = true -> Str.forallb raw_char (py_str v) = true.
Proof.
  destruct v as [|b|z|r|s]; simpl; intros Hwf Hn.
  - by rewrite is_number_None in Hn.
  - by destruct b.
  - apply pretty_Z_raw.
  - done.
  - by apply is_number_str_raw.
Qed.

(** ** Theorems *)

(** C2: [escape_string] round-trips text: on a connection that has the
    attribute [_sqlite], the literal produced for a string that is no
    number (and, on sqlite, holds no colon), followed by any text that does
    not start with a quote, reads back as the string and leaves that
    text. *)
Theorem escape_string_roundtrip (self : DB) (sqlite : bool) (s rest : string) :
  _sqlite self = Some sqlite -> is_number (VStr s) = false ->
  (sqlite = true -> Str.mem ":" s = false) ->
  Str.head_is "'" rest = false ->
  exists lit, escape_string self (VStr s) = inr lit
    /\ sql_read_literal (lit +:+ rest) = Some (s, rest).
Proof.
  intros Hsq Hn Hcolon Hrest. eexists. split.
  - by apply (escape_string_quoted self (VStr s) sqlite).
  - rewrite sql_read_literal_quote by done. do 2 f_equal. unfold literal_text.
    destruct sqlite; [|done]. apply re_sub_char_absent. by apply Hcolon.
Qed.

(** On sqlite the text between the quotes has every colon preceded by
    a backslash: the literal of a string that is no number reads back as
    the string with its colons escaped, and holds no bare colon. *)
Theorem escape_string_sqlite_colons (self : DB) (s rest : string) :
  _sqlite self = Some true -> is_number (VStr s) = false ->
  Str.head_is "'" rest = false ->
  exists lit, escape_string self (VStr s) = inr lit
    /\ sql_read_literal (lit +:+ rest) = Some (re_sub_char ":" "\:" s, rest)
    /\ bare_colon false (re_sub_char ":" "\:" s) = false.
Proof.
  intros Hsq Hn Hrest. eexists. split; [|split].
  - by apply (escape_string_quoted self (VStr s) true).
  - by apply sql_read_literal_quote.
  - apply bare_colon_sub.
Qed.

(** A connection made by [__init__] either is an sqlite connection,
    with [_sqlite] and [_fetchall] both true, or has no attribute [_sqlite]
    at all and [_fetchall] false; [_sqlite] is never false. *)
Theorem init_attributes (uri : string) :
  _uri (__init__ uri) = uri
  /\ (if String.prefix "sqlite" uri
      then _sqlite (__init__ uri) = Some true /\ _fetchall (__init__ uri) = true
      else _sqlite (__init__ uri) = None /\ _fetchall (__init__ uri) = false).
Proof. unfold __init__. by destruct (String.prefix "sqlite" uri). Qed.

(** C37: on a connection made by [__init__] from an URI that does not start
    with "sqlite", escaping anything but a number or [None] raises
    [AttributeError]: the attribute [_sqlite] was never assigned. *)
Theorem escape_string_no_sqlite_attr (uri : string) (v : value) :
  String.prefix "sqlite" uri = false -> is_number v = false -> v <> VNone ->
  escape_string (__init__ uri) v = inl (AttributeError "_sqlite").
Proof. intros Huri. by apply escape_string_missing_attr, init_no_sqlite. Qed.

(** C36: whatever [escape_string] returns is harmless inside a statement: it
    is raw text (letters, digits, sign, point, underscore, blanks) or one
    complete quoted literal with nothing after its closing quote. *)
Theorem escape_string_safe (self : DB) (v : value) (lit : string) :
  value_wf v -> escape_string self v = inr lit ->
  Str.forallb raw_char lit = true
  \/ exists s, sql_read_literal lit = Some (s, EmptyString).
Proof.
  intros Hwf. destruct (is_number v) eqn:Hn.
  { rewrite escape_string_number by done. intros [= <-]. left. by apply is_number_raw. }
  destruct (decide (v = VNone)) as [->|Hv].
  { rewrite escape_string_None. intros [= <-]. by left. }
  destruct (_sqlite self) as [sqlite|] eqn:Hsq.
  - rewrite (escape_string_quoted self v sqlite) by done. intros [= <-]. right.
    eexists. rewrite <- (Str.app_nil_r (sql_quote _)). by apply sql_read_literal_quote.
  - unfold escape_string, getattr_sqlite. rewrite Hn, Hsq. by destruct v.
Qed.

End escaper.

(** ** Concrete runs

    The theorems above at the connections [__init__] makes for an sqlite
    file and for a PostgreSQL server, with detection of numbers by type. *)

Lemma escape_string_roundtrip_witness :
  exists lit, escape_string (__init__ "sqlite:///test.db") (VStr "O'Brien") = inr lit
    /\ sql_read_literal (lit +:+ ", 5)") = Some ("O'Brien", ", 5)").
Proof. by apply (escape_string_roundtrip _ true). Defined.

Lemma escape_string_sqlite_colons_witness :
  exists lit, escape_string (__init__ "sqlite:///test.db") (VStr "12:30") = inr lit
    /\ sql_read_literal (lit +:+ ")") = Some (re_sub_char ":" "\:" "12:30", ")")
    /\ bare_colon false (re_sub_char ":" "\:" "12:30") = false.
Proof. by apply escape_string_sqlite_colons. Defined.

Lemma escape_string_no_sqlite_attr_witness :
  escape_string (__init__ "postgresql://u:p@localhost/db") (VStr "O'Brien")
  = inl (AttributeError "_sqlite").
Proof. by apply escape_string_no_sqlite_attr. Defined.

Lemma escape_string_safe_witness :
  Str.forallb raw_char "-42" = true
  \/ exists s, sql_read_literal "-42" = Some (s, EmptyString).
Proof.
  by apply (escape_string_safe (__init__ "sqlite:///test.db") (VInt (-42))).
Defined.

(** The example of the specification, on sqlite and with the decimal
    detector: a name with a quote, a time with a colon, a numeric string. *)
Example escape_string_examples :
  escape_string (ND:=py_number_detect) (__init__ "sqlite:///test.db") <$>
    [VStr "O'Brien"; VStr "12:30"; VStr "-1.5"; VInt 7; VNone; VBool true]
  = [inr "'O''Brien'"; inr "'12\:30'"; inr "-1.5"; inr "7"; inr "NULL"; inr "True"].
Proof. reflexivity. Qed.
