(* ===== verification/SqlScan.v ===== *)
(** * Scanning a statement for its literals

    What the database makes of the text it receives, as far as string
    literals go: [sql_scan] splits a statement into its skeleton (the text
    with every literal replaced by [?]) and the values of its literals, in
    order.  A statement assembled from pieces, raw text and quoted
    literals, scans into the skeleton and the literals of its pieces
    ([scan_render]); the theorems of [Injection] describe each statement of
    the class by its pieces. *)

From S2P Require Import Prelude PyValue Escaper.

(** ** The scanner *)

(** Where the scanner is: outside any literal, inside one (with the value
    read so far), or just after a quote inside one, which closes the
    literal unless another quote follows. *)
Inductive scan_mode : Type :=
| Outside
| Inside (cur : string)
| Pending (cur : string).

Record scan : Type := {
  skel : string;
  lits : list string;
  mode : scan_mode
}.

Definition scan_step (s : scan) (c : ascii) : scan :=
  match mode s with
  | Outside =>
      if Ascii.eqb c "'"
      then {| skel := skel s +:+ "?"; lits := lits s; mode := Inside "" |}
      else {| skel := skel s +:+ String c ""; lits := lits s; mode := Outside |}
  | Inside cur =>
      if Ascii.eqb c "'"
      then {| skel := skel s; lits := lits s; mode := Pending cur |}
      else {| skel := skel s; lits := lits s; mode := Inside (cur +:+ String c "") |}
  | Pending cur =>
      if Ascii.eqb c "'"
      then {| skel := skel s; lits := lits s; mode := Inside (cur +:+ "'") |}
      else {| skel := skel s +:+ String c ""; lits := lits s ++ [cur]; mode := Outside |}
  end.

Fixpoint scan_run (s : scan) (t : string) : scan :=
  match t with
  | EmptyString => s
  | String c t' => scan_run (scan_step s c) t'
  end.

(** The result at the end of the text: a pending literal is closed, an
    open one is an error. *)
Definition scan_end (s : scan) : option (string * list string) :=
  match mode s with
  | Outside => Some (skel s, lits s)
  | Pending cur => Some (skel s, lits s ++ [cur])
  | Inside _ => None
  end.

Definition scan_start : scan := {| skel := ""; lits := []; mode := Outside |}.

Definition sql_scan (t : string) : option (string * list string) :=
  scan_end (scan_run scan_start t).

(** ** Pieces *)

(** A piece of a statement: text put in as it is, or a value put in as a
    quoted literal. *)
Inductive piece : Type :=
| Raw (t : string)
| Lit (v : string).

Definition piece_text (p : piece) : string :=
  match p with
  | Raw t => t
  | Lit v => sql_quote v
  end.

Definition piece_skel (p : piece) : string :=
  match p with
  | Raw t => t
  | Lit _ => "?"
  end.

Definition piece_lits (p : piece) : list string :=
  match p with
  | Raw _ => []
  | Lit v => [v]
  end.

(** The text, the skeleton and the literals of a list of pieces. *)
Definition render (ps : list piece) : string :=
  foldr (fun p t => piece_text p +:+ t) "" ps.

Definition render_skel (ps : list piece) : string :=
  foldr (fun p t => piece_skel p +:+ t) "" ps.

Definition render_lits (ps : list piece) : list string := ps ≫= piece_lits.

(** Groups of pieces with the separator [sep] between them: the pieces
    of [sep.join(...)]. *)
Fixpoint join_groups (sep : string) (gs : list (list piece)) : list piece :=
  match gs with
  | [] => []
  | [g] => g
  | g :: gs' => g ++ Raw sep :: join_groups sep gs'
  end.

(** A list of pieces scans piece by piece when its raw text holds no quote
    and every literal is followed by nothing or by raw text that is not
    empty.  [after_lit] tells whether the piece before was a literal. *)
Fixpoint pieces_ok (after_lit : bool) (ps : list piece) : bool :=
  match ps with
  | [] => true
  | Raw t :: ps' =>
      negb (Str.mem "'" t) && negb (after_lit && bool_decide (t = ""))
      && pieces_ok false ps'
  | Lit _ :: ps' => negb after_lit && pieces_ok true ps'
  end.

(** ** The scanner on text and on literals *)

Lemma scan_run_app (s : scan) (t u : string) :
  scan_run s (t +:+ u) = scan_run (scan_run s t) u.
Proof.
  revert s. induction t as [|c t IH]; intros s; [done|].
  rewrite Str.app_cons. simpl. apply IH.
Qed.

(** Text without a quote, read outside a literal, goes to the skeleton. *)
Lemma scan_run_raw (sk : string) (ls : list string) (t : string) :
  Str.mem "'" t = false ->
  scan_run {| skel := sk; lits := ls; mode := Outside |} t
  = {| skel := sk +:+ t; lits := ls; mode := Outside |}.
Proof.
  revert sk. induction t as [|c t IH]; intros sk; simpl.
  { by rewrite Str.app_nil_r. }
  unfold scan_step. simpl. destruct (Ascii.eqb c "'"); [done|]. intros Ht.
  rewrite IH by done. by rewrite Str.app_assoc.
Qed.

(** Text without a quote that is not empty closes a pending literal. *)
Lemma scan_run_raw_pending (sk : string) (ls : list string) (cur t : string) :
  Str.mem "'" t = false -> t <> "" ->
  scan_run {| skel := sk; lits := ls; mode := Pending cur |} t
  = {| skel := sk +:+ t; lits := ls ++ [cur]; mode := Outside |}.
Proof.
  destruct t as [|c t]; [done|]. simpl. intros Ht _.
  unfold scan_step. simpl. destruct (Ascii.eqb c "'"); [done|].
  rewrite scan_run_raw by done. by rewrite Str.app_assoc.
Qed.

(** Inside a literal, the doubled quotes of a value are read as the
    value. *)
Lemma scan_run_inside (sk : string) (ls : list string) (cur v : string) :
  scan_run {| skel := sk; lits := ls; mode := Inside cur |} (re_sub_char "'" "''" v)
  = {| skel := sk; lits := ls; mode := Inside (cur +:+ v) |}.
Proof.
  revert cur. induction v as [|c v IH]; intros cur; simpl.
  { by rewrite Str.app_nil_r. }
  destruct (decide (c = "'"%char)) as [->|Hc].
  - rewrite re_sub_char_hit, scan_run_app. simpl. unfold scan_step. simpl.
    rewrite IH. by autorewrite with str.
  - rewrite re_sub_char_miss by done. simpl. unfold scan_step. simpl.
    apply Ascii.eqb_neq in Hc. rewrite Hc, IH. by autorewrite with str.
Qed.

(** A quoted literal read outside a literal: a placeholder in the
    skeleton, and the value pending. *)
Lemma scan_run_quote (sk : string) (ls : list string) (v : string) :
  scan_run {| skel := sk; lits := ls; mode := Outside |} (sql_quote v)
  = {| skel := sk +:+ "?"; lits := ls; mode := Pending v |}.
Proof.
  unfold sql_quote. rewrite Str.app_cons, Str.app_nil_l. simpl.
  unfold scan_step at 1. simpl. rewrite scan_run_app, scan_run_inside. simpl.
  unfold scan_step. simpl. by autorewrite with str.
Qed.

(** ** Scanning a list of pieces *)

(** The mode the scanner is in after a piece. *)
Definition mode_after (after_lit : bool) (cur : string) : scan_mode :=
  if after_lit then Pending cur else Outside.

Lemma render_cons (p : piece) (ps : list piece) :
  render (p :: ps) = piece_text p +:+ render ps.
Proof. reflexivity. Qed.

Lemma render_skel_cons (p : piece) (ps : list piece) :
  render_skel (p :: ps) = piece_skel p +:+ render_skel ps.
Proof. reflexivity. Qed.

Lemma render_lits_cons (p : piece) (ps : list piece) :
  render_lits (p :: ps) = piece_lits p ++ render_lits ps.
Proof. reflexivity. Qed.

Lemma scan_end_pieces (sk : string) (ls : list string) (after_lit : bool)
    (cur : string) (ps : list piece) :
  pieces_ok after_lit ps = true ->
  scan_end (scan_run {| skel := sk; lits := ls; mode := mode_after after_lit cur |}
                     (render ps))
  = Some (sk +:+ render_skel ps,
          ls ++ (if after_lit then [cur] else []) ++ render_lits ps).
Proof.
  revert sk ls after_lit cur.
  induction ps as [|[t|v] ps IH]; intros sk ls after_lit cur Hok.
  - destruct after_lit; cbn; by rewrite Str.app_nil_r, ?app_nil_r.
  - cbn [pieces_ok] in Hok. apply andb_prop in Hok as [[Hq He]%andb_prop Hok].
    apply negb_true_iff in Hq.
    rewrite render_cons, render_skel_cons, render_lits_cons, scan_run_app.
    cbn [piece_text piece_skel piece_lits]. destruct after_lit; cbn [mode_after].
    + apply negb_true_iff, bool_decide_eq_false in He.
      rewrite scan_run_raw_pending by done.
      rewrite (IH _ _ false "") by done. cbn [app].
      by rewrite Str.app_assoc, <- app_assoc.
    + rewrite scan_run_raw by done. rewrite (IH _ _ false "") by done.
      by rewrite Str.app_assoc.
  - cbn [pieces_ok] in Hok. apply andb_prop in Hok as [Ha Hok].
    apply negb_true_iff in Ha. subst after_lit.
    rewrite render_cons, render_skel_cons, render_lits_cons, scan_run_app.
    cbn [piece_text piece_skel piece_lits mode_after]. rewrite scan_run_quote.
    rewrite (IH _ _ true v) by done. by rewrite Str.app_assoc.
Qed.

(** A statement made of well-placed pieces scans into the skeleton and the
    literals of its pieces. *)
Lemma scan_render (ps : list piece) :
  pieces_ok false ps = true ->
  sql_scan (render ps) = Some (render_skel ps, render_lits ps).
Proof. intros Hok. apply (scan_end_pieces "" [] false "" ps Hok). Qed.

(** ** Pieces and joins *)

Lemma render_app (ps qs : list piece) : render (ps ++ qs) = render ps +:+ render qs.
Proof.
  induction ps as [|p ps IH]; [done|]. simpl. by rewrite IH, Str.app_assoc.
Qed.

Lemma render_skel_app (ps qs : list piece) :
  render_skel (ps ++ qs) = render_skel ps +:+ render_skel qs.
Proof.
  induction ps as [|p ps IH]; [done|]. simpl. by rewrite IH, Str.app_assoc.
Qed.

Lemma render_lits_app (ps qs : list piece) :
  render_lits (ps ++ qs) = render_lits ps ++ render_lits qs.
Proof. apply bind_app. Qed.

Lemma join_groups_cons2 (sep : string) (g h : list piece) (gs : list (list piece)) :
  join_groups sep (g :: h :: gs) = g ++ Raw sep :: join_groups sep (h :: gs).
Proof. reflexivity. Qed.

(** A join of texts is the text of the joined groups. *)
Lemma render_join (sep : string) (gs : list (list piece)) :
  render (join_groups sep gs) = String.concat sep (render <$> gs).
Proof.
  induction gs as [|g [|h gs] IH]; [done..|].
  rewrite join_groups_cons2, render_app, render_cons, IH. reflexivity.
Qed.

Lemma render_skel_join (sep : string) (gs : list (list piece)) :
  render_skel (join_groups sep gs) = String.concat sep (render_skel <$> gs).
Proof.
  induction gs as [|g [|h gs] IH]; [done..|].
  rewrite join_groups_cons2, render_skel_app, render_skel_cons, IH. reflexivity.
Qed.

Lemma render_lits_join (sep : string) (gs : list (list piece)) :
  render_lits (join_groups sep gs) = gs ≫= render_lits.
Proof.
  induction gs as [|g [|h gs] IH]; [done|simpl; by rewrite app_nil_r|].
  rewrite join_groups_cons2, render_lits_app, render_lits_cons, IH. reflexivity.
Qed.

(** ** Well-placed pieces *)

(** Raw text that holds no quote is well placed after raw text. *)
Lemma pieces_ok_raw (t : string) (ps : list piece) :
  Str.mem "'" t = false -> pieces_ok false ps = true ->
  pieces_ok false (Raw t :: ps) = true.
Proof. intros Ht Hps. cbn [pieces_ok]. by rewrite Ht, Hps. Qed.

(** Pieces that are well placed after a literal are well placed anywhere. *)
Lemma pieces_ok_weaken (ps : list piece) :
  pieces_ok true ps = true -> pieces_ok false ps = true.
Proof.
  destruct ps as [|[t|v] ps]; simpl; [done| |done].
  intros [[-> _]%andb_prop ->]%andb_prop. reflexivity.
Qed.

Lemma pieces_ok_app (after_lit : bool) (ps qs : list piece) :
  pieces_ok after_lit ps = true -> pieces_ok true qs = true ->
  pieces_ok after_lit (ps ++ qs) = true.
Proof.
  revert after_lit. induction ps as [|[t|v] ps IH]; intros after_lit Hps Hqs.
  - destruct after_lit; [done|]. by apply pieces_ok_weaken.
  - cbn [pieces_ok app] in *. apply andb_prop in Hps as [-> Hps]. by apply IH.
  - cbn [pieces_ok app] in *. apply andb_prop in Hps as [-> Hps]. by apply IH.
Qed.

(** Groups that are well placed after raw text stay so when joined with a
    separator that is not empty and holds no quote. *)
Lemma pieces_ok_join (sep : string) (gs : list (list piece)) :
  Str.mem "'" sep = false -> sep <> "" ->
  Forall (fun g => pieces_ok false g = true) gs ->
  pieces_ok false (join_groups sep gs) = true.
Proof.
  intros Hq He Hgs. induction Hgs as [|g gs Hg Hgs IH]; [done|].
  destruct gs as [|h gs]; [done|].
  rewrite join_groups_cons2. apply pieces_ok_app; [done|].
  cbn [pieces_ok]. rewrite Hq, IH. by rewrite bool_decide_eq_false_2.
Qed.

(** ** Joins of the groups of a list *)

Section join_map.
Context {A : Type} (sep : string) (f : A -> list piece).

Lemma render_join_map (g : A -> string) (l : list A) :
  (forall x, render (f x) = g x) ->
  render (join_groups sep (f <$> l)) = String.concat sep (g <$> l).
Proof.
  intros Hg. rewrite render_join, <- list_fmap_compose. f_equal.
  apply list_fmap_ext. intros _ x _. apply Hg.
Qed.

Lemma render_skel_join_map (g : A -> string) (l : list A) :
  (forall x, render_skel (f x) = g x) ->
  render_skel (join_groups sep (f <$> l)) = String.concat sep (g <$> l).
Proof.
  intros Hg. rewrite render_skel_join, <- list_fmap_compose. f_equal.
  apply list_fmap_ext. intros _ x _. apply Hg.
Qed.

Lemma render_lits_join_map (g : A -> list string) (l : list A) :
  (forall x, render_lits (f x) = g x) ->
  render_lits (join_groups sep (f <$> l)) = l ≫= g.
Proof.
  intros Hg. rewrite render_lits_join, list_fmap_bind.
  apply list_bind_ext; [|done]. intros x. apply Hg.
Qed.

Lemma pieces_ok_join_map (l : list A) :
  Str.mem "'" sep = false -> sep <> "" ->
  Forall (fun x => pieces_ok false (f x) = true) l ->
  pieces_ok false (join_groups sep (f <$> l)) = true.
Proof. intros Hq He Hl. apply pieces_ok_join; [done..|]. by apply Forall_fmap. Qed.

End join_map.

(** Raw texts that hold no quote and are not empty are well placed
    anywhere. *)
Lemma pieces_ok_raws (ts : list string) :
  Forall (fun t => Str.mem "'" t = false /\ t <> "") ts ->
  pieces_ok true (Raw <$> ts) = true.
Proof.
  intros Hts. induction Hts as [|t ts [Hq He] Hts IH]; [done|].
  cbn [fmap list_fmap pieces_ok]. rewrite Hq, (bool_decide_eq_false_2 _ He).
  by apply pieces_ok_weaken.
Qed.

Lemma render_raws (ts : list string) : render (Raw <$> ts) = String.concat "" ts.
Proof.
  induction ts as [|t [|u ts] IH]; [done|simpl; by autorewrite with str|].
  change (Raw <$> t :: u :: ts) with (Raw t :: (Raw <$> u :: ts)).
  by rewrite render_cons, IH, Str.concat_cons2.
Qed.

Lemma render_skel_raws (ts : list string) : render_skel (Raw <$> ts) = render (Raw <$> ts).
Proof.
  induction ts as [|t ts IH]; [done|].
  by rewrite fmap_cons, render_cons, render_skel_cons, IH.
Qed.

Lemma render_lits_raws (ts : list string) : render_lits (Raw <$> ts) = [].
Proof. by induction ts. Qed.

(** A statement described by pieces scans to their skeleton and their
    literals. *)
Lemma scan_pieces (ps : list piece) (q sk : string) (ls : list string) :
  render ps = q -> pieces_ok false ps = true ->
  render_skel ps = sk -> render_lits ps = ls ->
  sql_scan q = Some (sk, ls).
Proof. intros <- Hok <- <-. by apply scan_render. Qed.
