(* ===== verification/Driver.v ===== *)
(** * The driver and the execute primitives

    [records.Database] is the external collaborator: the class hands it SQL
    text and gets rows or an exception back.  [Driver] is that contract as
    a class over the driver's state; [do], [get_as_dict], [count],
    [table_names] and [close] are the methods of [DB] that only forward to
    it.  [DriverInv] names the invariants of the state that a driver
    keeps; the primitives keep them too.  Two instances follow: a driver
    that replays canned replies, for concrete runs, and a wrapper that
    logs the statements any driver receives, for theorems about what is
    sent. *)

From S2P Require Import Prelude PyValue Escaper.

(** ** The contract of the driver *)

(** [drv_query sql fetchall] executes one statement and returns its rows,
    each a mapping from column name to value, or raises; the state is the
    database and the connection behind the handle.  [drv_get_as_dict] is
    the attribute [get_as_dict] of the driver object, which [table_exist]
    calls: [None] when the object has no such method, as is the case of
    [records.Database]. *)
Class Driver (St : Type) : Type := {
  drv_query : string -> bool -> serr St exn (list pydict);
  drv_get_table_names : serr St exn (list string);
  drv_close : serr St exn unit;
  drv_get_as_dict : option (string -> serr St exn (list pydict))
}.

(** ** The forwarding methods *)

Section primitives.
Context {St : Type} {D : Driver St}.

(** [do(sql)]: execute a statement with the connection's [fetchall] flag. *)
Definition do (self : DB) (sql : string) : serr St exn (list pydict) :=
  drv_query sql (_fetchall self).

(** [get_as_dict(sql)]: the rows of [do], each as a [dict]. *)
Definition get_as_dict (self : DB) (sql : string) : serr St exn (list pydict) :=
  (res ← do self sql; ret res)%serr.

(** [count(sql)]: the number of rows of [do]. *)
Definition count (self : DB) (sql : string) : serr St exn nat :=
  (res ← do self sql; ret (length res))%serr.

(** [table_names()]. *)
Definition table_names (self : DB) : serr St exn (list string) :=
  drv_get_table_names.

(** [close()]. *)
Definition close (self : DB) : serr St exn unit := drv_close.

(** Statements executed one after the other, up to the first that
    raises: what a loop around [do] amounts to. *)
Fixpoint exec_seq (fetchall : bool) (sqls : list string) : serr St exn unit :=
  match sqls with
  | [] => ret tt
  | q :: sqls' => (_ ← drv_query q fetchall; exec_seq fetchall sqls')%serr
  end.

Lemma get_as_dict_run (self : DB) (sql : string) (st : St) :
  get_as_dict self sql st = drv_query sql (_fetchall self) st.
Proof. unfold get_as_dict, do. serr_unfold. by destruct (drv_query _ _ _) as [[]]. Qed.

Lemma count_run (self : DB) (sql : string) (st st' : St) (rows : list pydict) :
  drv_query sql (_fetchall self) st = (inr rows, st') ->
  count self sql st = (inr (length rows), st').
Proof. unfold count, do. intros H. by serr_run H. Qed.

(** A loop whose body executes one statement and drops its rows. *)
Lemma for_each_do {A : Type} (self : DB) (f : A -> string) (l : list A) (st : St) :
  for_each (fun x => (_ ← do self (f x); ret tt)%serr) l st
  = exec_seq (_fetchall self) (f <$> l) st.
Proof.
  revert st. induction l as [|x l IH]; intros st; [done|]. simpl.
  unfold do. serr_unfold.
  destruct (drv_query _ _ st) as [[e|rows] st']; [done|]. apply IH.
Qed.

End primitives.

(** ** Invariants of the database

    [DriverInv D I]: every method of the driver keeps the invariant [I] of
    its state.  The methods of the class reach the state through the
    driver alone, so they keep [I] too: the lemmas below and those of the
    later files, all in the database [preserves]. *)
Class DriverInv {St : Type} (D : Driver St) (I : St -> Prop) : Prop := {
  inv_query : forall sql fetchall, preserves I (drv_query sql fetchall);
  inv_get_table_names : preserves I drv_get_table_names;
  inv_close : preserves I drv_close;
  inv_get_as_dict : forall m sql, drv_get_as_dict = Some m -> preserves I (m sql)
}.

Section primitives_inv.
Context {St : Type} {D : Driver St} (I : St -> Prop) {DI : DriverInv D I}.

Lemma do_preserves (self : DB) (sql : string) : preserves I (do self sql).
Proof. apply inv_query. Qed.

Lemma table_names_preserves (self : DB) : preserves I (table_names self).
Proof. apply inv_get_table_names. Qed.

Lemma close_preserves (self : DB) : preserves I (close self).
Proof. apply inv_close. Qed.

Lemma get_as_dict_preserves (self : DB) (sql : string) :
  preserves I (get_as_dict self sql).
Proof. unfold get_as_dict. eauto using do_preserves with preserves. Qed.

Lemma count_preserves (self : DB) (sql : string) : preserves I (count self sql).
Proof. unfold count. eauto using do_preserves with preserves. Qed.

Lemma exec_seq_preserves (fetchall : bool) (sqls : list string) :
  preserves I (exec_seq fetchall sqls).
Proof. induction sqls; simpl; eauto using inv_query with preserves. Qed.

End primitives_inv.

#[export] Hint Resolve do_preserves table_names_preserves close_preserves
  get_as_dict_preserves count_preserves exec_seq_preserves : preserves.

(** ** Rows with an id

    The accessors [get_id] and [add_unique] read the column [id] of every
    row.  [IntIds D]: the driver [D] serves tables with an integer [id]
    column, so every row it returns carries its id. *)
Definition has_int_id (d : pydict) : Prop := exists z, dict_lookup "id" d = Some (VInt z).

Class IntIds {St : Type} (D : Driver St) : Prop :=
  int_ids : forall sql fetchall st rows st',
    drv_query sql fetchall st = (inr rows, st') -> Forall has_int_id rows.

(** ** A driver that replays canned replies *)

(** The replies still to give to [query], and the reply of
    [get_table_names]. *)
Record replay : Type := {
  replies : list (exn + list pydict);
  tables : exn + list string
}.

Definition replay_query (sql : string) (fetchall : bool) :
  serr replay exn (list pydict) :=
  fun st =>
    match replies st with
    | [] => (inl (DriverError "no reply left"), st)
    | r :: rs => (r, {| replies := rs; tables := tables st |})
    end.

#[export] Instance replay_driver : Driver replay := {|
  drv_query := replay_query;
  drv_get_table_names := fun st => (tables st, st);
  drv_close := ret tt;
  drv_get_as_dict := None
|}.

(** The replay driver with a method [get_as_dict] that answers like
    [query]: a driver object that is not a [records.Database]. *)
Definition dict_driver : Driver replay := {|
  drv_query := replay_query;
  drv_get_table_names := fun st => (tables st, st);
  drv_close := ret tt;
  drv_get_as_dict := Some (fun sql => replay_query sql false)
|}.

(** A replay state with the given replies and no table. *)
Definition replaying (rs : list (exn + list pydict)) : replay :=
  {| replies := rs; tables := inr [] |}.

(** The replay driver never touches the reply of [get_table_names]. *)
Definition same_tables (t : exn + list string) (st : replay) : Prop := tables st = t.

#[export] Instance replay_inv (t : exn + list string) :
  DriverInv replay_driver (same_tables t).
Proof.
  split; [|by intros st|by intros st|done].
  intros sql fetchall st Hst. simpl. unfold replay_query. by destruct (replies st).
Qed.

(** ** A wrapper that logs what a driver receives *)

Section logged.
Context {St : Type} (D : Driver St).

(** Run [m] on the wrapped state and keep the log. *)
Definition on_inner {A : Type} (m : serr St exn A) : serr (St * list string) exn A :=
  fun '(st, log) => let '(r, st') := m st in (r, (st', log)).

(** A query function with the statement appended to the log. *)
Definition logged_query_with (query : string -> bool -> serr St exn (list pydict))
    (sql : string) (fetchall : bool) : serr (St * list string) exn (list pydict) :=
  fun '(st, log) =>
    let '(r, st') := query sql fetchall st in (r, (st', log ++ [sql])).

Definition logged_query : string -> bool -> serr (St * list string) exn (list pydict) :=
  logged_query_with drv_query.

Definition logged_driver : Driver (St * list string) := {|
  drv_query := logged_query;
  drv_get_table_names := on_inner drv_get_table_names;
  drv_close := on_inner drv_close;
  drv_get_as_dict := (fun m sql => logged_query_with (fun q _ => m q) sql false) <$> drv_get_as_dict
|}.

End logged.

(** The statements a computation sends, from an empty log. *)
Definition sent {St A : Type} (m : serr (St * list string) exn A) (st : St) :
  list string :=
  snd (snd (m (st, []))).

(** [sends n m]: on the logging wrapper of a driver, [m] appends at most
    [n] statements to the log and leaves what was logged before. *)
Definition sends {St A : Type} (n : nat) (m : serr (St * list string) exn A) : Prop :=
  forall st log, exists extra, (m (st, log)).2.2 = log ++ extra /\ length extra <= n.

Section sends.
Context {St : Type} (D : Driver St).

Lemma sends_pure {A : Type} (m : serr (St * list string) exn A) :
  (forall st, (m st).2 = st) -> sends 0 m.
Proof. intros Hm st log. exists []. by rewrite Hm, app_nil_r. Qed.

Lemma sends_mono {A : Type} (n n' : nat) (m : serr (St * list string) exn A) :
  n <= n' -> sends n m -> sends n' m.
Proof.
  intros Hn Hm st log. destruct (Hm st log) as (extra & ? & ?).
  exists extra. split; [done|lia].
Qed.

Lemma sends_bind {A B : Type} (n1 n2 : nat) (m : serr (St * list string) exn A)
    (k : A -> serr (St * list string) exn B) :
  sends n1 m -> (forall a, sends n2 (k a)) -> sends (n1 + n2) (bind m k).
Proof.
  intros Hm Hk st log. destruct (Hm st log) as (e1 & H1 & Hl1). unfold bind.
  destruct (m (st, log)) as [[e|a] [st1 log1]]; simpl in H1; subst log1.
  - exists e1. split; [done|lia].
  - destruct (Hk a st1 (log ++ e1)) as (e2 & H2 & Hl2). exists (e1 ++ e2).
    rewrite H2, length_app, <- app_assoc. split; [done|lia].
Qed.

Lemma sends_try_except {A : Type} (n1 n2 : nat) (m : serr (St * list string) exn A)
    (h : exn -> serr (St * list string) exn A) :
  sends n1 m -> (forall e, sends n2 (h e)) -> sends (n1 + n2) (try_except m h).
Proof.
  intros Hm Hh st log. destruct (Hm st log) as (e1 & H1 & Hl1). unfold try_except.
  destruct (m (st, log)) as [[e|a] [st1 log1]]; simpl in H1; subst log1.
  - destruct (Hh e st1 (log ++ e1)) as (e2 & H2 & Hl2). exists (e1 ++ e2).
    rewrite H2, length_app, <- app_assoc. split; [done|lia].
  - exists e1. split; [done|lia].
Qed.

(** One statement for the driver is one statement in the log. *)
Lemma sends_do (self : DB) (sql : string) : sends 1 (do (D:=logged_driver D) self sql).
Proof.
  intros st log. exists [sql]. unfold do. simpl. unfold logged_query, logged_query_with.
  by destruct (drv_query sql (_fetchall self) st).
Qed.

(** A method that executes one statement and drops or returns its
    rows. *)
Lemma sends_do_then {A : Type} (self : DB) (sql : string)
    (k : list pydict -> serr (St * list string) exn A) :
  (forall rows st, (k rows st).2 = st) ->
  sends 1 (bind (do (D:=logged_driver D) self sql) k).
Proof. intros Hk. apply (sends_bind 1 0); [apply sends_do|]. intros rows. by apply sends_pure. Qed.

(** A method that builds a statement, which may raise, executes it and
    drops its rows. *)
Lemma sends_build_do (self : DB) (r : res exn string) :
  sends 1 (q ← lift r; _ ← do (D:=logged_driver D) self q; ret tt)%serr.
Proof.
  apply (sends_bind 0 1); [by apply sends_pure|]. intros q. by apply sends_do_then.
Qed.

End sends.

(** The statements a sequence sends are those before the first that
    raises, and that one: a prefix of the sequence. *)
Lemma exec_seq_logged {St : Type} (D : Driver St) (fetchall : bool) (sqls : list string)
    (st : St) (log : list string) :
  exists k,
    (exec_seq (D:=logged_driver D) fetchall sqls (st, log)).2.2 = log ++ take k sqls.
Proof.
  revert st log. induction sqls as [|q sqls IH]; intros st log.
  - exists 0. by rewrite app_nil_r.
  - simpl. unfold bind, logged_query, logged_query_with.
    destruct (drv_query q fetchall st) as [[e|rows] st'].
    + by exists 1.
    + destruct (IH st' (log ++ [q])) as [k Hk]. exists (S k).
      by rewrite Hk, <- app_assoc.
Qed.

