(* ===== verification/Builder.v ===== *)
(** * The statement builders

    The methods of [DB] that build one statement from their arguments and
    execute it: [get], [add], [add_bulk], [update], [delete], [purge],
    [drop_table], and [drop_tables], which drops every table the driver
    lists.  Each method is split into the text it builds (a pure function,
    in [res] where building can raise) and the method proper, with the
    guards of the source in their order. *)

From S2P Require Import Prelude PyValue Escaper Driver.

Section builder.
Context {ND : NumberDetect} {St : Type} {D : Driver St}.

(** ** SELECT *)

(** One entry of the [filters] list of [get], for the item [key: v] of
    [values]. *)
Definition get_filter (kv : string * value) : string :=
  let '(key, v) := kv in
  if negb (is_None v) then
    if isinstance_int v
    then " " +:+ key +:+ " = " +:+ py_str v
    else " " +:+ key +:+ " = '" +:+ re_sub_char "'" "''" (py_str v) +:+ "'"
  else " " +:+ key +:+ " is NULL".

(** The loop over [values.keys()]. *)
Definition get_filters (values : pydict) : list string := get_filter <$> values.

(** The statement [get] builds. *)
Definition get_sql (table : string) (logic order limit offset : value)
    (values : pydict) : string :=
  let q := "SELECT * FROM " +:+ table +:+ " " in
  let filters := get_filters values in
  let q :=
    if bool_decide (filters <> [])
    then q +:+ " WHERE " +:+ String.concat ("  " +:+ py_str logic +:+ " ") filters
    else q in
  let q := if negb (is_None order) then q +:+ " ORDER BY " +:+ py_str order else q in
  let q := if negb (is_None limit) then q +:+ " limit " +:+ py_str limit +:+ " " else q in
  let q := if negb (is_None offset) then q +:+ " offset " +:+ py_str offset +:+ " " else q in
  q.

Definition get (self : DB) (table : string) (logic order limit offset : value)
    (values : pydict) : serr St exn (list pydict) :=
  get_as_dict self (get_sql table logic order limit offset values).

(** ** INSERT *)

(** [",".join(map(self.escape_string, values))]. *)
Definition escaped_values (self : DB) (entry : pydict) : res exn string :=
  (vals ← res_mapM (escape_string self) (dict_values entry);
   inr (String.concat "," vals))%res.

Definition add_sql (self : DB) (table : string) (entry : pydict) : res exn string :=
  (values ← escaped_values self entry;
   inr ("INSERT INTO " +:+ table +:+ " (" +:+ String.concat "," (dict_keys entry)
        +:+ ") VALUES (" +:+ values +:+ ")"))%res.

Definition add (self : DB) (table : string) (entry : pydict) : serr St exn unit :=
  if dict_is_empty entry then raise (RuntimeError "No values provided")
  else (q ← lift (add_sql self table entry); _ ← do self q; ret tt)%serr.

(** The loop of [add_bulk]: for each entry, the key check, then its row of
    values. *)
Fixpoint add_bulk_values (self : DB) (keys : list string) (entries : list pydict) :
    res exn (list string) :=
  match entries with
  | [] => inr []
  | entry :: entries' =>
      if bool_decide (keys <> dict_keys entry)
      then inl (RuntimeError "Not the same keys in all entries!")
      else
        (values ← escaped_values self entry;
         all_values ← add_bulk_values self keys entries';
         inr (("(" +:+ values +:+ ")") :: all_values))%res
  end.

Definition add_bulk_sql (self : DB) (table : string) (entries : list pydict) :
    res exn string :=
  let keys := match entries with
              | [] => []
              | entry :: _ => dict_keys entry
              end in
  (all_values ← add_bulk_values self keys entries;
   inr ("INSERT INTO " +:+ table +:+ " (" +:+ String.concat "," keys
        +:+ ") VALUES " +:+ String.concat "," all_values))%res.

Definition add_bulk (self : DB) (table : string) (entries : list pydict) :
    serr St exn unit :=
  if bool_decide (entries = []) || list_eq_empty_dict entries
  then raise (RuntimeError "No values provided")
  else (q ← lift (add_bulk_sql self table entries); _ ← do self q; ret tt)%serr.

(** ** UPDATE *)

(** ["{key} = {value}"] with the value escaped. *)
Definition assignment (self : DB) (kv : string * value) : res exn string :=
  (value ← escape_string self kv.2; inr (kv.1 +:+ " = " +:+ value))%res.

(** The entry's items that the first loop of [update] does not skip. *)
Definition update_items (entry conditions : pydict) : pydict :=
  filter (fun kv => dict_contains kv.1 conditions = false) entry.

Definition update_sql (self : DB) (table : string) (entry conditions : pydict) :
    res exn string :=
  (updates ← res_mapM (assignment self) (update_items entry conditions);
   conds ← res_mapM (assignment self) conditions;
   inr ("UPDATE " +:+ table +:+ " set " +:+ String.concat ", " updates
        +:+ " WHERE " +:+ String.concat " and " conds))%res.

Definition update (self : DB) (table : string) (entry conditions : pydict) :
    serr St exn unit :=
  if dict_is_empty entry then raise (RuntimeError "No values provided")
  else if dict_eq_empty_list conditions
  then raise (RuntimeError "No conditions provided")
  else (q ← lift (update_sql self table entry conditions); _ ← do self q; ret tt)%serr.

(** ** DELETE and DROP *)

Definition delete_sql (table : string) (id : value) : string :=
  "DELETE FROM  " +:+ table +:+ " WHERE id = '" +:+ py_str id +:+ "'".

Definition delete (self : DB) (table : string) (id : value) : serr St exn unit :=
  (_ ← do self (delete_sql table id); ret tt)%serr.

Definition purge_sql (table : string) : string := "DELETE FROM  " +:+ table.

Definition purge (self : DB) (table : string) : serr St exn unit :=
  (_ ← do self (purge_sql table); ret tt)%serr.

Definition drop_table_sql (table_name : string) : string :=
  "DROP table IF EXISTS " +:+ table_name +:+ " CASCADE".

Definition drop_table (self : DB) (table_name : string) : serr St exn unit :=
  (_ ← do self (drop_table_sql table_name); ret tt)%serr.

Definition drop_tables (self : DB) : serr St exn unit :=
  (names ← table_names self; for_each (drop_table self) names)%serr.

(** ** Lemmas *)

Lemma get_run (self : DB) (table : string) (logic order limit offset : value)
    (values : pydict) (st : St) :
  get self table logic order limit offset values st
  = drv_query (get_sql table logic order limit offset values) (_fetchall self) st.
Proof. apply get_as_dict_run. Qed.

(** The filter of one item on each branch: a NULL test, a bare integer,
    or a quoted literal. *)
Definition filter_text (kv : string * value) : string :=
  " " +:+ kv.1 +:+
  (if is_None kv.2 then " is NULL"
   else " = " +:+ (if isinstance_int kv.2 then py_str kv.2
                   else sql_quote (py_str kv.2))).

Lemma get_filter_text (kv : string * value) : get_filter kv = filter_text kv.
Proof.
  destruct kv as [key v]. unfold get_filter, filter_text, sql_quote. simpl.
  destruct (is_None v), (isinstance_int v); by autorewrite with str.
Qed.

(** An optional clause of [get], present when its argument is not
    [None]. *)
Definition clause (pre post : string) (v : value) : list string :=
  if is_None v then [] else [pre +:+ py_str v +:+ post].

Definition get_clauses (order limit offset : value) : list string :=
  clause " ORDER BY " "" order ++ clause " limit " " " limit
  ++ clause " offset " " " offset.

(** The statement of [get] as one text: the head, the filters when there
    are any, and the clauses. *)
Lemma get_sql_text (table : string) (logic order limit offset : value)
    (values : pydict) :
  get_sql table logic order limit offset values
  = "SELECT * FROM " +:+ table +:+ " "
    +:+ (if bool_decide (values <> [])
         then " WHERE "
              +:+ String.concat ("  " +:+ py_str logic +:+ " ") (filter_text <$> values)
         else "")
    +:+ String.concat "" (get_clauses order limit offset).
Proof.
  unfold get_sql, get_filters, get_clauses, clause.
  rewrite (bool_decide_ext (get_filter <$> values <> []) (values <> []))
    by (by destruct values).
  rewrite (list_fmap_ext get_filter filter_text values)
    by (intros; apply get_filter_text).
  destruct (bool_decide _), (is_None order), (is_None limit), (is_None offset);
    simpl; by autorewrite with str.
Qed.

(** A method that discards the rows of its one statement. *)
Lemma do_discard_run (self : DB) (q : string) (st : St) :
  (_ ← do self q; ret tt)%serr st
  = (let '(r, st') := drv_query q (_fetchall self) st in
     (match r with inl e => inl e | inr _ => inr tt end, st')).
Proof. unfold do. serr_unfold. by destruct (drv_query _ _ _) as [[]]. Qed.

(** On a connection with the attribute [_sqlite] building never raises:
    the texts of the values, the assignments and the statements. *)
Lemma escaped_values_text (self : DB) (sqlite : bool) (entry : pydict) :
  _sqlite self = Some sqlite ->
  escaped_values self entry
  = inr (String.concat "," (escaped_text sqlite <$> dict_values entry)).
Proof.
  intros Hsq. unfold escaped_values.
  rewrite (res_mapM_inr _ (escaped_text sqlite)); [done|].
  intros v _. by apply escape_string_text.
Qed.

Definition assignment_text (sqlite : bool) (kv : string * value) : string :=
  kv.1 +:+ " = " +:+ escaped_text sqlite kv.2.

Lemma assignments_text (self : DB) (sqlite : bool) (d : pydict) :
  _sqlite self = Some sqlite ->
  res_mapM (assignment self) d = inr (assignment_text sqlite <$> d).
Proof.
  intros Hsq. apply res_mapM_inr. intros kv _. unfold assignment.
  by rewrite (escape_string_text self sqlite).
Qed.

Lemma add_sql_text (self : DB) (sqlite : bool) (table : string) (entry : pydict) :
  _sqlite self = Some sqlite ->
  add_sql self table entry
  = inr ("INSERT INTO " +:+ table +:+ " (" +:+ String.concat "," (dict_keys entry)
         +:+ ") VALUES ("
         +:+ String.concat "," (escaped_text sqlite <$> dict_values entry) +:+ ")").
Proof. intros Hsq. unfold add_sql. by rewrite (escaped_values_text self sqlite). Qed.

Lemma update_sql_text (self : DB) (sqlite : bool) (table : string)
    (entry conditions : pydict) :
  _sqlite self = Some sqlite ->
  update_sql self table entry conditions
  = inr ("UPDATE " +:+ table +:+ " set "
         +:+ String.concat ", " (assignment_text sqlite <$> update_items entry conditions)
         +:+ " WHERE "
         +:+ String.concat " and " (assignment_text sqlite <$> conditions)).
Proof. intros Hsq. unfold update_sql. by rewrite !(assignments_text self sqlite). Qed.

(** On a connection without the attribute [_sqlite], [add] of an entry
    with a value to quote raises before anything is sent. *)
Lemma add_missing_attr (self : DB) (table : string) (entry : pydict) (v : value)
    (st : St) :
  _sqlite self = None ->
  v ∈ dict_values entry -> is_number v = false -> v <> VNone ->
  add self table entry st = (inl (AttributeError "_sqlite"), st).
Proof.
  intros Hsq Hin Hn Hv. unfold add.
  destruct entry as [|kv entry]; [by apply elem_of_nil in Hin|]. simpl.
  unfold add_sql, escaped_values.
  rewrite (res_mapM_inl _ (AttributeError "_sqlite") _ v); [done| |done|].
  - intros y _. destruct (is_number y) eqn:Hy.
    { right. eexists. by apply escape_string_number. }
    destruct (decide (y = VNone)) as [->|Hy'].
    { right. eexists. apply escape_string_None. }
    left. by apply escape_string_missing_attr.
  - by apply escape_string_missing_attr.
Qed.

(** The text of one row of a bulk insert. *)
Definition row_text (sqlite : bool) (entry : pydict) : string :=
  "(" +:+ String.concat "," (escaped_text sqlite <$> dict_values entry) +:+ ")".

(** The loop of [add_bulk] raises exactly when some entry has other keys
    than the first, and otherwise yields one row per entry. *)
Lemma add_bulk_values_spec (self : DB) (sqlite : bool) (keys : list string)
    (entries : list pydict) :
  _sqlite self = Some sqlite ->
  add_bulk_values self keys entries
  = if bool_decide (Forall (fun entry => dict_keys entry = keys) entries)
    then inr (row_text sqlite <$> entries)
    else inl (RuntimeError "Not the same keys in all entries!").
Proof.
  intros Hsq. induction entries as [|entry entries IH]; simpl; [done|].
  rewrite (bool_decide_ext _ _ (Forall_cons _ entry entries)), bool_decide_and.
  destruct (decide (keys = dict_keys entry)) as [Hk|Hk].
  - rewrite (bool_decide_eq_false_2 (keys <> _)) by auto.
    rewrite (bool_decide_eq_true_2 (dict_keys entry = keys)) by done.
    rewrite (escaped_values_text self sqlite), IH by done. simpl.
    by case_bool_decide.
  - rewrite (bool_decide_eq_true_2 (keys <> _)) by done.
    by rewrite (bool_decide_eq_false_2 (dict_keys entry = keys)) by congruence.
Qed.

Lemma add_bulk_sql_text (self : DB) (sqlite : bool) (table : string)
    (first : pydict) (rest : list pydict) :
  _sqlite self = Some sqlite ->
  add_bulk_sql self table (first :: rest)
  = if bool_decide (Forall (fun entry => dict_keys entry = dict_keys first) rest)
    then inr ("INSERT INTO " +:+ table +:+ " ("
              +:+ String.concat "," (dict_keys first) +:+ ") VALUES "
              +:+ String.concat "," (row_text sqlite <$> first :: rest))
    else inl (RuntimeError "Not the same keys in all entries!").
Proof.
  intros Hsq. unfold add_bulk_sql.
  rewrite (add_bulk_values_spec self sqlite) by done.
  rewrite (bool_decide_ext _ _ (Forall_cons _ first rest)), bool_decide_and.
  rewrite (bool_decide_eq_true_2 (dict_keys first = _)) by done. simpl.
  by case_bool_decide.
Qed.

(** The keys of the SET clause: the entry's keys that are no condition
    keys, in the entry's order. *)
Lemma update_items_elem (entry conditions : pydict) (kv : string * value) :
  kv ∈ update_items entry conditions <-> kv ∈ entry /\ kv.1 ∉ dict_keys conditions.
Proof.
  unfold update_items, dict_contains. rewrite list_elem_of_filter, bool_decide_eq_false.
  tauto.
Qed.

Lemma update_items_sublist (entry conditions : pydict) :
  sublist (update_items entry conditions) entry.
Proof. apply sublist_filter. Qed.

Lemma for_each_drop_table (self : DB) (names : list string) (st : St) :
  for_each (drop_table self) names st
  = exec_seq (_fetchall self) (drop_table_sql <$> names) st.
Proof. apply (for_each_do self drop_table_sql). Qed.

(** The run of [add] on a connection with the attribute [_sqlite]. *)
Lemma add_run (self : DB) (sqlite : bool) (table : string) (entry : pydict) (st : St) :
  _sqlite self = Some sqlite -> entry <> [] ->
  add self table entry st
  = (let '(r, st') :=
       drv_query ("INSERT INTO " +:+ table +:+ " ("
                  +:+ String.concat "," (dict_keys entry) +:+ ") VALUES ("
                  +:+ String.concat "," (escaped_text sqlite <$> dict_values entry)
                  +:+ ")")
                 (_fetchall self) st in
     (match r with inl e => inl e | inr _ => inr tt end, st')).
Proof.
  intros Hsq Hne. unfold add. destruct entry as [|kv entry]; [done|].
  rewrite (add_sql_text self sqlite) by done. simpl.
  rewrite bind_lift_inr. apply do_discard_run.
Qed.

(** The run of [update] on a connection with the attribute [_sqlite]. *)
Lemma update_run (self : DB) (sqlite : bool) (table : string)
    (entry conditions : pydict) (st : St) :
  _sqlite self = Some sqlite -> entry <> [] ->
  update self table entry conditions st
  = (let '(r, st') :=
       drv_query ("UPDATE " +:+ table +:+ " set "
                  +:+ String.concat ", "
                        (assignment_text sqlite <$> update_items entry conditions)
                  +:+ " WHERE "
                  +:+ String.concat " and " (assignment_text sqlite <$> conditions))
                 (_fetchall self) st in
     (match r with inl e => inl e | inr _ => inr tt end, st')).
Proof.
  intros Hsq Hne. unfold update. destruct entry as [|kv entry]; [done|].
  rewrite (update_sql_text self sqlite) by done. simpl.
  rewrite bind_lift_inr. apply do_discard_run.
Qed.

(** ** Invariants

    Every builder keeps an invariant that the driver keeps. *)
Section builder_inv.
Context (I : St -> Prop) {DI : DriverInv D I}.

Lemma get_preserves (self : DB) (table : string) (logic order limit offset : value)
    (values : pydict) :
  preserves I (get self table logic order limit offset values).
Proof. unfold get. solve_preserves. Qed.

Lemma add_preserves (self : DB) (table : string) (entry : pydict) :
  preserves I (add self table entry).
Proof. unfold add. solve_preserves. Qed.

Lemma add_bulk_preserves (self : DB) (table : string) (entries : list pydict) :
  preserves I (add_bulk self table entries).
Proof. unfold add_bulk. solve_preserves. Qed.

Lemma update_preserves (self : DB) (table : string) (entry conditions : pydict) :
  preserves I (update self table entry conditions).
Proof. unfold update. solve_preserves. Qed.

Lemma delete_preserves (self : DB) (table : string) (id : value) :
  preserves I (delete self table id).
Proof. unfold delete. solve_preserves. Qed.

Lemma purge_preserves (self : DB) (table : string) : preserves I (purge self table).
Proof. unfold purge. solve_preserves. Qed.

Lemma drop_table_preserves (self : DB) (table_name : string) :
  preserves I (drop_table self table_name).
Proof. unfold drop_table. solve_preserves. Qed.

Lemma drop_tables_preserves (self : DB) : preserves I (drop_tables self).
Proof. unfold drop_tables. eauto using drop_table_preserves with preserves. Qed.

End builder_inv.

(** ** Theorems *)

(** C5: a bulk insert whose entries do not all have the key list of the
    first raises [RuntimeError] and leaves the driver untouched: nothing is
    sent. *)
Theorem add_bulk_mismatch (self : DB) (sqlite : bool) (table : string)
    (first entry : pydict) (rest : list pydict) (st : St) :
  _sqlite self = Some sqlite -> entry ∈ rest -> dict_keys entry <> dict_keys first ->
  add_bulk self table (first :: rest) st
  = (inl (RuntimeError "Not the same keys in all entries!"), st).
Proof.
  intros Hsq Hin Hk. unfold add_bulk.
  rewrite (add_bulk_sql_text self sqlite) by done.
  rewrite (bool_decide_eq_false_2 (_ = [])) by done.
  rewrite (bool_decide_eq_false_2 (Forall _ _)); [done|].
  intros Hall. by apply (proj1 (Forall_forall _ _) Hall) in Hin.
Qed.

(** A bulk insert whose entries all have the key list of the first
    sends one INSERT with the keys of the first entry and one row of
    escaped values per entry, in order. *)
Theorem add_bulk_uniform (self : DB) (sqlite : bool) (table : string)
    (first : pydict) (rest : list pydict) (st : St) :
  _sqlite self = Some sqlite ->
  Forall (fun entry => dict_keys entry = dict_keys first) rest ->
  add_bulk self table (first :: rest) st
  = (let '(r, st') :=
       drv_query ("INSERT INTO " +:+ table +:+ " ("
                  +:+ String.concat "," (dict_keys first) +:+ ") VALUES "
                  +:+ String.concat "," (row_text sqlite <$> first :: rest))
                 (_fetchall self) st in
     (match r with inl e => inl e | inr _ => inr tt end, st')).
Proof.
  intros Hsq Hall. unfold add_bulk.
  rewrite (add_bulk_sql_text self sqlite) by done.
  rewrite (bool_decide_eq_false_2 (_ = [])) by done.
  rewrite (bool_decide_eq_true_2 (Forall _ _)) by done. simpl.
  rewrite bind_lift_inr. apply do_discard_run.
Qed.

(** On a connection made from an URI that does not start with
    "sqlite", [add] of an entry with a value that is neither a number nor
    [None] raises [AttributeError] before anything is sent. *)
Theorem add_no_sqlite_attr (uri table : string) (entry : pydict) (v : value)
    (st : St) :
  String.prefix "sqlite" uri = false ->
  v ∈ dict_values entry -> is_number v = false -> v <> VNone ->
  add (__init__ uri) table entry st = (inl (AttributeError "_sqlite"), st).
Proof. intros Huri. by apply add_missing_attr, init_no_sqlite. Qed.

(** C11: [update] of an entry that is not empty sends one UPDATE: the SET
    clause assigns the entry's items whose key is no key of the
    conditions, in the entry's order, and those only; the WHERE clause
    joins the conditions with [and].  The result is nothing, or the
    driver's exception. *)
Theorem update_sends_update (self : DB) (sqlite : bool) (table : string)
    (entry conditions : pydict) (st : St) :
  _sqlite self = Some sqlite -> entry <> [] ->
  update self table entry conditions st
  = (let '(r, st') :=
       drv_query ("UPDATE " +:+ table +:+ " set "
                  +:+ String.concat ", "
                        (assignment_text sqlite <$> update_items entry conditions)
                  +:+ " WHERE "
                  +:+ String.concat " and " (assignment_text sqlite <$> conditions))
                 (_fetchall self) st in
     (match r with inl e => inl e | inr _ => inr tt end, st'))
  /\ forall kv, kv ∈ update_items entry conditions
               <-> kv ∈ entry /\ kv.1 ∉ dict_keys conditions.
Proof.
  intros Hsq Hne. split; [by apply update_run|apply update_items_elem].
Qed.

(** C38: [update] with an empty dictionary of conditions is not rejected:
    the guard compares the dictionary with a list, so the method goes on
    and sends an UPDATE whose WHERE clause is empty. *)
Theorem update_empty_conditions_sent (self : DB) (sqlite : bool) (table : string)
    (entry : pydict) (st : St) :
  _sqlite self = Some sqlite -> entry <> [] ->
  update self table entry [] st
  = (let '(r, st') :=
       drv_query ("UPDATE " +:+ table +:+ " set "
                  +:+ String.concat ", " (assignment_text sqlite <$> entry)
                  +:+ " WHERE ")
                 (_fetchall self) st in
     (match r with inl e => inl e | inr _ => inr tt end, st')).
Proof.
  intros Hsq Hne. rewrite (update_run self sqlite) by done. unfold update_items.
  by rewrite filter_all by done.
Qed.

(** [drop_tables] asks the driver for the table names and then sends
    one DROP per name, in the order listed, stopping at the first that
    raises; a failure to list the tables is propagated. *)
Theorem drop_tables_run (self : DB) (st : St) :
  drop_tables self st
  = match drv_get_table_names st with
    | (inl e, st') => (inl e, st')
    | (inr names, st') =>
        exec_seq (_fetchall self) (drop_table_sql <$> names) st'
    end.
Proof.
  unfold drop_tables, table_names. serr_unfold.
  destruct (drv_get_table_names st) as [[e|names] st']; [done|].
  apply for_each_drop_table.
Qed.

(** [add_bulk] of the one entry [entry], which is not empty, is
    [add] of [entry]: the same statement, the same exception when a value
    cannot be escaped, the same state. *)
Theorem add_bulk_single (self : DB) (table : string) (entry : pydict) (st : St) :
  entry <> [] -> add_bulk self table [entry] st = add self table entry st.
Proof.
  intros Hne. unfold add_bulk, add, add_bulk_sql, add_sql. simpl.
  rewrite bool_decide_eq_false_2 by (by intros []).
  destruct entry as [|kv entry]; [done|]. simpl.
  destruct (escaped_values self (kv :: entry)) as [e|values]; [done|]. simpl.
  by autorewrite with str.
Qed.

End builder.

#[export] Hint Resolve get_preserves add_preserves add_bulk_preserves update_preserves
  delete_preserves purge_preserves drop_table_preserves drop_tables_preserves : preserves.

(** ** One statement per call

    Every builder but [drop_tables] sends at most one statement. *)
Section builder_sends.
Context {ND : NumberDetect} {St : Type} (D : Driver St).

Lemma get_sends (self : DB) (table : string) (logic order limit offset : value)
    (values : pydict) :
  sends 1 (get (D:=logged_driver D) self table logic order limit offset values).
Proof. by apply sends_do_then. Qed.

Lemma add_sends (self : DB) (table : string) (entry : pydict) :
  sends 1 (add (D:=logged_driver D) self table entry).
Proof.
  unfold add. destruct (dict_is_empty entry); [|apply sends_build_do].
  by apply (sends_mono 0), sends_pure; [lia|].
Qed.

Lemma add_bulk_sends (self : DB) (table : string) (entries : list pydict) :
  sends 1 (add_bulk (D:=logged_driver D) self table entries).
Proof.
  unfold add_bulk. case_match; [|apply sends_build_do].
  by apply (sends_mono 0), sends_pure; [lia|].
Qed.

Lemma update_sends (self : DB) (table : string) (entry conditions : pydict) :
  sends 1 (update (D:=logged_driver D) self table entry conditions).
Proof.
  unfold update. repeat case_match; [..|apply sends_build_do];
    by apply (sends_mono 0), sends_pure; [lia|].
Qed.

Lemma delete_sends (self : DB) (table : string) (id : value) :
  sends 1 (delete (D:=logged_driver D) self table id).
Proof. by apply sends_do_then. Qed.

Lemma purge_sends (self : DB) (table : string) :
  sends 1 (purge (D:=logged_driver D) self table).
Proof. by apply sends_do_then. Qed.

Lemma drop_table_sends (self : DB) (table_name : string) :
  sends 1 (drop_table (D:=logged_driver D) self table_name).
Proof. by apply sends_do_then. Qed.

End builder_sends.

(** ** Concrete runs

    The theorems above on an sqlite connection and the replay driver. *)

Lemma add_bulk_mismatch_witness :
  add_bulk (__init__ "sqlite:///test.db") "t"
    [[("name", VStr "x"); ("id", VInt 1)]; [("id", VInt 2); ("name", VStr "y")]]
    (replaying [])
  = (inl (RuntimeError "Not the same keys in all entries!"), replaying []).
Proof.
  apply (add_bulk_mismatch _ true _ _ [("id", VInt 2); ("name", VStr "y")]);
    [done|by left|done].
Defined.

Lemma add_bulk_uniform_witness :
  add_bulk (__init__ "sqlite:///test.db") "t"
    [[("name", VStr "x"); ("id", VInt 1)]; [("name", VStr "y"); ("id", VInt 2)]]
    (replaying [inr []])
  = (inr tt, replaying []).
Proof. rewrite (add_bulk_uniform _ true) by (repeat constructor). reflexivity. Defined.

Lemma add_no_sqlite_attr_witness :
  add (__init__ "postgresql://u:p@localhost/db") "t"
    [("age", VInt 5); ("name", VStr "x")] (replaying [inr []])
  = (inl (AttributeError "_sqlite"), replaying [inr []]).
Proof. apply (add_no_sqlite_attr _ _ _ (VStr "x")); [done|by right; left|done..]. Defined.

Lemma update_sends_update_witness :
  update (D:=logged_driver replay_driver) (__init__ "sqlite:///test.db") "t"
    [("name", VStr "x"); ("id", VInt 1)] [("id", VInt 1); ("org", VStr "o")]
    (replaying [inr []], [])
  = (inr tt,
     (replaying [], ["UPDATE t set name = 'x' WHERE id = 1 and org = 'o'"])).
Proof.
  refine (proj1 (update_sends_update (D:=logged_driver replay_driver)
                   (__init__ "sqlite:///test.db") true "t"
                   [("name", VStr "x"); ("id", VInt 1)] [("id", VInt 1); ("org", VStr "o")]
                   (replaying [inr []], []) _ _)); done.
Defined.

Lemma update_empty_conditions_sent_witness :
  update (D:=logged_driver replay_driver) (__init__ "sqlite:///test.db") "t"
    [("name", VStr "x")] [] (replaying [inr []], [])
  = (inr tt, (replaying [], ["UPDATE t set name = 'x' WHERE "])).
Proof. rewrite (update_empty_conditions_sent _ true) by done. reflexivity. Defined.

Lemma add_bulk_single_witness :
  add_bulk (D:=logged_driver replay_driver) (__init__ "sqlite:///test.db") "t"
    [[("name", VStr "x")]] (replaying [inr []], [])
  = add (D:=logged_driver replay_driver) (__init__ "sqlite:///test.db") "t"
      [("name", VStr "x")] (replaying [inr []], []).
Proof. by apply add_bulk_single. Defined.

(** The one empty entry: [add] raises, [add_bulk] sends a statement
    without columns. *)
Example add_bulk_empty_entry :
  add (D:=logged_driver replay_driver) (__init__ "sqlite:///test.db") "t" []
    (replaying [inr []], [])
  = (inl (RuntimeError "No values provided"), (replaying [inr []], []))
  /\ add_bulk (D:=logged_driver replay_driver) (__init__ "sqlite:///test.db") "t" [[]]
       (replaying [inr []], [])
     = (inr tt, (replaying [], ["INSERT INTO t () VALUES ()"])).
Proof. by split. Qed.

(** Keys that differ in the second entry, on a connection without
    [_sqlite]: the text value of the first entry raises before the keys of
    the second are compared. *)
Example add_bulk_mismatch_late :
  add_bulk_sql (__init__ "postgresql://u:p@localhost/db") "t"
    [[("a", VStr "x")]; [("b", VStr "y")]]
  = inl (AttributeError "_sqlite").
Proof. reflexivity. Qed.

(** The example of the specification: the condition key is not assigned. *)
Example update_sql_example :
  update_sql (__init__ "sqlite:///test.db") "t"
    [("name", VStr "x"); ("id", VInt 1)] [("id", VInt 1)]
  = inr "UPDATE t set name = 'x' WHERE id = 1".
Proof. reflexivity. Qed.

(** An entry whose keys are all condition keys: the SET clause is
    empty. *)
Example update_sql_empty_set :
  update_sql (__init__ "sqlite:///test.db") "t" [("id", VInt 1)] [("id", VInt 1)]
  = inr "UPDATE t set  WHERE id = 1".
Proof. reflexivity. Qed.

(** The example of the specification: a NULL filter and an integer one. *)
Example get_sql_example :
  get_sql "t" (VStr "AND") VNone VNone VNone [("status", VNone); ("age", VInt 5)]
  = "SELECT * FROM t  WHERE  status is NULL  AND  age = 5".
Proof. reflexivity. Qed.

(** Two tables listed, the first DROP raises: the second is never sent. *)
Example drop_tables_example :
  drop_tables (D:=logged_driver replay_driver) (__init__ "sqlite:///test.db")
    ({| replies := [inl (DriverError "locked"); inr []]; tables := inr ["a"; "b"] |}, [])
  = (inl (DriverError "locked"),
     ({| replies := [inr []]; tables := inr ["a"; "b"] |},
      ["DROP table IF EXISTS a CASCADE"])).
Proof. reflexivity. Qed.
