(* ===== verification/Injection.v ===== *)
(** * The structure of the statements

    What the statements of [add], [add_bulk], [update] and [get] are to a
    reader of SQL, whatever the values hold.  Each statement is described
    by its pieces ([SqlScan]): the text the method writes itself and, for
    every value it quotes, one literal.  The theorems say that the scanner
    reads the statement back as one fixed skeleton, with a [?] where a
    literal stands, and the literals in the order of the values: a quote,
    a semicolon or a comment mark inside a value stays inside its
    literal.  The names (table, columns, [logic], [order]) are written as
    they come; the theorems assume they hold no quote. *)

From S2P Require Import Prelude PyValue Escaper SqlScan Driver Builder.

Section injection.
Context {ND : NumberDetect}.

(** ** Values as pieces *)

(** What [escape_string] writes for a value: bare text for a number and
    for [None], a literal for anything else. *)
Definition value_piece (sqlite : bool) (v : value) : piece :=
  if is_number v then Raw (py_str v)
  else if is_None v then Raw "NULL"
  else Lit (literal_text sqlite (py_str v)).

(** A value in the skeleton, and the literal it gives. *)
Definition value_skel (v : value) : string :=
  if is_number v then py_str v else if is_None v then "NULL" else "?".

Definition value_lits (sqlite : bool) (v : value) : list string :=
  if is_number v || is_None v then [] else [literal_text sqlite (py_str v)].

(** The values of a row, joined by commas, in their brackets. *)
Definition row_group (sqlite : bool) (entry : pydict) : list piece :=
  Raw "(" :: join_groups "," ((fun v => [value_piece sqlite v]) <$> dict_values entry)
  ++ [Raw ")"].

Definition row_skel (entry : pydict) : string :=
  "(" +:+ String.concat "," (value_skel <$> dict_values entry) +:+ ")".

Definition row_lits (sqlite : bool) (entry : pydict) : list string :=
  dict_values entry ≫= value_lits sqlite.

(** One [key = value] of [update]. *)
Definition assignment_group (sqlite : bool) (kv : string * value) : list piece :=
  [Raw (kv.1 +:+ " = "); value_piece sqlite kv.2].

Definition assignment_skel (kv : string * value) : string :=
  kv.1 +:+ " = " +:+ value_skel kv.2.

(** One filter of [get]: [None] as a NULL test, an integer bare, anything
    else as a literal. *)
Definition filter_group (kv : string * value) : list piece :=
  if is_None kv.2 then [Raw (" " +:+ kv.1 +:+ " is NULL")]
  else if isinstance_int kv.2 then [Raw (" " +:+ kv.1 +:+ " = " +:+ py_str kv.2)]
  else [Raw (" " +:+ kv.1 +:+ " = "); Lit (py_str kv.2)].

Definition filter_skel (kv : string * value) : string :=
  " " +:+ kv.1 +:+
  (if is_None kv.2 then " is NULL"
   else " = " +:+ (if isinstance_int kv.2 then py_str kv.2 else "?")).

Definition filter_lits (kv : string * value) : list string :=
  if is_None kv.2 || isinstance_int kv.2 then [] else [py_str kv.2].

(** ** The statements as pieces *)

Definition insert_head (table : string) (keys : list string) : string :=
  "INSERT INTO " +:+ table +:+ " (" +:+ String.concat "," keys +:+ ") VALUES ".

Definition add_pieces (sqlite : bool) (table : string) (entry : pydict) : list piece :=
  Raw (insert_head table (dict_keys entry)) :: row_group sqlite entry.

Definition add_bulk_pieces (sqlite : bool) (table : string) (keys : list string)
    (entries : list pydict) : list piece :=
  Raw (insert_head table keys) :: join_groups "," (row_group sqlite <$> entries).

Definition update_pieces (sqlite : bool) (table : string) (entry conditions : pydict) :
    list piece :=
  Raw ("UPDATE " +:+ table +:+ " set ")
  :: join_groups ", " (assignment_group sqlite <$> update_items entry conditions)
  ++ Raw " WHERE " :: join_groups " and " (assignment_group sqlite <$> conditions).

Definition get_pieces (table : string) (logic order limit offset : value)
    (values : pydict) : list piece :=
  Raw ("SELECT * FROM " +:+ table +:+ " ")
  :: (if bool_decide (values <> [])
      then Raw " WHERE "
           :: join_groups ("  " +:+ py_str logic +:+ " ") (filter_group <$> values)
      else [])
  ++ (Raw <$> get_clauses order limit offset).

(** The skeleton of the statement of [get]. *)
Definition get_skel (table : string) (logic order limit offset : value)
    (values : pydict) : string :=
  "SELECT * FROM " +:+ table +:+ " "
  +:+ (if bool_decide (values <> [])
       then " WHERE "
            +:+ String.concat ("  " +:+ py_str logic +:+ " ") (filter_skel <$> values)
       else "")
  +:+ String.concat "" (get_clauses order limit offset).

(** The skeleton of the statement of [update]. *)
Definition update_skel (table : string) (entry conditions : pydict) : string :=
  "UPDATE " +:+ table +:+ " set "
  +:+ String.concat ", " (assignment_skel <$> update_items entry conditions)
  +:+ " WHERE " +:+ String.concat " and " (assignment_skel <$> conditions).

(** ** What the theorems assume of names and values *)

(** A name written as it comes holds no quote. *)
Definition name_ok (t : string) : Prop := Str.mem "'" t = false.

(** The items of a [dict]: column names without a quote, and values that
    are well formed. *)
Definition item_ok (kv : string * value) : Prop := name_ok kv.1 /\ value_wf kv.2.

Definition items_ok (d : pydict) : Prop := Forall item_ok d.

(** The optional arguments of [get] hold no quote. *)
Definition clauses_ok (logic order limit offset : value) : Prop :=
  name_ok (py_str logic) /\ name_ok (py_str order) /\
  name_ok (py_str limit) /\ name_ok (py_str offset).

(** ** Values *)

Lemma value_piece_text (sqlite : bool) (v : value) :
  piece_text (value_piece sqlite v) = escaped_text sqlite v.
Proof. unfold value_piece, escaped_text. by repeat case_match. Qed.

Lemma value_piece_skel (sqlite : bool) (v : value) :
  piece_skel (value_piece sqlite v) = value_skel v.
Proof. unfold value_piece, value_skel. by repeat case_match. Qed.

Lemma value_piece_lits (sqlite : bool) (v : value) :
  piece_lits (value_piece sqlite v) = value_lits sqlite v.
Proof. unfold value_piece, value_lits. by repeat case_match. Qed.

(** Raw text holds no quote. *)
Lemma raw_no_quote (t : string) :
  Str.forallb raw_char t = true -> Str.mem "'" t = false.
Proof. by apply Str.forallb_not_mem. Qed.

(** The piece of a value is well placed after raw text. *)
Lemma value_piece_ok (sqlite : bool) (v : value) (ps : list piece) :
  value_wf v -> pieces_ok true ps = true ->
  pieces_ok false (value_piece sqlite v :: ps) = true.
Proof.
  intros Hwf Hps. unfold value_piece. destruct (is_number v) eqn:Hn.
  - cbn [pieces_ok]. rewrite (raw_no_quote _ (is_number_raw v Hwf Hn)).
    by apply pieces_ok_weaken.
  - destruct (is_None v); [simpl; by apply pieces_ok_weaken|done].
Qed.

(** ** Rows *)

Lemma items_ok_keys (d : pydict) : items_ok d -> Forall name_ok (dict_keys d).
Proof. intros Hd. apply Forall_fmap. eapply Forall_impl; [exact Hd|]. by intros kv []. Qed.

Lemma items_ok_values (d : pydict) : items_ok d -> Forall value_wf (dict_values d).
Proof. intros Hd. apply Forall_fmap. eapply Forall_impl; [exact Hd|]. by intros kv []. Qed.

Lemma value_group_render (sqlite : bool) (v : value) :
  render [value_piece sqlite v] = escaped_text sqlite v.
Proof. rewrite render_cons, value_piece_text. apply Str.app_nil_r. Qed.

Lemma value_group_skel (sqlite : bool) (v : value) :
  render_skel [value_piece sqlite v] = value_skel v.
Proof. rewrite render_skel_cons, value_piece_skel. apply Str.app_nil_r. Qed.

Lemma value_group_lits (sqlite : bool) (v : value) :
  render_lits [value_piece sqlite v] = value_lits sqlite v.
Proof. rewrite render_lits_cons, value_piece_lits. apply app_nil_r. Qed.

Lemma row_group_render (sqlite : bool) (entry : pydict) :
  render (row_group sqlite entry) = row_text sqlite entry.
Proof.
  unfold row_group, row_text. rewrite render_cons, render_app.
  by rewrite (render_join_map _ _ _ _ (value_group_render sqlite)).
Qed.

Lemma row_group_skel (sqlite : bool) (entry : pydict) :
  render_skel (row_group sqlite entry) = row_skel entry.
Proof.
  unfold row_group, row_skel. rewrite render_skel_cons, render_skel_app.
  by rewrite (render_skel_join_map _ _ _ _ (value_group_skel sqlite)).
Qed.

Lemma row_group_lits (sqlite : bool) (entry : pydict) :
  render_lits (row_group sqlite entry) = row_lits sqlite entry.
Proof.
  unfold row_group, row_lits. rewrite render_lits_cons, render_lits_app, app_nil_r.
  by rewrite (render_lits_join_map _ _ _ _ (value_group_lits sqlite)).
Qed.

Lemma row_group_ok (sqlite : bool) (entry : pydict) :
  items_ok entry -> pieces_ok true (row_group sqlite entry) = true.
Proof.
  intros Hwf%items_ok_values. unfold row_group. cbn [pieces_ok].
  apply pieces_ok_app; [|done]. apply pieces_ok_join_map; [done..|].
  eapply Forall_impl; [exact Hwf|]. intros v Hv. by apply value_piece_ok.
Qed.

(** ** INSERT *)

Lemma insert_head_ok (table : string) (keys : list string) :
  name_ok table -> Forall name_ok keys -> name_ok (insert_head table keys).
Proof.
  unfold name_ok, insert_head. intros Ht Hk. rewrite !Str.mem_app, Ht.
  by rewrite (Str.mem_concat "'" "," keys eq_refl Hk).
Qed.

Lemma add_pieces_render (sqlite : bool) (table : string) (entry : pydict) :
  render (add_pieces sqlite table entry)
  = "INSERT INTO " +:+ table +:+ " (" +:+ String.concat "," (dict_keys entry)
    +:+ ") VALUES ("
    +:+ String.concat "," (escaped_text sqlite <$> dict_values entry) +:+ ")".
Proof.
  unfold add_pieces. rewrite render_cons, row_group_render.
  cbn [piece_text]. unfold insert_head, row_text. by autorewrite with str.
Qed.

Lemma add_pieces_ok (sqlite : bool) (table : string) (entry : pydict) :
  name_ok table -> items_ok entry ->
  pieces_ok false (add_pieces sqlite table entry) = true.
Proof.
  intros Ht He. unfold add_pieces.
  apply pieces_ok_raw; [by apply insert_head_ok, items_ok_keys|].
  apply pieces_ok_weaken. by apply row_group_ok.
Qed.

Lemma add_pieces_skel (sqlite : bool) (table : string) (entry : pydict) :
  render_skel (add_pieces sqlite table entry)
  = insert_head table (dict_keys entry) +:+ row_skel entry.
Proof. unfold add_pieces. by rewrite render_skel_cons, row_group_skel. Qed.

Lemma add_pieces_lits (sqlite : bool) (table : string) (entry : pydict) :
  render_lits (add_pieces sqlite table entry) = row_lits sqlite entry.
Proof. unfold add_pieces. by rewrite render_lits_cons, row_group_lits. Qed.

Lemma add_bulk_pieces_render (sqlite : bool) (table : string) (keys : list string)
    (entries : list pydict) :
  render (add_bulk_pieces sqlite table keys entries)
  = "INSERT INTO " +:+ table +:+ " (" +:+ String.concat "," keys +:+ ") VALUES "
    +:+ String.concat "," (row_text sqlite <$> entries).
Proof.
  unfold add_bulk_pieces.
  rewrite render_cons, (render_join_map _ _ _ _ (row_group_render sqlite)).
  cbn [piece_text]. unfold insert_head. by autorewrite with str.
Qed.

Lemma add_bulk_pieces_skel (sqlite : bool) (table : string) (keys : list string)
    (entries : list pydict) :
  render_skel (add_bulk_pieces sqlite table keys entries)
  = insert_head table keys +:+ String.concat "," (row_skel <$> entries).
Proof.
  unfold add_bulk_pieces.
  by rewrite render_skel_cons, (render_skel_join_map _ _ _ _ (row_group_skel sqlite)).
Qed.

Lemma add_bulk_pieces_lits (sqlite : bool) (table : string) (keys : list string)
    (entries : list pydict) :
  render_lits (add_bulk_pieces sqlite table keys entries) = entries ≫= row_lits sqlite.
Proof.
  unfold add_bulk_pieces.
  by rewrite render_lits_cons, (render_lits_join_map _ _ _ _ (row_group_lits sqlite)).
Qed.

Lemma add_bulk_pieces_ok (sqlite : bool) (table : string) (keys : list string)
    (entries : list pydict) :
  name_ok table -> Forall name_ok keys -> Forall items_ok entries ->
  pieces_ok false (add_bulk_pieces sqlite table keys entries) = true.
Proof.
  intros Ht Hk He. unfold add_bulk_pieces.
  apply pieces_ok_raw; [by apply insert_head_ok|]. apply pieces_ok_join_map; [done..|].
  eapply Forall_impl; [exact He|]. intros entry Hentry.
  apply pieces_ok_weaken. by apply row_group_ok.
Qed.

(** ** UPDATE *)

Lemma assignment_group_render (sqlite : bool) (kv : string * value) :
  render (assignment_group sqlite kv) = assignment_text sqlite kv.
Proof.
  unfold assignment_group, assignment_text. rewrite !render_cons, value_piece_text.
  cbn [piece_text render foldr]. by autorewrite with str.
Qed.

Lemma assignment_group_skel (sqlite : bool) (kv : string * value) :
  render_skel (assignment_group sqlite kv) = assignment_skel kv.
Proof.
  unfold assignment_group, assignment_skel.
  rewrite !render_skel_cons, value_piece_skel.
  cbn [piece_skel render_skel foldr]. by autorewrite with str.
Qed.

Lemma assignment_group_lits (sqlite : bool) (kv : string * value) :
  render_lits (assignment_group sqlite kv) = value_lits sqlite kv.2.
Proof.
  unfold assignment_group. rewrite !render_lits_cons, value_piece_lits. apply app_nil_r.
Qed.

Lemma assignment_groups_ok (sqlite : bool) (d : pydict) :
  items_ok d -> Forall (fun kv => pieces_ok false (assignment_group sqlite kv) = true) d.
Proof.
  intros Hd. eapply Forall_impl; [exact Hd|]. intros kv [Hk Hv].
  unfold assignment_group. apply pieces_ok_raw; [|by apply value_piece_ok].
  unfold name_ok in Hk. by rewrite Str.mem_app, Hk.
Qed.

Lemma update_items_ok (entry conditions : pydict) :
  items_ok entry -> items_ok (update_items entry conditions).
Proof.
  intros He. apply Forall_forall. intros kv [Hin _]%update_items_elem.
  revert kv Hin. by apply Forall_forall.
Qed.

Lemma update_pieces_render (sqlite : bool) (table : string) (entry conditions : pydict) :
  render (update_pieces sqlite table entry conditions)
  = "UPDATE " +:+ table +:+ " set "
    +:+ String.concat ", " (assignment_text sqlite <$> update_items entry conditions)
    +:+ " WHERE " +:+ String.concat " and " (assignment_text sqlite <$> conditions).
Proof.
  unfold update_pieces. rewrite render_cons, render_app, render_cons.
  rewrite !(render_join_map _ _ _ _ (assignment_group_render sqlite)).
  cbn [piece_text]. by autorewrite with str.
Qed.

Lemma update_pieces_skel (sqlite : bool) (table : string) (entry conditions : pydict) :
  render_skel (update_pieces sqlite table entry conditions)
  = update_skel table entry conditions.
Proof.
  unfold update_pieces, update_skel.
  rewrite render_skel_cons, render_skel_app, render_skel_cons.
  rewrite !(render_skel_join_map _ _ _ _ (assignment_group_skel sqlite)).
  cbn [piece_skel]. by autorewrite with str.
Qed.

Lemma update_pieces_lits (sqlite : bool) (table : string) (entry conditions : pydict) :
  render_lits (update_pieces sqlite table entry conditions)
  = row_lits sqlite (update_items entry conditions) ++ row_lits sqlite conditions.
Proof.
  unfold update_pieces, row_lits, dict_values.
  rewrite render_lits_cons, render_lits_app, render_lits_cons.
  rewrite !(render_lits_join_map _ _ _ _ (assignment_group_lits sqlite)).
  by rewrite !list_fmap_bind.
Qed.

Lemma update_pieces_ok (sqlite : bool) (table : string) (entry conditions : pydict) :
  name_ok table -> items_ok entry -> items_ok conditions ->
  pieces_ok false (update_pieces sqlite table entry conditions) = true.
Proof.
  intros Ht He Hc. unfold update_pieces, name_ok in *.
  apply pieces_ok_raw; [by rewrite !Str.mem_app, Ht|]. apply pieces_ok_app.
  - apply pieces_ok_join_map; [done..|]. by apply assignment_groups_ok, update_items_ok.
  - cbn [pieces_ok]. apply pieces_ok_join_map; [done..|]. by apply assignment_groups_ok.
Qed.

(** ** SELECT *)

Lemma filter_group_render (kv : string * value) :
  render (filter_group kv) = filter_text kv.
Proof.
  unfold filter_group, filter_text. repeat case_match;
    cbn [render foldr piece_text]; by autorewrite with str.
Qed.

Lemma filter_group_skel (kv : string * value) :
  render_skel (filter_group kv) = filter_skel kv.
Proof.
  unfold filter_group, filter_skel. repeat case_match;
    cbn [render_skel foldr piece_skel]; by autorewrite with str.
Qed.

Lemma filter_group_lits (kv : string * value) :
  render_lits (filter_group kv) = filter_lits kv.
Proof. unfold filter_group, filter_lits. by repeat case_match. Qed.

Lemma filter_group_ok (kv : string * value) :
  name_ok kv.1 -> pieces_ok false (filter_group kv) = true.
Proof.
  unfold name_ok, filter_group. intros Hk.
  destruct (is_None kv.2); [|destruct (isinstance_int kv.2) eqn:Hi];
    (apply pieces_ok_raw; [|done]); rewrite !Str.mem_app, Hk; [done| |done].
  by rewrite (raw_no_quote _ (py_str_int_raw _ Hi)).
Qed.

(** The clauses that are present are not empty, and hold no quote when
    their arguments hold none. *)
Lemma get_clauses_ok (logic order limit offset : value) :
  clauses_ok logic order limit offset ->
  Forall (fun t => Str.mem "'" t = false /\ t <> "") (get_clauses order limit offset).
Proof.
  unfold clauses_ok, name_ok, get_clauses, clause.
  intros (_ & Ho & Hl & Hf).
  repeat case_match; repeat constructor; by rewrite ?Str.mem_app, ?Ho, ?Hl, ?Hf.
Qed.

Lemma get_pieces_render (table : string) (logic order limit offset : value)
    (values : pydict) :
  render (get_pieces table logic order limit offset values)
  = "SELECT * FROM " +:+ table +:+ " "
    +:+ (if bool_decide (values <> [])
         then " WHERE "
              +:+ String.concat ("  " +:+ py_str logic +:+ " ") (filter_text <$> values)
         else "")
    +:+ String.concat "" (get_clauses order limit offset).
Proof.
  unfold get_pieces. rewrite render_cons, render_app, render_raws.
  case_bool_decide; [|cbn [piece_text render foldr]; by autorewrite with str].
  rewrite render_cons, (render_join_map _ _ _ _ filter_group_render).
  cbn [piece_text]. by autorewrite with str.
Qed.

Lemma get_pieces_skel (table : string) (logic order limit offset : value)
    (values : pydict) :
  render_skel (get_pieces table logic order limit offset values)
  = get_skel table logic order limit offset values.
Proof.
  unfold get_pieces, get_skel.
  rewrite render_skel_cons, render_skel_app, render_skel_raws, render_raws.
  case_bool_decide; [|cbn [piece_skel render_skel foldr]; by autorewrite with str].
  rewrite render_skel_cons, (render_skel_join_map _ _ _ _ filter_group_skel).
  cbn [piece_skel]. by autorewrite with str.
Qed.

Lemma get_pieces_lits (table : string) (logic order limit offset : value)
    (values : pydict) :
  render_lits (get_pieces table logic order limit offset values)
  = values ≫= filter_lits.
Proof.
  unfold get_pieces.
  rewrite render_lits_cons, render_lits_app, render_lits_raws, app_nil_r.
  case_bool_decide as Hv; [|by destruct values].
  by rewrite render_lits_cons, (render_lits_join_map _ _ _ _ filter_group_lits).
Qed.

Lemma get_pieces_ok (table : string) (logic order limit offset : value)
    (values : pydict) :
  name_ok table -> Forall name_ok (dict_keys values) ->
  clauses_ok logic order limit offset ->
  pieces_ok false (get_pieces table logic order limit offset values) = true.
Proof.
  intros Ht Hk Hc. unfold get_pieces, name_ok in *.
  apply pieces_ok_raw; [by rewrite !Str.mem_app, Ht|].
  apply pieces_ok_app; [|by eapply pieces_ok_raws, get_clauses_ok].
  case_bool_decide; [|done]. apply pieces_ok_raw; [done|].
  apply pieces_ok_join_map; [|done|].
  - destruct Hc as [Hl _]. by rewrite !Str.mem_app, Hl.
  - apply Forall_fmap in Hk. eapply Forall_impl; [exact Hk|].
    intros kv Hkv. by apply filter_group_ok.
Qed.

(** The statements scan to their skeletons and literals. *)
Lemma add_text_scan (sqlite : bool) (table : string) (entry : pydict) :
  name_ok table -> items_ok entry ->
  sql_scan (render (add_pieces sqlite table entry))
  = Some (insert_head table (dict_keys entry) +:+ row_skel entry, row_lits sqlite entry).
Proof.
  intros Ht He. apply (scan_pieces (add_pieces sqlite table entry)); [done|..].
  - by apply add_pieces_ok.
  - apply add_pieces_skel.
  - apply add_pieces_lits.
Qed.

Lemma get_text_scan (table : string) (logic order limit offset : value)
    (values : pydict) :
  name_ok table -> Forall name_ok (dict_keys values) ->
  clauses_ok logic order limit offset ->
  sql_scan (render (get_pieces table logic order limit offset values))
  = Some (get_skel table logic order limit offset values, values ≫= filter_lits).
Proof.
  intros Ht Hk Hc.
  apply (scan_pieces (get_pieces table logic order limit offset values)); [done|..].
  - by apply get_pieces_ok.
  - apply get_pieces_skel.
  - apply get_pieces_lits.
Qed.

Lemma add_bulk_text_scan (sqlite : bool) (table : string) (keys : list string)
    (entries : list pydict) :
  name_ok table -> Forall name_ok keys -> Forall items_ok entries ->
  sql_scan (render (add_bulk_pieces sqlite table keys entries))
  = Some (insert_head table keys +:+ String.concat "," (row_skel <$> entries),
          entries ≫= row_lits sqlite).
Proof.
  intros Ht Hk He. apply (scan_pieces (add_bulk_pieces sqlite table keys entries)); [done|..].
  - by apply add_bulk_pieces_ok.
  - apply add_bulk_pieces_skel.
  - apply add_bulk_pieces_lits.
Qed.

Lemma update_text_scan (sqlite : bool) (table : string) (entry conditions : pydict) :
  name_ok table -> items_ok entry -> items_ok conditions ->
  sql_scan (render (update_pieces sqlite table entry conditions))
  = Some (update_skel table entry conditions,
          row_lits sqlite (update_items entry conditions) ++ row_lits sqlite conditions).
Proof.
  intros Ht He Hc. apply (scan_pieces (update_pieces sqlite table entry conditions)); [done|..].
  - by apply update_pieces_ok.
  - apply update_pieces_skel.
  - apply update_pieces_lits.
Qed.

(** ** Theorems *)

(** C1: the statement of [add] on a table and columns whose names hold no
    quote reads back as the head [INSERT INTO t (k1,...) VALUES ] and one
    row, with every number and NULL in place and a [?] for every other
    value; the literals are the texts of those values, in order.  No
    value changes the structure of the statement. *)
Theorem add_sql_structure (self : DB) (sqlite : bool) (table : string) (entry : pydict) :
  _sqlite self = Some sqlite -> name_ok table -> items_ok entry ->
  exists q, add_sql self table entry = inr q /\
    sql_scan q
    = Some (insert_head table (dict_keys entry) +:+ row_skel entry,
            row_lits sqlite entry).
Proof.
  intros Hsq Ht He. rewrite (add_sql_text self sqlite) by done.
  eexists. split; [done|]. rewrite <- add_pieces_render. by apply add_text_scan.
Qed.

(** The statement of [add_bulk] for entries with the keys of the
    first reads back as the head of an INSERT and one row per entry,
    joined by commas; the literals are the texts of the quoted values,
    entry by entry. *)
Theorem add_bulk_sql_structure (self : DB) (sqlite : bool) (table : string)
    (first : pydict) (rest : list pydict) :
  _sqlite self = Some sqlite ->
  Forall (fun entry => dict_keys entry = dict_keys first) rest ->
  name_ok table -> Forall items_ok (first :: rest) ->
  exists q, add_bulk_sql self table (first :: rest) = inr q /\
    sql_scan q
    = Some (insert_head table (dict_keys first)
            +:+ String.concat "," (row_skel <$> first :: rest),
            (first :: rest) ≫= row_lits sqlite).
Proof.
  intros Hsq Hk Ht He. rewrite (add_bulk_sql_text self sqlite) by done.
  rewrite bool_decide_eq_true_2 by done. eexists. split; [done|].
  rewrite <- add_bulk_pieces_render. apply add_bulk_text_scan; [done| |done].
  apply items_ok_keys. by apply Forall_cons_1 in He as [].
Qed.

(** C6: the statement of [update] reads back as
    [UPDATE t set k = .., ... WHERE c = .. and ...] with a [?] for every
    quoted value; the literals are the texts of the assigned values, then
    of the condition values. *)
Theorem update_sql_structure (self : DB) (sqlite : bool) (table : string)
    (entry conditions : pydict) :
  _sqlite self = Some sqlite -> name_ok table ->
  items_ok entry -> items_ok conditions ->
  exists q, update_sql self table entry conditions = inr q /\
    sql_scan q
    = Some (update_skel table entry conditions,
            row_lits sqlite (update_items entry conditions)
            ++ row_lits sqlite conditions).
Proof.
  intros Hsq Ht He Hc. rewrite (update_sql_text self sqlite) by done.
  eexists. split; [done|]. rewrite <- update_pieces_render. by apply update_text_scan.
Qed.

(** C3: the statement of [get] reads back as the SELECT with its filters
    and clauses, a [?] for every filter value that is neither [None] nor
    an integer; the literals are the texts of those values, in order. *)
Theorem get_sql_structure (table : string) (logic order limit offset : value)
    (values : pydict) :
  name_ok table -> Forall name_ok (dict_keys values) ->
  clauses_ok logic order limit offset ->
  sql_scan (get_sql table logic order limit offset values)
  = Some (get_skel table logic order limit offset values, values ≫= filter_lits).
Proof.
  intros Ht Hk Hc. rewrite get_sql_text, <- get_pieces_render. by apply get_text_scan.
Qed.

(** [delete] with an id whose text holds no quote, on a table whose name
    holds none, sends a statement with the one literal that is the id;
    [purge] sends one without a literal. *)
Lemma delete_text_scan (table : string) (id : value) :
  name_ok table -> name_ok (py_str id) ->
  sql_scan (delete_sql table id)
  = Some ("DELETE FROM  " +:+ table +:+ " WHERE id = ?", [py_str id]).
Proof.
  intros Ht Hid.
  apply (scan_pieces [Raw ("DELETE FROM  " +:+ table +:+ " WHERE id = "); Lit (py_str id)]).
  - cbn [render foldr piece_text]. unfold delete_sql, sql_quote.
    rewrite re_sub_char_absent by done. by autorewrite with str.
  - apply pieces_ok_raw; [|done]. unfold name_ok in Ht. by rewrite !Str.mem_app, Ht.
  - cbn [render_skel foldr piece_skel]. by autorewrite with str.
  - done.
Qed.

Lemma purge_text_scan (table : string) :
  name_ok table -> sql_scan (purge_sql table) = Some (purge_sql table, []).
Proof.
  intros Ht. apply (scan_pieces [Raw (purge_sql table)]).
  - cbn [render foldr piece_text]. by autorewrite with str.
  - apply pieces_ok_raw; [|done]. unfold name_ok, purge_sql in *. by rewrite !Str.mem_app, Ht.
  - cbn [render_skel foldr piece_skel]. by autorewrite with str.
  - done.
Qed.

(** [delete] with an integer id on a table whose name holds no quote
    sends a statement with the one literal that is the id. *)
Theorem delete_sql_int_structure (table : string) (id : value) :
  name_ok table -> isinstance_int id = true ->
  sql_scan (delete_sql table id)
  = Some ("DELETE FROM  " +:+ table +:+ " WHERE id = ?", [py_str id]).
Proof.
  intros Ht Hid. apply delete_text_scan; [done|].
  by apply raw_no_quote, py_str_int_raw.
Qed.

(** [delete] writes the id between quotes as it comes.  An id of the
    form [1' r '1], for any text [r] without a quote, ends its literal:
    [r] is read as part of the statement, between two literals. *)
Theorem delete_sql_injectable (table r : string) :
  name_ok table -> name_ok r ->
  sql_scan (delete_sql table (VStr ("1' " +:+ r +:+ " '1")))
  = Some ("DELETE FROM  " +:+ table +:+ " WHERE id = ? " +:+ r +:+ " ?", ["1"; "1"]).
Proof.
  unfold name_ok. intros Ht Hr.
  apply (scan_pieces [Raw ("DELETE FROM  " +:+ table +:+ " WHERE id = "); Lit "1";
                      Raw (" " +:+ r +:+ " "); Lit "1"]).
  - cbn [render foldr piece_text]. unfold delete_sql, sql_quote. simpl py_str.
    rewrite !re_sub_char_absent by done. by autorewrite with str.
  - apply pieces_ok_raw; [by rewrite !Str.mem_app, Ht|].
    cbn [pieces_ok]. by rewrite !Str.mem_app, Hr.
  - cbn [render_skel foldr piece_skel]. by autorewrite with str.
  - done.
Qed.

End injection.

(** ** Concrete runs *)

Lemma add_sql_structure_witness :
  exists q,
    add_sql (__init__ "sqlite:///test.db") "users"
      [("name", VStr "x'); DROP TABLE users; --"); ("age", VInt 5); ("note", VNone)]
    = inr q /\
    sql_scan q
    = Some ("INSERT INTO users (name,age,note) VALUES (?,5,NULL)",
            ["x'); DROP TABLE users; --"]).
Proof.
  refine (add_sql_structure (__init__ "sqlite:///test.db") true "users"
            [("name", VStr "x'); DROP TABLE users; --"); ("age", VInt 5); ("note", VNone)]
            _ _ _); [done|done|repeat constructor].
Defined.

Lemma add_bulk_sql_structure_witness :
  exists q,
    add_bulk_sql (__init__ "sqlite:///test.db") "users"
      [[("name", VStr "a'b"); ("age", VInt 5)]; [("name", VStr "c"); ("age", VNone)]]
    = inr q /\
    sql_scan q
    = Some ("INSERT INTO users (name,age) VALUES (?,5),(?,NULL)", ["a'b"; "c"]).
Proof.
  refine (add_bulk_sql_structure (__init__ "sqlite:///test.db") true "users"
            [("name", VStr "a'b"); ("age", VInt 5)] [[("name", VStr "c"); ("age", VNone)]]
            _ _ _ _); [done| |done|]; repeat constructor.
Defined.

Lemma update_sql_structure_witness :
  exists q,
    update_sql (__init__ "sqlite:///test.db") "users"
      [("id", VInt 7); ("name", VStr "O'Brien")] [("id", VInt 7); ("org", VStr "a' or 'b")]
    = inr q /\
    sql_scan q
    = Some ("UPDATE users set name = ? WHERE id = 7 and org = ?",
            ["O'Brien"; "a' or 'b"]).
Proof.
  refine (update_sql_structure (__init__ "sqlite:///test.db") true "users"
            [("id", VInt 7); ("name", VStr "O'Brien")]
            [("id", VInt 7); ("org", VStr "a' or 'b")] _ _ _ _);
    [done|done| |]; repeat constructor.
Defined.

Lemma get_sql_structure_witness :
  sql_scan (get_sql "users" (VStr "AND") (VStr "name") (VInt 10) VNone
              [("name", VStr "x' OR '1'='1"); ("age", VInt 5); ("note", VNone)])
  = Some ("SELECT * FROM users  WHERE  name = ?  AND  age = 5  AND  note is NULL"
          +:+ " ORDER BY name limit 10 ", ["x' OR '1'='1"]).
Proof.
  refine (get_sql_structure "users" (VStr "AND") (VStr "name") (VInt 10) VNone
            [("name", VStr "x' OR '1'='1"); ("age", VInt 5); ("note", VNone)] _ _ _);
    repeat constructor.
Defined.

Lemma delete_sql_int_structure_witness :
  sql_scan (delete_sql "users" (VInt 7))
  = Some ("DELETE FROM  users WHERE id = ?", ["7"]).
Proof. by refine (delete_sql_int_structure "users" (VInt 7) _ _). Defined.

Lemma delete_sql_injectable_witness :
  sql_scan (delete_sql "users" (VStr "1' OR id > '1"))
  = Some ("DELETE FROM  users WHERE id = ? OR id > ?", ["1"; "1"]).
Proof. by refine (delete_sql_injectable "users" "OR id >" _ _). Defined.

(** [get] writes a colon of a filter value as it comes, where
    [escape_string] on a [sqlite] connection would escape it. *)
Example get_sql_colon :
  get_sql "t" (VStr "AND") VNone VNone VNone [("at", VStr "12:30")]
  = "SELECT * FROM t  WHERE  at = '12:30'".
Proof. reflexivity. Qed.
