(* ===== verification/Accessors.v ===== *)
(** * The derived accessors

    [get_single], [get_all], [get_by_id], [get_id] and [add_unique] are
    written on top of [get] and [add].  They pass their keyword arguments
    on with [**values], so the first part models how Python binds the
    keywords of such a call to the parameters of [get]. *)

From S2P Require Import Prelude PyValue Escaper Driver Builder.

(** ** Keyword binding *)

(** The parameters of [get] that a keyword can name besides [table]. *)
Definition get_params : list string := ["logic"; "order"; "limit"; "offset"].

(** A keyword names a parameter that the call already binds by position:
    Python raises [TypeError]. *)
Definition kwargs_clash (kwargs : pydict) : bool :=
  dict_contains "self" kwargs || dict_contains "table" kwargs.

(** What is left in [**values] of [get] once its named parameters are
    bound. *)
Definition get_values (kwargs : pydict) : pydict :=
  filter (fun kv => kv.1 ∉ get_params) kwargs.

(** The value of a parameter of [get]: the keyword when given, else the
    default. *)
Definition get_param (name : string) (dflt : value) (kwargs : pydict) : value :=
  default dflt (dict_lookup name kwargs).

(** The statement of [self.get(table, **kwargs)]. *)
Definition select_sql (table : string) (kwargs : pydict) : string :=
  get_sql table
    (get_param "logic" (VStr "AND") kwargs) (get_param "order" VNone kwargs)
    (get_param "limit" VNone kwargs) (get_param "offset" VNone kwargs)
    (get_values kwargs).

(** What [get_id] returns: one value ([None] included) or a list. *)
Inductive pyobj : Type :=
| OValue (v : value)
| OList (l : list value).

#[export] Instance pyobj_eq_dec : EqDecision pyobj.
Proof. solve_decision. Defined.

(** [o is None]. *)
Definition pyobj_is_None (o : pyobj) : bool :=
  match o with
  | OValue VNone => true
  | _ => false
  end.

(** The three-way return of [get_id]. *)
Definition ids_result (ids : list value) : pyobj :=
  match ids with
  | [] => OValue VNone
  | [id] => OValue id
  | _ => OList ids
  end.

(** ** The types of the results

    The types the results of [get_id] and [add_unique] are checked
    against: [None], an [int], a list, and a union of two types. *)
Inductive pytype : Type :=
| TNone
| TInt
| TList (t : pytype)
| TUnion (t1 t2 : pytype).

Fixpoint value_type (t : pytype) (v : value) : bool :=
  match t, v with
  | TNone, VNone => true
  | TInt, VInt _ => true
  | TUnion t1 t2, _ => value_type t1 v || value_type t2 v
  | _, _ => false
  end.

Fixpoint has_type (t : pytype) (o : pyobj) : bool :=
  match t, o with
  | TUnion t1 t2, _ => has_type t1 o || has_type t2 o
  | TList t', OList l => forallb (value_type t') l
  | TList _, OValue _ => false
  | _, OValue v => value_type t v
  | _, OList _ => false
  end.

(** What [get_id] returns: [None], an id, or a list of ids. *)
Definition ids_type : pytype := TUnion TNone (TUnion TInt (TList TInt)).

Section accessors.
Context {ND : NumberDetect} {St : Type} {D : Driver St}.

(** [self.get(table, **kwargs)]. *)
Definition get_kw (self : DB) (table : string) (kwargs : pydict) :
    serr St exn (list pydict) :=
  if kwargs_clash kwargs
  then raise (TypeError "got multiple values for argument")
  else get self table
         (get_param "logic" (VStr "AND") kwargs) (get_param "order" VNone kwargs)
         (get_param "limit" VNone kwargs) (get_param "offset" VNone kwargs)
         (get_values kwargs).

Definition get_single (self : DB) (table : string) (values : pydict) :
    serr St exn (option pydict) :=
  if kwargs_clash values
  then raise (TypeError "got multiple values for argument")
  else
    (values ← get_kw self table values;
     if (1 <? length values)%nat
     then raise (RuntimeError "get_single returned multiple values")
     else if (length values =? 1)%nat then ret (head values)
     else ret None)%serr.

Definition get_all (self : DB) (table : string) (order : value) :
    serr St exn (list pydict) :=
  get self table (VStr "AND") order VNone VNone [].

Definition get_by_id (self : DB) (table : string) (value : value) :
    serr St exn (option pydict) :=
  get_single self table [("id", value)].

Definition get_id (self : DB) (table : string) (values : pydict) :
    serr St exn pyobj :=
  if kwargs_clash values
  then raise (TypeError "got multiple values for argument")
  else
    (rows ← get_kw self table values;
     ids ← lift (res_mapM (dict_getitem "id") rows);
     ret (ids_result ids))%serr.

Definition add_unique (self : DB) (table : string) (entry : pydict) (key : string) :
    serr St exn pyobj :=
  if dict_is_empty entry then raise (RuntimeError "No values provided")
  else
    (v ← lift (dict_getitem key entry);
     ids ← get_id self table [(key, v)];
     if negb (pyobj_is_None ids) then ret ids
     else
       (_ ← try_except (add self table entry) (fun _ => ret tt);
        v ← lift (dict_getitem key entry);
        get_id self table [(key, v)]))%serr.

(** ** Lemmas *)

Lemma get_kw_run (self : DB) (table : string) (kwargs : pydict) (st : St) :
  kwargs_clash kwargs = false ->
  get_kw self table kwargs st
  = drv_query (select_sql table kwargs) (_fetchall self) st.
Proof. unfold get_kw. intros ->. apply get_run. Qed.

(** A keyword map without parameter names is a filter map. *)
Lemma select_sql_plain (table : string) (kwargs : pydict) :
  Forall (fun k => k ∉ get_params) (dict_keys kwargs) ->
  select_sql table kwargs = get_sql table (VStr "AND") VNone VNone VNone kwargs.
Proof.
  intros Hk. unfold select_sql, get_param, get_values.
  assert (forall p, p ∈ get_params -> dict_lookup p kwargs = None) as Hp.
  { intros p Hp. apply dict_lookup_None. intros Hin.
    by apply (proj1 (Forall_forall _ _) Hk) in Hin. }
  rewrite !Hp by (apply list_elem_of_In; simpl; tauto). simpl.
  rewrite filter_all; [done|]. intros [k v] Hin. simpl.
  apply (proj1 (Forall_forall _ _) Hk). unfold dict_keys.
  apply list_elem_of_fmap. by exists (k, v).
Qed.

(** The run of [get_id] from the reply of the driver. *)
Lemma get_id_run (self : DB) (table : string) (values : pydict) (st : St) :
  kwargs_clash values = false ->
  get_id self table values st
  = match drv_query (select_sql table values) (_fetchall self) st with
    | (inl e, st') => (inl e, st')
    | (inr rows, st') =>
        (match res_mapM (dict_getitem "id") rows with
         | inl e => inl e
         | inr ids => inr (ids_result ids)
         end, st')
    end.
Proof.
  intros Hc. unfold get_id. rewrite Hc. unfold bind at 1.
  rewrite get_kw_run by done.
  destruct (drv_query _ _ st) as [[e|rows] st']; [done|].
  by destruct (res_mapM _ rows).
Qed.

(** The ids of rows that all have the column. *)
Lemma ids_of_rows (rows : list pydict) (ids : list value) :
  Forall2 (fun row id => dict_lookup "id" row = Some id) rows ids ->
  res_mapM (dict_getitem "id") rows = inr ids.
Proof.
  induction 1 as [|row id rows ids Hrow _ IH]; [done|]. simpl.
  unfold dict_getitem at 1. by rewrite Hrow, IH.
Qed.

Lemma ids_of_rows_missing (rows rows' : list pydict) (row : pydict) :
  Forall (fun r => is_Some (dict_lookup "id" r)) rows ->
  dict_lookup "id" row = None ->
  res_mapM (dict_getitem "id") (rows ++ row :: rows') = inl (KeyError "id").
Proof.
  intros Hrows Hrow. induction Hrows as [|r rows [id Hr] _ IH]; simpl.
  - unfold dict_getitem at 1. by rewrite Hrow.
  - unfold dict_getitem at 1. by rewrite Hr, IH.
Qed.

(** The first lookup of [add_unique] from the reply of the driver. *)
Lemma add_unique_run (self : DB) (table : string) (entry : pydict) (key : string)
    (v : value) (st : St) :
  entry <> [] -> dict_lookup key entry = Some v ->
  add_unique self table entry key st
  = match get_id self table [(key, v)] st with
    | (inl e, st1) => (inl e, st1)
    | (inr ids, st1) =>
        if negb (pyobj_is_None ids) then (inr ids, st1)
        else get_id self table [(key, v)] (add self table entry st1).2
    end.
Proof.
  intros Hne Hv. unfold add_unique, dict_getitem. rewrite Hv.
  destruct entry as [|kv entry]; [done|]. simpl. rewrite bind_lift_inr.
  unfold bind at 1. destruct (get_id _ _ _ st) as [[e|ids] st1]; [done|].
  destruct (pyobj_is_None ids); simpl; [|done].
  unfold bind at 1, try_except.
  destruct (add _ _ _ st1) as [[e|[]] st2]; simpl; by rewrite bind_lift_inr.
Qed.

(** The run of [get_single] from the reply of the driver. *)
Lemma get_single_run (self : DB) (table : string) (values : pydict)
    (st st' : St) (rows : list pydict) :
  kwargs_clash values = false ->
  drv_query (select_sql table values) (_fetchall self) st = (inr rows, st') ->
  get_single self table values st
  = (match rows with
     | [] => inr None
     | [row] => inr (Some row)
     | _ => inl (RuntimeError "get_single returned multiple values")
     end, st').
Proof.
  intros Hc Hq. unfold get_single. rewrite Hc.
  rewrite <- get_kw_run in Hq by done. serr_run Hq.
  by destruct rows as [|row [|row' rows]].
Qed.

(** ** Types

    On a driver whose rows carry an integer id, [get_id] and [add_unique]
    return a value of [ids_type] whenever they return. *)

Lemma ids_of_int_rows (rows : list pydict) :
  Forall has_int_id rows ->
  exists zs, res_mapM (dict_getitem "id") rows = inr (VInt <$> zs).
Proof.
  induction 1 as [|row rows [z Hz] _ [zs IH]]; [by exists []|].
  exists (z :: zs). simpl. unfold dict_getitem at 1. by rewrite Hz, IH.
Qed.

Lemma ids_result_type (zs : list Z) : has_type ids_type (ids_result (VInt <$> zs)) = true.
Proof.
  destruct zs as [|z [|z' zs]]; [done..|].
  simpl. apply forallb_forall. by intros v (z'' & <- & _)%in_map_iff.
Qed.

Section accessors_types.
Context {TI : IntIds D}.

Lemma get_id_type (self : DB) (table : string) (values : pydict) (st st' : St)
    (o : pyobj) :
  get_id self table values st = (inr o, st') -> has_type ids_type o = true.
Proof.
  unfold get_id. destruct (kwargs_clash values) eqn:Hc; [done|].
  unfold bind at 1. rewrite get_kw_run by done.
  destruct (drv_query _ _ st) as [[e|rows] st1] eqn:Hq; [done|].
  destruct (ids_of_int_rows rows (int_ids _ _ _ _ _ Hq)) as [zs ->].
  rewrite bind_lift_inr. intros [= <- <-]. apply ids_result_type.
Qed.

Lemma add_unique_type (self : DB) (table : string) (entry : pydict) (key : string)
    (st st' : St) (o : pyobj) :
  add_unique self table entry key st = (inr o, st') -> has_type ids_type o = true.
Proof.
  unfold add_unique. destruct (dict_is_empty entry); [done|].
  destruct (dict_getitem key entry) as [e|v]; [by rewrite bind_lift_inl|].
  rewrite bind_lift_inr. unfold bind at 1.
  destruct (get_id self table [(key, v)] st) as [[e|ids] st1] eqn:Hg; [done|].
  destruct (negb (pyobj_is_None ids)).
  - intros [= <- <-]. by eapply get_id_type.
  - unfold bind at 1. destruct (try_except _ _ st1) as [[e|[]] st2]; [done|].
    rewrite bind_lift_inr. by apply get_id_type.
Qed.

End accessors_types.

(** ** Invariants and lookups that read only *)

Section accessors_inv.
Context (I : St -> Prop) {DI : DriverInv D I}.

Lemma get_kw_preserves (self : DB) (table : string) (kwargs : pydict) :
  preserves I (get_kw self table kwargs).
Proof. unfold get_kw. solve_preserves. Qed.

Lemma get_single_preserves (self : DB) (table : string) (values : pydict) :
  preserves I (get_single self table values).
Proof. unfold get_single. eauto 12 using get_kw_preserves with preserves. Qed.

Lemma get_all_preserves (self : DB) (table : string) (order : value) :
  preserves I (get_all self table order).
Proof. unfold get_all. solve_preserves. Qed.

Lemma get_by_id_preserves (self : DB) (table : string) (v : value) :
  preserves I (get_by_id self table v).
Proof. apply get_single_preserves. Qed.

Lemma get_id_preserves (self : DB) (table : string) (values : pydict) :
  preserves I (get_id self table values).
Proof. unfold get_id. eauto 12 using get_kw_preserves with preserves. Qed.

Lemma add_unique_inv (self : DB) (table : string) (entry : pydict) (key : string) :
  preserves I (add_unique self table entry key).
Proof. unfold add_unique. eauto 15 using get_id_preserves with preserves. Qed.

End accessors_inv.

(** A driver whose SELECT reads only gives a [get_id] that reads only. *)
Lemma get_id_reads (self : DB) (table : string) (values : pydict) (st : St) :
  (forall sql st, (drv_query sql (_fetchall self) st).2 = st) ->
  (get_id self table values st).2 = st.
Proof.
  intros Hq. unfold get_id. destruct (kwargs_clash values) eqn:Hc; [done|].
  unfold bind at 1. rewrite get_kw_run by done. specialize (Hq (select_sql table values) st).
  destruct (drv_query _ _ st) as [[e|rows] st']; [done|]. simpl in Hq. subst st'.
  unfold bind, lift, ret. by destruct (res_mapM _ rows).
Qed.

(** [add_unique] that has returned ids returns them again, and changes
    nothing, when the lookup reads only. *)
Lemma add_unique_again (self : DB) (table : string) (entry : pydict) (key : string)
    (st st1 : St) (ids : pyobj) :
  (forall v st, (get_id self table [(key, v)] st).2 = st) ->
  add_unique self table entry key st = (inr ids, st1) -> pyobj_is_None ids = false ->
  add_unique self table entry key st1 = (inr ids, st1).
Proof.
  intros Hread Hrun Hids. destruct entry as [|kv entry]; [done|].
  destruct (dict_lookup key (kv :: entry)) as [v|] eqn:Hv;
    [|by unfold add_unique, dict_getitem in Hrun; rewrite Hv in Hrun].
  rewrite (add_unique_run _ _ _ _ v) in Hrun |- * by done.
  assert (get_id self table [(key, v)] st1 = (inr ids, st1)) as ->; [|by rewrite Hids].
  pose proof (Hread v st) as Hst.
  destruct (get_id self table [(key, v)] st) as [[e|ids0] st0] eqn:Hg; [done|].
  simpl in Hst. subst st0. destruct (pyobj_is_None ids0) eqn:H0; simpl in Hrun.
  - rewrite <- Hrun. f_equal. by rewrite <- (Hread v), Hrun.
  - by simplify_eq.
Qed.

(** ** Theorems *)

(** [get_single] returns no row when the statement matches none, the
    row when it matches one, and raises [RuntimeError] when it matches
    more. *)
Theorem get_single_cardinality (self : DB) (table : string) (values : pydict)
    (st st' : St) (rows : list pydict) :
  kwargs_clash values = false ->
  drv_query (select_sql table values) (_fetchall self) st = (inr rows, st') ->
  get_single self table values st
  = (match rows with
     | [] => inr None
     | [row] => inr (Some row)
     | _ => inl (RuntimeError "get_single returned multiple values")
     end, st').
Proof. apply get_single_run. Qed.

(** C10: [get_id] returns [None] for no row, the id for one row, and the
    list of all ids, as long as the rows, for more. *)
Theorem get_id_cardinality (self : DB) (table : string) (values : pydict)
    (st st' : St) (rows : list pydict) (ids : list value) :
  kwargs_clash values = false ->
  drv_query (select_sql table values) (_fetchall self) st = (inr rows, st') ->
  Forall2 (fun row id => dict_lookup "id" row = Some id) rows ids ->
  length ids = length rows
  /\ get_id self table values st
     = (inr match ids with
            | [] => OValue VNone
            | [id] => OValue id
            | _ => OList ids
            end, st').
Proof.
  intros Hc Hq Hids. split; [symmetry; by eapply Forall2_length|].
  rewrite get_id_run, Hq by done. by rewrite (ids_of_rows rows ids).
Qed.

(** A row without the column [id] makes [get_id] raise [KeyError]. *)
Theorem get_id_missing_column (self : DB) (table : string) (values : pydict)
    (st st' : St) (rows rows' : list pydict) (row : pydict) :
  kwargs_clash values = false ->
  drv_query (select_sql table values) (_fetchall self) st
    = (inr (rows ++ row :: rows'), st') ->
  Forall (fun r => is_Some (dict_lookup "id" r)) rows ->
  dict_lookup "id" row = None ->
  get_id self table values st = (inl (KeyError "id"), st').
Proof.
  intros Hc Hq Hrows Hrow. rewrite get_id_run, Hq by done.
  by rewrite ids_of_rows_missing.
Qed.

(** One row whose id is NULL makes [get_id] return [None], which is
    also its answer for no row at all. *)
Theorem get_id_null_id_looks_absent (self : DB) (table : string) (values : pydict)
    (st st' : St) (row : pydict) :
  kwargs_clash values = false ->
  drv_query (select_sql table values) (_fetchall self) st = (inr [row], st') ->
  dict_lookup "id" row = Some VNone ->
  get_id self table values st = (inr (OValue VNone), st').
Proof.
  intros Hc Hq Hrow. rewrite get_id_run, Hq by done. simpl.
  unfold dict_getitem. by rewrite Hrow.
Qed.

(** C7: when the lookup of [add_unique] finds something, that is returned
    and the driver has seen the one SELECT only: no INSERT is sent. *)
Theorem add_unique_existing (self : DB) (table : string) (entry : pydict)
    (key : string) (v : value) (st st1 : St) (ids : pyobj) :
  entry <> [] -> dict_lookup key entry = Some v ->
  get_id self table [(key, v)] st = (inr ids, st1) ->
  pyobj_is_None ids = false ->
  add_unique self table entry key st = (inr ids, st1).
Proof.
  intros Hne Hv Hget Hids. rewrite (add_unique_run _ _ _ _ v), Hget by done.
  by rewrite Hids.
Qed.

(** C4: when the lookup of [add_unique] finds nothing, the entry is
    inserted, whatever the insert raises is swallowed, and the answer is
    that of a second lookup in the state the insert left. *)
Theorem add_unique_swallows (self : DB) (table : string) (entry : pydict)
    (key : string) (v : value) (st st1 st2 : St) (r : exn + unit) :
  entry <> [] -> dict_lookup key entry = Some v ->
  get_id self table [(key, v)] st = (inr (OValue VNone), st1) ->
  add self table entry st1 = (r, st2) ->
  add_unique self table entry key st = get_id self table [(key, v)] st2.
Proof.
  intros Hne Hv Hget Hadd. rewrite (add_unique_run _ _ _ _ v), Hget by done.
  simpl. by rewrite Hadd.
Qed.

(** On a connection made from an URI that does not start with
    "sqlite", [add_unique] of an entry with a text value never inserts:
    the [AttributeError] of the escaper is swallowed and the second lookup
    runs in the state the first one left. *)
Theorem add_unique_no_sqlite_never_inserts (uri table : string) (entry : pydict)
    (key : string) (v w : value) (st st1 : St) :
  String.prefix "sqlite" uri = false ->
  dict_lookup key entry = Some v ->
  w ∈ dict_values entry -> is_number w = false -> w <> VNone ->
  get_id (__init__ uri) table [(key, v)] st = (inr (OValue VNone), st1) ->
  add_unique (__init__ uri) table entry key st
  = get_id (__init__ uri) table [(key, v)] st1.
Proof.
  intros Huri Hv Hw Hn Hnone Hget.
  rewrite (add_unique_run _ _ _ _ v), Hget; [|by intros ->|done]. simpl.
  rewrite (add_missing_attr _ _ _ w); [done|by apply init_no_sqlite|done..].
Qed.

(** A keyword named like a parameter of [get] is bound to that
    parameter and never becomes a filter. *)
Theorem get_values_drops_params (kwargs : pydict) (key : string) (v : value) :
  key ∈ get_params ->
  get_filters (get_values ((key, v) :: kwargs)) = get_filters (get_values kwargs).
Proof. intros Hk. unfold get_values. by rewrite filter_cons_False by auto. Qed.

(** [get_by_id] sends a SELECT on the table with the one filter on
    [id] and no ORDER BY, LIMIT or OFFSET. *)
Theorem get_by_id_sql (table : string) (v : value) :
  select_sql table [("id", v)]
  = "SELECT * FROM " +:+ table +:+ "  WHERE " +:+ get_filter ("id", v).
Proof.
  rewrite select_sql_plain
    by (apply Forall_cons; split; [by apply (bool_decide_unpack _)|constructor]).
  unfold get_sql, get_filters. simpl. by autorewrite with str.
Qed.

End accessors.

#[export] Hint Resolve get_kw_preserves get_single_preserves get_all_preserves
  get_by_id_preserves get_id_preserves add_unique_inv : preserves.

(** ** One statement per call *)

Section accessors_sends.
Context {ND : NumberDetect} {St : Type} (D : Driver St).

Lemma get_kw_sends (self : DB) (table : string) (kwargs : pydict) :
  sends 1 (get_kw (D:=logged_driver D) self table kwargs).
Proof.
  unfold get_kw. destruct (kwargs_clash kwargs); [|apply get_sends].
  by apply (sends_mono 0), sends_pure; [lia|].
Qed.

(** An accessor that reads the rows of one [get]. *)
Lemma get_kw_then_sends {A : Type} (self : DB) (table : string) (kwargs : pydict)
    (k : list pydict -> serr (St * list string) exn A) :
  (forall rows st, (k rows st).2 = st) ->
  sends 1 (if kwargs_clash kwargs
           then raise (TypeError "got multiple values for argument")
           else bind (get_kw (D:=logged_driver D) self table kwargs) k).
Proof.
  intros Hk. destruct (kwargs_clash kwargs) eqn:Hc.
  - by apply (sends_mono 0), sends_pure; [lia|].
  - apply (sends_bind 1 0); [apply get_kw_sends|]. intros rows. by apply sends_pure.
Qed.

Lemma get_single_sends (self : DB) (table : string) (values : pydict) :
  sends 1 (get_single (D:=logged_driver D) self table values).
Proof. apply get_kw_then_sends. intros rows st. by repeat case_match. Qed.

Lemma get_id_sends (self : DB) (table : string) (values : pydict) :
  sends 1 (get_id (D:=logged_driver D) self table values).
Proof.
  apply get_kw_then_sends. intros rows st. unfold bind, lift, ret.
  by destruct (res_mapM _ rows).
Qed.

Lemma add_unique_sends (self : DB) (table : string) (entry : pydict) (key : string) :
  sends 3 (add_unique (D:=logged_driver D) self table entry key).
Proof.
  unfold add_unique. destruct (dict_is_empty entry).
  { by apply (sends_mono 0), sends_pure; [lia|]. }
  apply (sends_bind 0 3); [by apply sends_pure|]. intros v.
  apply (sends_bind 1 2); [apply get_id_sends|]. intros ids.
  destruct (negb (pyobj_is_None ids)); [by apply (sends_mono 0), sends_pure; [lia|]|].
  apply (sends_bind 1 1).
  - apply (sends_try_except 1 0); [apply add_sends|]. intros e. by apply sends_pure.
  - intros _. apply (sends_bind 0 1); [by apply sends_pure|]. intros v'. apply get_id_sends.
Qed.

End accessors_sends.

(** C35: every call of a builder or an accessor sends at most one
    statement to the driver, whether it returns or raises; [add_unique]
    sends at most three, its two lookups and its insert. *)
Theorem statements_sent {ND : NumberDetect} {St : Type} (D : Driver St) (self : DB)
    (table key : string) (logic order limit offset id : value)
    (values entry conditions : pydict) (entries : list pydict) :
  sends 1 (get (D:=logged_driver D) self table logic order limit offset values)
  /\ sends 1 (add (D:=logged_driver D) self table entry)
  /\ sends 1 (add_bulk (D:=logged_driver D) self table entries)
  /\ sends 1 (update (D:=logged_driver D) self table entry conditions)
  /\ sends 1 (delete (D:=logged_driver D) self table id)
  /\ sends 1 (purge (D:=logged_driver D) self table)
  /\ sends 1 (get_single (D:=logged_driver D) self table values)
  /\ sends 1 (get_by_id (D:=logged_driver D) self table id)
  /\ sends 1 (get_all (D:=logged_driver D) self table order)
  /\ sends 1 (get_id (D:=logged_driver D) self table values)
  /\ sends 3 (add_unique (D:=logged_driver D) self table entry key).
Proof.
  repeat split;
    auto using get_sends, add_sends, add_bulk_sends, update_sends, delete_sends,
      purge_sends, get_single_sends, get_id_sends, add_unique_sends.
  - apply get_single_sends.
  - apply get_sends.
Qed.

(** ** Concrete runs

    The theorems above on an sqlite connection and the replay driver,
    wrapped in the logger where the statements sent matter. *)

Lemma get_single_cardinality_witness :
  get_single (__init__ "sqlite:///test.db") "t" [("name", VStr "x")]
    (replaying [inr [[("id", VInt 1)]; [("id", VInt 2)]]])
  = (inl (RuntimeError "get_single returned multiple values"), replaying []).
Proof.
  by apply (get_single_cardinality _ _ _ _ _ [[("id", VInt 1)]; [("id", VInt 2)]]).
Defined.

Lemma get_id_cardinality_witness :
  length [VInt 1; VInt 2; VInt 3] = length [[("id", VInt 1)]; [("id", VInt 2)]; [("id", VInt 3)]]
  /\ get_id (__init__ "sqlite:///test.db") "t" [("name", VStr "x")]
       (replaying [inr [[("id", VInt 1)]; [("id", VInt 2)]; [("id", VInt 3)]]])
     = (inr (OList [VInt 1; VInt 2; VInt 3]), replaying []).
Proof. apply get_id_cardinality; [done..|by repeat constructor]. Defined.

Lemma get_id_missing_column_witness :
  get_id (__init__ "sqlite:///test.db") "t" [("name", VStr "x")]
    (replaying [inr [[("id", VInt 1)]; [("name", VStr "x")]]])
  = (inl (KeyError "id"), replaying []).
Proof.
  apply (get_id_missing_column _ _ _ _ _ [[("id", VInt 1)]] [] [("name", VStr "x")]);
    [done..|by repeat constructor|done].
Defined.

Lemma get_id_null_id_looks_absent_witness :
  get_id (__init__ "sqlite:///test.db") "t" [("name", VStr "x")]
    (replaying [inr [[("id", VNone); ("name", VStr "x")]]])
  = (inr (OValue VNone), replaying []).
Proof.
  by apply (get_id_null_id_looks_absent _ _ _ _ _ [("id", VNone); ("name", VStr "x")]).
Defined.

Lemma add_unique_existing_witness :
  add_unique (D:=logged_driver replay_driver) (__init__ "sqlite:///test.db") "t"
    [("name", VStr "x"); ("age", VInt 5)] "name"
    (replaying [inr [[("id", VInt 7)]]], [])
  = (inr (OValue (VInt 7)),
     (replaying [], ["SELECT * FROM t  WHERE  name = 'x'"])).
Proof. by apply (add_unique_existing _ _ _ _ (VStr "x")). Defined.

Lemma add_unique_swallows_witness :
  add_unique (D:=logged_driver replay_driver) (__init__ "sqlite:///test.db") "t"
    [("name", VStr "x")] "name"
    (replaying [inr []; inl (DriverError "UNIQUE constraint failed"); inr [[("id", VInt 7)]]], [])
  = get_id (D:=logged_driver replay_driver) (__init__ "sqlite:///test.db") "t"
      [("name", VStr "x")]
      (replaying [inr [[("id", VInt 7)]]],
       ["SELECT * FROM t  WHERE  name = 'x'"; "INSERT INTO t (name) VALUES ('x')"]).
Proof.
  by apply (add_unique_swallows _ _ _ _ (VStr "x") _
              (replaying [inl (DriverError "UNIQUE constraint failed"); inr [[("id", VInt 7)]]],
               ["SELECT * FROM t  WHERE  name = 'x'"])
              _ (inl (DriverError "UNIQUE constraint failed"))).
Defined.

Lemma add_unique_no_sqlite_never_inserts_witness :
  add_unique (D:=logged_driver replay_driver) (__init__ "postgresql://u:p@localhost/db")
    "t" [("name", VStr "x")] "name" (replaying [inr []; inr []], [])
  = get_id (D:=logged_driver replay_driver) (__init__ "postgresql://u:p@localhost/db")
      "t" [("name", VStr "x")]
      (replaying [inr []], ["SELECT * FROM t  WHERE  name = 'x'"]).
Proof.
  apply (add_unique_no_sqlite_never_inserts _ _ _ _ (VStr "x") (VStr "x"));
    [done|done|by left|done|done|done].
Defined.

Lemma get_values_drops_params_witness :
  get_filters (get_values [("limit", VInt 1); ("name", VStr "x")])
  = get_filters (get_values [("name", VStr "x")]).
Proof. apply get_values_drops_params. by apply (bool_decide_unpack _). Defined.

(** A run of [add_unique] that inserts: the statements in the order sent. *)
Example add_unique_example :
  add_unique (D:=logged_driver replay_driver) (__init__ "sqlite:///test.db") "t"
    [("name", VStr "O'Brien")] "name"
    (replaying [inr []; inr []; inr [[("id", VInt 1)]]], [])
  = (inr (OValue (VInt 1)),
     (replaying [],
      ["SELECT * FROM t  WHERE  name = 'O''Brien'";
       "INSERT INTO t (name) VALUES ('O''Brien')";
       "SELECT * FROM t  WHERE  name = 'O''Brien'"])).
Proof. reflexivity. Qed.
