(* ===== verification/Script.v ===== *)
(** * Loading a script

    [from_file] (lines 58-83) reads a file, replaces its newlines by
    blanks, splits the text at every semicolon and executes the parts that
    are not blank, in order.  The file system is a function from names to
    the contents of the regular files; [str_replace], [str_split] and
    [str_strip] are the string methods the code calls.  The theorems give
    the statements sent, the round trip between splitting and joining,
    and when the parts are whole statements for the scanner of
    [SqlScan]. *)

From S2P Require Import Prelude PyValue Escaper SqlScan Driver.

(** ** The string methods *)

(** [s.replace(c, repl)] for a one-character [c]. *)
Definition str_replace (c : ascii) (repl : string) (s : string) : string :=
  re_sub_char c repl s.

(** [s.split(c)]: the parts between the occurrences of [c]; one part more
    than there are occurrences, so never the empty list. *)
Fixpoint str_split (c : ascii) (s : string) : list string :=
  match s with
  | EmptyString => [EmptyString]
  | String a s' =>
      if Ascii.eqb a c then EmptyString :: str_split c s'
      else match str_split c s' with
           | [] => [String a EmptyString]
           | part :: parts => String a part :: parts
           end
  end.

(** [c.isspace()] for a character below 256: the controls 9 to 13 and 28
    to 31, the blank, NEL and the no-break space. *)
Definition py_isspace (c : ascii) : bool :=
  let n := nat_of_ascii c in
  ((9 <=? n) && (n <=? 13)) || ((28 <=? n) && (n <=? 32))
  || (n =? 133) || (n =? 160).

(** [s.lstrip()], [s.rstrip()] and [s.strip()]. *)
Fixpoint str_lstrip (s : string) : string :=
  match s with
  | EmptyString => EmptyString
  | String a s' => if py_isspace a then str_lstrip s' else s
  end.

Fixpoint str_rstrip (s : string) : string :=
  match s with
  | EmptyString => EmptyString
  | String a s' =>
      match str_rstrip s' with
      | EmptyString => if py_isspace a then EmptyString else String a EmptyString
      | r => String a r
      end
  end.

Definition str_strip (s : string) : string := str_rstrip (str_lstrip s).

(** The number of occurrences of a character. *)
Fixpoint str_count (c : ascii) (s : string) : nat :=
  match s with
  | EmptyString => 0
  | String a s' => (if Ascii.eqb a c then 1 else 0) + str_count c s'
  end.

(** ** The method *)

(** The regular files and their contents: [os.path.isfile] and
    [open(...).read()]. *)
Definition filesystem : Type := string -> option string.

(** [content.replace("\n", " ").split(';')]. *)
Definition script_commands (content : string) : list string :=
  str_split ";" (str_replace "010" " " content).

(** The body of the loop: a blank command is skipped. *)
Definition is_blank (command : string) : bool :=
  bool_decide (str_strip command = EmptyString).

Section script.
Context {St : Type} {D : Driver St}.

Definition from_file (self : DB) (fs : filesystem) (filename : string) :
    serr St exn unit :=
  match fs filename with
  | None => raise (RuntimeError ("Files does not exist '" +:+ filename +:+ "'"))
  | Some content =>
      for_each
        (fun command =>
           if is_blank command then ret tt
           else (_ ← do self command; ret tt)%serr)
        (script_commands content)
  end.

End script.

(** ** Splitting and joining *)

Lemma str_split_not_nil (c : ascii) (s : string) : str_split c s <> [].
Proof. induction s as [|a s IH]; [done|]. simpl. by repeat case_match. Qed.

Lemma str_split_hit (c : ascii) (s : string) :
  str_split c (String c s) = EmptyString :: str_split c s.
Proof. simpl. by rewrite Ascii.eqb_refl. Qed.

Lemma str_split_miss (c a : ascii) (s : string) :
  a <> c ->
  exists part parts, str_split c s = part :: parts
    /\ str_split c (String a s) = String a part :: parts.
Proof.
  intros Ha. simpl. apply Ascii.eqb_neq in Ha. rewrite Ha.
  destruct (str_split c s) as [|part parts] eqn:Hs; [by apply str_split_not_nil in Hs|].
  by exists part, parts.
Qed.

(** Joining the parts with the separator gives the text back. *)
Lemma str_split_concat (c : ascii) (s : string) :
  String.concat (String c EmptyString) (str_split c s) = s.
Proof.
  induction s as [|a s IH]; [done|].
  destruct (decide (a = c)) as [->|Ha].
  - rewrite str_split_hit. destruct (str_split c s) as [|part parts] eqn:Hs.
    { by apply str_split_not_nil in Hs. }
    rewrite Str.concat_cons2, IH. by autorewrite with str.
  - destruct (str_split_miss c a s Ha) as (part & parts & Hs & ->).
    rewrite Hs in IH. rewrite <- IH. destruct parts; [done|].
    rewrite !Str.concat_cons2. by autorewrite with str.
Qed.

(** No part holds the separator. *)
Lemma str_split_free (c : ascii) (s : string) :
  Forall (fun part => Str.mem c part = false) (str_split c s).
Proof.
  induction s as [|a s IH]; [by repeat constructor|].
  destruct (decide (a = c)) as [->|Ha].
  - rewrite str_split_hit. by constructor.
  - destruct (str_split_miss c a s Ha) as (part & parts & Hs & ->).
    rewrite Hs in IH. apply Forall_cons in IH as [Hp Hps].
    constructor; [|done]. simpl. apply Ascii.eqb_neq in Ha. by rewrite Ha.
Qed.

(** Splitting a join of parts without the separator gives the parts. *)
Lemma str_split_app_free (c : ascii) (part rest : string) :
  Str.mem c part = false ->
  str_split c (part +:+ String c rest) = part :: str_split c rest.
Proof.
  induction part as [|a part IH]; intros Hp.
  - apply str_split_hit.
  - simpl in Hp. destruct (Ascii.eqb a c) eqn:Ha; [done|].
    rewrite Str.app_cons. simpl. by rewrite Ha, IH.
Qed.

Lemma str_split_single (c : ascii) (part : string) :
  Str.mem c part = false -> str_split c part = [part].
Proof.
  induction part as [|a part IH]; [done|]. simpl.
  destruct (Ascii.eqb a c); [done|]. intros Hp. by rewrite IH.
Qed.

Lemma str_split_of_concat (c : ascii) (parts : list string) :
  parts <> [] -> Forall (fun part => Str.mem c part = false) parts ->
  str_split c (String.concat (String c EmptyString) parts) = parts.
Proof.
  intros Hne Hparts. induction Hparts as [|part parts Hp Hps IH]; [done|].
  destruct parts as [|part' parts]; [by apply str_split_single|].
  rewrite Str.concat_cons2, Str.app_cons, Str.app_nil_l.
  rewrite str_split_app_free by done. by rewrite IH.
Qed.

Lemma str_split_length (c : ascii) (s : string) :
  length (str_split c s) = S (str_count c s).
Proof.
  induction s as [|a s IH]; [done|]. simpl.
  destruct (Ascii.eqb a c); simpl; [by rewrite IH|].
  destruct (str_split c s); simpl in *; [done|lia].
Qed.

(** A character that is not in the text is in no part. *)
Lemma str_split_mem (c a : ascii) (s : string) :
  Str.mem a s = false -> Forall (fun part => Str.mem a part = false) (str_split c s).
Proof.
  induction s as [|b s IH]; [by repeat constructor|]. simpl.
  destruct (Ascii.eqb b a) eqn:Hb; [done|]. intros Hs.
  destruct (Ascii.eqb b c); [by constructor; [|apply IH]|].
  destruct (str_split c s) as [|part parts]; [by repeat constructor; simpl; rewrite Hb|].
  apply Forall_cons in IH as [Hp Hps]; [|done].
  constructor; [|done]. simpl. by rewrite Hb.
Qed.

(** Replacing a character removes it. *)
Lemma str_replace_mem (c : ascii) (repl s : string) :
  Str.mem c repl = false -> Str.mem c (str_replace c repl s) = false.
Proof.
  intros Hr. unfold str_replace. induction s as [|a s IH]; [done|].
  destruct (decide (a = c)) as [->|Ha].
  - by rewrite re_sub_char_hit, Str.mem_app, Hr, IH.
  - rewrite re_sub_char_miss by done. simpl. apply Ascii.eqb_neq in Ha. by rewrite Ha.
Qed.

(** ** Blank commands *)

(** Replacing a character by another leaves the count of a third as it
    is. *)
Lemma str_count_replace (s : string) :
  str_count ";" (str_replace "010" " " s) = str_count ";" s.
Proof.
  unfold str_replace. induction s as [|a s IH]; [done|].
  destruct (decide (a = "010"%char)) as [->|Ha].
  - rewrite re_sub_char_hit. change (" " +:+ ?x) with (String " " x).
    change (str_count ";" (String ?b ?x))
      with ((if Ascii.eqb b ";" then 1 else 0) + str_count ";" x). by rewrite IH.
  - rewrite re_sub_char_miss by done.
    change (str_count ";" (String ?b ?x))
      with ((if Ascii.eqb b ";" then 1 else 0) + str_count ";" x). by rewrite IH.
Qed.

Lemma str_lstrip_blank (s : string) :
  Str.forallb py_isspace s = true -> str_lstrip s = EmptyString.
Proof.
  induction s as [|a s IH]; [done|]. simpl.
  intros [-> Hs]%andb_prop. by apply IH.
Qed.

Lemma str_lstrip_head (s : string) :
  Str.forallb py_isspace s = false ->
  exists a s', str_lstrip s = String a s' /\ py_isspace a = false.
Proof.
  induction s as [|a s IH]; [done|]. simpl.
  destruct (py_isspace a) eqn:Ha; [apply IH|]. intros _. by exists a, s.
Qed.

Lemma str_rstrip_head (a : ascii) (s : string) :
  py_isspace a = false -> str_rstrip (String a s) <> EmptyString.
Proof. intros Ha. simpl. rewrite Ha. by destruct (str_rstrip s). Qed.

(** A command is skipped exactly when all its characters are white
    space. *)
Lemma is_blank_spec (command : string) :
  is_blank command = Str.forallb py_isspace command.
Proof.
  unfold is_blank, str_strip. destruct (Str.forallb py_isspace command) eqn:Hb.
  - rewrite str_lstrip_blank by done. by apply bool_decide_eq_true_2.
  - destruct (str_lstrip_head _ Hb) as (a & s' & -> & Ha).
    apply bool_decide_eq_false_2. by apply str_rstrip_head.
Qed.

(** ** Quotes and whole statements *)

Definition is_inside (m : scan_mode) : bool :=
  match m with
  | Inside _ => true
  | _ => false
  end.

(** The text of the literal being read. *)
Definition mode_text (m : scan_mode) : string :=
  match m with
  | Outside => EmptyString
  | Inside cur | Pending cur => cur
  end.

(** A quote toggles between inside and outside; nothing else does. *)
Lemma scan_step_inside (s : scan) (c : ascii) :
  is_inside (mode (scan_step s c)) = xorb (is_inside (mode s)) (Ascii.eqb c "'").
Proof. unfold scan_step. by destruct (mode s), (Ascii.eqb c "'"). Qed.

Lemma scan_run_parity (s : scan) (t : string) :
  is_inside (mode (scan_run s t))
  = xorb (is_inside (mode s)) (Nat.odd (str_count "'" t)).
Proof.
  revert s. induction t as [|c t IH]; intros s; simpl.
  { by rewrite xorb_false_r. }
  rewrite IH, scan_step_inside. destruct (Ascii.eqb c "'"); simpl; [|by rewrite xorb_false_r].
  rewrite Nat.odd_succ, <- Nat.negb_odd. by destruct (is_inside _), (Nat.odd _).
Qed.

Lemma scan_end_is_Some (s : scan) : is_Some (scan_end s) <-> is_inside (mode s) = false.
Proof. unfold scan_end. destruct (mode s); simpl; split; by rewrite ?is_Some_alt. Qed.

(** A text is a whole statement for the scanner exactly when its quotes
    are even in number. *)
Lemma sql_scan_whole (t : string) :
  is_Some (sql_scan t) <-> Nat.odd (str_count "'" t) = false.
Proof. unfold sql_scan. by rewrite scan_end_is_Some, scan_run_parity. Qed.

(** The character [c] is in a literal read so far. *)
Definition lit_holds (c : ascii) (s : scan) : Prop :=
  Exists (fun l => Str.mem c l = true) (lits s) \/ Str.mem c (mode_text (mode s)) = true.

Lemma lit_holds_step (c : ascii) (s : scan) (a : ascii) :
  lit_holds c s -> lit_holds c (scan_step s a).
Proof.
  unfold lit_holds, scan_step. intros [Hl|Hm].
  - left. destruct (mode s), (Ascii.eqb a "'"); simpl; try done.
    apply Exists_app. by left.
  - destruct (mode s) as [|cur|cur], (Ascii.eqb a "'"); simpl in *; try done;
      try (right; by rewrite ?Str.mem_app, Hm).
    left. apply Exists_app. right. by constructor.
Qed.

Lemma lit_holds_run (c : ascii) (s : scan) (t : string) :
  lit_holds c s -> lit_holds c (scan_run s t).
Proof.
  revert s. induction t as [|a t IH]; intros s Hs; [done|].
  simpl. by apply IH, lit_holds_step.
Qed.

Lemma lit_holds_end (c : ascii) (s : scan) (sk : string) (ls : list string) :
  lit_holds c s -> scan_end s = Some (sk, ls) ->
  Exists (fun l => Str.mem c l = true) ls.
Proof.
  unfold lit_holds, scan_end. intros [Hl|Hm]; destruct (mode s); intros [= _ <-];
    try done; try (apply Exists_app; by left).
  apply Exists_app. right. by constructor.
Qed.

(** When no literal of a text holds a semicolon, the scanner is outside
    any literal at every semicolon of the text. *)
Lemma semicolon_outside (s : scan) (t u sk : string) (ls : list string) :
  scan_end (scan_run s (t +:+ String ";" u)) = Some (sk, ls) ->
  Forall (fun l => Str.mem ";" l = false) ls ->
  is_inside (mode (scan_run s t)) = false.
Proof.
  rewrite scan_run_app. simpl. intros Hend Hls.
  destruct (mode (scan_run s t)) as [|cur|cur] eqn:Hm; [done| |done].
  assert (lit_holds ";" (scan_step (scan_run s t) ";")) as Hh.
  { right. unfold scan_step. rewrite Hm. simpl. by rewrite Str.mem_app, orb_true_r. }
  apply (lit_holds_run _ _ u), (lit_holds_end _ _ sk ls) in Hh; [|done].
  apply Exists_exists in Hh as (l & Hl & Hsemi).
  apply (proj1 (Forall_forall _ _) Hls) in Hl. congruence.
Qed.

(** The parts of a join by semicolons have their quotes even in number
    when the whole scans and no literal holds a semicolon. *)
Lemma parts_whole (parts : list string) (s : scan) (sk : string) (ls : list string) :
  is_inside (mode s) = false ->
  scan_end (scan_run s (String.concat ";" parts)) = Some (sk, ls) ->
  Forall (fun l => Str.mem ";" l = false) ls ->
  Forall (fun part => Nat.odd (str_count "'" part) = false) parts.
Proof.
  revert s. induction parts as [|part [|part' parts] IH]; intros s Hs Hend Hls.
  - done.
  - repeat constructor. rewrite Str.concat_singleton in Hend.
    assert (is_Some (scan_end (scan_run s part))) as Hsome by by rewrite Hend.
    apply scan_end_is_Some in Hsome. by rewrite scan_run_parity, Hs in Hsome.
  - rewrite Str.concat_cons2, Str.app_cons, Str.app_nil_l in Hend.
    pose proof (semicolon_outside _ _ _ _ _ Hend Hls) as Hpart.
    constructor; [by rewrite scan_run_parity, Hs in Hpart|].
    rewrite scan_run_app in Hend. simpl in Hend.
    apply (IH (scan_step (scan_run s part) ";")); [|done..].
    by rewrite scan_step_inside, Hpart.
Qed.

(** ** Theorems *)

Section script_theorems.
Context {St : Type} {D : Driver St}.

(** The loop of [from_file] as a sequence of statements. *)
Lemma from_file_exec (self : DB) (fs : filesystem) (filename : string) (st : St) :
  from_file self fs filename st
  = match fs filename with
    | None =>
        (inl (RuntimeError ("Files does not exist '" +:+ filename +:+ "'")), st)
    | Some content =>
        exec_seq (_fetchall self)
          (filter (fun command => is_blank command = false) (script_commands content)) st
    end.
Proof.
  unfold from_file. destruct (fs filename) as [content|]; [|done].
  rewrite for_each_skip, (for_each_do self id). by rewrite list_fmap_id.
Qed.

Lemma from_file_preserves (I : St -> Prop) `{!DriverInv D I} (self : DB)
    (fs : filesystem) (filename : string) :
  preserves I (from_file self fs filename).
Proof. unfold from_file. solve_preserves. Qed.

(** C8: [from_file] of a name that is no regular file raises
    [RuntimeError] and sends nothing; of a file, it sends the parts of the
    content between semicolons that are not blank, in order, up to the
    first that raises, and no part sent holds a semicolon or a newline. *)
Theorem from_file_run (self : DB) (fs : filesystem) (filename : string) (st : St) :
  from_file self fs filename st
  = match fs filename with
    | None =>
        (inl (RuntimeError ("Files does not exist '" +:+ filename +:+ "'")), st)
    | Some content =>
        exec_seq (_fetchall self)
          (filter (fun command => is_blank command = false) (script_commands content)) st
    end
  /\ forall content command,
       fs filename = Some content -> command ∈ script_commands content ->
       Str.mem ";" command = false /\ Str.mem "010" command = false.
Proof.
  split; [apply from_file_exec|].
  intros content command _ Hin. unfold script_commands in Hin. split.
  - revert command Hin. apply Forall_forall, str_split_free.
  - revert command Hin. apply Forall_forall, str_split_mem. by apply str_replace_mem.
Qed.

End script_theorems.

#[export] Hint Resolve from_file_preserves : preserves.

(** A script with [n] semicolons makes [from_file] send at most
    [n + 1] statements: what it sends is a prefix of the parts of the
    content that are not blank. *)
Theorem from_file_bound {St : Type} (D : Driver St) (self : DB) (fs : filesystem)
    (filename content : string) (st : St) :
  fs filename = Some content ->
  let log := sent (from_file (D:=logged_driver D) self fs filename) st in
  log `prefix_of` filter (fun command => is_blank command = false) (script_commands content)
  /\ length log <= S (str_count ";" content).
Proof.
  intros Hfile log. unfold log, sent. rewrite from_file_exec, Hfile.
  destruct (exec_seq_logged D (_fetchall self)
              (filter (fun command => is_blank command = false) (script_commands content))
              st []) as [k ->].
  rewrite app_nil_l. split; [apply prefix_take|].
  rewrite length_take, Nat.le_min_r. etrans; [apply length_filter|].
  unfold script_commands. by rewrite str_split_length, str_count_replace.
Qed.

(** Splitting at a character and joining with it are inverse: the
    join of the parts is the text, and the parts of a join of texts
    without the character are those texts. *)
Theorem str_split_roundtrip (c : ascii) (s : string) (parts : list string) :
  String.concat (String c EmptyString) (str_split c s) = s
  /\ (parts <> [] -> Forall (fun part => Str.mem c part = false) parts ->
      str_split c (String.concat (String c EmptyString) parts) = parts)
  /\ length (str_split c s) = S (str_count c s).
Proof.
  split; [apply str_split_concat|].
  split; [apply str_split_of_concat|apply str_split_length].
Qed.

(** When the content of a script scans as a whole and none of its
    literals holds a semicolon, every command [from_file] cuts out of it
    is a whole statement: no command ends inside a literal. *)
Theorem script_commands_whole (content sk : string) (ls : list string) :
  sql_scan (str_replace "010" " " content) = Some (sk, ls) ->
  Forall (fun l => Str.mem ";" l = false) ls ->
  Forall (fun command => is_Some (sql_scan command)) (script_commands content).
Proof.
  intros Hscan Hls. unfold script_commands, sql_scan in *.
  rewrite <- (str_split_concat ";" (str_replace _ _ content)) in Hscan.
  eapply Forall_impl; [by eapply (parts_whole _ scan_start)|].
  intros command Hc. by apply sql_scan_whole.
Qed.

(** A command is skipped exactly when all its characters are white
    space. *)
Theorem is_blank_whitespace (command : string) :
  is_blank command = true <-> Str.forallb py_isspace command = true.
Proof. by rewrite is_blank_spec. Qed.

(** ** Concrete runs *)

Lemma from_file_bound_witness :
  length (sent (from_file (D:=logged_driver replay_driver) (__init__ "sqlite:///test.db")
                  (fun _ => Some "DELETE FROM t; ;DELETE FROM u") "init.sql")
            (replaying [inr []; inr []]))
  <= 3.
Proof.
  by apply (from_file_bound replay_driver (__init__ "sqlite:///test.db")
              (fun _ => Some "DELETE FROM t; ;DELETE FROM u") "init.sql"
              "DELETE FROM t; ;DELETE FROM u").
Defined.

Lemma script_commands_whole_witness :
  Forall (fun command => is_Some (sql_scan command))
    (script_commands "INSERT INTO t (a) VALUES ('it''s');
DELETE FROM t;").
Proof.
  refine (script_commands_whole
            "INSERT INTO t (a) VALUES ('it''s');
DELETE FROM t;" _ _ _ _); [vm_compute; reflexivity|by repeat constructor].
Defined.

(** A script of two statements with blank lines. *)
Example from_file_example :
  from_file (D:=logged_driver replay_driver) (__init__ "sqlite:///test.db")
    (fun name => if String.eqb name "init.sql"
                 then Some "CREATE TABLE t (a text);

INSERT INTO t (a) VALUES ('x');
"
                 else None)
    "init.sql" (replaying [inr []; inr []], [])
  = (inr tt,
     (replaying [],
      ["CREATE TABLE t (a text)"; "  INSERT INTO t (a) VALUES ('x')"])).
Proof. reflexivity. Qed.

(** A semicolon inside a literal cuts the statement in two commands,
    neither of which is a whole statement, and a newline inside a literal
    reaches the database as a blank. *)
Example script_commands_literal :
  script_commands "INSERT INTO t (a) VALUES ('x;y')"
  = ["INSERT INTO t (a) VALUES ('x"; "y')"]
  /\ sql_scan "INSERT INTO t (a) VALUES ('x" = None
  /\ sql_scan "y')" = None
  /\ script_commands "INSERT INTO t (a) VALUES ('x
y')"
     = ["INSERT INTO t (a) VALUES ('x y')"].
Proof. by repeat split. Qed.
