(* ===== verification/Loops.v ===== *)
(** * The loops as machines

    Two [for] statements of the class send a statement to the database
    in each iteration: the loops of [from_file] and of [drop_tables], over
    a list computed before the loop starts.  (The other loops build text
    and are list functions in [Builder].)  [loop_step] is such a loop as
    a machine that takes one element a step, [loop_next] its step as a
    function and [loop_run] the machine run for a number of steps.  This
    file shows that the machine halts from every configuration, within
    one step for each element and one more, and that the configuration it
    halts in is the result of [for_each], which the other files use as
    the loop. *)

From stdpp Require Import relations.
From S2P Require Import Prelude PyValue Escaper SqlScan Driver Builder Script.

(** A configuration of [for x in l: body]: the elements not yet taken, or
    the way the loop was left. *)
Inductive config (St E A : Type) : Type :=
| Running (rest : list A) (st : St)
| Returned (st : St)
| Raised (e : E) (st : St).
Arguments Running {St E A} rest st.
Arguments Returned {St E A} st.
Arguments Raised {St E A} e st.


Section loop.
Context {St E A : Type} (body : A -> serr St E unit).

(** One step: the next element is taken and the body run on it, the loop
    left when the body raises or no element remains. *)
Inductive loop_step : config St E A -> config St E A -> Prop :=
| step_exhausted st :
    loop_step (Running [] st) (Returned st)
| step_next x rest st st' :
    body x st = (inr tt, st') ->
    loop_step (Running (x :: rest) st) (Running rest st')
| step_raise x rest st e st' :
    body x st = (inl e, st') ->
    loop_step (Running (x :: rest) st) (Raised e st').

(** The step as a function. *)
Definition loop_next (c : config St E A) : option (config St E A) :=
  match c with
  | Running [] st => Some (Returned st)
  | Running (x :: rest) st =>
      match body x st with
      | (inr _, st') => Some (Running rest st')
      | (inl e, st') => Some (Raised e st')
      end
  | Returned _ | Raised _ _ => None
  end.

(** The machine run for [n] steps at most. *)
Fixpoint loop_run (n : nat) (c : config St E A) : config St E A :=
  match n with
  | 0 => c
  | S n' =>
      match loop_next c with
      | Some c' => loop_run n' c'
      | None => c
      end
  end.

(** The configuration a result of the loop stands for. *)
Definition outcome (r : (E + unit) * St) : config St E A :=
  match r with
  | (inr _, st) => Returned st
  | (inl e, st) => Raised e st
  end.

(** What a configuration comes to: the result of the rest of the loop. *)
Definition result (c : config St E A) : config St E A :=
  match c with
  | Running rest st => outcome (for_each body rest st)
  | _ => c
  end.

(** The steps a configuration has left at most. *)
Definition remaining (c : config St E A) : nat :=
  match c with
  | Running rest _ => S (length rest)
  | _ => 0
  end.

End loop.

(** ** The loops of the class *)

Section loops.
Context {St : Type} {D : Driver St}.

(** The body of the loop of [from_file]: a blank command is skipped, any
    other sent. *)
Definition command_body (self : DB) (command : string) : serr St exn unit :=
  if is_blank command then ret tt else (_ ← do self command; ret tt)%serr.



End loops.

(** ** The machine and [for_each] *)

Section loop_theorems.
Context {St E A : Type} (body : A -> serr St E unit).
Implicit Types c : config St E A.

Lemma loop_step_next c c' : loop_step body c c' <-> loop_next body c = Some c'.
Proof.
  split.
  - intros [st|x rest st st' H|x rest st e st' H]; simpl; [done|(by rewrite H)..].
  - destruct c as [[|x rest] st| |]; simpl; [intros [= <-]; constructor| |done..].
    destruct (body x st) as [[e|[]] st'] eqn:H; intros [= <-]; by econstructor.
Qed.

Lemma loop_step_det c c1 c2 : loop_step body c c1 -> loop_step body c c2 -> c1 = c2.
Proof. rewrite !loop_step_next. congruence. Qed.

Lemma loop_step_remaining c c' : loop_step body c c' -> remaining c' < remaining c.
Proof. destruct 1; simpl; lia. Qed.

Lemma loop_step_result c c' : loop_step body c c' -> result body c' = result body c.
Proof.
  destruct 1 as [st|x rest st st' H|x rest st e st' H]; simpl; [done|(unfold bind; by rewrite H)..].
Qed.


(** A configuration can go no further exactly when the loop was left. *)
Lemma nf_result c : nf (loop_step body) c <-> result body c = c.
Proof.
  unfold nf, red. setoid_rewrite loop_step_next. destruct c as [[|x rest] st| |]; simpl.
  - split; [intros []; by eexists|done].
  - split; [intros []; destruct (body x st) as [[]]; by eexists|].
    unfold bind. destruct (body x st) as [[e|[]] st']; [done|].
    intros H. apply (f_equal remaining) in H. revert H.
    destruct (for_each _ _ _) as [[]]; simpl; lia.
  - split; [done|]. by intros _ [? ?].
  - split; [done|]. by intros _ [? ?].
Qed.




(** Run for the steps that remain, the machine has left the loop. *)
Lemma loop_run_enough (n : nat) c :
  remaining c <= n -> loop_run body n c = result body c.
Proof.
  revert c. induction n as [|n IH]; intros c Hn.
  - destruct c; simpl in *; [lia|done..].
  - simpl. destruct (loop_next body c) as [c'|] eqn:Hnext.
    + apply loop_step_next in Hnext. rewrite <- (loop_step_result _ _ Hnext).
      apply IH. pose proof (loop_step_remaining _ _ Hnext). lia.
    + symmetry. apply nf_result. intros [c' Hc']. apply loop_step_next in Hc'. congruence.
Qed.



End loop_theorems.

(** ** Theorems *)

Section loops_theorems.
Context {St : Type} {D : Driver St}.

(** [from_file] is its guard and its loop. *)
Lemma from_file_loop (self : DB) (fs : filesystem) (filename : string) :
  from_file self fs filename
  = match fs filename with
    | None => raise (RuntimeError ("Files does not exist '" +:+ filename +:+ "'"))
    | Some content => for_each (command_body self) (script_commands content)
    end.
Proof. done. Qed.


End loops_theorems.

(** ** Concrete runs *)

(** Three commands, the second of which is blank and the third of which
    the database rejects: the machine leaves the loop in three steps, with
    the exception raised and two statements sent. *)
Example script_step_run :
  let self := __init__ "sqlite:///test.db" in
  let start : replay * list string := (replaying [inr []; inl (DriverError "no")], []) in
  loop_run (command_body (D:=logged_driver replay_driver) self) 3
    (Running ["DELETE FROM a"; "  "; "DELETE FROM b"; "DELETE FROM c"] start)
  = Raised (DriverError "no") (replaying [], ["DELETE FROM a"; "DELETE FROM b"]).
Proof. reflexivity. Qed.
