(* ===== verification/Catalog.v ===== *)
(** * Table existence

    [table_exist] (lines 100-106) asks the PostgreSQL catalog for a table
    through the method [get_as_dict] of the driver object ([self._db]),
    not of the connection ([self]).  The model looks the method up in the
    driver ([drv_get_as_dict]); a driver that follows the interface of
    [records.Database] has none, and the call raises.  The name is written
    between quotes as it comes. *)

From S2P Require Import Prelude PyValue Escaper SqlScan Driver Builder Injection.

(** [f"SELECT to_regclass('{name}')"]. *)
Definition table_exist_sql (name : string) : string :=
  "SELECT to_regclass('" +:+ name +:+ "')".

(** [l[0]]. *)
Definition list_getitem0 {A : Type} (l : list A) : res exn A :=
  match l with
  | [] => inl (IndexError "list index out of range")
  | x :: _ => inr x
  end.

Section catalog.
Context {St : Type} {D : Driver St}.

Definition table_exist (self : DB) (name : string) : serr St exn bool :=
  let q := table_exist_sql name in
  match drv_get_as_dict with
  | None => raise (AttributeError "get_as_dict")
  | Some get_as_dict =>
      (table ← get_as_dict q;
       row ← lift (list_getitem0 table);
       v ← lift (dict_getitem "to_regclass" row);
       if is_None v then ret false else ret true)%serr
  end.

(** The answer of [table_exist] from the rows the catalog query gave. *)
Definition table_exist_result (rows : list pydict) : res exn bool :=
  match rows with
  | [] => inl (IndexError "list index out of range")
  | row :: _ =>
      match dict_lookup "to_regclass" row with
      | None => inl (KeyError "to_regclass")
      | Some v => inr (negb (is_None v))
      end
  end.

(** C40: on a driver whose object has no method [get_as_dict], as
    [records.Database] has none, [table_exist] raises [AttributeError]
    for every table name and sends nothing. *)
Theorem table_exist_no_method (self : DB) (name : string) (st : St) :
  drv_get_as_dict = None ->
  table_exist self name st = (inl (AttributeError "get_as_dict"), st).
Proof. unfold table_exist. by intros ->. Qed.

(** C12: on a driver object with a method [get_as_dict], [table_exist]
    sends the one catalog query and answers from its first row: [False]
    when the column [to_regclass] is NULL, [True] otherwise; no row raises
    [IndexError], a row without the column [KeyError], and an exception of
    the driver is passed on. *)
Theorem table_exist_run (self : DB) (name : string) (st : St)
    (get_as_dict : string -> serr St exn (list pydict)) :
  drv_get_as_dict = Some get_as_dict ->
  table_exist self name st
  = match get_as_dict (table_exist_sql name) st with
    | (inl e, st') => (inl e, st')
    | (inr rows, st') => (table_exist_result rows, st')
    end.
Proof.
  unfold table_exist. intros ->. unfold bind at 1.
  destruct (get_as_dict _ st) as [[e|[|row rows]] st']; [done..|].
  unfold table_exist_result, dict_getitem. simpl. rewrite bind_lift_inr.
  destruct (dict_lookup "to_regclass" row) as [v|]; [|done].
  rewrite bind_lift_inr. by destruct (is_None v).
Qed.

(** The catalog query for a name without a quote has the name as its
    only literal; a name of the form [a') r ('b] ends the literal, and
    [r] is read as SQL. *)
Theorem table_exist_sql_structure (name r : string) :
  name_ok name -> name_ok r ->
  sql_scan (table_exist_sql name) = Some ("SELECT to_regclass(?)", [name])
  /\ sql_scan (table_exist_sql ("a') " +:+ r +:+ " ('b"))
     = Some ("SELECT to_regclass(?) " +:+ r +:+ " (?)", ["a"; "b"]).
Proof.
  unfold name_ok. intros Hn Hr. split.
  - apply (scan_pieces [Raw "SELECT to_regclass("; Lit name; Raw ")"]); [|done..].
    cbn [render foldr piece_text]. unfold table_exist_sql, sql_quote.
    rewrite re_sub_char_absent by done. by autorewrite with str.
  - apply (scan_pieces [Raw "SELECT to_regclass("; Lit "a"; Raw (") " +:+ r +:+ " (");
                        Lit "b"; Raw ")"]); [| |by (cbn; autorewrite with str)|done].
    + cbn [render foldr piece_text]. unfold table_exist_sql, sql_quote.
      rewrite !re_sub_char_absent by done. by autorewrite with str.
    + cbn [pieces_ok]. by rewrite !Str.mem_app, Hr.
Qed.

End catalog.

(** [table_exist] keeps an invariant that the driver keeps. *)
Lemma table_exist_preserves {St : Type} {D : Driver St} (I : St -> Prop)
    `{!DriverInv D I} (self : DB) (name : string) :
  preserves I (table_exist self name).
Proof.
  unfold table_exist. destruct drv_get_as_dict as [m|] eqn:Hm; [|apply preserves_raise].
  apply preserves_bind; [by apply inv_get_as_dict|]. solve_preserves.
Qed.

#[export] Hint Resolve table_exist_preserves : preserves.

(** ** Concrete runs *)

Lemma table_exist_no_method_witness :
  table_exist (__init__ "postgresql://u:p@localhost/db") "users" (replaying [inr []])
  = (inl (AttributeError "get_as_dict"), replaying [inr []]).
Proof. by apply table_exist_no_method. Defined.

Lemma table_exist_run_witness :
  table_exist (D:=dict_driver) (__init__ "postgresql://u:p@localhost/db") "users"
    (replaying [inr [[("to_regclass", VNone)]]])
  = (inr false, replaying []).
Proof.
  by rewrite (table_exist_run (D:=dict_driver) _ _ _ (fun sql => replay_query sql false)).
Defined.

Lemma table_exist_sql_structure_witness :
  sql_scan (table_exist_sql "users") = Some ("SELECT to_regclass(?)", ["users"])
  /\ sql_scan (table_exist_sql "a') OR (1=1) OR ('b")
     = Some ("SELECT to_regclass(?) OR (1=1) OR (?)", ["a"; "b"]).
Proof. by refine (table_exist_sql_structure "users" "OR (1=1) OR" _ _). Defined.
