(* ===== verification/UriSplit.v ===== *)
(** * Splitting a URI

    [uri_split] (lines 44-48) matches the URI against the regular
    expression made of five named groups, each matching any text, with
    [://], [:], [@] and [/] between them, and returns the groups.  Every
    group is greedy: it takes the longest text without a newline after
    which the rest of the expression still matches.  [greedy] is that
    matcher for any list of separators,
    [last_split] its backtracking over one separator.  The theorems give
    the round trip between the groups and the URI, the URIs that split
    into the parts they were made of, and the URIs that do not match, for
    which the method raises. *)

From S2P Require Import Prelude PyValue Escaper.

(** ** The matcher *)

Definition is_newline (a : ascii) : bool := Ascii.eqb a "010".

(** The rest of [s] after the literal text [sep], when [s] starts with
    it. *)
Fixpoint strip_prefix (sep s : string) : option string :=
  match sep, s with
  | EmptyString, _ => Some s
  | String a sep', String b s' => if Ascii.eqb a b then strip_prefix sep' s' else None
  | String _ _, EmptyString => None
  end.

(** A last group: the text up to the first newline. *)
Fixpoint str_line (s : string) : string :=
  match s with
  | EmptyString => EmptyString
  | String a s' => if is_newline a then EmptyString else String a (str_line s')
  end.

(** The empty group followed by [sep] and by what [k] matches. *)
Definition split_here (sep : string) (k : string -> option (list string)) (s : string) :
    option (string * list string) :=
  match strip_prefix sep s with
  | Some rest =>
      match k rest with
      | Some gs => Some (EmptyString, gs)
      | None => None
      end
  | None => None
  end.

(** A group followed by [sep] and by what [k] matches: the longest
    prefix first. *)
Fixpoint last_split (sep : string) (k : string -> option (list string)) (s : string) :
    option (string * list string) :=
  let here := split_here sep k s in
  match s with
  | EmptyString => here
  | String a s' =>
      if is_newline a then here
      else match last_split sep k s' with
           | Some (p, gs) => Some (String a p, gs)
           | None => here
           end
  end.

(** The groups of the expression with the separators [seps] between
    its groups, matched at the start of [s]. *)
Fixpoint greedy (seps : list string) (s : string) : option (list string) :=
  match seps with
  | [] => Some [str_line s]
  | sep :: seps' =>
      match last_split sep (greedy seps') s with
      | Some (p, gs) => Some (p :: gs)
      | None => None
      end
  end.

(** The text the groups were matched in: the groups with the separators
    between them. *)
Fixpoint weave (gs seps : list string) : string :=
  match gs, seps with
  | g :: gs', sep :: seps' => g +:+ sep +:+ weave gs' seps'
  | g :: _, [] => g
  | [], _ => EmptyString
  end.

(** ** The method *)

(** The separators of the expression, and the names of its groups. *)
Definition uri_seps : list string := ["://"; ":"; "@"; "/"].

Definition uri_groups : list string := ["connector"; "user"; "pass"; "host"; "db"].

(** [re.match(...)]: the groups, or [None]. *)
Definition uri_match (uri : string) : option (list string) := greedy uri_seps uri.

(** [m.groupdict()]. *)
Definition groupdict (gs : list string) : pydict := zip uri_groups (VStr <$> gs).

(** [uri_split(uri=None)]: without an argument the URI of the connection
    is split; [groupdict] of no match raises. *)
Definition uri_split (self : DB) (uri : option string) : res exn pydict :=
  let uri := default (_uri self) uri in
  match uri_match uri with
  | Some gs => inr (groupdict gs)
  | None => inl (AttributeError "groupdict")
  end.

(** A URI made of its five parts. *)
Definition uri_of (connector user pass host db : string) : string :=
  connector +:+ "://" +:+ user +:+ ":" +:+ pass +:+ "@" +:+ host +:+ "/" +:+ db.

(** [sep] occurs in [s]. *)
Fixpoint occurs (sep s : string) : bool :=
  match strip_prefix sep s with
  | Some _ => true
  | None =>
      match s with
      | EmptyString => false
      | String _ s' => occurs sep s'
      end
  end.

(** ** The prefix test *)

Lemma strip_prefix_app (sep rest : string) : strip_prefix sep (sep +:+ rest) = Some rest.
Proof.
  induction sep as [|a sep IH]; [by destruct rest|].
  rewrite Str.app_cons. simpl. by rewrite Ascii.eqb_refl.
Qed.

Lemma strip_prefix_Some (sep s rest : string) :
  strip_prefix sep s = Some rest -> s = sep +:+ rest.
Proof.
  revert s. induction sep as [|a sep IH]; intros s.
  - destruct s; simpl; by intros [= <-].
  - destruct s as [|b s]; [done|]. simpl.
    destruct (Ascii.eqb_spec a b) as [->|]; [|done].
    intros Hs. by rewrite (IH _ Hs).
Qed.

Lemma str_line_id (s : string) : Str.mem "010" s = false -> str_line s = s.
Proof.
  induction s as [|a s IH]; [done|]. simpl. unfold is_newline.
  destruct (Ascii.eqb a "010"); [done|]. intros Hs. by rewrite IH.
Qed.

Lemma occurs_app (sep p rest : string) : occurs sep (p +:+ sep +:+ rest) = true.
Proof.
  induction p as [|a p IH].
  - rewrite Str.app_nil_l. destruct (sep +:+ rest) eqn:Hs; simpl;
      by rewrite <- Hs, strip_prefix_app.
  - rewrite Str.app_cons. simpl. rewrite IH. by repeat case_match.
Qed.

(** ** One separator *)

Section last_split.
Context (sep : string) (k : string -> option (list string)).

Lemma split_here_Some (s p : string) (gs : list string) :
  split_here sep k s = Some (p, gs) ->
  p = EmptyString /\ exists rest, s = sep +:+ rest /\ k rest = Some gs.
Proof.
  unfold split_here. destruct (strip_prefix sep s) as [rest|] eqn:Hs; [|done].
  destruct (k rest) as [gs'|] eqn:Hk; [|done]. intros [= <- <-].
  split; [done|]. exists rest. by split; [apply strip_prefix_Some|].
Qed.

Lemma split_here_app (rest : string) (gs : list string) :
  k rest = Some gs -> split_here sep k (sep +:+ rest) = Some (EmptyString, gs).
Proof. intros Hk. unfold split_here. by rewrite strip_prefix_app, Hk. Qed.

(** What [last_split] finds is a decomposition of the text. *)
Lemma last_split_Some (s p : string) (gs : list string) :
  last_split sep k s = Some (p, gs) ->
  Str.mem "010" p = false /\ exists rest, s = p +:+ sep +:+ rest /\ k rest = Some gs.
Proof.
  revert p. induction s as [|a s IH]; intros p; simpl.
  { intros [-> Hrest]%split_here_Some. by split. }
  destruct (is_newline a) eqn:Ha.
  { intros [-> Hrest]%split_here_Some. by split. }
  destruct (last_split sep k s) as [[q gs']|].
  - intros [= <- <-]. destruct (IH q eq_refl) as (Hq & rest & -> & Hk).
    split; [simpl; unfold is_newline in Ha; by rewrite Ha|]. by exists rest.
  - intros [-> Hrest]%split_here_Some. by split.
Qed.

(** A match stays one behind a prefix without a newline. *)
Lemma last_split_app (p s q : string) (gs : list string) :
  Str.mem "010" p = false ->
  last_split sep k s = Some (q, gs) ->
  last_split sep k (p +:+ s) = Some (p +:+ q, gs).
Proof.
  intros Hp Hs. induction p as [|a p IH]; [done|].
  simpl in Hp. rewrite Str.app_cons. simpl. unfold is_newline.
  destruct (Ascii.eqb a "010"); [done|]. by rewrite IH.
Qed.

(** The match with the empty group, when nothing matches further on. *)
Lemma last_split_here (c : ascii) (sep' rest : string) (gs : list string) :
  sep = String c sep' -> k rest = Some gs ->
  last_split sep k (sep' +:+ rest) = None ->
  last_split sep k (sep +:+ rest) = Some (EmptyString, gs).
Proof.
  intros Hsep Hk Hnone. rewrite Hsep at 2. rewrite Str.app_cons. simpl.
  rewrite Hnone, <- Str.app_cons, <- Hsep, (split_here_app rest gs) by done.
  by destruct (is_newline c).
Qed.

End last_split.

(** ** Occurrences *)

(** The character [c] occurs in [s] with a [d] after it. *)
Definition later (c d : ascii) (s : string) : Prop :=
  exists q r, s = q +:+ String c r /\ Str.mem d r = true.

Lemma mem_cons_app (c : ascii) (q r : string) : Str.mem c (q +:+ String c r) = true.
Proof. rewrite Str.mem_app. simpl. by rewrite Ascii.eqb_refl, orb_true_r. Qed.

(** Where a text is cut at a character that its first part does not
    hold, any other cut at that character lies further on. *)
Lemma first_cut (c : ascii) (p x q r : string) :
  Str.mem c p = false -> p +:+ String c x = q +:+ String c r ->
  r = x \/ exists q', x = q' +:+ String c r.
Proof.
  revert q. induction p as [|a p IH]; intros q Hp.
  - destruct q as [|b q]; rewrite ?Str.app_cons, ?Str.app_nil_l.
    + intros [= ->]. by left.
    + intros [= <- ->]. right. by exists q.
  - simpl in Hp. destruct (Ascii.eqb a c) eqn:Ha; [done|].
    destruct q as [|b q]; rewrite ?Str.app_cons, ?Str.app_nil_l.
    + intros [= -> _]. by rewrite Ascii.eqb_refl in Ha.
    + intros [= _ Heq]. by apply (IH q).
Qed.

(** No [c] is followed by a [d] in a text whose [c]s all come after its
    only [d]. *)
Lemma later_free (c d : ascii) (p x : string) :
  c <> d -> Str.mem c p = false -> Str.mem d x = false ->
  ~ later c d (p +:+ String d x).
Proof.
  intros Hcd Hp Hx (q & r & Heq & Hr). revert q Heq.
  induction p as [|a p IH]; intros q.
  - destruct q as [|b q]; rewrite ?Str.app_cons, ?Str.app_nil_l.
    + intros [= ? _]. congruence.
    + intros [= _ ->]. rewrite Str.mem_app in Hx. simpl in Hx.
      rewrite Hr in Hx. by destruct (Str.mem d q), (Ascii.eqb c d).
  - simpl in Hp. destruct (Ascii.eqb a c) eqn:Ha; [done|].
    destruct q as [|b q]; rewrite ?Str.app_cons, ?Str.app_nil_l.
    + intros [= -> _]. by rewrite Ascii.eqb_refl in Ha.
    + intros [= _ Heq]. by apply (IH Hp q).
Qed.

(** ** The groups of a match *)

Lemma str_line_app (s : string) :
  exists tail, s = str_line s +:+ tail
    /\ Str.mem "010" (str_line s) = false /\ str_line tail = EmptyString.
Proof.
  induction s as [|a s (tail & Hs & Hl & Ht)]; [by exists EmptyString|].
  simpl. unfold is_newline. destruct (Ascii.eqb a "010") eqn:Ha.
  - exists (String a s). simpl. unfold is_newline. by rewrite Ha.
  - exists tail. rewrite Str.app_cons, <- Hs. simpl. by rewrite Ha.
Qed.

(** A match is a decomposition of the start of the text: as many groups
    as separators and one, none with a newline, and what follows them
    starts a new line. *)
Lemma greedy_sound (seps : list string) (s : string) (gs : list string) :
  greedy seps s = Some gs ->
  length gs = S (length seps)
  /\ exists tail, s = weave gs seps +:+ tail /\ str_line tail = EmptyString.
Proof.
  revert s gs. induction seps as [|sep seps IH]; intros s gs; simpl.
  - intros [= <-]. split; [done|]. destruct (str_line_app s) as (tail & Hs & _ & Ht).
    by exists tail.
  - destruct (last_split sep (greedy seps) s) as [[p gs']|] eqn:Hsplit; [|done].
    intros [= <-]. apply last_split_Some in Hsplit as (_ & rest & -> & Hk).
    destruct (IH _ _ Hk) as (Hlen & tail & -> & Ht). split; [simpl; by rewrite Hlen|].
    exists tail. split; [|done]. destruct gs'; [done|]. simpl. by autorewrite with str.
Qed.

(** The first character of the first separator occurs in a text that
    matches, with the first character of the second separator after
    it. *)
Lemma greedy_mem (c : ascii) (sep : string) (seps : list string) (s : string)
    (gs : list string) :
  greedy (String c sep :: seps) s = Some gs -> Str.mem c s = true.
Proof.
  simpl. destruct (last_split _ _ s) as [[p gs']|] eqn:Hsplit; [|done]. intros _.
  apply last_split_Some in Hsplit as (_ & rest & -> & _).
  rewrite Str.app_cons. apply mem_cons_app.
Qed.

Lemma greedy_later (c d : ascii) (sc sd : string) (seps : list string) (s : string)
    (gs : list string) :
  greedy (String c sc :: String d sd :: seps) s = Some gs -> later c d s.
Proof.
  cbn [greedy]. destruct (last_split _ _ s) as [[p gs']|] eqn:Hsplit; [|done]. intros _.
  apply last_split_Some in Hsplit as (_ & rest & -> & Hk%greedy_mem).
  exists p, (sc +:+ rest). split; [by rewrite Str.app_cons|].
  by rewrite Str.mem_app, Hk, orb_true_r.
Qed.

(** One level of the expression: a group without a newline, the
    separator, and a rest that matches, when nothing matches further
    on. *)
Lemma greedy_cons (c : ascii) (sep : string) (seps : list string) (p rest : string)
    (gs : list string) :
  Str.mem "010" p = false -> greedy seps rest = Some gs ->
  last_split (String c sep) (greedy seps) (sep +:+ rest) = None ->
  greedy (String c sep :: seps) (p +:+ String c sep +:+ rest) = Some (p :: gs).
Proof.
  intros Hp Hk Hnone. cbn [greedy].
  rewrite (last_split_app _ _ p _ EmptyString gs), Str.app_nil_r; [done..|].
  by apply (last_split_here _ _ c sep).
Qed.

(** Nothing matches where a decomposition is impossible. *)
Lemma last_split_None (sep : string) (k : string -> option (list string)) (s : string) :
  (forall p rest gs, s = p +:+ sep +:+ rest -> k rest = Some gs -> False) ->
  last_split sep k s = None.
Proof.
  intros Hno. destruct (last_split sep k s) as [[p gs]|] eqn:Hsplit; [|done].
  apply last_split_Some in Hsplit as (_ & rest & Hs & Hk). by destruct (Hno p rest gs).
Qed.

(** ** Theorems *)

(** The parts of a URI that come back as they went in: no part holds a
    newline, the user and the password hold no colon, the host and the
    database no [@], and the database no slash. *)
Definition uri_parts_ok (connector user pass host db : string) : Prop :=
  Forall (fun part => Str.mem "010" part = false) [connector; user; pass; host; db]
  /\ Str.mem ":" user = false /\ Str.mem ":" pass = false
  /\ Str.mem "@" host = false /\ Str.mem "@" db = false /\ Str.mem "/" db = false.

(** The groups of a match give the text back: a URI that
    [uri_split] splits is its five groups with [://], [:], [@] and [/]
    between them, followed by nothing or by a new line. *)
Theorem uri_split_weave (self : DB) (uri : string) (d : pydict) :
  uri_split self (Some uri) = inr d ->
  exists connector user pass host db tail,
    d = [("connector", VStr connector); ("user", VStr user); ("pass", VStr pass);
         ("host", VStr host); ("db", VStr db)]
    /\ uri = uri_of connector user pass host db +:+ tail
    /\ str_line tail = EmptyString.
Proof.
  unfold uri_split, uri_match. simpl default.
  destruct (greedy uri_seps uri) as [gs|] eqn:Hm; [|done].
  intros [= <-]. apply greedy_sound in Hm as (Hlen & tail & -> & Ht).
  destruct gs as [|c [|u [|p [|h [|db [|]]]]]]; try done.
  exists c, u, p, h, db, tail. split; [done|]. split; [|done].
  unfold uri_of. simpl. by autorewrite with str.
Qed.

(** C9: a URI made of parts that are [uri_parts_ok] splits into those
    parts; the connector may hold anything but a newline, the password
    any [@] and slash, the host any colon and slash. *)
Theorem uri_split_parts (self : DB) (connector user pass host db : string) :
  uri_parts_ok connector user pass host db ->
  uri_split self (Some (uri_of connector user pass host db))
  = inr [("connector", VStr connector); ("user", VStr user); ("pass", VStr pass);
         ("host", VStr host); ("db", VStr db)].
Proof.
  intros (Hnl & Hu & Hp & Hh & Hd & Hsl).
  apply Forall_cons in Hnl
    as [Hc [Hu' [Hp' [Hh' [Hd' _]%Forall_cons]%Forall_cons]%Forall_cons]%Forall_cons].
  assert (Str.mem "@" (host +:+ "/" +:+ db) = false) as Hhd by by rewrite !Str.mem_app, Hh, Hd.
  unfold uri_split, uri_match, uri_of, uri_seps. simpl default.
  rewrite (greedy_cons ":" "//" _ connector _ [user; pass; host; db]); [done..| |].
  - rewrite (greedy_cons ":" "" _ user _ [pass; host; db]); [done..| |].
    + rewrite (greedy_cons "@" "" _ pass _ [host; db]); [done..| |].
      * rewrite (greedy_cons "/" "" _ host _ [db]); [done..|by simpl; rewrite str_line_id|].
        apply last_split_None. intros p rest gs Heq _.
        rewrite Str.app_nil_l in Heq. rewrite Heq, Str.app_cons in Hsl.
        by rewrite mem_cons_app in Hsl.
      * apply last_split_None. intros p rest gs Heq _.
        rewrite Str.app_nil_l in Heq. rewrite Heq, Str.app_cons in Hhd.
        by rewrite mem_cons_app in Hhd.
    + apply last_split_None. intros p rest gs Heq Hk%greedy_mem.
      rewrite Str.app_nil_l in Heq.
      apply (later_free ":" "@" pass (host +:+ "/" +:+ db)); [done..|].
      exists p, rest. split; [|done]. autorewrite with str in *. congruence.
  - apply last_split_None. intros p rest gs Heq (q & r & -> & Hr)%greedy_later.
    rewrite (Str.app_cons ":" "//"), <- Str.app_assoc in Heq.
    apply (later_free ":" "@" pass (host +:+ "/" +:+ db)); [done..|].
    apply first_cut in Heq as [Heq|[q' Heq]]; [| |by rewrite Str.mem_app, Hu].
    + exists ("//" +:+ q), r. split; [|done]. autorewrite with str in *. congruence.
    + exists q', ("//" +:+ q +:+ String ":" r). split.
      * autorewrite with str in *. congruence.
      * rewrite !Str.mem_app. simpl. by rewrite Hr, !orb_true_r.
Qed.

(** C39: a URI without an [@] does not match, and [uri_split] raises
    [AttributeError]: [groupdict] is asked of [None].  Without an
    argument the URI of the connection is the one split. *)
Theorem uri_split_no_match (self : DB) (uri : string) :
  Str.mem "@" uri = false ->
  uri_split self (Some uri) = inl (AttributeError "groupdict")
  /\ (_uri self = uri -> uri_split self None = inl (AttributeError "groupdict")).
Proof.
  intros Hat. assert (uri_match uri = None) as Hm.
  { unfold uri_match. destruct (greedy uri_seps uri) as [gs|] eqn:Hm; [|done].
    apply greedy_sound in Hm as (Hlen & tail & -> & _).
    destruct gs as [|c [|u [|p [|h [|db [|]]]]]]; try done.
    simpl in Hat. by rewrite !Str.mem_app, !orb_true_r in Hat. }
  unfold uri_split. simpl default. split; [by rewrite Hm|]. intros ->. by rewrite Hm.
Qed.

(** ** Concrete runs *)

Lemma uri_split_weave_witness :
  exists connector user pass host db tail,
    [("connector", VStr "postgresql"); ("user", VStr "u:x"); ("pass", VStr "p");
     ("host", VStr "h:5432"); ("db", VStr "d")]
    = [("connector", VStr connector); ("user", VStr user); ("pass", VStr pass);
       ("host", VStr host); ("db", VStr db)]
    /\ "postgresql://u:x:p@h:5432/d" = uri_of connector user pass host db +:+ tail
    /\ str_line tail = EmptyString.
Proof.
  by refine (uri_split_weave (__init__ "sqlite:///test.db")
               "postgresql://u:x:p@h:5432/d" _ _).
Defined.

Lemma uri_split_parts_witness :
  uri_split (__init__ "sqlite:///test.db") (Some "postgresql://bob:s3cr@t@db.example.org:5432/app")
  = inr [("connector", VStr "postgresql"); ("user", VStr "bob"); ("pass", VStr "s3cr@t");
         ("host", VStr "db.example.org:5432"); ("db", VStr "app")].
Proof.
  refine (uri_split_parts _ "postgresql" "bob" "s3cr@t" "db.example.org:5432" "app" _).
  by repeat split; repeat constructor.
Defined.

Lemma uri_split_no_match_witness :
  uri_split (__init__ "sqlite:///test.db") (Some "sqlite:///test.db")
  = inl (AttributeError "groupdict")
  /\ (_uri (__init__ "sqlite:///test.db") = "sqlite:///test.db" ->
      uri_split (__init__ "sqlite:///test.db") None = inl (AttributeError "groupdict")).
Proof. by apply uri_split_no_match. Defined.

(** A colon in the password moves into the user: the groups are greedy. *)
Example uri_split_colon :
  uri_split (__init__ "sqlite:///test.db") (Some "postgresql://bob:pa:ss@host/app")
  = inr [("connector", VStr "postgresql"); ("user", VStr "bob:pa"); ("pass", VStr "ss");
         ("host", VStr "host"); ("db", VStr "app")].
Proof. reflexivity. Qed.
