(* ===== verification/Lexer.v ===== *)
(** * The words of a statement

    The reference database of [MiniDb] reads the skeleton of a statement
    word by word.  [lex] cuts a text at blanks and at the punctuation
    [(], [)] and [,], which are words of their own; [tokens] are the
    words that are not empty.  The lemmas say how the words of a text made
    of parts are the words of the parts, which is what reading back a
    statement the class has built needs.  This file models no code of the
    class. *)

From S2P Require Import Prelude.

(** ** The lexer *)

Definition is_punct (a : ascii) : bool :=
  Ascii.eqb a "(" || Ascii.eqb a ")" || Ascii.eqb a ",".

Definition is_blank_char (a : ascii) : bool := Ascii.eqb a " ".

(** A character that ends a word. *)
Definition is_delim (a : ascii) : bool := is_blank_char a || is_punct a.

(** [a] put in front of the first word of [l]. *)
Definition cons_head (a : ascii) (l : list string) : list string :=
  match l with
  | [] => [String a EmptyString]
  | h :: t => String a h :: t
  end.

(** The words of [s], the empty ones included: the first element is the
    word that starts at the start of [s]. *)
Fixpoint lex (s : string) : list string :=
  match s with
  | EmptyString => [EmptyString]
  | String a s' =>
      if is_blank_char a then EmptyString :: lex s'
      else if is_punct a then EmptyString :: String a EmptyString :: lex s'
      else cons_head a (lex s')
  end.

Definition nonempty (t : string) : Prop := t <> EmptyString.

Definition tokens (s : string) : list string := filter nonempty (lex s).

(** A word: not empty, and without a blank or punctuation. *)
Definition word (w : string) : Prop :=
  w <> EmptyString /\ Str.forallb (fun a => negb (is_delim a)) w = true.

(** The text starts with a blank or punctuation, or is empty: no word
    before it runs into it. *)
Definition starts_delim (s : string) : bool :=
  match s with
  | EmptyString => true
  | String a _ => is_delim a
  end.

(** The words [ws] with the word [sep] between them. *)
Fixpoint intersperse (sep : string) (ws : list string) : list string :=
  match ws with
  | [] => []
  | [w] => [w]
  | w :: ws' => w :: sep :: intersperse sep ws'
  end.

(** Lists of words with the words [sep] between them. *)
Fixpoint join_words (sep : list string) (wss : list (list string)) : list string :=
  match wss with
  | [] => []
  | [ws] => ws
  | ws :: wss' => ws ++ sep ++ join_words sep wss'
  end.

(** ** Lemmas *)

Lemma lex_not_nil (s : string) : lex s <> [].
Proof.
  induction s as [|a s IH]; [done|]. simpl.
  destruct (is_blank_char a), (is_punct a); try done. by destruct (lex s).
Qed.

Lemma cons_head_app (a : ascii) (l k : list string) :
  l <> [] -> cons_head a (l ++ k) = cons_head a l ++ k.
Proof. by destruct l. Qed.

(** Before a delimiter the first word is empty. *)
Lemma lex_starts_delim (s : string) :
  starts_delim s = true -> lex s = EmptyString :: tail (lex s).
Proof.
  destruct s as [|a s]; [done|]. simpl. unfold is_delim.
  destruct (is_blank_char a); [done|]. simpl. by intros ->.
Qed.

(** The words of two texts, the second starting with a delimiter. *)
Lemma lex_app (s t : string) :
  starts_delim t = true -> lex (s +:+ t) = lex s ++ tail (lex t).
Proof.
  intros Ht. induction s as [|a s IH].
  - rewrite Str.app_nil_l. by apply lex_starts_delim.
  - rewrite Str.app_cons. simpl. rewrite IH.
    destruct (is_blank_char a); [done|]. destruct (is_punct a); [done|].
    apply cons_head_app, lex_not_nil.
Qed.

Lemma tokens_app (s t : string) :
  starts_delim t = true -> tokens (s +:+ t) = tokens s ++ tokens t.
Proof.
  intros Ht. unfold tokens. rewrite lex_app, filter_app by done. f_equal.
  rewrite (lex_starts_delim t Ht) at 2. by rewrite filter_cons_False by (by intros []).
Qed.

Lemma tokens_blank (s : string) : tokens (String " " s) = tokens s.
Proof. unfold tokens. simpl. by rewrite filter_cons_False by (by intros []). Qed.

Lemma tokens_punct (a : ascii) (s : string) :
  is_punct a = true -> tokens (String a s) = String a EmptyString :: tokens s.
Proof.
  intros Ha. unfold tokens. simpl. rewrite Ha. unfold is_blank_char.
  destruct (Ascii.eqb_spec a " ") as [->|_]; [done|].
  rewrite filter_cons_False by (by intros []). by rewrite filter_cons_True.
Qed.

(** A word is its own only word. *)
Lemma lex_word (w : string) :
  Str.forallb (fun a => negb (is_delim a)) w = true -> lex w = [w].
Proof.
  induction w as [|a w IH]; [done|]. simpl. unfold is_delim.
  intros [Ha Hw]%andb_prop. apply negb_true_iff, orb_false_elim in Ha as [-> ->].
  by rewrite IH.
Qed.

Lemma tokens_word (w : string) : word w -> tokens w = [w].
Proof.
  intros [Hne Hw]. unfold tokens. rewrite lex_word by done.
  by rewrite filter_cons_True.
Qed.

(** A word followed by a text that starts with a delimiter. *)
Lemma tokens_word_app (w t : string) :
  word w -> starts_delim t = true -> tokens (w +:+ t) = w :: tokens t.
Proof. intros Hw Ht. by rewrite tokens_app, tokens_word. Qed.

(** Words joined by commas, and the text after them. *)
Lemma tokens_concat_comma (ws : list string) (t : string) :
  ws <> [] -> Forall word ws -> starts_delim t = true ->
  tokens (String.concat "," ws +:+ t) = intersperse "," ws ++ tokens t.
Proof.
  intros Hne Hws Ht. induction Hws as [|w ws Hw Hws IH]; [done|].
  destruct ws as [|w' ws]; [by apply tokens_word_app|].
  rewrite Str.concat_cons2, !Str.app_assoc, Str.app_cons, Str.app_nil_l.
  rewrite tokens_word_app, tokens_punct, IH by done. reflexivity.
Qed.

(** Texts joined by a separator that starts with a delimiter: the words
    of the texts with the words of the separator between them. *)
Section joined.
Context {A : Type} (P : A -> Prop) (text : A -> string) (words : A -> list string).
Context (sep : string) (sepw : list string).
Hypothesis text_words : forall a t,
  P a -> starts_delim t = true -> tokens (text a +:+ t) = words a ++ tokens t.
Hypothesis sep_words : forall t, tokens (sep +:+ t) = sepw ++ tokens t.
Hypothesis sep_delim : forall t, starts_delim (sep +:+ t) = true.

Lemma tokens_joined (l : list A) (t : string) :
  Forall P l -> starts_delim t = true ->
  tokens (String.concat sep (text <$> l) +:+ t) = join_words sepw (words <$> l) ++ tokens t.
Proof.
  intros Hl Ht. induction Hl as [|a l Ha Hl IH]; [done|].
  destruct l as [|b l]; [by apply text_words|].
  rewrite !fmap_cons, Str.concat_cons2, <- !fmap_cons, !Str.app_assoc.
  rewrite text_words, sep_words, IH by done.
  cbn [join_words fmap list_fmap]. by rewrite <- !app_assoc.
Qed.

End joined.

(** A separator that is one word between blanks, and one that is a comma
    and a blank. *)
Lemma tokens_blank_word (w t : string) :
  word w -> tokens (String " " (w +:+ String " " t)) = [w] ++ tokens t.
Proof. intros Hw. by rewrite tokens_blank, tokens_word_app, tokens_blank. Qed.
