(* ===== verification/SqlParse.v ===== *)
(** * The statements of the reference database

    The statements a database has to understand to serve the class, and
    their parser: INSERT of one or more rows, SELECT with a WHERE clause
    and the clauses ORDER BY, LIMIT and OFFSET, UPDATE, DELETE, and
    DROP TABLE IF EXISTS.  A WHERE clause is a list of conditions joined
    by AND and OR, AND binding tighter: a disjunction of conjunctions.
    The parser reads the words of the skeleton of a statement ([Lexer])
    and takes the literals of the scanner ([SqlScan]) in order, one for
    every [?]; keywords are read without regard to case, as SQL does.

    This file models no code of the class: it is the syntax that the
    statements of the builders are written in. *)

From stdpp Require Import list strings pretty.
From S2P Require Import Prelude PyValue Escaper SqlScan Lexer.

(** ** Statements *)

(** A cell: a text, or NULL. *)
Definition cell : Type := option string.

Inductive cond : Type :=
| CEq (col : string) (c : cell)
| CNull (col : string).

(** A WHERE clause: the row meets every condition of one of the lists.
    No WHERE clause is the one empty list. *)
Definition dnf : Type := list (list cond).

Inductive stmt : Type :=
| SInsert (table : string) (cols : list string) (rows : list (list cell))
| SSelect (table : string) (w : dnf) (order : option (string * bool))
    (limit offset : option nat)
| SUpdate (table : string) (sets : list (string * cell)) (w : dnf)
| SDelete (table : string) (w : dnf)
| SDrop (table : string)
| SCreate (table : string) (lenient : bool) (uniq : list string).

#[export] Instance cond_eq_dec : EqDecision cond.
Proof. solve_decision. Defined.

#[export] Instance stmt_eq_dec : EqDecision stmt.
Proof. solve_decision. Defined.

(** ** Keywords and numbers *)

Definition upper_char (a : ascii) : ascii :=
  let n := N_of_ascii a in
  if (97 <=? n)%N && (n <=? 122)%N then ascii_of_N (n - 32) else a.

Fixpoint upper (s : string) : string :=
  match s with
  | EmptyString => EmptyString
  | String a s' => String (upper_char a) (upper s')
  end.

(** The word [tok] is the keyword [k], in any case. *)
Definition kw (k tok : string) : bool := String.eqb (upper k) (upper tok).

Definition digit_of (a : ascii) : option N :=
  let n := N_of_ascii a in
  if (48 <=? n)%N && (n <=? 57)%N then Some (n - 48)%N else None.

Fixpoint read_N (acc : N) (s : string) : option N :=
  match s with
  | EmptyString => Some acc
  | String a s' =>
      match digit_of a with
      | Some d => read_N (acc * 10 + d) s'
      | None => None
      end
  end.

(** The number a word of digits stands for. *)
Definition parse_nat (s : string) : option nat :=
  match s with
  | EmptyString => None
  | _ => N.to_nat <$> read_N 0 s
  end.

(** ** The parser *)

(** The keywords [ws] at the start of [toks], and what follows them. *)
Fixpoint expect (ws toks : list string) : option (list string) :=
  match ws, toks with
  | [], _ => Some toks
  | w :: ws', t :: toks' => if kw w t then expect ws' toks' else None
  | _ :: _, [] => None
  end.

(** Words separated by commas up to a closing bracket, and what follows
    it. *)
Fixpoint parse_names (toks : list string) : option (list string * list string) :=
  match toks with
  | w :: sep :: rest =>
      if String.eqb sep ")" then Some ([w], rest)
      else if String.eqb sep "," then
        match parse_names rest with
        | Some (ws, rest') => Some (w :: ws, rest')
        | None => None
        end
      else None
  | _ => None
  end.

(** Rows of words, each row in brackets and the rows separated by commas,
    after the opening bracket of the first, up to the end of the
    statement. *)
Fixpoint parse_tuples (toks : list string) : option (list (list string)) :=
  match toks with
  | w :: sep :: rest =>
      if String.eqb sep "," then
        match parse_tuples rest with
        | Some (t :: ts) => Some ((w :: t) :: ts)
        | _ => None
        end
      else if String.eqb sep ")" then
        match rest with
        | [] => Some [[w]]
        | c :: o :: rest' =>
            if String.eqb c "," && String.eqb o "(" then
              match parse_tuples rest' with
              | Some ts => Some ([w] :: ts)
              | None => None
              end
            else None
        | _ => None
        end
      else None
  | _ => None
  end.

(** The cell a word stands for: [?] is the next literal, [NULL] is NULL,
    anything else is its own text. *)
Definition read_cell (tok : string) (lits : list string) : option (cell * list string) :=
  if String.eqb tok "?" then
    match lits with
    | l :: lits' => Some (Some l, lits')
    | [] => None
    end
  else if kw "NULL" tok then Some (None, lits)
  else Some (Some tok, lits).

(** The cells of a list of words, and the literals left. *)
Fixpoint read_cells (toks lits : list string) : option (list cell * list string) :=
  match toks with
  | [] => Some ([], lits)
  | tok :: toks' =>
      match read_cell tok lits with
      | Some (c, lits') =>
          match read_cells toks' lits' with
          | Some (cs, lits'') => Some (c :: cs, lits'')
          | None => None
          end
      | None => None
      end
  end.

(** The cells of rows of words; every literal must be used. *)
Fixpoint read_rows (rows : list (list string)) (lits : list string) :
    option (list (list cell)) :=
  match rows with
  | [] => if bool_decide (lits = []) then Some [] else None
  | toks :: rows' =>
      match read_cells toks lits with
      | Some (cs, lits') =>
          match read_rows rows' lits' with
          | Some rs => Some (cs :: rs)
          | None => None
          end
      | None => None
      end
  end.

(** One condition, [col = value] or [col is NULL], and the literals
    left. *)
Definition parse_cond (col op v : string) (lits : list string) :
    option (cond * list string) :=
  if String.eqb op "=" then
    match read_cell v lits with
    | Some (c, lits') => Some (CEq col c, lits')
    | None => None
    end
  else if kw "IS" op && kw "NULL" v then Some (CNull col, lits)
  else None.

(** Conditions joined by [AND] and [OR], then the words and the literals
    left. *)
Fixpoint parse_conds (toks lits : list string) :
    option (dnf * list string * list string) :=
  match toks with
  | col :: op :: v :: rest =>
      match parse_cond col op v lits with
      | Some (c, lits') =>
          match rest with
          | k :: more =>
              if kw "AND" k then
                match parse_conds more lits' with
                | Some (cs :: w, rest', lits'') => Some ((c :: cs) :: w, rest', lits'')
                | _ => None
                end
              else if kw "OR" k then
                match parse_conds more lits' with
                | Some (w, rest', lits'') => Some ([c] :: w, rest', lits'')
                | None => None
                end
              else Some ([[c]], rest, lits')
          | [] => Some ([[c]], [], lits')
          end
      | None => None
      end
  | _ => None
  end.

(** [WHERE] and its conditions, or no WHERE clause. *)
Definition parse_where (toks lits : list string) :
    option (dnf * list string * list string) :=
  match toks with
  | k :: rest => if kw "WHERE" k then parse_conds rest lits else Some ([[]], toks, lits)
  | [] => Some ([[]], [], lits)
  end.

(** [ORDER BY col], with [ASC] or [DESC] after it or neither; the flag
    says descending. *)
Definition parse_order (toks : list string) :
    option (option (string * bool) * list string) :=
  match toks with
  | o :: b :: col :: rest =>
      if kw "ORDER" o then
        if kw "BY" b then
          match rest with
          | d :: rest' =>
              if kw "DESC" d then Some (Some (col, true), rest')
              else if kw "ASC" d then Some (Some (col, false), rest')
              else Some (Some (col, false), rest)
          | [] => Some (Some (col, false), [])
          end
        else None
      else Some (None, toks)
  | _ => Some (None, toks)
  end.

(** The clause [k n] with [n] a number, or no such clause. *)
Definition parse_count (k : string) (toks : list string) :
    option (option nat * list string) :=
  match toks with
  | w :: n :: rest =>
      if kw k w then
        match parse_nat n with
        | Some x => Some (Some x, rest)
        | None => None
        end
      else Some (None, toks)
  | _ => Some (None, toks)
  end.

(** Nothing is left of the words and of the literals. *)
Definition at_end (toks lits : list string) : bool :=
  bool_decide (toks = []) && bool_decide (lits = []).

Definition parse_insert (toks lits : list string) : option stmt :=
  match expect ["INSERT"; "INTO"] toks with
  | Some (table :: rest) =>
      rest1 ← expect ["("] rest;
      '(cols, rest2) ← parse_names rest1;
      rest3 ← expect ["VALUES"; "("] rest2;
      tuples ← parse_tuples rest3;
      rows ← read_rows tuples lits;
      Some (SInsert table cols rows)
  | _ => None
  end.

Definition parse_select (toks lits : list string) : option stmt :=
  match expect ["SELECT"; "*"; "FROM"] toks with
  | Some (table :: rest) =>
      '(w, rest1, lits1) ← parse_where rest lits;
      '(order, rest2) ← parse_order rest1;
      '(limit, rest3) ← parse_count "LIMIT" rest2;
      '(offset, rest4) ← parse_count "OFFSET" rest3;
      if at_end rest4 lits1 then Some (SSelect table w order limit offset) else None
  | _ => None
  end.

(** Assignments [col = value] separated by commas, then the words and the
    literals left. *)
Fixpoint parse_assigns (toks lits : list string) :
    option (list (string * cell) * list string * list string) :=
  match toks with
  | col :: op :: v :: rest =>
      if String.eqb op "=" then
        match read_cell v lits with
        | Some (c, lits') =>
            match rest with
            | k :: more =>
                if String.eqb k "," then
                  match parse_assigns more lits' with
                  | Some (sets, rest', lits'') => Some ((col, c) :: sets, rest', lits'')
                  | None => None
                  end
                else Some ([(col, c)], rest, lits')
            | [] => Some ([(col, c)], [], lits')
            end
        | None => None
        end
      else None
  | _ => None
  end.

Definition parse_update (toks lits : list string) : option stmt :=
  match expect ["UPDATE"] toks with
  | Some (table :: rest) =>
      rest1 ← expect ["SET"] rest;
      '(sets, rest2, lits2) ← parse_assigns rest1 lits;
      '(w, rest3, lits3) ← parse_where rest2 lits2;
      if at_end rest3 lits3 then Some (SUpdate table sets w) else None
  | _ => None
  end.

Definition parse_delete (toks lits : list string) : option stmt :=
  match expect ["DELETE"; "FROM"] toks with
  | Some (table :: rest) =>
      '(w, rest1, lits1) ← parse_where rest lits;
      if at_end rest1 lits1 then Some (SDelete table w) else None
  | _ => None
  end.

Definition parse_drop (toks lits : list string) : option stmt :=
  match expect ["DROP"; "TABLE"; "IF"; "EXISTS"] toks with
  | Some (table :: rest) =>
      if at_end rest lits || at_end (default rest (expect ["CASCADE"] rest)) lits
      then Some (SDrop table) else None
  | _ => None
  end.

(** The column definitions of CREATE TABLE, up to the closing
    parenthesis: the first word of a definition names the column, which
    is unique when one of the words after it is [UNIQUE]; the other words
    (types, [PRIMARY KEY], [NOT NULL]) are read over.  [cur] is the column
    being defined.  The result is the list of the unique columns. *)
Fixpoint parse_coldefs (cur : option (string * bool)) (toks : list string) :
    option (list string) :=
  match toks with
  | [] => None
  | t :: rest =>
      if String.eqb t ")" then
        match cur with
        | Some (c, u) =>
            if bool_decide (rest = []) then Some (if u then [c] else []) else None
        | None => None
        end
      else if String.eqb t "," then
        match cur with
        | Some (c, u) =>
            match parse_coldefs None rest with
            | Some us => Some (if u then c :: us else us)
            | None => None
            end
        | None => None
        end
      else if String.eqb t "(" then None
      else
        match cur with
        | None => parse_coldefs (Some (t, false)) rest
        | Some (c, u) => parse_coldefs (Some (c, u || kw "UNIQUE" t)) rest
        end
  end.

(** [CREATE TABLE t (...)], with [IF NOT EXISTS] before the name or
    not. *)
Definition parse_create (toks lits : list string) : option stmt :=
  match expect ["CREATE"; "TABLE"] toks with
  | Some rest =>
      let lenient := bool_decide (is_Some (expect ["IF"; "NOT"; "EXISTS"] rest)) in
      match default rest (expect ["IF"; "NOT"; "EXISTS"] rest) with
      | table :: rest1 =>
          rest2 ← expect ["("] rest1;
          uniq ← parse_coldefs None rest2;
          if bool_decide (lits = []) then Some (SCreate table lenient uniq) else None
      | [] => None
      end
  | None => None
  end.

(** A statement from its words and literals, by its first word. *)
Definition parse_stmt (toks lits : list string) : option stmt :=
  match toks with
  | k :: _ =>
      if kw "INSERT" k then parse_insert toks lits
      else if kw "SELECT" k then parse_select toks lits
      else if kw "UPDATE" k then parse_update toks lits
      else if kw "DELETE" k then parse_delete toks lits
      else if kw "DROP" k then parse_drop toks lits
      else if kw "CREATE" k then parse_create toks lits
      else None
  | [] => None
  end.

(** A statement from its text. *)
Definition parse_sql (q : string) : option stmt :=
  match sql_scan q with
  | Some (sk, lits) => parse_stmt (tokens sk) lits
  | None => None
  end.

(** The words after a WHERE clause: none, or a first word that is neither
    [AND] nor [OR]. *)
Definition stops (rest : list string) : Prop :=
  match rest with
  | [] => True
  | k :: _ => kw "AND" k = false /\ kw "OR" k = false
  end.

(** The words of rows of an INSERT after the opening bracket of the
    first. *)
Fixpoint tuples_words (rows : list (list string)) : list string :=
  match rows with
  | [] => []
  | [ws] => intersperse "," ws ++ [")"]
  | ws :: rows' => intersperse "," ws ++ ")" :: "," :: "(" :: tuples_words rows'
  end.

(** ** Lemmas on keywords and numbers *)

Lemma kw_refl (k : string) : kw k k = true.
Proof. apply String.eqb_refl. Qed.

(** A word whose first character is not that of the keyword, in either
    case, is not the keyword. *)
Lemma kw_head (a b : ascii) (k tok : string) :
  Ascii.eqb (upper_char a) (upper_char b) = false -> kw (String a k) (String b tok) = false.
Proof. unfold kw. simpl. by intros ->. Qed.

Lemma read_N_app (acc : N) (s t : string) :
  read_N acc (s +:+ t) = read_N acc s ≫= fun n => read_N n t.
Proof.
  revert acc. induction s as [|a s IH]; intros acc; [done|].
  rewrite Str.app_cons. simpl. by destruct (digit_of a).
Qed.

Lemma digit_of_pretty (d : N) : (d < 10)%N -> digit_of (pretty_N_char d) = Some d.
Proof.
  intros Hd.
  assert (d = 0 \/ d = 1 \/ d = 2 \/ d = 3 \/ d = 4 \/ d = 5 \/ d = 6 \/ d = 7
          \/ d = 8 \/ d = 9)%N as Hcases by lia.
  by repeat destruct Hcases as [->|Hcases]; [..|subst d].
Qed.

(** Reading the digits of [x] in front of [s] goes on at [x]. *)
Lemma read_N_pretty_go (x : N) (s : string) :
  (0 < x)%N -> read_N 0 (pretty_N_go x s) = read_N x s.
Proof.
  revert s. induction (N.lt_wf_0 x) as [x _ IH]. intros s Hx.
  rewrite pretty_N_go_step by done.
  pose proof (N.mod_lt x 10 ltac:(done)) as Hd.
  pose proof (N.div_mod x 10 ltac:(done)) as Hx10.
  destruct (decide (x `div` 10 = 0)%N) as [H0|H0].
  - rewrite H0, pretty_N_go_0. simpl. rewrite digit_of_pretty by done.
    f_equal. lia.
  - rewrite IH; [|by apply N.div_lt|lia]. simpl. rewrite digit_of_pretty by done.
    f_equal. lia.
Qed.

Lemma read_N_pretty (x : N) : read_N 0 (pretty x) = Some x.
Proof.
  unfold pretty, pretty_N. case_decide as Hx; [by subst|].
  rewrite read_N_pretty_go by lia. done.
Qed.

(** A number, written and read. *)
Lemma parse_nat_pretty (n : nat) : parse_nat (pretty n) = Some n.
Proof.
  change (pretty n) with (pretty (N.of_nat n)).
  pose proof (pretty_N_nonempty (N.of_nat n)) as Hne.
  pose proof (read_N_pretty (N.of_nat n)) as Hr. unfold parse_nat.
  destruct (pretty (N.of_nat n)); [done|]. rewrite Hr. simpl. by rewrite Nat2N.id.
Qed.

(** ** Lemmas on the parser *)

Lemma parse_names_intersperse (ws rest : list string) :
  ws <> [] -> parse_names (intersperse "," ws ++ ")" :: rest) = Some (ws, rest).
Proof.
  intros Hne. induction ws as [|w [|w' ws] IH]; [done|done|].
  change (parse_names (intersperse "," (w :: w' :: ws) ++ ")" :: rest))
    with (match parse_names (intersperse "," (w' :: ws) ++ ")" :: rest) with
          | Some (ws', rest') => Some (w :: ws', rest')
          | None => None
          end).
  by rewrite IH.
Qed.

Lemma expect_app (ws rest : list string) : expect ws (ws ++ rest) = Some rest.
Proof.
  induction ws as [|w ws IH]; [by destruct rest|]. simpl.
  by rewrite kw_refl.
Qed.

(** The parser of a statement by its first word. *)
Lemma parse_stmt_insert (toks lits : list string) :
  parse_stmt ("INSERT" :: toks) lits = parse_insert ("INSERT" :: toks) lits.
Proof. reflexivity. Qed.

Lemma parse_stmt_select (toks lits : list string) :
  parse_stmt ("SELECT" :: toks) lits = parse_select ("SELECT" :: toks) lits.
Proof. reflexivity. Qed.

Lemma parse_stmt_update (toks lits : list string) :
  parse_stmt ("UPDATE" :: toks) lits = parse_update ("UPDATE" :: toks) lits.
Proof. reflexivity. Qed.

Lemma parse_stmt_delete (toks lits : list string) :
  parse_stmt ("DELETE" :: toks) lits = parse_delete ("DELETE" :: toks) lits.
Proof. reflexivity. Qed.

Lemma parse_stmt_drop (toks lits : list string) :
  parse_stmt ("DROP" :: toks) lits = parse_drop ("DROP" :: toks) lits.
Proof. reflexivity. Qed.

(** The last row of an INSERT, and a row before others. *)
Lemma parse_tuples_last (ws : list string) :
  ws <> [] -> parse_tuples (intersperse "," ws ++ [")"]) = Some [ws].
Proof.
  intros Hne. induction ws as [|w [|w' ws] IH]; [done|done|].
  change (parse_tuples (intersperse "," (w :: w' :: ws) ++ [")"]))
    with (match parse_tuples (intersperse "," (w' :: ws) ++ [")"]) with
          | Some (t :: ts) => Some ((w :: t) :: ts)
          | _ => None
          end).
  by rewrite IH.
Qed.

Lemma parse_tuples_more (ws rest : list string) :
  ws <> [] ->
  parse_tuples (intersperse "," ws ++ ")" :: "," :: "(" :: rest)
  = cons ws <$> parse_tuples rest.
Proof.
  intros Hne. induction ws as [|w [|w' ws] IH]; [done| |].
  - simpl. by destruct (parse_tuples rest).
  - change (parse_tuples (intersperse "," (w :: w' :: ws) ++ ")" :: "," :: "(" :: rest))
      with (match parse_tuples (intersperse "," (w' :: ws) ++ ")" :: "," :: "(" :: rest) with
            | Some (t :: ts) => Some ((w :: t) :: ts)
            | _ => None
            end).
    rewrite IH by done. by destruct (parse_tuples rest).
Qed.

Lemma parse_tuples_words (rows : list (list string)) :
  rows <> [] -> Forall (fun ws => ws <> []) rows ->
  parse_tuples (tuples_words rows) = Some rows.
Proof.
  intros Hne Hrows. induction Hrows as [|ws rows Hws Hrows IH]; [done|].
  destruct rows as [|ws' rows]; [by apply parse_tuples_last|].
  change (tuples_words (ws :: ws' :: rows))
    with (intersperse "," ws ++ ")" :: "," :: "(" :: tuples_words (ws' :: rows)).
  by rewrite parse_tuples_more, IH.
Qed.

(** The conditions of a token list, one condition at a time: before
    [AND], before [OR], and at the end of the WHERE clause. *)
Lemma parse_conds_and (col op v k : string) (more lits : list string) :
  kw "AND" k = true ->
  parse_conds (col :: op :: v :: k :: more) lits
  = match parse_cond col op v lits with
    | Some (c, lits') =>
        match parse_conds more lits' with
        | Some (cs :: w, rest, lits'') => Some ((c :: cs) :: w, rest, lits'')
        | _ => None
        end
    | None => None
    end.
Proof. intros Hk. cbn [parse_conds]. by rewrite Hk. Qed.

Lemma parse_conds_or (col op v k : string) (more lits : list string) :
  kw "AND" k = false -> kw "OR" k = true ->
  parse_conds (col :: op :: v :: k :: more) lits
  = match parse_cond col op v lits with
    | Some (c, lits') =>
        match parse_conds more lits' with
        | Some (w, rest, lits'') => Some ([c] :: w, rest, lits'')
        | None => None
        end
    | None => None
    end.
Proof. intros Ha Ho. cbn [parse_conds]. by rewrite Ha, Ho. Qed.

Lemma parse_conds_one (col op v : string) (rest lits : list string) :
  stops rest ->
  parse_conds (col :: op :: v :: rest) lits
  = match parse_cond col op v lits with
    | Some (c, lits') => Some ([[c]], rest, lits')
    | None => None
    end.
Proof.
  intros Hs. cbn [parse_conds]. destruct rest as [|k rest].
  - by destruct (parse_cond _ _ _ _) as [[]|].
  - destruct Hs as [-> ->]. by destruct (parse_cond _ _ _ _) as [[]|].
Qed.

(** Conditions written one after the other, with a keyword between
    them. *)
Section conds.
Context {A : Type} (P : A -> Prop) (words lits : A -> list string) (cnd : A -> cond).
Hypothesis reads : forall a, P a ->
  exists col op tok, words a = [col; op; tok]
    /\ forall ls, parse_cond col op tok (lits a ++ ls) = Some (cnd a, ls).

Lemma parse_conds_and_joined (k : string) (l : list A) (rest ls : list string) :
  kw "AND" k = true -> l <> [] -> Forall P l -> stops rest ->
  parse_conds (join_words [k] (words <$> l) ++ rest) ((l ≫= lits) ++ ls)
  = Some ([cnd <$> l], rest, ls).
Proof.
  intros Hk Hne Hl Hs. induction Hl as [|a l Ha Hl IH]; [done|].
  destruct (reads a Ha) as (col & op & tok & Hw & Hp).
  rewrite bind_cons, <- app_assoc. destruct l as [|b l].
  - cbn [fmap list_fmap join_words]. rewrite Hw. cbn [app].
    by rewrite parse_conds_one, Hp by done.
  - change (join_words [k] (words <$> a :: b :: l))
      with (words a ++ [k] ++ join_words [k] (words <$> b :: l)).
    rewrite Hw. cbn [app]. by rewrite parse_conds_and, Hp, IH by done.
Qed.

Lemma parse_conds_or_joined (k : string) (l : list A) (rest ls : list string) :
  kw "AND" k = false -> kw "OR" k = true -> l <> [] -> Forall P l -> stops rest ->
  parse_conds (join_words [k] (words <$> l) ++ rest) ((l ≫= lits) ++ ls)
  = Some ((fun a => [cnd a]) <$> l, rest, ls).
Proof.
  intros Ha Ho Hne Hl Hs. induction Hl as [|a l Hpa Hl IH]; [done|].
  destruct (reads a Hpa) as (col & op & tok & Hw & Hp).
  rewrite bind_cons, <- app_assoc. destruct l as [|b l].
  - cbn [fmap list_fmap join_words]. rewrite Hw. cbn [app].
    by rewrite parse_conds_one, Hp by done.
  - change (join_words [k] (words <$> a :: b :: l))
      with (words a ++ [k] ++ join_words [k] (words <$> b :: l)).
    rewrite Hw. cbn [app]. by rewrite parse_conds_or, Hp, IH by done.
Qed.

End conds.

(** Assignments written one after the other, with commas between them,
    before a word that is no comma. *)
Section assigns.
Context {A : Type} (P : A -> Prop) (words lits : A -> list string)
  (set : A -> string * cell).
Hypothesis reads : forall a, P a ->
  exists tok, words a = [(set a).1; "="; tok]
    /\ forall ls, read_cell tok (lits a ++ ls) = Some ((set a).2, ls).

Lemma parse_assigns_joined (l : list A) (k : string) (rest ls : list string) :
  String.eqb k "," = false -> l <> [] -> Forall P l ->
  parse_assigns (join_words [","] (words <$> l) ++ k :: rest) ((l ≫= lits) ++ ls)
  = Some (set <$> l, k :: rest, ls).
Proof.
  intros Hk Hne Hl. induction Hl as [|a l Ha Hl IH]; [done|].
  destruct (reads a Ha) as (tok & Hw & Hp).
  rewrite bind_cons, <- app_assoc. destruct l as [|b l].
  - cbn [fmap list_fmap join_words]. rewrite Hw. cbn [app parse_assigns String.eqb Ascii.eqb
      Bool.eqb]. rewrite Hp, Hk. simpl. by rewrite <- surjective_pairing.
  - change (join_words [","] (words <$> a :: b :: l))
      with (words a ++ [","] ++ join_words [","] (words <$> b :: l)).
    rewrite Hw. cbn [app parse_assigns String.eqb Ascii.eqb Bool.eqb].
    rewrite Hp, IH by done. by rewrite <- surjective_pairing.
Qed.

End assigns.
