(* ===== verification/MiniDb.v ===== *)
(** * A reference database

    A small database that executes the statements of [SqlParse] on tables
    of rows: it scans the statement ([SqlScan]), reads the words of its
    skeleton ([Lexer]), parses them ([SqlParse]), and executes the
    statement.  A cell is a text or NULL; a number and a quoted literal
    with the same text are the same cell, as under the type coercion of a
    database.  Every row gets an [id] from a counter; a table may declare
    columns unique, and an INSERT or UPDATE that would repeat a text in
    one of them fails and changes nothing.  An INSERT of several rows
    stores all of them or none.

    [mini_query] is the method [query] of a driver over this database,
    which [Refine] makes an instance of [Driver].  This file models no code
    of the class: it is the semantics that the theorems of [Refine] and
    [Race] state the behaviour of the methods against.  [db_wf] is the
    invariant of the database: the ids of the rows are different and
    below the counter, and the texts of a unique column are different. *)

From stdpp Require Import gmap sorting.
From S2P Require Import Prelude PyValue Escaper SqlScan Driver Lexer SqlParse.

(** ** Tables *)

Record row : Type := {
  r_id : Z;
  r_cells : list (string * cell)
}.

Record table : Type := {
  t_unique : list string;
  t_rows : list row
}.

Record minidb : Type := {
  db_tables : gmap string table;
  db_next : Z
}.

(** The first value under a key of an association list. *)
Fixpoint assoc {A : Type} (k : string) (l : list (string * A)) : option A :=
  match l with
  | [] => None
  | (k', v) :: l' => if String.eqb k' k then Some v else assoc k l'
  end.

(** The cell of a column of a row; the column [id] is the row's id. *)
Definition row_cell (col : string) (r : row) : option cell :=
  if String.eqb col "id" then Some (Some (pretty (r_id r)))
  else assoc col (r_cells r).

(** The text of a column of a row: none when the column is missing or
    NULL. *)
Definition col_text (u : string) (r : row) : option string := row_cell u r ≫= id.

Definition col_texts (u : string) (rows : list row) : list string :=
  omap (col_text u) rows.

(** SQL equality: both cells hold a text, and the same. *)
Definition cell_eq (a b : cell) : bool :=
  match a, b with
  | Some x, Some y => String.eqb x y
  | _, _ => false
  end.

Definition cond_holds (r : row) (c : cond) : bool :=
  match c with
  | CEq col v =>
      match row_cell col r with
      | Some x => cell_eq x v
      | None => false
      end
  | CNull col =>
      match row_cell col r with
      | Some None => true
      | _ => false
      end
  end.

Definition row_matches (conds : list cond) (r : row) : bool :=
  forallb (cond_holds r) conds.

(** The row meets a WHERE clause: every condition of one of its lists. *)
Definition where_holds (w : dnf) (r : row) : bool :=
  existsb (fun conds => row_matches conds r) w.

(** The row as the driver hands it to Python. *)
Definition cell_value (c : cell) : value :=
  match c with
  | None => VNone
  | Some t => VStr t
  end.

Definition row_dict (r : row) : pydict :=
  ("id", VInt (r_id r)) :: (prod_map id cell_value <$> r_cells r).

(** A new row repeats, in a unique column, the text of an old one. *)
Definition unique_clash (uniq : list string) (r : row) (rows : list row) : bool :=
  existsb
    (fun u =>
       match row_cell u r with
       | Some v => existsb (fun old => cond_holds old (CEq u v)) rows
       | None => false
       end)
    uniq.

(** ** Order and pages *)

(** Texts in the order of their characters, NULL before any text. *)
Definition text_le (a b : option string) : Prop :=
  match a, b with
  | None, _ => True
  | Some _, None => False
  | Some x, Some y => String.le x y
  end.

(** The order of two rows under [ORDER BY col]: ids as numbers, any other
    column as texts; [desc] turns it round. *)
Definition row_le (col : string) (desc : bool) (r1 r2 : row) : Prop :=
  let a := if desc then r2 else r1 in
  let b := if desc then r1 else r2 in
  if String.eqb col "id" then (r_id a <= r_id b)%Z
  else text_le (col_text col a) (col_text col b).

#[export] Instance text_le_dec : RelDecision text_le.
Proof. intros [a|] [b|]; simpl; apply _. Defined.

#[export] Instance row_le_dec (col : string) (desc : bool) : RelDecision (row_le col desc).
Proof. intros r1 r2. unfold row_le. destruct (String.eqb col "id"); apply _. Defined.

(** The rows in the order of an ORDER BY clause, or as they are stored. *)
Definition ordered (order : option (string * bool)) (rows : list row) : list row :=
  match order with
  | None => rows
  | Some (col, desc) => merge_sort (row_le col desc) rows
  end.

(** The rows that OFFSET and LIMIT leave. *)
Definition page (limit offset : option nat) (rows : list row) : list row :=
  let rows := drop (default 0 offset) rows in
  match limit with
  | Some n => take n rows
  | None => rows
  end.

(** ** Execution *)

Definition db_select (t : string) (w : dnf) (order : option (string * bool))
    (limit offset : option nat) (db : minidb) : (exn + list pydict) * minidb :=
  match db_tables db !! t with
  | None => (inl (DriverError "no such table"), db)
  | Some tab =>
      (inr (row_dict
              <$> page limit offset
                    (ordered order (filter (fun r => where_holds w r = true) (t_rows tab)))),
       db)
  end.

(** The database with the row [r] at the end of the table [t], which was
    [tab], and the counter moved on. *)
Definition db_add_row (t : string) (tab : table) (r : row) (db : minidb) : minidb :=
  {| db_tables :=
       <[t := {| t_unique := t_unique tab; t_rows := t_rows tab ++ [r] |}]> (db_tables db);
     db_next := (db_next db + 1)%Z |}.

Definition db_insert (t : string) (cols : list string) (cells : list cell) (db : minidb) :
    (exn + list pydict) * minidb :=
  match db_tables db !! t with
  | None => (inl (DriverError "no such table"), db)
  | Some tab =>
      if negb (length cols =? length cells) || bool_decide ("id" ∈ cols)
      then (inl (DriverError "syntax error"), db)
      else
        let r := {| r_id := db_next db; r_cells := zip cols cells |} in
        if unique_clash (t_unique tab) r (t_rows tab)
        then (inl (DriverError "UNIQUE constraint failed"), db)
        else (inr [], db_add_row t tab r db)
  end.

(** The rows of an INSERT one after the other, up to the first that the
    database rejects. *)
Fixpoint db_insert_rows (t : string) (cols : list string) (rows : list (list cell))
    (db : minidb) : (exn + list pydict) * minidb :=
  match rows with
  | [] => (inr [], db)
  | cells :: rows' =>
      match db_insert t cols cells db with
      | (inl e, db') => (inl e, db')
      | (inr _, db') => db_insert_rows t cols rows' db'
      end
  end.

(** An INSERT stores all its rows or none. *)
Definition db_insert_all (t : string) (cols : list string) (rows : list (list cell))
    (db : minidb) : (exn + list pydict) * minidb :=
  match db_insert_rows t cols rows db with
  | (inl e, _) => (inl e, db)
  | (inr rs, db') => (inr rs, db')
  end.

(** The database with [rows] as the rows of the table [t], which was
    [tab]. *)
Definition db_set_rows (t : string) (tab : table) (rows : list row) (db : minidb) : minidb :=
  {| db_tables := <[t := {| t_unique := t_unique tab; t_rows := rows |}]> (db_tables db);
     db_next := db_next db |}.

(** The cells with [c] under [col]: in place of the old cell, or at the
    end. *)
Fixpoint set_cell (col : string) (c : cell) (cells : list (string * cell)) :
    list (string * cell) :=
  match cells with
  | [] => [(col, c)]
  | (k, old) :: cells' =>
      if String.eqb k col then (k, c) :: cells' else (k, old) :: set_cell col c cells'
  end.

(** The row after the assignments of an UPDATE, the first first. *)
Definition update_row (sets : list (string * cell)) (r : row) : row :=
  {| r_id := r_id r;
     r_cells := foldl (fun cells kc => set_cell kc.1 kc.2 cells) (r_cells r) sets |}.

(** The rows of a table after an UPDATE. *)
Definition updated (sets : list (string * cell)) (w : dnf) (rows : list row) : list row :=
  (fun r => if where_holds w r then update_row sets r else r) <$> rows.

(** The rows that meet the WHERE clause get the assignments; the ids stay,
    and so do the rows when a unique column would hold a text twice. *)
Definition db_update (t : string) (sets : list (string * cell)) (w : dnf) (db : minidb) :
    (exn + list pydict) * minidb :=
  match db_tables db !! t with
  | None => (inl (DriverError "no such table"), db)
  | Some tab =>
      if bool_decide ("id" ∈ sets.*1) then (inl (DriverError "syntax error"), db)
      else
        let rows := updated sets w (t_rows tab) in
        if bool_decide (Forall (fun u => NoDup (col_texts u rows)) (t_unique tab))
        then (inr [], db_set_rows t tab rows db)
        else (inl (DriverError "UNIQUE constraint failed"), db)
  end.

(** The rows that meet the WHERE clause leave the table. *)
Definition db_delete (t : string) (w : dnf) (db : minidb) :
    (exn + list pydict) * minidb :=
  match db_tables db !! t with
  | None => (inl (DriverError "no such table"), db)
  | Some tab =>
      (inr [],
       db_set_rows t tab (filter (fun r => where_holds w r = false) (t_rows tab)) db)
  end.

(** [DROP TABLE IF EXISTS]: the table leaves the database, if it is
    there. *)
Definition db_drop (t : string) (db : minidb) : (exn + list pydict) * minidb :=
  (inr [], {| db_tables := delete t (db_tables db); db_next := db_next db |}).

(** [CREATE TABLE]: an empty table with its unique columns; a table of
    that name is an error, or is left as it is under [IF NOT EXISTS]. *)
Definition db_create (t : string) (lenient : bool) (uniq : list string) (db : minidb) :
    (exn + list pydict) * minidb :=
  match db_tables db !! t with
  | Some _ =>
      if lenient then (inr [], db) else (inl (DriverError "table already exists"), db)
  | None =>
      (inr [],
       {| db_tables := <[t := {| t_unique := uniq; t_rows := [] |}]> (db_tables db);
          db_next := db_next db |})
  end.

Definition db_exec (s : stmt) (db : minidb) : (exn + list pydict) * minidb :=
  match s with
  | SInsert t cols rows => db_insert_all t cols rows db
  | SSelect t w order limit offset => db_select t w order limit offset db
  | SUpdate t sets w => db_update t sets w db
  | SDelete t w => db_delete t w db
  | SDrop t => db_drop t db
  | SCreate t lenient uniq => db_create t lenient uniq db
  end.

Definition mini_query (sql : string) (fetchall : bool) : serr minidb exn (list pydict) :=
  fun db =>
    match parse_sql sql with
    | Some s => db_exec s db
    | None => (inl (DriverError "syntax error"), db)
    end.

(** A database with one empty table. *)
Definition one_table (t : string) (uniq : list string) : minidb :=
  {| db_tables := {[ t := {| t_unique := uniq; t_rows := [] |} ]}; db_next := 1 |}.

(** The rows of a table, none for a table that does not exist. *)
Definition rows_of (t : string) (db : minidb) : list row :=
  match db_tables db !! t with
  | Some tab => t_rows tab
  | None => []
  end.

(** ** The invariant *)

Definition table_wf (next : Z) (tab : table) : Prop :=
  Forall (fun r => (r_id r < next)%Z) (t_rows tab)
  /\ NoDup (r_id <$> t_rows tab)
  /\ Forall (fun u => NoDup (col_texts u (t_rows tab))) (t_unique tab).

Definition db_wf (db : minidb) : Prop :=
  map_Forall (fun _ tab => table_wf (db_next db) tab) (db_tables db).

#[export] Instance table_wf_dec (next : Z) (tab : table) : Decision (table_wf next tab).
Proof. unfold table_wf. apply _. Defined.

#[export] Instance db_wf_dec (db : minidb) : Decision (db_wf db).
Proof. unfold db_wf. apply _. Defined.

(** ** Lemmas on the selection *)

Lemma where_holds_one (conds : list cond) (r : row) :
  where_holds [conds] r = row_matches conds r.
Proof. unfold where_holds. simpl. apply orb_false_r. Qed.

(** No WHERE clause: every row. *)
Lemma where_holds_all (r : row) : where_holds [[]] r = true.
Proof. done. Qed.

Lemma page_all (rows : list row) : page None None rows = rows.
Proof. done. Qed.

(** A SELECT with conditions joined by AND and no other clause. *)
Lemma db_select_and (t : string) (conds : list cond) (db : minidb) :
  db_select t [conds] None None None db
  = match db_tables db !! t with
    | None => (inl (DriverError "no such table"), db)
    | Some tab =>
        (inr (row_dict <$> filter (fun r => row_matches conds r = true) (t_rows tab)), db)
    end.
Proof.
  unfold db_select. destruct (db_tables db !! t) as [tab|]; [|done].
  cbn [ordered]. rewrite page_all. do 3 f_equal.
  apply list_filter_iff. intros r. by rewrite where_holds_one.
Qed.

(** A DELETE with conditions joined by AND. *)
Lemma db_delete_and (t : string) (conds : list cond) (db : minidb) :
  db_delete t [conds] db
  = match db_tables db !! t with
    | None => (inl (DriverError "no such table"), db)
    | Some tab =>
        (inr [],
         db_set_rows t tab (filter (fun r => row_matches conds r = false) (t_rows tab)) db)
    end.
Proof.
  unfold db_delete. destruct (db_tables db !! t) as [tab|]; [|done].
  do 3 f_equal. apply list_filter_iff. intros r. by rewrite where_holds_one.
Qed.

(** A SELECT never changes the database. *)
Lemma db_select_state (t : string) (w : dnf) (order : option (string * bool))
    (limit offset : option nat) (db : minidb) :
  (db_select t w order limit offset db).2 = db.
Proof. unfold db_select. by destruct (db_tables db !! t). Qed.

(** The rows of a page are rows of the selection, at most [limit] of
    them, in the order of the ORDER BY clause. *)
Lemma page_sublist (limit offset : option nat) (rows : list row) :
  sublist (page limit offset rows) rows.
Proof.
  unfold page. destruct limit as [n|].
  - etrans; [apply sublist_take|apply sublist_drop].
  - apply sublist_drop.
Qed.

Lemma page_length (n : nat) (offset : option nat) (rows : list row) :
  length (page (Some n) offset rows) <= n.
Proof. unfold page. rewrite length_take. lia. Qed.

(** Two pages that follow each other make up the page of both. *)
Lemma page_app (n m k : nat) (rows : list row) :
  page (Some n) (Some k) rows ++ page (Some m) (Some (k + n)) rows
  = page (Some (n + m)) (Some k) rows.
Proof.
  unfold page. simpl. by rewrite <- drop_drop, take_take_drop.
Qed.

Lemma ordered_perm (order : option (string * bool)) (rows : list row) :
  ordered order rows ≡ₚ rows.
Proof. destruct order as [[col desc]|]; [apply merge_sort_Permutation|done]. Qed.

#[export] Instance text_le_total : Total text_le.
Proof.
  intros [a|] [b|]; simpl; auto. apply (total String.le).
Qed.

#[export] Instance text_le_trans : Transitive text_le.
Proof.
  intros [a|] [b|] [c|]; simpl; try done. apply (transitivity (R:=String.le)).
Qed.

#[export] Instance row_le_total (col : string) (desc : bool) : Total (row_le col desc).
Proof.
  intros r1 r2. unfold row_le. destruct desc, (String.eqb col "id");
    try apply (total text_le); lia.
Qed.

#[export] Instance row_le_trans (col : string) (desc : bool) : Transitive (row_le col desc).
Proof.
  intros r1 r2 r3. unfold row_le. destruct desc, (String.eqb col "id"); try lia;
    intros H12 H23; by etrans.
Qed.

Lemma ordered_sorted (col : string) (desc : bool) (rows : list row) :
  StronglySorted (row_le col desc) (ordered (Some (col, desc)) rows).
Proof. apply StronglySorted_merge_sort; apply _. Qed.

(** ** Lemmas on the tables *)

(** A row meets [col = 'x'] when the text of its column is [x]. *)
Lemma cond_holds_text (u x : string) (r : row) :
  cond_holds r (CEq u (Some x)) = true <-> col_text u r = Some x.
Proof.
  unfold cond_holds, col_text. destruct (row_cell u r) as [[y|]|]; simpl; try done.
  rewrite String.eqb_eq. split; congruence.
Qed.

Lemma unique_clash_false (uniq : list string) (r : row) (rows : list row) (u x : string) :
  unique_clash uniq r rows = false -> u ∈ uniq -> col_text u r = Some x ->
  x ∉ col_texts u rows.
Proof.
  intros Hc Hu Hx Hin. apply list_elem_of_omap in Hin as (old & Hold & Hox).
  apply not_true_iff_false in Hc. apply Hc, existsb_exists. exists u.
  split; [by apply list_elem_of_In|].
  unfold col_text in Hx. destruct (row_cell u r) as [[y|]|]; simplify_eq/=.
  apply existsb_exists. exists old. split; [by apply list_elem_of_In|].
  by apply cond_holds_text.
Qed.

Lemma table_wf_mono (next next' : Z) (tab : table) :
  (next <= next')%Z -> table_wf next tab -> table_wf next' tab.
Proof.
  intros Hle (Hb & Hid & Hu). split; [|done].
  eapply Forall_impl; [exact Hb|]. simpl. lia.
Qed.

(** A row under the next id that clashes with no row keeps the table well
    formed. *)
Lemma table_wf_snoc (next : Z) (tab : table) (cells : list (string * cell)) :
  table_wf next tab ->
  unique_clash (t_unique tab) {| r_id := next; r_cells := cells |} (t_rows tab) = false ->
  table_wf (next + 1)
    {| t_unique := t_unique tab;
       t_rows := t_rows tab ++ [{| r_id := next; r_cells := cells |}] |}.
Proof.
  intros (Hb & Hid & Hu) Hc. split; [|split]; simpl.
  - apply Forall_app. split; [|apply Forall_singleton; simpl; lia].
    eapply Forall_impl; [exact Hb|]. simpl. lia.
  - rewrite fmap_app. apply NoDup_app. split; [done|]. split; [|apply NoDup_singleton].
    intros i Hi ->%list_elem_of_singleton. apply list_elem_of_fmap in Hi as (r & Hr & Hin).
    apply (proj1 (Forall_forall _ _) Hb) in Hin. simpl in *. lia.
  - apply Forall_forall. intros u Hin. unfold col_texts. rewrite omap_app.
    apply NoDup_app. split; [by apply (proj1 (Forall_forall _ _) Hu)|]. simpl.
    destruct (col_text u _) as [x|] eqn:Hx;
      [|split; [by intros y _ Hy; inversion Hy|constructor]].
    split; [|apply NoDup_singleton].
    intros y Hy ->%list_elem_of_singleton. by eapply unique_clash_false.
Qed.

Lemma db_insert_wf (t : string) (cols : list string) (cells : list cell) (db : minidb) :
  db_wf db -> db_wf (db_insert t cols cells db).2.
Proof.
  intros Hwf. unfold db_insert. destruct (db_tables db !! t) as [tab|] eqn:Ht; [|done].
  case_match; [done|]. case_match; [done|]. unfold db_add_row, db_wf. simpl.
  apply map_Forall_insert_2.
  - apply table_wf_snoc; [by apply (Hwf t)|done].
  - eapply map_Forall_impl; [exact Hwf|]. intros t' tab'. simpl.
    apply table_wf_mono. lia.
Qed.

(** Rows that leave keep the table well formed. *)
Lemma table_wf_filter (next : Z) (tab : table) (P : row -> Prop)
    `{!forall r, Decision (P r)} :
  table_wf next tab ->
  table_wf next {| t_unique := t_unique tab; t_rows := filter P (t_rows tab) |}.
Proof.
  intros (Hb & Hid & Hu). split; [|split]; simpl.
  - apply Forall_forall. intros r [_ Hr]%list_elem_of_filter.
    by apply (proj1 (Forall_forall _ _) Hb).
  - refine (sublist_NoDup _ _ Hid _). apply fmap_sublist, sublist_filter.
  - eapply Forall_impl; [exact Hu|]. intros u Hnd.
    refine (sublist_NoDup _ _ Hnd _). apply omap_filter_sublist.
Qed.

Lemma db_delete_wf (t : string) (w : dnf) (db : minidb) :
  db_wf db -> db_wf (db_delete t w db).2.
Proof.
  intros Hwf. unfold db_delete. destruct (db_tables db !! t) as [tab|] eqn:Ht; [|done].
  unfold db_wf, db_set_rows. simpl. apply map_Forall_insert_2; [|done].
  by apply table_wf_filter, (Hwf t).
Qed.

(** An insertion that fails changes nothing. *)
Lemma db_insert_error (t : string) (cols : list string) (cells : list cell) (db : minidb)
    (e : exn) (db' : minidb) :
  db_insert t cols cells db = (inl e, db') -> db' = db.
Proof. unfold db_insert. intros H. repeat case_match; by simplify_eq. Qed.

(** An insertion returns no rows. *)
Lemma db_insert_no_rows (t : string) (cols : list string) (cells : list cell)
    (db : minidb) (rs : list pydict) (db' : minidb) :
  db_insert t cols cells db = (inr rs, db') -> rs = [].
Proof. unfold db_insert. intros H. repeat case_match; by simplify_eq. Qed.

Lemma db_insert_rows_wf (t : string) (cols : list string) (rows : list (list cell))
    (db : minidb) :
  db_wf db -> db_wf (db_insert_rows t cols rows db).2.
Proof.
  revert db. induction rows as [|cells rows IH]; intros db Hwf; [done|]. simpl.
  pose proof (db_insert_wf t cols cells db Hwf) as Hwf'.
  destruct (db_insert t cols cells db) as [[e|rs] db']; [done|by apply IH].
Qed.

Lemma db_insert_all_wf (t : string) (cols : list string) (rows : list (list cell))
    (db : minidb) :
  db_wf db -> db_wf (db_insert_all t cols rows db).2.
Proof.
  intros Hwf. unfold db_insert_all.
  pose proof (db_insert_rows_wf t cols rows db Hwf) as Hwf'.
  by destruct (db_insert_rows t cols rows db) as [[e|rs] db'].
Qed.

(** An INSERT of one row is the insertion of that row. *)
Lemma db_insert_all_one (t : string) (cols : list string) (cells : list cell)
    (db : minidb) :
  db_insert_all t cols [cells] db = db_insert t cols cells db.
Proof.
  unfold db_insert_all. simpl.
  destruct (db_insert t cols cells db) as [[e|rs] db'] eqn:Hi.
  - by rewrite (db_insert_error _ _ _ _ _ _ Hi).
  - by rewrite (db_insert_no_rows _ _ _ _ _ _ Hi).
Qed.

(** An UPDATE keeps the ids of the rows. *)
Lemma updated_ids (sets : list (string * cell)) (w : dnf) (rows : list row) :
  r_id <$> updated sets w rows = r_id <$> rows.
Proof.
  unfold updated. rewrite <- list_fmap_compose. apply list_fmap_ext.
  intros i r _. simpl. by destruct (where_holds w r).
Qed.

Lemma db_update_wf (t : string) (sets : list (string * cell)) (w : dnf) (db : minidb) :
  db_wf db -> db_wf (db_update t sets w db).2.
Proof.
  intros Hwf. unfold db_update. destruct (db_tables db !! t) as [tab|] eqn:Ht; [|done].
  case_bool_decide; [done|]. case_bool_decide as Hu; [|done].
  unfold db_wf, db_set_rows. simpl. apply map_Forall_insert_2; [|done].
  destruct (Hwf t tab Ht) as (Hb & Hid & _). split; [|split]; simpl; [|by rewrite updated_ids|done].
  apply Forall_fmap. eapply Forall_impl; [exact Hb|].
  intros r Hr. simpl. by destruct (where_holds w r).
Qed.

Lemma db_drop_wf (t : string) (db : minidb) : db_wf db -> db_wf (db_drop t db).2.
Proof. intros Hwf. unfold db_wf, db_drop. simpl. by apply map_Forall_delete. Qed.

(** A table that has just been made is well formed. *)
Lemma table_wf_empty (next : Z) (uniq : list string) :
  table_wf next {| t_unique := uniq; t_rows := [] |}.
Proof.
  split; [constructor|]. split; [constructor|]. apply Forall_true. intros u. constructor.
Qed.

Lemma db_create_wf (t : string) (lenient : bool) (uniq : list string) (db : minidb) :
  db_wf db -> db_wf (db_create t lenient uniq db).2.
Proof.
  intros Hwf. unfold db_create. destruct (db_tables db !! t); [by destruct lenient|].
  unfold db_wf. simpl. apply map_Forall_insert_2; [apply table_wf_empty|done].
Qed.

(** Every statement keeps the database well formed. *)
Lemma db_exec_wf (s : stmt) (db : minidb) : db_wf db -> db_wf (db_exec s db).2.
Proof.
  intros Hwf. destruct s; simpl.
  - by apply db_insert_all_wf.
  - by rewrite db_select_state.
  - by apply db_update_wf.
  - by apply db_delete_wf.
  - by apply db_drop_wf.
  - by apply db_create_wf.
Qed.

(** A statement that fails leaves the database as it was. *)
Lemma db_exec_error (s : stmt) (db : minidb) (e : exn) (db' : minidb) :
  db_exec s db = (inl e, db') -> db' = db.
Proof.
  destruct s; simpl;
    unfold db_insert_all, db_select, db_update, db_delete, db_drop, db_create;
    intros H; repeat case_match; by simplify_eq.
Qed.

Lemma mini_query_error (sql : string) (fetchall : bool) (db : minidb) (e : exn)
    (db' : minidb) :
  mini_query sql fetchall db = (inl e, db') -> db' = db.
Proof.
  unfold mini_query. destruct (parse_sql sql); [apply db_exec_error|by intros [= _ <-]].
Qed.

Lemma mini_query_wf (sql : string) (fetchall : bool) (db : minidb) :
  db_wf db -> db_wf (mini_query sql fetchall db).2.
Proof.
  intros Hwf. unfold mini_query. destruct (parse_sql sql) as [s|]; [|done].
  by apply db_exec_wf.
Qed.

(** In a well-formed table at most one row holds a given text in a unique
    column. *)
Lemma unique_one_row (next : Z) (tab : table) (u x : string) :
  table_wf next tab -> u ∈ t_unique tab ->
  length (filter (fun r => row_matches [CEq u (Some x)] r = true) (t_rows tab)) <= 1.
Proof.
  intros (_ & _ & Hu) Hin.
  rewrite (list_filter_iff _ (fun r => col_text u r = Some x)).
  - by apply filter_omap_NoDup, (proj1 (Forall_forall _ _) Hu).
  - intros r. unfold row_matches. simpl. rewrite andb_true_r. apply cond_holds_text.
Qed.

(** The two outcomes of an insertion into a table that exists, of as many
    cells as columns, none of them [id]. *)
Lemma db_insert_ok (t : string) (cols : list string) (cells : list cell) (db : minidb)
    (tab : table) :
  db_tables db !! t = Some tab -> length cols = length cells -> "id" ∉ cols ->
  unique_clash (t_unique tab) {| r_id := db_next db; r_cells := zip cols cells |}
    (t_rows tab) = false ->
  db_insert t cols cells db
  = (inr [], db_add_row t tab {| r_id := db_next db; r_cells := zip cols cells |} db).
Proof.
  intros Ht Hlen Hid Hc. unfold db_insert. rewrite Ht, Hlen, Nat.eqb_refl.
  by rewrite bool_decide_eq_false_2, Hc.
Qed.

Lemma db_insert_clash (t : string) (cols : list string) (cells : list cell) (db : minidb)
    (tab : table) :
  db_tables db !! t = Some tab -> length cols = length cells -> "id" ∉ cols ->
  unique_clash (t_unique tab) {| r_id := db_next db; r_cells := zip cols cells |}
    (t_rows tab) = true ->
  db_insert t cols cells db = (inl (DriverError "UNIQUE constraint failed"), db).
Proof.
  intros Ht Hlen Hid Hc. unfold db_insert. rewrite Ht, Hlen, Nat.eqb_refl.
  by rewrite bool_decide_eq_false_2, Hc.
Qed.

(** The table [t] after a row is added to it. *)
Lemma db_add_row_lookup (t : string) (tab : table) (r : row) (db : minidb) :
  db_tables (db_add_row t tab r db) !! t
  = Some {| t_unique := t_unique tab; t_rows := t_rows tab ++ [r] |}.
Proof. apply lookup_insert_eq. Qed.

(** A new row clashes when an old row holds its text in a unique column. *)
Lemma unique_clash_true (uniq : list string) (r old : row) (rows : list row) (u x : string) :
  u ∈ uniq -> old ∈ rows -> col_text u r = Some x -> col_text u old = Some x ->
  unique_clash uniq r rows = true.
Proof.
  intros Hu Hold Hr Ho. apply existsb_exists. exists u. split; [by apply list_elem_of_In|].
  unfold col_text in Hr. destruct (row_cell u r) as [[y|]|]; simplify_eq/=.
  apply existsb_exists. exists old. split; [by apply list_elem_of_In|].
  by apply cond_holds_text.
Qed.

(** The cell under a column of a row made of columns and cells. *)
Lemma assoc_zip_fmap {A B : Type} (f : A -> B) (k : string) (l : list (string * A)) :
  assoc k (zip l.*1 (f <$> l.*2)) = f <$> assoc k l.
Proof.
  induction l as [|[k' a] l IH]; [done|]. simpl. by destruct (String.eqb k' k).
Qed.

(** ** Rows as the driver returns them *)

(** Every row the database returns carries its id, an integer. *)
Lemma row_dict_id (r : row) : has_int_id (row_dict r).
Proof. by exists (r_id r). Qed.

Lemma db_insert_rows_nil (t : string) (cols : list string) (rows : list (list cell))
    (db : minidb) (rs : list pydict) (db' : minidb) :
  db_insert_rows t cols rows db = (inr rs, db') -> rs = [].
Proof.
  revert db. induction rows as [|cells rows IH]; intros db; simpl; [congruence|].
  destruct (db_insert t cols cells db) as [[e|rs'] db'']; [done|]. apply IH.
Qed.

Lemma db_exec_rows (s : stmt) (db : minidb) (rows : list pydict) (db' : minidb) :
  db_exec s db = (inr rows, db') -> Forall has_int_id rows.
Proof.
  destruct s as [t cols rs|t w o l f|t sets w|t w|t|t l u]; simpl.
  - unfold db_insert_all. destruct (db_insert_rows t cols rs db) as [[e|rs'] db''] eqn:Hi; [done|].
    intros [= <- <-]. by rewrite (db_insert_rows_nil _ _ _ _ _ _ Hi).
  - unfold db_select. destruct (db_tables db !! t); [|done]. intros [= <- <-].
    apply Forall_fmap, Forall_true. intros r. apply row_dict_id.
  - unfold db_update. repeat case_match; intros [= <- <-]; constructor.
  - unfold db_delete. case_match; intros [= <- <-]; constructor.
  - intros [= <- <-]. constructor.
  - unfold db_create. repeat case_match; intros [= <- <-]; constructor.
Qed.

Lemma mini_query_rows (sql : string) (f : bool) (db : minidb) (rows : list pydict)
    (db' : minidb) :
  mini_query sql f db = (inr rows, db') -> Forall has_int_id rows.
Proof. unfold mini_query. destruct (parse_sql sql) as [s|]; [apply db_exec_rows|done]. Qed.

(** The database raises its own errors only. *)
Lemma db_exec_no_key_error (s : stmt) (db : minidb) (k : string) (db' : minidb) :
  db_exec s db = (inl (KeyError k), db') -> False.
Proof.
  destruct s as [t cols rs|t w o l f|t sets w|t w|t|t l u]; simpl.
  - unfold db_insert_all. destruct (db_insert_rows t cols rs db) as [[e|rs'] db''] eqn:Hi;
      [|done]. intros [= -> _]. revert db Hi.
    induction rs as [|cells rs IH]; intros db; simpl; [done|].
    destruct (db_insert t cols cells db) as [[e|rs'] db1] eqn:Hc; [|apply IH].
    intros [= -> _]. revert Hc. unfold db_insert. by repeat case_match.
  - unfold db_select. by case_match.
  - unfold db_update. by repeat case_match.
  - unfold db_delete. by case_match.
  - done.
  - unfold db_create. by repeat case_match.
Qed.

(** ** Dropping tables *)

(** The tables of a list dropped one after the other. *)
Definition db_drop_all (names : list string) (db : minidb) : minidb :=
  foldl (fun db t => (db_drop t db).2) db names.

Lemma db_drop_all_lookup (names : list string) (db : minidb) (t : string) :
  db_tables (db_drop_all names db) !! t
  = if decide (t ∈ names) then None else db_tables db !! t.
Proof.
  revert db. induction names as [|n names IH]; intros db.
  - by rewrite decide_False by apply not_elem_of_nil.
  - change (db_drop_all (n :: names) db) with (db_drop_all names (db_drop n db).2).
    rewrite IH. cbn [db_drop snd db_tables].
    destruct (decide (t ∈ names)) as [Hin|Hin].
    + by rewrite decide_True by by right.
    + destruct (decide (t = n)) as [->|Hne].
      * rewrite decide_True by by left. apply lookup_delete_eq.
      * rewrite decide_False by (by intros [?|?]%elem_of_cons). by apply lookup_delete_ne.
Qed.

Lemma db_drop_all_next (names : list string) (db : minidb) :
  db_next (db_drop_all names db) = db_next db.
Proof.
  revert db. induction names as [|n names IH]; intros db; [done|].
  change (db_drop_all (n :: names) db) with (db_drop_all names (db_drop n db).2).
  by rewrite IH.
Qed.

(** Once every table is dropped the database is empty. *)
Lemma db_drop_all_tables (db : minidb) :
  db_drop_all (map_to_list (db_tables db)).*1 db
  = {| db_tables := ∅; db_next := db_next db |}.
Proof.
  pose proof (db_drop_all_next (map_to_list (db_tables db)).*1 db) as Hn.
  assert (db_tables (db_drop_all (map_to_list (db_tables db)).*1 db) = ∅) as Ht.
  { apply map_eq. intros t. rewrite db_drop_all_lookup, lookup_empty.
    case_decide as Hin; [done|]. destruct (db_tables db !! t) as [tab|] eqn:Hl; [|done].
    destruct Hin. apply list_elem_of_fmap. exists (t, tab). by rewrite elem_of_map_to_list. }
  destruct (db_drop_all _ db). simpl in *. by subst.
Qed.

(** ** Statements that only add rows *)

(** An INSERT or a SELECT: no row leaves or changes. *)
Definition harmless (s : stmt) : bool :=
  match s with
  | SInsert _ _ _ | SSelect _ _ _ _ _ => true
  | _ => false
  end.

(** The table [t] of [db'] is the table [tab] with rows after its rows. *)
Definition grown (t : string) (tab : table) (db' : minidb) : Prop :=
  exists rows, db_tables db' !! t
               = Some {| t_unique := t_unique tab; t_rows := t_rows tab ++ rows |}.

Lemma grown_refl (t : string) (tab : table) (db : minidb) :
  db_tables db !! t = Some tab -> grown t tab db.
Proof. intros Ht. exists []. rewrite app_nil_r. by destruct tab. Qed.

Lemma grown_trans (t : string) (tab tab' : table) (db' db'' : minidb) :
  db_tables db' !! t = Some tab' -> grown t tab db' -> grown t tab' db'' -> grown t tab db''.
Proof.
  intros Ht [rows Hg] [rows' Hg']. rewrite Ht in Hg. injection Hg as ->.
  exists (rows ++ rows'). by rewrite app_assoc.
Qed.

Lemma db_insert_grown (t' : string) (cols : list string) (cells : list cell) (db : minidb)
    (t : string) (tab : table) :
  db_tables db !! t = Some tab -> grown t tab (db_insert t' cols cells db).2.
Proof.
  intros Ht. unfold db_insert. destruct (db_tables db !! t') as [tab'|] eqn:Ht';
    [|by apply grown_refl]. repeat case_match; try by apply grown_refl.
  unfold grown, db_add_row. simpl. destruct (decide (t = t')) as [->|Hne].
  - rewrite Ht in Ht'. injection Ht' as <-. eexists. apply lookup_insert_eq.
  - exists []. rewrite lookup_insert_ne, app_nil_r by done. by destruct tab.
Qed.

Lemma db_insert_rows_grown (t' : string) (cols : list string) (rows : list (list cell))
    (db : minidb) (t : string) (tab : table) :
  db_tables db !! t = Some tab -> grown t tab (db_insert_rows t' cols rows db).2.
Proof.
  revert db tab. induction rows as [|cells rows IH]; intros db tab Ht; [by apply grown_refl|].
  simpl. pose proof (db_insert_grown t' cols cells db t tab Ht) as Hg.
  destruct (db_insert t' cols cells db) as [[e|rs] db']; [done|].
  destruct Hg as [rows' Hg]. eapply grown_trans; [exact Hg|by exists rows'|by apply IH].
Qed.

Lemma harmless_grown (s : stmt) (db : minidb) (t : string) (tab : table) :
  harmless s = true -> db_tables db !! t = Some tab -> grown t tab (db_exec s db).2.
Proof.
  intros Hs Ht. destruct s as [t' cols rows|t' w o l f| | | |]; try done; simpl.
  - unfold db_insert_all. pose proof (db_insert_rows_grown t' cols rows db t tab Ht) as Hg.
    destruct (db_insert_rows t' cols rows db) as [[e|rs] db']; [by apply grown_refl|done].
  - rewrite db_select_state. by apply grown_refl.
Qed.

(** A clash names a unique column and an old row with the cell of the new
    row in it. *)
Lemma unique_clash_inv (uniq : list string) (r : row) (rows : list row) :
  unique_clash uniq r rows = true ->
  exists u c old, u ∈ uniq /\ old ∈ rows /\ row_cell u r = Some c
                  /\ cond_holds old (CEq u c) = true.
Proof.
  intros (u & Hu & Hc)%existsb_exists. destruct (row_cell u r) as [c|] eqn:Hr; [|done].
  apply existsb_exists in Hc as (old & Hold & Hh).
  exists u, c, old. by rewrite !list_elem_of_In.
Qed.

(** The table [t] holds a row with the text [x] in the column [u]. *)
Definition present (t u x : string) (db : minidb) : Prop :=
  exists tab r, db_tables db !! t = Some tab /\ r ∈ t_rows tab /\ col_text u r = Some x.

Lemma present_grown (t u x : string) (tab : table) (r : row) (db' : minidb) :
  r ∈ t_rows tab -> col_text u r = Some x -> grown t tab db' -> present t u x db'.
Proof.
  intros Hr Hx [rows Hg]. eexists _, r. split; [exact Hg|]. split; [|done].
  simpl. apply elem_of_app. by left.
Qed.

(** After an insertion of a row with the text [x] in the column [u], into
    a table where only [u] is unique, the table holds a row with [x] in
    [u]: the new one, or the one it clashes with. *)
Lemma db_insert_present (t u x : string) (cols : list string) (cells : list cell)
    (db : minidb) (tab : table) :
  db_tables db !! t = Some tab -> t_unique tab ⊆ [u] ->
  length cols = length cells -> "id" ∉ cols ->
  col_text u {| r_id := db_next db; r_cells := zip cols cells |} = Some x ->
  exists tab' r, db_tables (db_insert t cols cells db).2 !! t = Some tab'
                 /\ t_unique tab' = t_unique tab /\ r ∈ t_rows tab' /\ col_text u r = Some x.
Proof.
  intros Ht Hu Hlen Hid Hx.
  destruct (unique_clash (t_unique tab) {| r_id := db_next db; r_cells := zip cols cells |}
              (t_rows tab)) eqn:Hc.
  - rewrite (db_insert_clash _ _ _ _ tab) by done.
    apply unique_clash_inv in Hc as (u' & c & old & Hin & Hold & Hr & Hh).
    apply Hu, list_elem_of_singleton in Hin as ->.
    unfold col_text in Hx. rewrite Hr in Hx. simpl in Hx. subst c.
    exists tab, old. by rewrite <- cond_holds_text.
  - rewrite (db_insert_ok _ _ _ _ tab) by done. eexists _, _.
    split; [apply db_add_row_lookup|]. split; [done|]. split; [|exact Hx].
    simpl. apply elem_of_app. right. by left.
Qed.
