(* ===== verification/Readback.v ===== *)
(** * The statements as the reference database reads them

    The words of the statements that the builders write, and what the
    parser of [SqlParse] makes of them: the INSERT of [add] and
    [add_bulk], the SELECT of [get] with its filters and clauses, the
    UPDATE of [update], the DELETE of [delete] and [purge] and the DROP
    of [drop_table] are read back as the insertion, the selection, the
    update, the deletion and the drop they stand for.  [ident] and
    [column] name the tables and columns the lemmas cover, [plain] the
    values: integers, [None], and texts that are no numbers.  [cell_of]
    is the cell the database stores for a value, [cond_of] the condition
    it reads in a filter of [get], [row_of] the row of an entry. *)

From stdpp Require Import gmap.
From S2P Require Import Prelude PyValue Escaper SqlScan Driver Builder Injection.
From S2P Require Import Accessors Lexer SqlParse MiniDb.

(** ** Names and values *)

(** An identifier: one word, without a quote. *)
Definition ident (w : string) : Prop := word w /\ name_ok w.

(** A character of a numeral: no delimiter, no quote, and not the first
    character of [?] or [NULL]. *)
Definition numeral_char (a : ascii) : bool :=
  negb (is_delim a) && negb (Ascii.eqb a "'") && negb (Ascii.eqb a "?")
  && negb (Ascii.eqb "N" (upper_char a)).

(** A column [get_id] may filter on: an identifier that is not the name of
    a parameter of [get]. *)
Definition column (k : string) : Prop :=
  ident k /\ k ∉ get_params ++ ["self"; "table"].

#[export] Instance word_dec (w : string) : Decision (word w).
Proof. unfold word. apply _. Defined.

#[export] Instance ident_dec (w : string) : Decision (ident w).
Proof. unfold ident, name_ok. apply _. Defined.

#[export] Instance column_dec (k : string) : Decision (column k).
Proof. unfold column. apply _. Defined.

(** [decided]: a decidable proposition that computes to true. *)
Ltac decided := apply (bool_decide_unpack _); vm_compute; reflexivity.

(** [tokens_kw w]: the closed word [w] at the start of a text. *)
Ltac tokens_kw w :=
  rewrite (tokens_word_app w) by (done || by split).

(** The ORDER BY, LIMIT and OFFSET arguments of [get] as Python values:
    a column, with [DESC] after it when the flag is set; a number. *)
Definition order_value (order : option (string * bool)) : value :=
  match order with
  | None => VNone
  | Some (col, desc) => VStr (if desc then col +:+ " DESC" else col)
  end.

Definition count_value (n : option nat) : value :=
  match n with
  | None => VNone
  | Some n => VInt (Z.of_nat n)
  end.

(** The keyword between the filters of [get]: [OR] when a row has to meet
    any of them, [AND] when all. *)
Definition logic_word (any : bool) : string := if any then "OR" else "AND".

(** The column of an ORDER BY clause is an identifier. *)
Definition order_ok (order : option (string * bool)) : Prop :=
  match order with
  | None => True
  | Some (col, _) => ident col
  end.

#[export] Instance order_ok_dec (order : option (string * bool)) : Decision (order_ok order).
Proof. destruct order as [[col desc]|]; simpl; apply _. Defined.

Section readback.
Context {ND : NumberDetect}.

(** The values the theorems cover. *)
Definition plain (v : value) : Prop :=
  match v with
  | VNone | VInt _ => True
  | VStr s => is_number (VStr s) = false
  | _ => False
  end.

#[export] Instance plain_dec (v : value) : Decision (plain v).
Proof. destruct v; simpl; apply _. Defined.

(** The cell the database stores for a value that [add] has written. *)
Definition cell_of (sqlite : bool) (v : value) : cell :=
  if is_number v then Some (py_str v)
  else if is_None v then None
  else Some (literal_text sqlite (py_str v)).

(** The condition the database reads in a filter of [get]. *)
Definition cond_of (kv : string * value) : cond :=
  if is_None kv.2 then CNull kv.1 else CEq kv.1 (Some (py_str kv.2)).

(** The WHERE clause the database reads in the filters of [get]. *)
Definition where_of (any : bool) (values : pydict) : dnf :=
  match values with
  | [] => [[]]
  | _ => if any then (fun kv => [cond_of kv]) <$> values else [cond_of <$> values]
  end.

(** The assignment and the condition the database reads in an item of
    [update]. *)
Definition set_of (sqlite : bool) (kv : string * value) : string * cell :=
  (kv.1, cell_of sqlite kv.2).

Definition eq_of (sqlite : bool) (kv : string * value) : cond :=
  CEq kv.1 (cell_of sqlite kv.2).

(** The filter of [get] on a value finds the cell [add] has stored for
    it. *)
Definition findable (sqlite : bool) (v : value) : bool :=
  is_None v || is_number v || String.eqb (literal_text sqlite (py_str v)) (py_str v).

(** The words of a filter of [get], of a row of values, and of an item of
    [update]. *)
Definition filter_tokens (kv : string * value) : list string :=
  if is_None kv.2 then [kv.1; "is"; "NULL"]
  else [kv.1; "="; if isinstance_int kv.2 then py_str kv.2 else "?"].

Definition row_words (entry : pydict) : list string := value_skel <$> dict_values entry.

Definition assign_words (kv : string * value) : list string :=
  [kv.1; "="; value_skel kv.2].

(** The words of the clauses of [get]. *)
Definition order_words (order : option (string * bool)) : list string :=
  match order with
  | None => []
  | Some (col, desc) => "ORDER" :: "BY" :: col :: (if desc then ["DESC"] else [])
  end.

Definition count_words (k : string) (n : option nat) : list string :=
  match n with
  | None => []
  | Some n => [k; pretty n]
  end.

(** The row [add] makes the database store, and the cells of an entry. *)
Definition row_cells (sqlite : bool) (entry : pydict) : list cell :=
  cell_of sqlite <$> dict_values entry.

Definition row_of (sqlite : bool) (id : Z) (entry : pydict) : row :=
  {| r_id := id; r_cells := zip (dict_keys entry) (cell_of sqlite <$> dict_values entry) |}.

(** ** Numerals *)

Lemma pretty_Z_numeral (z : Z) : Str.forallb numeral_char (pretty z) = true.
Proof.
  apply pretty_Z_forallb; [|done].
  intros n. unfold pretty_N_char. by repeat case_match.
Qed.

Lemma numeral_char_spec (a : ascii) :
  numeral_char a = true ->
  negb (is_delim a) = true /\ Ascii.eqb a "'" = false
  /\ Ascii.eqb a "?" = false /\ Ascii.eqb "N" (upper_char a) = false.
Proof.
  unfold numeral_char. intros [[[Ha Hb]%andb_prop Hc]%andb_prop Hd]%andb_prop.
  by rewrite <- !negb_true_iff.
Qed.

Lemma numeral_tail (t : string) :
  Str.forallb numeral_char t = true ->
  Str.forallb (fun b => negb (is_delim b)) t = true /\ Str.mem "'" t = false.
Proof.
  induction t as [|b t IH]; [done|]. simpl.
  intros [(Hb & Hq & _)%numeral_char_spec [Hw Hm]%IH]%andb_prop.
  by rewrite Hb, Hw, Hq.
Qed.

Lemma numeral_word (t : string) :
  t <> EmptyString -> Str.forallb numeral_char t = true ->
  word t /\ name_ok t /\ String.eqb t "?" = false /\ kw "NULL" t = false.
Proof.
  intros Hne Ht. destruct (numeral_tail t Ht) as [Hw Hq].
  destruct t as [|a t]; [done|]. simpl in Ht.
  apply andb_prop in Ht as [(_ & _ & Hc & Hd)%numeral_char_spec _].
  split; [done|]. split; [done|]. split; [by simpl; rewrite Hc|].
  by apply kw_head.
Qed.

(** ** Values as words and cells *)

Lemma plain_number (v : value) :
  plain v -> is_number v = true -> exists z, v = VInt z.
Proof.
  destruct v as [| |z| |s]; simpl; try done.
  - intros _. by rewrite is_number_None.
  - intros _ _. by exists z.
  - by intros ->.
Qed.

Lemma plain_wf (v : value) : plain v -> value_wf v.
Proof. by destruct v. Qed.

Lemma value_skel_plain (v : value) :
  plain v ->
  word (value_skel v)
  /\ forall sqlite lits,
       read_cell (value_skel v) (value_lits sqlite v ++ lits)
       = Some (cell_of sqlite v, lits).
Proof.
  intros Hv. unfold value_skel, value_lits, cell_of.
  destruct (is_number v) eqn:Hn.
  - destruct (plain_number v Hv Hn) as [z ->]. simpl.
    destruct (numeral_word (pretty z) (pretty_Z_nonempty z) (pretty_Z_numeral z))
      as (Hw & _ & Hq & Hnull).
    split; [done|]. intros _ lits. unfold read_cell. by rewrite Hq, Hnull.
  - destruct (is_None v); by split.
Qed.

Lemma read_cells_row (sqlite : bool) (vs : list value) (lits : list string) :
  Forall plain vs ->
  read_cells (value_skel <$> vs) ((vs ≫= value_lits sqlite) ++ lits)
  = Some (cell_of sqlite <$> vs, lits).
Proof.
  induction 1 as [|v vs Hv _ IH]; [done|].
  rewrite fmap_cons, bind_cons, <- app_assoc. cbn [read_cells].
  by rewrite (proj2 (value_skel_plain v Hv)), IH.
Qed.

(** The rows of entries of plain values, read with their literals. *)
Lemma read_rows_entries (sqlite : bool) (entries : list pydict) :
  Forall (fun entry => Forall plain (dict_values entry)) entries ->
  read_rows (row_words <$> entries) (entries ≫= row_lits sqlite)
  = Some (row_cells sqlite <$> entries).
Proof.
  induction 1 as [|entry entries He _ IH]; [done|].
  rewrite !fmap_cons, bind_cons. cbn [read_rows]. unfold row_words at 1, row_lits at 1.
  by rewrite read_cells_row, IH.
Qed.

Lemma py_str_int_word (v : value) :
  isinstance_int v = true ->
  word (py_str v) /\ String.eqb (py_str v) "?" = false /\ kw "NULL" (py_str v) = false.
Proof.
  intros Hv. assert (py_str v <> EmptyString /\ Str.forallb numeral_char (py_str v) = true)
    as [Hne Hnum].
  { destruct v as [|[]|z| |]; try done. split; [apply pretty_Z_nonempty|apply pretty_Z_numeral]. }
  destruct (numeral_word _ Hne Hnum) as (Hw & _ & Hq & Hnull). done.
Qed.

Lemma ident_keys (d : pydict) :
  Forall ident (dict_keys d) -> Forall (fun kv => word kv.1) d /\ Forall name_ok (dict_keys d).
Proof.
  intros Hk. split.
  - apply (Forall_fmap fst) in Hk. eapply Forall_impl; [exact Hk|]. by intros kv [].
  - eapply Forall_impl; [exact Hk|]. by intros k [].
Qed.

(** Columns are identifiers that no parameter of [get] binds. *)
Lemma columns_spec (values : pydict) :
  Forall column (dict_keys values) ->
  kwargs_clash values = false
  /\ Forall (fun k => k ∉ get_params) (dict_keys values)
  /\ Forall ident (dict_keys values).
Proof.
  intros Hc. split; [|split].
  - unfold kwargs_clash, dict_contains. apply orb_false_intro; apply bool_decide_eq_false;
      intros Hin; apply (proj1 (Forall_forall _ _) Hc) in Hin as [_ Hn];
      apply Hn, elem_of_app; right; by repeat constructor.
  - eapply Forall_impl; [exact Hc|]. intros k [_ Hn] Hin.
    apply Hn, elem_of_app. by left.
  - eapply Forall_impl; [exact Hc|]. by intros k [].
Qed.

(** An entry of identifiers and plain values is made of items the scanner
    reads. *)
Lemma plain_items_ok (d : pydict) :
  Forall ident (dict_keys d) -> Forall plain (dict_values d) -> items_ok d.
Proof.
  intros Hk Hv. apply Forall_forall. intros [k v] Hin. split.
  - apply (proj1 (Forall_forall _ _) Hk k), list_elem_of_fmap. by exists (k, v).
  - apply plain_wf, (proj1 (Forall_forall _ _) Hv v), list_elem_of_fmap. by exists (k, v).
Qed.

Lemma row_words_word (entry : pydict) :
  Forall plain (dict_values entry) -> Forall word (row_words entry).
Proof.
  intros Hv. apply Forall_fmap. eapply Forall_impl; [exact Hv|].
  intros v Hpv. apply (value_skel_plain v Hpv).
Qed.

(** ** INSERT *)

Lemma tokens_insert_head (table : string) (keys : list string) (t : string) :
  word table -> keys <> [] -> Forall word keys ->
  tokens (insert_head table keys +:+ t)
  = ["INSERT"; "INTO"; table; "("] ++ intersperse "," keys ++ [")"; "VALUES"] ++ tokens t.
Proof.
  intros Ht Hk Hks.
  replace (insert_head table keys +:+ t)
    with ("INSERT" +:+ String " " ("INTO" +:+ String " " (table +:+ String " "
            (String "(" (String.concat "," keys +:+ String ")" (String " "
               ("VALUES" +:+ String " " t)))))))
    by (unfold insert_head; by autorewrite with str).
  tokens_kw "INSERT". rewrite tokens_blank. tokens_kw "INTO".
  rewrite tokens_blank, (tokens_word_app table), tokens_blank, (tokens_punct "(") by done.
  rewrite tokens_concat_comma, (tokens_punct ")"), tokens_blank by done.
  tokens_kw "VALUES". by rewrite tokens_blank.
Qed.

(** The words of one row in its brackets. *)
Lemma tokens_row (entry : pydict) (t : string) :
  entry <> [] -> Forall plain (dict_values entry) -> starts_delim t = true ->
  tokens (row_skel entry +:+ t)
  = "(" :: intersperse "," (row_words entry) ++ ")" :: tokens t.
Proof.
  intros Hne Hv Ht. unfold row_skel.
  replace (("(" +:+ String.concat "," (value_skel <$> dict_values entry) +:+ ")") +:+ t)
    with (String "(" (String.concat "," (row_words entry) +:+ String ")" t))
    by (unfold row_words; by autorewrite with str).
  rewrite (tokens_punct "(") by done.
  rewrite tokens_concat_comma; [|by destruct entry|by apply row_words_word|done].
  by rewrite (tokens_punct ")").
Qed.

(** The words of the rows of a bulk insert. *)
Lemma tokens_rows (entries : list pydict) :
  entries <> [] -> Forall (fun entry => entry <> [] /\ Forall plain (dict_values entry)) entries ->
  tokens (String.concat "," (row_skel <$> entries))
  = "(" :: tuples_words (row_words <$> entries).
Proof.
  intros Hne He. induction He as [|entry entries [Hen Hev] He IH]; [done|].
  destruct entries as [|entry' entries].
  - rewrite <- (Str.app_nil_r (String.concat _ _)). cbn [fmap list_fmap String.concat].
    by rewrite tokens_row.
  - rewrite !fmap_cons, Str.concat_cons2, <- !fmap_cons.
    change ("," +:+ ?s) with (String "," s).
    by rewrite tokens_row, (tokens_punct ","), IH.
Qed.

(** The database reads the statement of [add_bulk] as the insertion of
    the cells of the entries, row by row, under the keys. *)
Lemma parse_add_bulk_text (sqlite : bool) (table : string) (keys : list string)
    (entries : list pydict) :
  ident table -> keys <> [] -> Forall ident keys -> entries <> [] ->
  Forall (fun entry => entry <> [] /\ items_ok entry /\ Forall plain (dict_values entry))
    entries ->
  parse_sql (render (add_bulk_pieces sqlite table keys entries))
  = Some (SInsert table keys (row_cells sqlite <$> entries)).
Proof.
  intros [Htw Htq] Hk Hks Hne He. unfold parse_sql.
  rewrite add_bulk_text_scan;
    [|done|by eapply Forall_impl; [exact Hks|]; intros k []
     |by eapply Forall_impl; [exact He|]; intros e (_ & ? & _)].
  rewrite tokens_insert_head;
    [|done..|eapply Forall_impl; [exact Hks|]; by intros k []].
  rewrite tokens_rows; [|done|by eapply Forall_impl; [exact He|]; intros e (? & _ & ?)].
  unfold parse_stmt, parse_insert. cbn [app expect]. rewrite !kw_refl.
  cbn [mbind option_bind]. rewrite parse_names_intersperse by done.
  cbn [mbind option_bind]. rewrite !kw_refl. cbn [mbind option_bind].
  rewrite parse_tuples_words.
  - cbn [mbind option_bind]. rewrite read_rows_entries; [done|].
    eapply Forall_impl; [exact He|]. by intros e (_ & _ & ?).
  - by destruct entries.
  - apply Forall_fmap. eapply Forall_impl; [exact He|]. intros e (Hen & _). by destruct e.
Qed.

(** The database reads the statement of [add] as the insertion of the
    entry's cells under its keys. *)
Lemma parse_add_text (sqlite : bool) (table : string) (entry : pydict) :
  ident table -> entry <> [] -> Forall ident (dict_keys entry) ->
  Forall plain (dict_values entry) ->
  parse_sql (render (add_pieces sqlite table entry))
  = Some (SInsert table (dict_keys entry) [row_cells sqlite entry]).
Proof.
  intros Ht Hne Hk Hv.
  replace (render (add_pieces sqlite table entry))
    with (render (add_bulk_pieces sqlite table (dict_keys entry) [entry])).
  - apply (parse_add_bulk_text sqlite table (dict_keys entry) [entry]);
      [done|by destruct entry|done|done|].
    apply Forall_singleton. split; [done|]. split; [by apply plain_items_ok|done].
  - rewrite add_bulk_pieces_render, add_pieces_render. unfold row_text. simpl.
    by autorewrite with str.
Qed.

(** ** SELECT *)

Lemma tokens_filter (kv : string * value) (t : string) :
  word kv.1 -> starts_delim t = true ->
  tokens (filter_skel kv +:+ t) = filter_tokens kv ++ tokens t.
Proof.
  intros Hk Ht. unfold filter_skel, filter_tokens. destruct (is_None kv.2).
  - replace ((" " +:+ kv.1 +:+ " is NULL") +:+ t)
      with (String " " (kv.1 +:+ String " " ("is" +:+ String " " ("NULL" +:+ t))))
      by by autorewrite with str.
    rewrite tokens_blank, tokens_word_app, tokens_blank by done.
    tokens_kw "is". rewrite tokens_blank. by tokens_kw "NULL".
  - set (tok := if isinstance_int kv.2 then py_str kv.2 else "?").
    assert (word tok) as Htok.
    { unfold tok. destruct (isinstance_int kv.2) eqn:Hi; [|by split].
      apply (py_str_int_word _ Hi). }
    replace ((" " +:+ kv.1 +:+ " = " +:+ tok) +:+ t)
      with (String " " (kv.1 +:+ String " " ("=" +:+ String " " (tok +:+ t))))
      by by autorewrite with str.
    rewrite tokens_blank, tokens_word_app, tokens_blank by done.
    tokens_kw "=". by rewrite tokens_blank, (tokens_word_app tok).
Qed.

(** The filters joined by the keyword of [logic]. *)
Lemma tokens_filters (w : string) (values : pydict) (t : string) :
  word w -> Forall (fun kv => word kv.1) values -> starts_delim t = true ->
  tokens (String.concat ("  " +:+ w +:+ " ") (filter_skel <$> values) +:+ t)
  = join_words [w] (filter_tokens <$> values) ++ tokens t.
Proof.
  intros Hw. apply (tokens_joined (fun kv => word kv.1)); [apply tokens_filter| |done].
  intros u. change (("  " +:+ w +:+ " ") +:+ u) with (String " " (String " " ((w +:+ " ") +:+ u))).
  rewrite Str.app_assoc, !tokens_blank, tokens_word_app by done.
  change (" " +:+ u) with (String " " u). by rewrite tokens_blank.
Qed.

Lemma tokens_select_head (table t : string) :
  word table -> starts_delim t = true ->
  tokens ("SELECT * FROM " +:+ table +:+ " " +:+ t)
  = "SELECT" :: "*" :: "FROM" :: table :: tokens t.
Proof.
  intros Hw Ht.
  replace ("SELECT * FROM " +:+ table +:+ " " +:+ t)
    with ("SELECT" +:+ String " " ("*" +:+ String " " ("FROM" +:+ String " "
            (table +:+ String " " t))))
    by by autorewrite with str.
  tokens_kw "SELECT". rewrite tokens_blank. tokens_kw "*". rewrite tokens_blank.
  tokens_kw "FROM". by rewrite tokens_blank, tokens_word_app, tokens_blank.
Qed.

Lemma pretty_Z_of_nat (n : nat) : pretty (Z.of_nat n) = pretty n.
Proof. by destruct n. Qed.

Lemma pretty_nat_word (n : nat) : word (pretty n) /\ name_ok (pretty n).
Proof.
  rewrite <- pretty_Z_of_nat.
  destruct (numeral_word _ (pretty_Z_nonempty (Z.of_nat n)) (pretty_Z_numeral _))
    as (? & ? & _). done.
Qed.

(** The clauses of [get] as they are written. *)
Definition order_text (order : option (string * bool)) : string :=
  match order with
  | None => ""
  | Some (col, desc) => " ORDER BY " +:+ col +:+ (if desc then " DESC" else "")
  end.

Definition count_text (k : string) (n : option nat) : string :=
  match n with
  | None => ""
  | Some n => " " +:+ k +:+ " " +:+ pretty n +:+ " "
  end.

Lemma get_clauses_text (order : option (string * bool)) (limit offset : option nat) :
  String.concat "" (get_clauses (order_value order) (count_value limit) (count_value offset))
  = order_text order +:+ count_text "limit" limit +:+ count_text "offset" offset.
Proof.
  unfold get_clauses, clause, order_text, count_text.
  destruct order as [[col []]|], limit as [n|], offset as [m|]; simpl;
    rewrite ?pretty_Z_of_nat; by autorewrite with str.
Qed.

Lemma tokens_order (order : option (string * bool)) (t : string) :
  (forall col desc, order = Some (col, desc) -> word col) -> starts_delim t = true ->
  tokens (order_text order +:+ t) = order_words order ++ tokens t.
Proof.
  intros Ho Ht. destruct order as [[col desc]|]; [|done].
  pose proof (Ho col desc eq_refl) as Hcol. unfold order_text, order_words.
  replace ((" ORDER BY " +:+ col +:+ (if desc then " DESC" else "")) +:+ t)
    with (String " " ("ORDER" +:+ String " " ("BY" +:+ String " "
            (col +:+ (if desc then String " " ("DESC" +:+ t) else t)))))
    by (destruct desc; by autorewrite with str).
  rewrite tokens_blank. tokens_kw "ORDER". rewrite tokens_blank. tokens_kw "BY".
  rewrite tokens_blank, tokens_word_app by by destruct desc.
  destruct desc; [|done]. rewrite tokens_blank. by tokens_kw "DESC".
Qed.

Lemma tokens_count (k : string) (n : option nat) (t : string) :
  word k -> tokens (count_text k n +:+ t) = count_words k n ++ tokens t.
Proof.
  intros Hk. destruct n as [n|]; [|done]. unfold count_text, count_words.
  replace ((" " +:+ k +:+ " " +:+ pretty n +:+ " ") +:+ t)
    with (String " " (k +:+ String " " (pretty n +:+ String " " t)))
    by by autorewrite with str.
  rewrite tokens_blank, tokens_word_app, tokens_blank by done.
  by rewrite tokens_word_app, tokens_blank by (done || apply pretty_nat_word).
Qed.

Lemma clauses_starts_delim (order : option (string * bool)) (limit offset : option nat) :
  starts_delim (order_text order +:+ count_text "limit" limit +:+ count_text "offset" offset)
  = true.
Proof. by destruct order as [[col desc]|], limit, offset. Qed.

(** The words of the clauses. *)
Definition clauses_words (order : option (string * bool)) (limit offset : option nat) :
    list string :=
  order_words order ++ count_words "limit" limit ++ count_words "offset" offset.

Lemma tokens_clauses (order : option (string * bool)) (limit offset : option nat) :
  (forall col desc, order = Some (col, desc) -> word col) ->
  tokens (order_text order +:+ count_text "limit" limit +:+ count_text "offset" offset)
  = clauses_words order limit offset.
Proof.
  intros Ho. rewrite tokens_order by (done || by destruct limit, offset).
  rewrite tokens_count by done. rewrite <- (Str.app_nil_r (count_text "offset" offset)).
  by rewrite tokens_count, app_nil_r.
Qed.

Lemma tokens_select (table : string) (any : bool) (values : pydict)
    (order : option (string * bool)) (limit offset : option nat) :
  word table -> Forall (fun kv => word kv.1) values ->
  (forall col desc, order = Some (col, desc) -> word col) ->
  tokens (get_skel table (VStr (logic_word any)) (order_value order) (count_value limit)
            (count_value offset) values)
  = "SELECT" :: "*" :: "FROM" :: table
    :: (if dict_is_empty values then []
        else "WHERE" :: join_words [logic_word any] (filter_tokens <$> values))
    ++ clauses_words order limit offset.
Proof.
  intros Ht Hk Ho. unfold get_skel. rewrite get_clauses_text.
  pose proof (clauses_starts_delim order limit offset) as Hd.
  set (cl := order_text order +:+ _) in *. destruct values as [|kv values].
  - rewrite bool_decide_eq_false_2 by (by intros []).
    rewrite Str.app_nil_l, tokens_select_head by done. subst cl.
    by rewrite tokens_clauses.
  - rewrite bool_decide_eq_true_2 by done. cbn [dict_is_empty py_str].
    rewrite tokens_select_head by done.
    replace ((" WHERE " +:+ String.concat ("  " +:+ logic_word any +:+ " ")
                             (filter_skel <$> kv :: values)) +:+ cl)
      with (String " " ("WHERE" +:+ String " "
              (String.concat ("  " +:+ logic_word any +:+ " ")
                 (filter_skel <$> kv :: values) +:+ cl)))
      by by autorewrite with str.
    rewrite tokens_blank. tokens_kw "WHERE".
    rewrite tokens_blank, tokens_filters by (done || by destruct any). subst cl.
    by rewrite tokens_clauses.
Qed.

(** One filter of [get] read as a condition. *)
Lemma parse_cond_filter (kv : string * value) :
  exists col op tok,
    filter_tokens kv = [col; op; tok]
    /\ forall lits, parse_cond col op tok (filter_lits kv ++ lits) = Some (cond_of kv, lits).
Proof.
  unfold filter_tokens, filter_lits, cond_of.
  destruct (is_None kv.2); [by exists kv.1, "is", "NULL"|].
  destruct (isinstance_int kv.2) eqn:Hi.
  - exists kv.1, "=", (py_str kv.2). split; [done|]. intros lits.
    destruct (py_str_int_word _ Hi) as (_ & Hq & Hnull).
    unfold parse_cond, read_cell. simpl. by rewrite Hq, Hnull.
  - by exists kv.1, "=", "?".
Qed.

(** The clauses, read. *)
Lemma clauses_stop (order : option (string * bool)) (limit offset : option nat) :
  stops (clauses_words order limit offset).
Proof. by destruct order as [[col desc]|], limit, offset. Qed.

Lemma parse_clauses (order : option (string * bool)) (limit offset : option nat) :
  parse_order (clauses_words order limit offset)
  = Some (order, count_words "limit" limit ++ count_words "offset" offset)
  /\ parse_count "LIMIT" (count_words "limit" limit ++ count_words "offset" offset)
    = Some (limit, count_words "offset" offset)
  /\ parse_count "OFFSET" (count_words "offset" offset) = Some (offset, []).
Proof.
  unfold clauses_words, parse_count.
  destruct order as [[col []]|], limit as [n|], offset as [m|]; simpl;
    rewrite ?parse_nat_pretty; done.
Qed.

(** The filters of [get], read as a WHERE clause. *)
Lemma parse_conds_filters (any : bool) (values : pydict) (rest lits : list string) :
  values <> [] -> stops rest ->
  parse_conds (join_words [logic_word any] (filter_tokens <$> values) ++ rest)
    ((values ≫= filter_lits) ++ lits)
  = Some (where_of any values, rest, lits).
Proof.
  intros Hne Hs. unfold where_of. destruct values as [|kv values]; [done|].
  destruct any.
  - apply (parse_conds_or_joined (fun _ => True)); [by intros; apply parse_cond_filter| | | | |];
      try done. by apply Forall_true.
  - apply (parse_conds_and_joined (fun _ => True)); [by intros; apply parse_cond_filter| | | |];
      try done. by apply Forall_true.
Qed.

Lemma parse_where_filters (any : bool) (values : pydict) (order : option (string * bool))
    (limit offset : option nat) (lits : list string) :
  parse_where
    ((if dict_is_empty values then []
      else "WHERE" :: join_words [logic_word any] (filter_tokens <$> values))
     ++ clauses_words order limit offset)
    ((values ≫= filter_lits) ++ lits)
  = Some (where_of any values, clauses_words order limit offset, lits).
Proof.
  destruct values as [|kv values].
  - by destruct order as [[col desc]|], limit, offset.
  - cbn [dict_is_empty app parse_where]. rewrite kw_refl.
    apply parse_conds_filters; [done|apply clauses_stop].
Qed.

Lemma clauses_values_ok (any : bool) (order : option (string * bool))
    (limit offset : option nat) :
  order_ok order ->
  clauses_ok (VStr (logic_word any)) (order_value order) (count_value limit)
    (count_value offset).
Proof.
  intros Ho. unfold clauses_ok, name_ok. split; [by destruct any|]. split; [|split].
  - destruct order as [[col desc]|]; [|done]. destruct Ho as [_ Hq].
    simpl. destruct desc; [|done]. by rewrite Str.mem_app, Hq.
  - destruct limit as [n|]; [|done]. simpl. rewrite pretty_Z_of_nat. apply pretty_nat_word.
  - destruct offset as [n|]; [|done]. simpl. rewrite pretty_Z_of_nat. apply pretty_nat_word.
Qed.

(** The database reads the statement of [get] as the selection of the rows
    that meet all or any of the filters, in the order and on the page of
    its clauses. *)
Lemma parse_get_text (table : string) (any : bool) (values : pydict)
    (order : option (string * bool)) (limit offset : option nat) :
  ident table -> Forall ident (dict_keys values) -> order_ok order ->
  parse_sql (render (get_pieces table (VStr (logic_word any)) (order_value order)
                       (count_value limit) (count_value offset) values))
  = Some (SSelect table (where_of any values) order limit offset).
Proof.
  intros [Htw Htq] [Hkw Hkq]%ident_keys Ho. unfold parse_sql.
  rewrite get_text_scan by (done || by apply clauses_values_ok).
  rewrite tokens_select; [|done..|by intros col desc ->; destruct Ho].
  destruct (parse_clauses order limit offset) as (Hpo & Hpl & Hpf).
  unfold parse_stmt, parse_select. cbn [app expect]. rewrite !kw_refl.
  rewrite <- (app_nil_r (values ≫= filter_lits)), parse_where_filters.
  cbn [mbind option_bind]. rewrite Hpo. cbn [mbind option_bind]. rewrite Hpl.
  cbn [mbind option_bind]. by rewrite Hpf.
Qed.

(** With the default clauses: the rows that meet every filter. *)
Lemma where_of_and (values : pydict) : where_of false values = [cond_of <$> values].
Proof. by destruct values. Qed.

(** ** UPDATE *)

(** An entry of identifiers and plain values, item by item. *)
Definition plain_item (kv : string * value) : Prop := ident kv.1 /\ plain kv.2.

Lemma plain_items (d : pydict) :
  Forall ident (dict_keys d) -> Forall plain (dict_values d) -> Forall plain_item d.
Proof.
  intros Hk%(Forall_fmap fst) Hv%(Forall_fmap snd).
  apply Forall_forall. intros kv Hin.
  split; [by apply (proj1 (Forall_forall _ _) Hk)|by apply (proj1 (Forall_forall _ _) Hv)].
Qed.

Lemma plain_items_split (d : pydict) :
  Forall plain_item d -> Forall ident (dict_keys d) /\ Forall plain (dict_values d).
Proof.
  intros Hd. split; apply Forall_fmap; (eapply Forall_impl; [exact Hd|]); by intros kv [].
Qed.

Lemma row_lits_items (sqlite : bool) (d : pydict) :
  row_lits sqlite d = d ≫= fun kv => value_lits sqlite kv.2.
Proof.
  unfold row_lits, dict_values. induction d as [|kv d IH]; [done|].
  by rewrite fmap_cons, !bind_cons, IH.
Qed.

Lemma tokens_assignment (kv : string * value) (t : string) :
  plain_item kv -> starts_delim t = true ->
  tokens (assignment_skel kv +:+ t) = assign_words kv ++ tokens t.
Proof.
  intros [[Hk _] Hv] Ht. unfold assignment_skel, assign_words.
  replace ((kv.1 +:+ " = " +:+ value_skel kv.2) +:+ t)
    with (kv.1 +:+ String " " ("=" +:+ String " " (value_skel kv.2 +:+ t)))
    by by autorewrite with str.
  rewrite tokens_word_app, tokens_blank by done. tokens_kw "=".
  by rewrite tokens_blank, tokens_word_app by (done || apply (value_skel_plain _ Hv)).
Qed.

Lemma tokens_update (table : string) (items conditions : pydict) :
  word table -> Forall plain_item items -> Forall plain_item conditions ->
  tokens ("UPDATE " +:+ table +:+ " set "
          +:+ String.concat ", " (assignment_skel <$> items)
          +:+ " WHERE " +:+ String.concat " and " (assignment_skel <$> conditions))
  = "UPDATE" :: table :: "set" :: join_words [","] (assign_words <$> items)
    ++ "WHERE" :: join_words ["and"] (assign_words <$> conditions).
Proof.
  intros Ht Hi Hc.
  replace ("UPDATE " +:+ table +:+ " set "
           +:+ String.concat ", " (assignment_skel <$> items)
           +:+ " WHERE " +:+ String.concat " and " (assignment_skel <$> conditions))
    with ("UPDATE" +:+ String " " (table +:+ String " " ("set" +:+ String " "
            (String.concat ", " (assignment_skel <$> items)
             +:+ String " " ("WHERE" +:+ String " "
                   (String.concat " and " (assignment_skel <$> conditions) +:+ ""))))))
    by by autorewrite with str.
  tokens_kw "UPDATE". rewrite tokens_blank, tokens_word_app, tokens_blank by done.
  tokens_kw "set". rewrite tokens_blank.
  rewrite (tokens_joined plain_item assignment_skel assign_words ", " [","]);
    [|apply tokens_assignment
     |by intros u; change (", " +:+ u) with (String "," (String " " u));
         rewrite (tokens_punct ","), tokens_blank
     |done|done|done].
  rewrite tokens_blank. tokens_kw "WHERE". rewrite tokens_blank.
  rewrite (tokens_joined plain_item assignment_skel assign_words " and " ["and"]);
    [by rewrite app_nil_r|apply tokens_assignment| |done|done|done].
  intros u. change (" and " +:+ u) with (String " " ("and" +:+ String " " u)).
  rewrite tokens_blank. tokens_kw "and". by rewrite tokens_blank.
Qed.

(** An item of [update] read as an assignment and as a condition. *)
Lemma parse_assign_item (sqlite : bool) (kv : string * value) :
  plain_item kv ->
  exists tok, assign_words kv = [(set_of sqlite kv).1; "="; tok]
    /\ forall ls, read_cell tok (value_lits sqlite kv.2 ++ ls) = Some ((set_of sqlite kv).2, ls).
Proof.
  intros [_ Hv]. exists (value_skel kv.2). split; [done|]. intros ls.
  apply (value_skel_plain _ Hv).
Qed.

Lemma parse_cond_item (sqlite : bool) (kv : string * value) :
  plain_item kv ->
  exists col op tok, assign_words kv = [col; op; tok]
    /\ forall ls, parse_cond col op tok (value_lits sqlite kv.2 ++ ls)
                  = Some (eq_of sqlite kv, ls).
Proof.
  intros [_ Hv]. exists kv.1, "=", (value_skel kv.2). split; [done|]. intros ls.
  unfold parse_cond. cbn [String.eqb Ascii.eqb Bool.eqb].
  by rewrite (proj2 (value_skel_plain _ Hv)).
Qed.

(** The database reads the statement of [update] as the update of the
    assigned cells in the rows that hold the cells of the conditions. *)
Lemma parse_update_text (sqlite : bool) (table : string) (entry conditions : pydict) :
  ident table -> Forall plain_item entry -> Forall plain_item conditions ->
  update_items entry conditions <> [] -> conditions <> [] ->
  parse_sql (render (update_pieces sqlite table entry conditions))
  = Some (SUpdate table (set_of sqlite <$> update_items entry conditions)
            [eq_of sqlite <$> conditions]).
Proof.
  intros [Htw Htq] He Hc Hi Hne. unfold parse_sql.
  assert (Forall plain_item (update_items entry conditions)) as Hitems
    by (unfold update_items; by apply Forall_filter).
  destruct (plain_items_split _ He), (plain_items_split _ Hc).
  rewrite update_text_scan by (done || by apply plain_items_ok).
  unfold update_skel. rewrite tokens_update, parse_stmt_update by done.
  unfold parse_update. cbn [expect]. rewrite !kw_refl.
  change (kw "SET" "set") with true. cbn [mbind option_bind].
  rewrite !row_lits_items.
  rewrite (parse_assigns_joined plain_item assign_words _ (set_of sqlite))
    by (done || apply parse_assign_item).
  cbn [mbind option_bind parse_where]. rewrite kw_refl.
  rewrite <- (app_nil_r (join_words ["and"] _)), <- (app_nil_r (conditions ≫= _)).
  by rewrite (parse_conds_and_joined plain_item assign_words _ (eq_of sqlite))
    by (done || apply parse_cond_item).
Qed.

(** ** DELETE and DROP *)

Lemma tokens_delete_head (table t : string) :
  word table -> starts_delim t = true ->
  tokens ("DELETE FROM  " +:+ table +:+ t) = "DELETE" :: "FROM" :: table :: tokens t.
Proof.
  intros Hw Ht.
  replace ("DELETE FROM  " +:+ table +:+ t)
    with ("DELETE" +:+ String " " ("FROM" +:+ String " " (String " " (table +:+ t))))
    by by autorewrite with str.
  tokens_kw "DELETE". rewrite tokens_blank. tokens_kw "FROM".
  by rewrite !tokens_blank, tokens_word_app.
Qed.

(** The database reads the statement of [delete] as the deletion of the
    rows with the id, and that of [purge] as the deletion of all rows. *)
Lemma parse_delete_text (table : string) (id : value) :
  ident table -> name_ok (py_str id) ->
  parse_sql (delete_sql table id) = Some (SDelete table [[CEq "id" (Some (py_str id))]]).
Proof.
  intros [Htw Htq] Hid. unfold parse_sql. rewrite delete_text_scan by done.
  by rewrite tokens_delete_head.
Qed.

Lemma parse_purge_text (table : string) :
  ident table -> parse_sql (purge_sql table) = Some (SDelete table [[]]).
Proof.
  intros [Htw Htq]. unfold parse_sql. rewrite purge_text_scan by done.
  unfold purge_sql. rewrite <- (Str.app_nil_r table) at 1.
  by rewrite tokens_delete_head.
Qed.

Lemma drop_text_scan (name : string) :
  name_ok name -> sql_scan (drop_table_sql name) = Some (drop_table_sql name, []).
Proof.
  intros Ht. apply (scan_pieces [Raw (drop_table_sql name)]).
  - cbn [render foldr piece_text]. by autorewrite with str.
  - apply pieces_ok_raw; [|done]. unfold name_ok, drop_table_sql in *.
    by rewrite !Str.mem_app, Ht.
  - cbn [render_skel foldr piece_skel]. by autorewrite with str.
  - done.
Qed.

(** The database reads the statement of [drop_table] as the drop of the
    table. *)
Lemma parse_drop_text (name : string) :
  ident name -> parse_sql (drop_table_sql name) = Some (SDrop name).
Proof.
  intros [Hw Hq]. unfold parse_sql. rewrite drop_text_scan by done.
  replace (drop_table_sql name)
    with ("DROP" +:+ String " " ("table" +:+ String " " ("IF" +:+ String " "
            ("EXISTS" +:+ String " " (name +:+ String " " "CASCADE")))))
    by (unfold drop_table_sql; by autorewrite with str).
  tokens_kw "DROP". rewrite tokens_blank. tokens_kw "table". rewrite tokens_blank.
  tokens_kw "IF". rewrite tokens_blank. tokens_kw "EXISTS".
  by rewrite tokens_blank, tokens_word_app, tokens_blank.
Qed.

(** [delete] with a text for an id: the text [i' OR col = 'x] closes the
    literal of the id and opens another, and the database reads a second
    condition. *)
Definition or_id (i col x : string) : value :=
  VStr (i +:+ "' OR " +:+ col +:+ " = '" +:+ x).

Lemma delete_or_scan (table i col x : string) :
  name_ok table -> name_ok i -> name_ok col -> name_ok x ->
  sql_scan (delete_sql table (or_id i col x))
  = Some ("DELETE FROM  " +:+ table +:+ " WHERE id = ? OR " +:+ col +:+ " = ?", [i; x]).
Proof.
  unfold name_ok. intros Ht Hi Hc Hx.
  apply (scan_pieces [Raw ("DELETE FROM  " +:+ table +:+ " WHERE id = "); Lit i;
                      Raw (" OR " +:+ col +:+ " = "); Lit x]).
  - cbn [render foldr piece_text]. unfold delete_sql, sql_quote, or_id. simpl py_str.
    rewrite !re_sub_char_absent by done. by autorewrite with str.
  - apply pieces_ok_raw; [by rewrite !Str.mem_app, Ht|].
    cbn [pieces_ok]. by rewrite !Str.mem_app, Hc.
  - cbn [render_skel foldr piece_skel]. by autorewrite with str.
  - done.
Qed.

Lemma parse_delete_or_text (table i col x : string) :
  ident table -> name_ok i -> ident col -> name_ok x ->
  parse_sql (delete_sql table (or_id i col x))
  = Some (SDelete table [[CEq "id" (Some i)]; [CEq col (Some x)]]).
Proof.
  intros [Htw Htq] Hi [Hcw Hcq] Hx. unfold parse_sql. rewrite delete_or_scan by done.
  replace ("DELETE FROM  " +:+ table +:+ " WHERE id = ? OR " +:+ col +:+ " = ?")
    with ("DELETE FROM  " +:+ table +:+ String " " ("WHERE" +:+ String " "
            ("id" +:+ String " " ("=" +:+ String " " ("?" +:+ String " "
               ("OR" +:+ String " " (col +:+ String " " ("=" +:+ String " " "?"))))))))
    by by autorewrite with str.
  rewrite tokens_delete_head, tokens_blank by done.
  tokens_kw "WHERE". rewrite tokens_blank. tokens_kw "id". rewrite tokens_blank.
  tokens_kw "=". rewrite tokens_blank. tokens_kw "?". rewrite tokens_blank.
  tokens_kw "OR". rewrite tokens_blank, (tokens_word_app col), tokens_blank by done.
  tokens_kw "=". by rewrite tokens_blank.
Qed.

(** ** The row of an entry *)

Lemma assoc_dict (k : string) (d : pydict) : assoc k d = dict_lookup k d.
Proof.
  induction d as [|[k' v] d IH]; [done|]. simpl.
  destruct (String.eqb_spec k' k); case_decide; congruence.
Qed.

Lemma row_lengths (sqlite : bool) (entry : pydict) :
  length (dict_keys entry) = length (cell_of sqlite <$> dict_values entry).
Proof. unfold dict_keys, dict_values. by rewrite !length_fmap. Qed.

Lemma row_of_cell (sqlite : bool) (n : Z) (entry : pydict) (key : string) (v : value) :
  dict_lookup key entry = Some v -> "id" ∉ dict_keys entry ->
  row_cell key (row_of sqlite n entry) = Some (cell_of sqlite v).
Proof.
  intros Hv Hid. unfold row_cell, row_of. simpl.
  destruct (String.eqb_spec key "id") as [->|_].
  - by apply dict_lookup_None in Hid; rewrite Hid in Hv.
  - unfold dict_keys, dict_values. by rewrite assoc_zip_fmap, assoc_dict, Hv.
Qed.

(** A row that holds the cell of [v] under [key] meets the filter on
    [key: v] exactly when [v] is findable. *)
Lemma cond_of_holds (sqlite : bool) (key : string) (v : value) (r : row) :
  row_cell key r = Some (cell_of sqlite v) ->
  row_matches [cond_of (key, v)] r = findable sqlite v.
Proof.
  intros Hr. unfold row_matches, cond_of, findable, cell_of in *. simpl.
  destruct v; simpl in *; rewrite ?is_number_None in *; rewrite Hr; simpl;
    try done; destruct (is_number _); simpl; rewrite ?String.eqb_refl, ?andb_true_r; done.
Qed.

(** On sqlite a text with a colon is stored as another text. *)
Lemma literal_text_colon (s : string) :
  Str.mem ":" s = true -> String.eqb (literal_text true s) s = false.
Proof.
  intros Hs. apply String.eqb_neq. unfold literal_text. revert Hs.
  induction s as [|a s IH]; [done|]. destruct (decide (a = ":"%char)) as [->|Ha].
  - intros _. by rewrite re_sub_char_hit.
  - rewrite re_sub_char_miss by done. simpl.
    destruct (Ascii.eqb_spec a ":") as [->|_]; [done|]. intros Hs [= Heq]. by apply IH.
Qed.

(** The cell of a findable value that is not [None] is its text. *)
Lemma findable_cell (sqlite : bool) (v : value) :
  is_None v = false -> findable sqlite v = true -> cell_of sqlite v = Some (py_str v).
Proof.
  unfold findable, cell_of. intros ->. destruct (is_number v); [done|]. simpl.
  by intros ->%String.eqb_eq.
Qed.

End readback.
