(* ===== verification/Refine.v ===== *)
(** * The class on the reference database

    What [add], [get_id], [get_single], [add_unique], [delete] and [purge]
    do when the driver is the reference database of [MiniDb]: the method
    returns what the operation its statement stands for gives
    ([Readback]).  [lookup_ids], [lookup_single] and [insert_if_absent]
    are the contracts of [get_id], [get_single] and [add_unique] on the
    database; [mini_driver] is the driver over it. *)

From stdpp Require Import gmap sorting.
From S2P Require Import Prelude PyValue Escaper SqlScan Driver Builder Injection.
From S2P Require Import Accessors Lexer SqlParse MiniDb Readback.

(** ** The driver over the reference database *)

Definition mini_driver : Driver minidb := {|
  drv_query := mini_query;
  drv_get_table_names := fun db => (inr (map_to_list (db_tables db)).*1, db);
  drv_close := ret tt;
  drv_get_as_dict := None
|}.

#[export] Existing Instance mini_driver.

(** ** What the methods promise, on the database *)

(** The ids of the rows of a table that meet the conditions, as [get_id]
    returns them: [None], one id, or a list. *)
Definition lookup_ids (table : string) (conds : list cond) (db : minidb) : res exn pyobj :=
  match db_tables db !! table with
  | None => inl (DriverError "no such table")
  | Some tab =>
      inr (ids_result ((fun r => VInt (r_id r))
                         <$> filter (fun r => row_matches conds r = true) (t_rows tab)))
  end.

(** The row of a table that meets the conditions, as [get_single] returns
    it: [None], the row, or [RuntimeError] for more than one. *)
Definition lookup_single (table : string) (conds : list cond) (db : minidb) :
    res exn (option pydict) :=
  match db_tables db !! table with
  | None => inl (DriverError "no such table")
  | Some tab =>
      match filter (fun r => row_matches conds r = true) (t_rows tab) with
      | [] => inr None
      | [r] => inr (Some (row_dict r))
      | _ => inl (RuntimeError "get_single returned multiple values")
      end
  end.

(** Insert-if-absent: the ids of the rows that meet [c] when there are
    any; else the insertion of a row, whether it succeeds or not, and the
    ids of the rows that meet [c] after it. *)
Definition insert_if_absent (table : string) (c : cond) (cols : list string)
    (cells : list cell) (db : minidb) : (exn + pyobj) * minidb :=
  match lookup_ids table [c] db with
  | inl e => (inl e, db)
  | inr ids =>
      if negb (pyobj_is_None ids) then (inr ids, db)
      else
        let db' := (db_insert table cols cells db).2 in
        (lookup_ids table [c] db', db')
  end.

Section refine.
Context {ND : NumberDetect}.

(** ** The methods on the database *)

#[export] Instance mini_inv : DriverInv mini_driver db_wf.
Proof. split; [intros sql f db; apply mini_query_wf|by intros db|by intros db|done]. Qed.

Lemma mini_query_select (table : string) (values : pydict) (f : bool) (db : minidb) :
  ident table -> Forall column (dict_keys values) ->
  mini_query (select_sql table values) f db
  = match db_tables db !! table with
    | None => (inl (DriverError "no such table"), db)
    | Some tab =>
        (inr (row_dict
                <$> filter (fun r => row_matches (cond_of <$> values) r = true) (t_rows tab)),
         db)
    end.
Proof.
  intros Ht (_ & Hp & Hk)%columns_spec.
  rewrite select_sql_plain, get_sql_text, <- get_pieces_render by done.
  pose proof (parse_get_text table false values None None None Ht Hk ltac:(done)) as Hparse.
  unfold mini_query. cbn [logic_word order_value count_value] in Hparse.
  rewrite Hparse. cbn [db_exec]. by rewrite where_of_and, db_select_and.
Qed.

Lemma mini_query_insert (sqlite : bool) (table : string) (entry : pydict) (f : bool)
    (db : minidb) :
  ident table -> entry <> [] ->
  Forall ident (dict_keys entry) -> Forall plain (dict_values entry) ->
  mini_query ("INSERT INTO " +:+ table +:+ " (" +:+ String.concat "," (dict_keys entry)
              +:+ ") VALUES ("
              +:+ String.concat "," (escaped_text sqlite <$> dict_values entry) +:+ ")")
    f db
  = db_insert table (dict_keys entry) (cell_of sqlite <$> dict_values entry) db.
Proof.
  intros Ht Hne Hk Hv. unfold mini_query.
  rewrite <- add_pieces_render, parse_add_text by done. apply db_insert_all_one.
Qed.

Lemma ids_of_row_dicts (rows : list row) :
  res_mapM (dict_getitem "id") (row_dict <$> rows)
  = inr ((fun r => VInt (r_id r)) <$> rows).
Proof. rewrite (res_mapM_inr _ (fun d => default VNone (dict_lookup "id" d))).
  - by rewrite <- list_fmap_compose.
  - by intros d (r & -> & _)%list_elem_of_fmap.
Qed.

Lemma mini_get_id (self : DB) (table : string) (values : pydict) (db : minidb) :
  ident table -> Forall column (dict_keys values) ->
  get_id self table values db = (lookup_ids table (cond_of <$> values) db, db).
Proof.
  intros Ht Hc. rewrite get_id_run by by apply columns_spec.
  change (drv_query ?q ?f db) with (mini_query q f db).
  rewrite mini_query_select by done. unfold lookup_ids.
  destruct (db_tables db !! table) as [tab|]; [|done]. by rewrite ids_of_row_dicts.
Qed.

Lemma mini_get_single (self : DB) (table : string) (values : pydict) (db : minidb) :
  ident table -> Forall column (dict_keys values) ->
  get_single self table values db = (lookup_single table (cond_of <$> values) db, db).
Proof.
  intros Ht Hc. unfold lookup_single.
  destruct (db_tables db !! table) as [tab|] eqn:Htab.
  - rewrite (get_single_run _ _ _ _ db
               (row_dict <$> filter (fun r => row_matches (cond_of <$> values) r = true)
                               (t_rows tab))).
    + by destruct (filter _ (t_rows tab)) as [|r [|r' rows]].
    + by apply columns_spec.
    + change (drv_query ?q ?f db) with (mini_query q f db).
      rewrite mini_query_select by done. by rewrite Htab.
  - unfold get_single. rewrite (proj1 (columns_spec _ Hc)). unfold bind at 1.
    rewrite get_kw_run by by apply columns_spec.
    change (drv_query ?q ?f db) with (mini_query q f db).
    rewrite mini_query_select by done. by rewrite Htab.
Qed.

(** The filter on [id] meets the rows with that id. *)
Lemma id_matches (i : Z) (r : row) :
  row_matches [cond_of ("id", VInt i)] r = true <-> r_id r = i.
Proof.
  unfold row_matches, cond_of. simpl.
  rewrite andb_true_r, String.eqb_eq. split; [apply (inj pretty)|by intros ->].
Qed.

Lemma id_filter (i : Z) (rows : list row) :
  filter (fun r => row_matches [cond_of ("id", VInt i)] r = true) rows
  = filter (fun r => r_id r = i) rows.
Proof. apply list_filter_iff, id_matches. Qed.

Lemma mini_add (self : DB) (sqlite : bool) (table : string) (entry : pydict)
    (db : minidb) :
  _sqlite self = Some sqlite -> ident table -> entry <> [] ->
  Forall ident (dict_keys entry) -> Forall plain (dict_values entry) ->
  add self table entry db
  = (let '(r, db') :=
       db_insert table (dict_keys entry) (cell_of sqlite <$> dict_values entry) db in
     (match r with inl e => inl e | inr _ => inr tt end, db')).
Proof.
  intros Hsq Ht Hne Hk Hv. rewrite (add_run _ sqlite) by done.
  change (drv_query ?q ?f db) with (mini_query q f db).
  by rewrite mini_query_insert.
Qed.

Lemma mini_add_unique (self : DB) (sqlite : bool) (table : string) (entry : pydict)
    (key : string) (v : value) (db : minidb) :
  _sqlite self = Some sqlite -> ident table -> column key ->
  Forall ident (dict_keys entry) -> Forall plain (dict_values entry) ->
  dict_lookup key entry = Some v ->
  add_unique self table entry key db
  = insert_if_absent table (cond_of (key, v)) (dict_keys entry)
      (cell_of sqlite <$> dict_values entry) db.
Proof.
  intros Hsq Ht Hc Hk Hv Hkey. assert (entry <> []) as Hne by by intros ->.
  assert (Forall column (dict_keys [(key, v)])) as Hcol by by apply Forall_singleton.
  rewrite (add_unique_run _ _ _ _ v) by done. unfold insert_if_absent.
  rewrite !mini_get_id by done.
  destruct (lookup_ids table _ db) as [e|ids]; [done|].
  destruct (negb (pyobj_is_None ids)); [done|].
  rewrite (mini_add _ sqlite) by done. by destruct (db_insert _ _ _ db) as [[]].
Qed.

(** ** DELETE *)

Lemma mini_delete (self : DB) (table : string) (id : value) (db : minidb) :
  ident table -> name_ok (py_str id) ->
  delete self table id db
  = (let '(r, db') := db_delete table [[CEq "id" (Some (py_str id))]] db in
     (match r with inl e => inl e | inr _ => inr tt end, db')).
Proof.
  intros Ht Hid. unfold delete. rewrite do_discard_run.
  change (drv_query ?q ?f db) with (mini_query q f db). unfold mini_query.
  by rewrite parse_delete_text.
Qed.

Lemma mini_purge (self : DB) (table : string) (db : minidb) :
  ident table ->
  purge self table db
  = (let '(r, db') := db_delete table [[]] db in
     (match r with inl e => inl e | inr _ => inr tt end, db')).
Proof.
  intros Ht. unfold purge. rewrite do_discard_run.
  change (drv_query ?q ?f db) with (mini_query q f db). unfold mini_query.
  by rewrite parse_purge_text.
Qed.

Lemma lookup_ids_add_row (t : string) (tab : table) (r : row) (conds : list cond)
    (db : minidb) :
  lookup_ids t conds (db_add_row t tab r db)
  = inr (ids_result ((fun r => VInt (r_id r))
                       <$> filter (fun r => row_matches conds r = true) (t_rows tab ++ [r]))).
Proof. unfold lookup_ids. by rewrite db_add_row_lookup. Qed.

(** [add_unique] of an entry that no row matches and that the table
    accepts: the row is stored, and its id returned when the value of the
    key is findable. *)
Lemma add_unique_absent (self : DB) (sqlite : bool) (table : string) (entry : pydict)
    (key : string) (v : value) (db : minidb) (tab : MiniDb.table) :
  _sqlite self = Some sqlite -> ident table -> column key ->
  Forall ident (dict_keys entry) -> Forall plain (dict_values entry) ->
  dict_lookup key entry = Some v -> "id" ∉ dict_keys entry ->
  db_tables db !! table = Some tab ->
  filter (fun r => row_matches [cond_of (key, v)] r = true) (t_rows tab) = [] ->
  unique_clash (t_unique tab) (row_of sqlite (db_next db) entry) (t_rows tab) = false ->
  add_unique self table entry key db
  = (inr (OValue (if findable sqlite v then VInt (db_next db) else VNone)),
     db_add_row table tab (row_of sqlite (db_next db) entry) db).
Proof.
  intros Hsq Ht Hc Hk Hp Hv Hid Htab Hnone Hclash.
  rewrite (mini_add_unique _ sqlite _ _ _ v) by done.
  unfold insert_if_absent. unfold lookup_ids at 1. rewrite Htab, Hnone. simpl.
  rewrite (db_insert_ok _ _ _ _ tab); [|done|apply row_lengths|done..].
  simpl. fold (row_of sqlite (db_next db) entry).
  rewrite lookup_ids_add_row, filter_app, Hnone, app_nil_l.
  pose proof (cond_of_holds sqlite key v _ (row_of_cell sqlite (db_next db) _ _ _ Hv Hid)) as Hm.
  destruct (findable sqlite v).
  - by rewrite filter_cons_True.
  - by rewrite filter_cons_False by by rewrite Hm.
Qed.

(** ** The rows of the database carry their ids *)

#[export] Instance mini_ids : IntIds mini_driver.
Proof. intros sql f db rows db'. apply mini_query_rows. Qed.

(** ** SELECT with its clauses *)

Lemma mini_get (self : DB) (table : string) (any : bool) (values : pydict)
    (order : option (string * bool)) (limit offset : option nat) (db : minidb) :
  ident table -> Forall ident (dict_keys values) -> order_ok order ->
  get self table (VStr (logic_word any)) (order_value order) (count_value limit)
    (count_value offset) values db
  = db_select table (where_of any values) order limit offset db.
Proof.
  intros Ht Hk Ho. rewrite get_run.
  change (drv_query ?q ?f db) with (mini_query q f db). unfold mini_query.
  by rewrite get_sql_text, <- get_pieces_render, parse_get_text.
Qed.

Lemma mini_get_page (self : DB) (table : string) (any : bool) (values : pydict)
    (order : option (string * bool)) (limit offset : option nat) (db : minidb)
    (tab : MiniDb.table) :
  ident table -> Forall ident (dict_keys values) -> order_ok order ->
  db_tables db !! table = Some tab ->
  get self table (VStr (logic_word any)) (order_value order) (count_value limit)
    (count_value offset) values db
  = (inr (row_dict
            <$> page limit offset
                  (ordered order
                     (filter (fun r => where_holds (where_of any values) r = true)
                        (t_rows tab)))),
     db).
Proof. intros Ht Hk Ho Htab. rewrite mini_get by done. unfold db_select. by rewrite Htab. Qed.

(** ** INSERT of several rows *)

(** Entries with the keys of the first, which are identifiers, and with
    plain values. *)
Definition uniform (first : pydict) (rest : list pydict) : Prop :=
  first <> [] /\ Forall ident (dict_keys first)
  /\ Forall (fun entry => dict_keys entry = dict_keys first) rest
  /\ Forall (fun entry => Forall plain (dict_values entry)) (first :: rest).

Lemma uniform_rows (first : pydict) (rest : list pydict) :
  uniform first rest ->
  Forall (fun entry => entry <> [] /\ items_ok entry /\ Forall plain (dict_values entry))
    (first :: rest).
Proof.
  intros (Hne & Hk & Hkeys & Hv). apply Forall_forall. intros entry Hin.
  assert (dict_keys entry = dict_keys first) as Hke.
  { apply elem_of_cons in Hin as [->|Hin]; [done|].
    by apply (proj1 (Forall_forall _ _) Hkeys). }
  pose proof (proj1 (Forall_forall _ _) Hv entry Hin) as Hpv.
  split; [|split; [apply plain_items_ok; by rewrite ?Hke|done]].
  intros ->. by destruct first.
Qed.

Lemma mini_add_bulk (self : DB) (sqlite : bool) (table : string) (first : pydict)
    (rest : list pydict) (db : minidb) :
  _sqlite self = Some sqlite -> ident table -> uniform first rest ->
  add_bulk self table (first :: rest) db
  = (let '(r, db') :=
       db_insert_all table (dict_keys first) (row_cells sqlite <$> first :: rest) db in
     (match r with inl e => inl e | inr _ => inr tt end, db')).
Proof.
  intros Hsq Ht Hu. pose proof (uniform_rows _ _ Hu) as Hrows.
  destruct Hu as (Hne & Hk & Hkeys & Hv).
  rewrite (add_bulk_uniform self sqlite) by done.
  change (drv_query ?q ?f db) with (mini_query q f db). unfold mini_query.
  rewrite <- add_bulk_pieces_render, parse_add_bulk_text; [done|done| |done|done|done].
  by destruct first.
Qed.

(** ** UPDATE *)

Lemma mini_update (self : DB) (sqlite : bool) (table : string) (entry conditions : pydict)
    (db : minidb) :
  _sqlite self = Some sqlite -> ident table ->
  Forall plain_item entry -> Forall plain_item conditions ->
  update_items entry conditions <> [] -> conditions <> [] ->
  update self table entry conditions db
  = (let '(r, db') :=
       db_update table (set_of sqlite <$> update_items entry conditions)
         [eq_of sqlite <$> conditions] db in
     (match r with inl e => inl e | inr _ => inr tt end, db')).
Proof.
  intros Hsq Ht He Hc Hi Hne.
  rewrite (update_run self sqlite); [|done|by intros ->].
  change (drv_query ?q ?f db) with (mini_query q f db). unfold mini_query.
  by rewrite <- update_pieces_render, parse_update_text.
Qed.

(** The assignments of [update] name the keys of its items. *)
Lemma sets_keys (sqlite : bool) (items : pydict) :
  (set_of sqlite <$> items).*1 = dict_keys items.
Proof. unfold dict_keys. rewrite <- list_fmap_compose. by apply list_fmap_ext. Qed.

(** A condition on [None] is written [k = NULL], which no row meets. *)
Lemma eq_of_none (sqlite : bool) (conditions : pydict) (k : string) (r : row) :
  (k, VNone) ∈ conditions -> row_matches (eq_of sqlite <$> conditions) r = false.
Proof.
  intros Hin. apply not_true_iff_false. intros Hm.
  assert (cond_holds r (eq_of sqlite (k, VNone)) = true) as Hc.
  { apply (proj1 (forallb_forall _ _) Hm), list_elem_of_In, list_elem_of_fmap.
    by exists (k, VNone). }
  unfold eq_of, cell_of in Hc. simpl in Hc. rewrite is_number_None in Hc. simpl in Hc.
  by destruct (row_cell k r) as [[x|]|].
Qed.

(** An UPDATE that no row meets changes nothing in a well-formed
    database. *)
Lemma db_update_none (t : string) (sets : list (string * cell)) (w : dnf) (db : minidb)
    (tab : MiniDb.table) :
  db_wf db -> db_tables db !! t = Some tab -> "id" ∉ sets.*1 ->
  (forall r, where_holds w r = false) ->
  db_update t sets w db = (inr [], db).
Proof.
  intros Hwf Ht Hid Hw. unfold db_update. rewrite Ht, bool_decide_eq_false_2 by done.
  assert (updated sets w (t_rows tab) = t_rows tab) as ->.
  { unfold updated. rewrite <- (list_fmap_id (t_rows tab)) at 2.
    apply list_fmap_ext. intros i r _. by rewrite Hw. }
  destruct (Hwf t tab Ht) as (_ & _ & Hu). rewrite bool_decide_eq_true_2 by done.
  f_equal. unfold db_set_rows. destruct db as [tables next], tab as [uniq rows].
  simpl in *. f_equal. by apply insert_id.
Qed.

(** ** DROP *)

Lemma mini_drop_table (self : DB) (name : string) (db : minidb) :
  ident name -> drop_table self name db = (inr tt, (db_drop name db).2).
Proof.
  intros Hn. unfold drop_table. rewrite do_discard_run.
  change (drv_query ?q ?f db) with (mini_query q f db). unfold mini_query.
  by rewrite parse_drop_text.
Qed.

Lemma mini_drop_each (self : DB) (names : list string) (db : minidb) :
  Forall ident names ->
  for_each (drop_table self) names db = (inr tt, db_drop_all names db).
Proof.
  intros Hn. revert db. induction Hn as [|n names Hn _ IH]; intros db; [done|].
  cbn [for_each]. unfold bind. by rewrite mini_drop_table, IH.
Qed.

Lemma mini_drop_tables (self : DB) (db : minidb) :
  map_Forall (fun t _ => ident t) (db_tables db) ->
  drop_tables self db = (inr tt, {| db_tables := ∅; db_next := db_next db |}).
Proof.
  intros Hid. unfold drop_tables, table_names, bind. simpl.
  rewrite mini_drop_each, db_drop_all_tables; [done|].
  apply Forall_forall. intros t [[t' tab] [-> Hin]]%list_elem_of_fmap.
  apply elem_of_map_to_list in Hin. by apply (Hid _ _ Hin).
Qed.

(** ** Theorems *)

(** C26: on the reference database [add] of an entry of identifiers and
    plain values is the insertion of its cells under its keys: it returns
    nothing when the database accepts the row and raises what the database
    raises. *)
Theorem add_refines (self : DB) (sqlite : bool) (table : string) (entry : pydict)
    (db : minidb) :
  _sqlite self = Some sqlite -> ident table -> entry <> [] ->
  Forall ident (dict_keys entry) -> Forall plain (dict_values entry) ->
  add (D:=mini_driver) self table entry db
  = (let '(r, db') :=
       db_insert table (dict_keys entry) (cell_of sqlite <$> dict_values entry) db in
     (match r with inl e => inl e | inr _ => inr tt end, db')).
Proof. apply mini_add. Qed.

(** C25: on the reference database [get_id] returns the ids of the rows
    that meet the condition of every filter, and leaves the database as it
    is. *)
Theorem get_id_refines (self : DB) (table : string) (values : pydict) (db : minidb) :
  ident table -> Forall column (dict_keys values) ->
  get_id (D:=mini_driver) self table values db
  = (lookup_ids table (cond_of <$> values) db, db).
Proof. apply mini_get_id. Qed.

(** C24: on the reference database [get_single] returns the row that
    meets the condition of every filter: no row when none does, the row
    when one does, and [RuntimeError] when more than one does; the
    database is left as it is. *)
Theorem get_single_refines (self : DB) (table : string) (values : pydict) (db : minidb) :
  ident table -> Forall column (dict_keys values) ->
  get_single (D:=mini_driver) self table values db
  = (lookup_single table (cond_of <$> values) db, db).
Proof. apply mini_get_single. Qed.

(** C13: on the reference database [add_unique] is insert-if-absent on the
    condition of its key. *)
Theorem add_unique_refines (self : DB) (sqlite : bool) (table : string) (entry : pydict)
    (key : string) (v : value) (db : minidb) :
  _sqlite self = Some sqlite -> ident table -> column key ->
  Forall ident (dict_keys entry) -> Forall plain (dict_values entry) ->
  dict_lookup key entry = Some v ->
  add_unique (D:=mini_driver) self table entry key db
  = insert_if_absent table (cond_of (key, v)) (dict_keys entry)
      (cell_of sqlite <$> dict_values entry) db.
Proof. apply mini_add_unique. Qed.

(** C23: [add_unique] that has returned ids returns the same ids when called
    again with the same arguments, and leaves the database as the first
    call left it. *)
Theorem add_unique_idempotent (self : DB) (table : string) (entry : pydict)
    (key : string) (db db1 : minidb) (ids : pyobj) :
  ident table -> column key ->
  add_unique (D:=mini_driver) self table entry key db = (inr ids, db1) ->
  pyobj_is_None ids = false ->
  add_unique (D:=mini_driver) self table entry key db1 = (inr ids, db1).
Proof.
  intros Ht Hc. apply add_unique_again. intros v st.
  by rewrite mini_get_id by (done || by apply Forall_singleton).
Qed.

(** [add_unique] of an entry that no row matches, into a table that
    accepts it, stores the row of the entry under the next id and returns
    that id, when the value of the key is findable. *)
Theorem add_unique_inserts (self : DB) (sqlite : bool) (table : string) (entry : pydict)
    (key : string) (v : value) (db : minidb) (tab : MiniDb.table) :
  _sqlite self = Some sqlite -> ident table -> column key ->
  Forall ident (dict_keys entry) -> Forall plain (dict_values entry) ->
  dict_lookup key entry = Some v -> "id" ∉ dict_keys entry ->
  db_tables db !! table = Some tab ->
  filter (fun r => row_matches [cond_of (key, v)] r = true) (t_rows tab) = [] ->
  unique_clash (t_unique tab) (row_of sqlite (db_next db) entry) (t_rows tab) = false ->
  findable sqlite v = true ->
  add_unique (D:=mini_driver) self table entry key db
  = (inr (OValue (VInt (db_next db))),
     db_add_row table tab (row_of sqlite (db_next db) entry) db).
Proof.
  intros Hsq Ht Hc Hk Hp Hv Hid Htab Hnone Hclash Hf.
  by rewrite (add_unique_absent _ sqlite _ _ _ v _ tab), Hf.
Qed.


(** C28: in a well-formed database a filter on a value other than [None]
    in a unique column meets at most one row: [get_id] returns [None] or
    one id, never a list. *)
Theorem get_id_unique_scalar (self : DB) (table key : string) (v : value)
    (db : minidb) (tab : MiniDb.table) :
  ident table -> column key -> db_wf db ->
  db_tables db !! table = Some tab -> key ∈ t_unique tab -> is_None v = false ->
  exists o, get_id (D:=mini_driver) self table [(key, v)] db = (inr (OValue o), db).
Proof.
  intros Ht Hc Hwf Htab Hu Hv. rewrite mini_get_id by (done || by apply Forall_singleton).
  unfold lookup_ids. rewrite Htab. unfold cond_of. simpl. rewrite Hv.
  pose proof (unique_one_row _ tab key (py_str v) (Hwf _ _ Htab) Hu) as Hlen.
  destruct (filter _ (t_rows tab)) as [|r [|r' rows]]; simpl in *; [eauto..|lia].
Qed.

(** C29: in a well-formed database [get_by_id] returns the row with the
    id, or [None] when there is none, and never raises: no two rows share
    an id. *)
Theorem get_by_id_refines (self : DB) (table : string) (i : Z) (db : minidb)
    (tab : MiniDb.table) :
  ident table -> db_wf db -> db_tables db !! table = Some tab ->
  get_by_id (D:=mini_driver) self table (VInt i) db
  = (inr (row_dict <$> head (filter (fun r => r_id r = i) (t_rows tab))), db).
Proof.
  intros Ht Hwf Htab. unfold get_by_id.
  rewrite mini_get_single by (done || apply Forall_singleton; decided).
  unfold lookup_single. rewrite Htab. change (cond_of <$> [("id", VInt i)])
    with [cond_of ("id", VInt i)]. rewrite id_filter.
  destruct (Hwf _ _ Htab) as (_ & Hnd & _).
  pose proof (filter_fmap_NoDup r_id i (t_rows tab) Hnd) as Hlen.
  destruct (filter _ (t_rows tab)) as [|r [|r' rows]]; simpl in *; [done..|lia].
Qed.

(** C30: on the reference database [delete] with an integer id removes
    the rows with that id and no other, and [purge] removes every row of
    the table; neither touches the counter or another table. *)
Theorem delete_refines (self : DB) (table : string) (i : Z) (db : minidb)
    (tab : MiniDb.table) :
  ident table -> db_tables db !! table = Some tab ->
  delete (D:=mini_driver) self table (VInt i) db
  = (inr tt, db_set_rows table tab (filter (fun r => r_id r <> i) (t_rows tab)) db)
  /\ purge (D:=mini_driver) self table db = (inr tt, db_set_rows table tab [] db).
Proof.
  intros Ht Htab. split.
  - rewrite mini_delete by (done || apply raw_no_quote, (py_str_int_raw (VInt i) eq_refl)).
    rewrite db_delete_and, Htab. do 3 f_equal. apply list_filter_iff. intros r.
    change [CEq "id" (Some (py_str (VInt i)))] with [cond_of ("id", VInt i)].
    rewrite <- (id_matches i r). symmetry. apply not_true_iff_false.
  - rewrite mini_purge by done. rewrite db_delete_and, Htab. do 3 f_equal.
    by apply filter_none.
Qed.

(** Every method that writes keeps the reference database well
    formed, whatever its arguments: after [add], [add_bulk], [update],
    [add_unique], [delete], [purge], [drop_table] and [drop_tables] the
    ids are still different and below the counter, and the texts of a
    unique column still different. *)
Theorem writes_keep_wf (self : DB) (table : string) (entry conditions : pydict)
    (entries : list pydict) (key : string) (id : value) (db : minidb) :
  db_wf db ->
  db_wf (add (D:=mini_driver) self table entry db).2
  /\ db_wf (add_bulk (D:=mini_driver) self table entries db).2
  /\ db_wf (update (D:=mini_driver) self table entry conditions db).2
  /\ db_wf (add_unique (D:=mini_driver) self table entry key db).2
  /\ db_wf (delete (D:=mini_driver) self table id db).2
  /\ db_wf (purge (D:=mini_driver) self table db).2
  /\ db_wf (drop_table (D:=mini_driver) self table db).2
  /\ db_wf (drop_tables (D:=mini_driver) self db).2.
Proof.
  intros Hwf. repeat apply conj.
  - exact (add_preserves db_wf self table entry db Hwf).
  - exact (add_bulk_preserves db_wf self table entries db Hwf).
  - exact (update_preserves db_wf self table entry conditions db Hwf).
  - exact (add_unique_inv db_wf self table entry key db Hwf).
  - exact (delete_preserves db_wf self table id db Hwf).
  - exact (purge_preserves db_wf self table db Hwf).
  - exact (drop_table_preserves db_wf self table db Hwf).
  - exact (drop_tables_preserves db_wf self db Hwf).
Qed.

(** C19: on the reference database [get] with a keyword for [logic], a
    column for [order] and numbers for [limit] and [offset] returns the
    rows of the table that meet all the filters (AND) or any of them
    (OR), in the order of the column when one is given, without the first
    [offset] of them and at most [limit]; the database stays as it is. *)
Theorem get_refines (self : DB) (table : string) (any : bool) (values : pydict)
    (order : option (string * bool)) (limit offset : option nat) (db : minidb)
    (tab : MiniDb.table) :
  ident table -> Forall ident (dict_keys values) -> order_ok order ->
  db_tables db !! table = Some tab ->
  get (D:=mini_driver) self table (VStr (logic_word any)) (order_value order)
    (count_value limit) (count_value offset) values db
  = (inr (row_dict
            <$> page limit offset
                  (ordered order
                     (filter (fun r => where_holds (where_of any values) r = true)
                        (t_rows tab)))),
     db).
Proof. apply mini_get_page. Qed.

(** [get] with an [order] returns the rows that meet the filters,
    each once, sorted by the column: by id as numbers, by any other
    column as texts with NULL first, and the other way round with
    [DESC]. *)
Theorem get_sorted (self : DB) (table : string) (any : bool) (values : pydict)
    (col : string) (desc : bool) (db : minidb) (tab : MiniDb.table) :
  ident table -> Forall ident (dict_keys values) -> ident col ->
  db_tables db !! table = Some tab ->
  exists rows,
    get (D:=mini_driver) self table (VStr (logic_word any))
      (order_value (Some (col, desc))) VNone VNone values db
    = (inr (row_dict <$> rows), db)
    /\ StronglySorted (row_le col desc) rows
    /\ rows ≡ₚ filter (fun r => where_holds (where_of any values) r = true) (t_rows tab).
Proof.
  intros Ht Hk Hc Htab. eexists. split; [|split].
  - by apply (mini_get_page self table any values (Some (col, desc)) None None db tab).
  - apply ordered_sorted.
  - apply ordered_perm.
Qed.

(** Two pages of [get] that follow each other make up the page of
    both: the rows [k .. k+n) and the rows [k+n .. k+n+m) of a selection
    are its rows [k .. k+n+m), and a page of [limit] [n] has at most [n]
    rows. *)
Theorem get_pages (self : DB) (table : string) (any : bool) (values : pydict)
    (order : option (string * bool)) (n m k : nat) (db : minidb) (tab : MiniDb.table) :
  ident table -> Forall ident (dict_keys values) -> order_ok order ->
  db_tables db !! table = Some tab ->
  let page_of limit offset :=
    get (D:=mini_driver) self table (VStr (logic_word any)) (order_value order)
      (count_value (Some limit)) (count_value (Some offset)) values db in
  exists p1 p2,
    page_of n k = (inr p1, db) /\ page_of m (k + n) = (inr p2, db)
    /\ page_of (n + m) k = (inr (p1 ++ p2), db) /\ length p1 <= n.
Proof.
  intros Ht Hk Ho Htab page_of. unfold page_of.
  rewrite !(mini_get_page self table any values order _ _ db tab) by done.
  do 2 eexists. split; [done|]. split; [done|]. split.
  - by rewrite <- fmap_app, page_app.
  - rewrite length_fmap. apply page_length.
Qed.

(** C18: on the reference database [add_bulk] of entries with the keys of
    the first, which are identifiers, and with plain values is one INSERT
    of a row per entry, in order: the database stores all the rows, or it
    raises and stores none. *)
Theorem add_bulk_refines (self : DB) (sqlite : bool) (table : string) (first : pydict)
    (rest : list pydict) (db : minidb) :
  _sqlite self = Some sqlite -> ident table -> uniform first rest ->
  add_bulk (D:=mini_driver) self table (first :: rest) db
  = match db_insert_rows table (dict_keys first) (row_cells sqlite <$> first :: rest) db with
    | (inl e, _) => (inl e, db)
    | (inr _, db') => (inr tt, db')
    end.
Proof.
  intros Hsq Ht Hu. rewrite (mini_add_bulk self sqlite) by done. unfold db_insert_all.
  by destruct (db_insert_rows _ _ _ db) as [[e|rs] db'].
Qed.

(** C17: on the reference database [update] assigns the cells of the
    entry's items that are no condition keys in the rows that hold the
    cell of every condition, and in no other row; ids stay; when a unique
    column would hold a text twice, it raises and changes nothing.  The
    entry may name [id] when the conditions do, as in
    [update(t, {name: 'x', id: 1}, {id: 1})]. *)
Theorem update_refines (self : DB) (sqlite : bool) (table : string)
    (entry conditions : pydict) (db : minidb) (tab : MiniDb.table) :
  _sqlite self = Some sqlite -> ident table ->
  Forall plain_item entry -> Forall plain_item conditions ->
  update_items entry conditions <> [] -> conditions <> [] ->
  "id" ∉ dict_keys (update_items entry conditions) ->
  db_tables db !! table = Some tab ->
  let rows :=
    (fun r => if row_matches (eq_of sqlite <$> conditions) r
              then update_row (set_of sqlite <$> update_items entry conditions) r
              else r) <$> t_rows tab in
  update (D:=mini_driver) self table entry conditions db
  = if bool_decide (Forall (fun u => NoDup (col_texts u rows)) (t_unique tab))
    then (inr tt, db_set_rows table tab rows db)
    else (inl (DriverError "UNIQUE constraint failed"), db).
Proof.
  intros Hsq Ht He Hc Hi Hne Hid Htab rows.
  rewrite (mini_update self sqlite) by done. unfold db_update. rewrite Htab.
  rewrite bool_decide_eq_false_2 by by rewrite sets_keys.
  replace (updated _ _ (t_rows tab)) with rows; [by case_bool_decide|].
  apply list_fmap_ext. intros i r _. by rewrite where_holds_one.
Qed.

(** C32: a condition of [update] on [None] is written [key = NULL], which
    no row meets, where [get] writes [key is NULL]: on a well-formed
    database such an [update] returns without an error and changes
    nothing. *)
Theorem update_none_condition (self : DB) (sqlite : bool) (table : string)
    (entry conditions : pydict) (key : string) (db : minidb) (tab : MiniDb.table) :
  _sqlite self = Some sqlite -> ident table ->
  Forall plain_item entry -> Forall plain_item conditions ->
  update_items entry conditions <> [] ->
  "id" ∉ dict_keys (update_items entry conditions) ->
  db_wf db -> db_tables db !! table = Some tab ->
  (key, VNone) ∈ conditions ->
  update (D:=mini_driver) self table entry conditions db = (inr tt, db).
Proof.
  intros Hsq Ht He Hc Hi Hid Hwf Htab Hin.
  assert (conditions <> []) as Hne by (intros ->; by apply elem_of_nil in Hin).
  rewrite (mini_update self sqlite) by done.
  rewrite (db_update_none _ _ _ _ tab); [done..|by rewrite sets_keys|].
  intros r. rewrite where_holds_one. by apply (eq_of_none _ _ key).
Qed.

(** On the reference database [drop_tables] drops every table: when
    the names of the tables are identifiers the database is empty after
    it; the counter stays. *)
Theorem drop_tables_refines (self : DB) (db : minidb) :
  map_Forall (fun t _ => ident t) (db_tables db) ->
  drop_tables (D:=mini_driver) self db
  = (inr tt, {| db_tables := ∅; db_next := db_next db |}).
Proof. apply mini_drop_tables. Qed.

(** C21: on the reference database [get_id] and [add_unique] return a
    value of the type of ids whenever they return: [None], an integer, or
    a list of integers.  [get_id] raises no [KeyError]: every row has its
    id. *)
Theorem ids_typed (self : DB) (table : string) (values entry : pydict) (key : string)
    (db : minidb) :
  match (get_id (D:=mini_driver) self table values db).1 with
  | inr o => has_type ids_type o = true
  | inl e => forall k, e <> KeyError k
  end
  /\ match (add_unique (D:=mini_driver) self table entry key db).1 with
     | inr o => has_type ids_type o = true
     | inl e => True
     end.
Proof.
  split.
  - destruct (get_id self table values db) as [[e|o] db'] eqn:Hg; [|by eapply get_id_type].
    revert Hg. unfold get_id. destruct (kwargs_clash values) eqn:Hc; [by intros [= <- _]|].
    unfold bind at 1. rewrite get_kw_run by done.
    destruct (drv_query _ _ db) as [[e'|rows] db1] eqn:Hq.
    + intros [= <- _] k ->. revert Hq.
      change (drv_query ?q ?f db) with (mini_query q f db). unfold mini_query.
      destruct (parse_sql _) as [s|]; [|done]. apply db_exec_no_key_error.
    + destruct (ids_of_int_rows rows (int_ids _ _ _ _ _ Hq)) as [zs ->].
      by rewrite bind_lift_inr.
  - destruct (add_unique self table entry key db) as [[e|o] db'] eqn:Ha; [done|].
    by eapply add_unique_type.
Qed.

(** C22: [delete] with a text for an id: the id [i' OR col = 'x] makes the
    database delete the rows with the id [i] and every row that holds [x]
    in the column [col], whatever its id. *)
Theorem delete_injection (self : DB) (table i col x : string) (db : minidb)
    (tab : MiniDb.table) :
  ident table -> name_ok i -> ident col -> name_ok x ->
  db_tables db !! table = Some tab ->
  delete (D:=mini_driver) self table (or_id i col x) db
  = (inr tt,
     db_set_rows table tab
       (filter (fun r => col_text "id" r <> Some i /\ col_text col r <> Some x) (t_rows tab))
       db).
Proof.
  intros Ht Hi Hc Hx Htab. unfold delete. rewrite do_discard_run.
  change (drv_query ?q ?f db) with (mini_query q f db). unfold mini_query.
  rewrite parse_delete_or_text by done. cbn [db_exec]. unfold db_delete. rewrite Htab.
  do 3 f_equal. apply list_filter_iff. intros r. unfold where_holds, row_matches.
  cbn [existsb forallb]. rewrite !andb_true_r, orb_false_r, orb_false_iff, <- !not_true_iff_false.
  by rewrite !cond_holds_text.
Qed.

End refine.

(** ** Witnesses and examples *)

(** The connection, the table and the entry of the examples. *)
Definition conn : DB := __init__ "sqlite:///test.db".

Definition people : minidb := one_table "people" ["name"].

Definition ann : pydict := [("name", VStr "Ann"); ("age", VInt 7)].

Lemma add_refines_witness :
  rows_of "people" (add (D:=mini_driver) conn "people" ann people).2
  = [{| r_id := 1; r_cells := [("name", Some "Ann"); ("age", Some "7")] |}].
Proof.
  rewrite (add_refines conn true "people" ann people);
    [reflexivity|reflexivity|decided|done|decided|decided].
Defined.

Lemma get_id_refines_witness :
  get_id (D:=mini_driver) conn "people" [("name", VStr "Ann")] people
  = (inr (OValue VNone), people).
Proof.
  rewrite (get_id_refines conn "people" [("name", VStr "Ann")] people);
    [reflexivity|decided|decided].
Defined.

Lemma add_unique_refines_witness :
  (add_unique (D:=mini_driver) conn "people" [("name", VNone)] "name" people).1
  = inr (OValue (VInt 1)).
Proof.
  rewrite (add_unique_refines conn true "people" [("name", VNone)] "name" VNone people);
    [vm_compute; reflexivity|reflexivity|decided|decided|decided|decided|reflexivity].
Defined.

Lemma add_unique_idempotent_witness :
  let db1 := (add_unique (D:=mini_driver) conn "people" ann "name" people).2 in
  add_unique (D:=mini_driver) conn "people" ann "name" db1 = (inr (OValue (VInt 1)), db1).
Proof.
  apply (add_unique_idempotent conn "people" ann "name" people);
    [decided|decided|vm_compute; reflexivity|reflexivity].
Defined.

Lemma add_unique_inserts_witness :
  add_unique (D:=mini_driver) conn "people" ann "name" people
  = (inr (OValue (VInt 1)),
     db_add_row "people" {| t_unique := ["name"]; t_rows := [] |} (row_of true 1 ann) people).
Proof.
  apply (add_unique_inserts conn true "people" ann "name" (VStr "Ann") people);
    [reflexivity|decided|decided|decided|decided|reflexivity|decided
    |reflexivity|reflexivity|reflexivity|reflexivity].
Defined.


Lemma get_id_unique_scalar_witness :
  exists o,
    get_id (D:=mini_driver) conn "people" [("name", VStr "Ann")] people
    = (inr (OValue o), people).
Proof.
  apply (get_id_unique_scalar conn "people" "name" (VStr "Ann") people
           {| t_unique := ["name"]; t_rows := [] |});
    [decided|decided|decided|reflexivity|decided|reflexivity].
Defined.

Lemma get_by_id_refines_witness :
  get_by_id (D:=mini_driver) conn "people" (VInt 1) people = (inr None, people).
Proof.
  apply (get_by_id_refines conn "people" 1 people {| t_unique := ["name"]; t_rows := [] |});
    [decided|decided|reflexivity].
Defined.

Lemma delete_refines_witness :
  delete (D:=mini_driver) conn "people" (VInt 1) people
  = (inr tt, db_set_rows "people" {| t_unique := ["name"]; t_rows := [] |} [] people)
  /\ purge (D:=mini_driver) conn "people" people
     = (inr tt, db_set_rows "people" {| t_unique := ["name"]; t_rows := [] |} [] people).
Proof.
  apply (delete_refines conn "people" 1 people {| t_unique := ["name"]; t_rows := [] |});
    [decided|reflexivity].
Defined.

(** A row added, looked up, deleted by its id and looked up again. *)
Example add_delete_example :
  let '(_, db1) := add (D:=mini_driver) conn "people" ann people in
  let '(_, db2) := delete (D:=mini_driver) conn "people" (VInt 1) db1 in
  (get_id (D:=mini_driver) conn "people" [("name", VStr "Ann")] db1).1 = inr (OValue (VInt 1))
  /\ (get_id (D:=mini_driver) conn "people" [("name", VStr "Ann")] db2).1 = inr (OValue VNone)
  /\ db_next db2 = 2%Z.
Proof. vm_compute. done. Qed.

Lemma writes_keep_wf_witness :
  db_wf (add (D:=mini_driver) conn "people" ann people).2
  /\ db_wf (add_bulk (D:=mini_driver) conn "people" [ann] people).2
  /\ db_wf (update (D:=mini_driver) conn "people" ann [("id", VInt 1)] people).2
  /\ db_wf (add_unique (D:=mini_driver) conn "people" ann "name" people).2
  /\ db_wf (delete (D:=mini_driver) conn "people" (VInt 1) people).2
  /\ db_wf (purge (D:=mini_driver) conn "people" people).2
  /\ db_wf (drop_table (D:=mini_driver) conn "people" people).2
  /\ db_wf (drop_tables (D:=mini_driver) conn people).2.
Proof. apply writes_keep_wf. decided. Defined.

(** Two calls of [add_unique] with a text with a colon, on a table without
    a unique column: two rows, and [None] both times. *)
Example add_unique_colon_twice :
  let db0 := one_table "log" [] in
  let '(r1, db1) := add_unique (D:=mini_driver) conn "log" [("at", VStr "12:30")] "at" db0 in
  let '(r2, db2) := add_unique (D:=mini_driver) conn "log" [("at", VStr "12:30")] "at" db1 in
  r1 = inr (OValue VNone) /\ r2 = inr (OValue VNone)
  /\ rows_of "log" db2
     = [{| r_id := 1; r_cells := [("at", Some "12\:30")] |};
        {| r_id := 2; r_cells := [("at", Some "12\:30")] |}].
Proof. vm_compute. done. Qed.


(** A table with three rows, and the table itself. *)
Definition crew_table : MiniDb.table :=
  {| t_unique := ["name"];
     t_rows := [{| r_id := 1; r_cells := [("name", Some "Ann"); ("age", Some "7")] |};
                {| r_id := 2; r_cells := [("name", Some "Bob"); ("age", Some "5")] |};
                {| r_id := 3; r_cells := [("name", Some "Cy"); ("age", Some "7")] |}] |}.

Definition crew : minidb := {| db_tables := {[ "people" := crew_table ]}; db_next := 4 |}.

(** [computed]: an equation that holds by evaluation. *)
Ltac computed := vm_compute; reflexivity.

Lemma get_single_refines_witness :
  get_single (D:=mini_driver) conn "people" [("age", VInt 7)] crew
  = (inl (RuntimeError "get_single returned multiple values"), crew)
  /\ get_single (D:=mini_driver) conn "people" [("age", VInt 5)] crew
     = (inr (Some [("id", VInt 2); ("name", VStr "Bob"); ("age", VStr "5")]), crew).
Proof.
  split.
  - refine (eq_trans (get_single_refines conn "people" [("age", VInt 7)] crew _ _) _);
      [decided|decided|computed].
  - refine (eq_trans (get_single_refines conn "people" [("age", VInt 5)] crew _ _) _);
      [decided|decided|computed].
Defined.

Lemma get_refines_witness :
  get (D:=mini_driver) conn "people" (VStr "OR") (VStr "name DESC") (VInt 2) (VInt 0)
    [("age", VInt 7); ("name", VStr "Bob")] crew
  = (inr [[("id", VInt 3); ("name", VStr "Cy"); ("age", VStr "7")];
          [("id", VInt 2); ("name", VStr "Bob"); ("age", VStr "5")]], crew).
Proof.
  refine (eq_trans
            (get_refines conn "people" true [("age", VInt 7); ("name", VStr "Bob")]
               (Some ("name", true)) (Some 2) (Some 0) crew crew_table _ _ _ _) _);
    [decided|decided|decided|computed|computed].
Defined.

Lemma get_sorted_witness :
  exists rows,
    get (D:=mini_driver) conn "people" (VStr "AND") (VStr "age") VNone VNone
      [("age", VInt 7)] crew
    = (inr (row_dict <$> rows), crew)
    /\ StronglySorted (row_le "age" false) rows
    /\ rows ≡ₚ filter (fun r => where_holds [[CEq "age" (Some "7")]] r = true)
                 (t_rows crew_table).
Proof.
  refine (get_sorted conn "people" false [("age", VInt 7)] "age" false crew crew_table
            _ _ _ _); [decided|decided|decided|computed].
Defined.

Lemma get_pages_witness :
  let page_of limit offset :=
    get (D:=mini_driver) conn "people" (VStr "AND") (VStr "id") (VInt limit) (VInt offset)
      [] crew in
  exists p1 p2,
    page_of 1%Z 0%Z = (inr p1, crew) /\ page_of 2%Z 1%Z = (inr p2, crew)
    /\ page_of 3%Z 0%Z = (inr (p1 ++ p2), crew) /\ length p1 <= 1.
Proof.
  refine (get_pages conn "people" false [] (Some ("id", false)) 1 2 0 crew crew_table
            _ _ _ _); [decided|decided|decided|computed].
Defined.

Lemma add_bulk_refines_witness :
  add_bulk (D:=mini_driver) conn "people"
    [[("name", VStr "Ann"); ("age", VInt 7)]; [("name", VStr "Bob"); ("age", VNone)]] people
  = (inr tt,
     {| db_tables :=
          {[ "people" :=
               {| t_unique := ["name"];
                  t_rows := [{| r_id := 1; r_cells := [("name", Some "Ann"); ("age", Some "7")] |};
                             {| r_id := 2; r_cells := [("name", Some "Bob"); ("age", None)] |}] |} ]};
        db_next := 3 |}).
Proof.
  rewrite (add_bulk_refines conn true "people" [("name", VStr "Ann"); ("age", VInt 7)]
             [[("name", VStr "Bob"); ("age", VNone)]] people);
    [computed|reflexivity|decided|].
  split; [done|]. split; [decided|]. split; [decided|decided].
Defined.

(** A bulk insert whose second row repeats the name of the first stores
    neither. *)
Example add_bulk_all_or_nothing :
  add_bulk (D:=mini_driver) conn "people"
    [[("name", VStr "Ann"); ("age", VInt 7)]; [("name", VStr "Ann"); ("age", VInt 8)]] people
  = (inl (DriverError "UNIQUE constraint failed"), people).
Proof. computed. Qed.

Lemma update_refines_witness :
  update (D:=mini_driver) conn "people" [("name", VStr "Zed"); ("id", VInt 1)]
    [("id", VInt 1)] crew
  = (inr tt,
     db_set_rows "people" crew_table
       [{| r_id := 1; r_cells := [("name", Some "Zed"); ("age", Some "7")] |};
        {| r_id := 2; r_cells := [("name", Some "Bob"); ("age", Some "5")] |};
        {| r_id := 3; r_cells := [("name", Some "Cy"); ("age", Some "7")] |}] crew).
Proof.
  rewrite (update_refines conn true "people" [("name", VStr "Zed"); ("id", VInt 1)]
             [("id", VInt 1)] crew crew_table);
    [computed|reflexivity|decided|decided|decided|done|done|decided|computed].
Defined.

(** An update that would give two rows the same name fails and changes
    nothing. *)
Example update_unique_clash :
  update (D:=mini_driver) conn "people" [("name", VStr "Bob")] [("age", VInt 7)] crew
  = (inl (DriverError "UNIQUE constraint failed"), crew).
Proof. computed. Qed.

Lemma update_none_condition_witness :
  update (D:=mini_driver) conn "people" [("age", VInt 8)] [("name", VNone)] crew
  = (inr tt, crew).
Proof.
  apply (update_none_condition conn true "people" [("age", VInt 8)] [("name", VNone)]
           "name" crew crew_table);
    [reflexivity|decided|decided|decided|done|decided|decided|computed|decided].
Defined.

Lemma drop_tables_refines_witness :
  drop_tables (D:=mini_driver) conn crew = (inr tt, {| db_tables := ∅; db_next := 4 |}).
Proof. apply (drop_tables_refines conn crew). decided. Defined.

Lemma delete_injection_witness :
  delete (D:=mini_driver) conn "people" (VStr "2' OR age = '7") crew
  = (inr tt, db_set_rows "people" crew_table [] crew).
Proof.
  refine (eq_trans (delete_injection conn "people" "2" "age" "7" crew crew_table _ _ _ _ _) _);
    [decided|done|decided|done|computed|computed].
Defined.

(** The ids of the rows of an age, and what [get_id] returns for an age
    that no row has. *)
Example ids_typed_example :
  (get_id (D:=mini_driver) conn "people" [("age", VInt 7)] crew).1
  = inr (OList [VInt 1; VInt 3])
  /\ (get_id (D:=mini_driver) conn "people" [("age", VInt 6)] crew).1 = inr (OValue VNone)
  /\ (get_id (D:=mini_driver) conn "nobody" [("age", VInt 6)] crew).1
     = inl (DriverError "no such table").
Proof. split; [computed|]. split; computed. Qed.
