(* ===== verification/Equiv.v ===== *)
(** * Statements that mean the same

    The class writes the filters of a statement in the order of the
    keyword map it is given, so two calls with the same filters in another
    order send different texts.  [same_rows] is the equivalence of WHERE
    clauses that the same rows meet; the operations of the reference
    database respect it, the clauses of permuted filters are equivalent,
    and so [get], [get_id] and [update] do the same whatever the order
    of their filters and conditions. *)

From stdpp Require Import gmap sorting.
From S2P Require Import Prelude PyValue Escaper SqlScan Driver Builder Injection.
From S2P Require Import Accessors Lexer SqlParse MiniDb Readback Refine.

(** Two WHERE clauses that the same rows meet. *)
Definition same_rows (w1 w2 : dnf) : Prop :=
  forall r, where_holds w1 r = where_holds w2 r.

#[export] Instance same_rows_equivalence : Equivalence same_rows.
Proof.
  split; [by intros w r|by intros w1 w2 H r|].
  intros w1 w2 w3 H1 H2 r. by rewrite H1.
Qed.

(** ** The database respects the equivalence *)

#[export] Instance where_holds_proper : Proper (same_rows ==> (=) ==> (=)) where_holds.
Proof. by intros w1 w2 H r _ <-. Qed.

Lemma filter_same_rows (w1 w2 : dnf) (rows : list row) :
  same_rows w1 w2 ->
  filter (fun r => where_holds w1 r = true) rows
  = filter (fun r => where_holds w2 r = true) rows.
Proof. intros H. apply list_filter_iff. intros r. by rewrite (H r). Qed.

#[export] Instance db_select_proper (t : string) :
  Proper (same_rows ==> (=) ==> (=) ==> (=) ==> (=) ==> (=)) (db_select t).
Proof.
  intros w1 w2 H o _ <- l _ <- f _ <- db _ <-. unfold db_select.
  destruct (db_tables db !! t); [|done]. by rewrite (filter_same_rows w1 w2).
Qed.

#[export] Instance db_delete_proper (t : string) :
  Proper (same_rows ==> (=) ==> (=)) (db_delete t).
Proof.
  intros w1 w2 H db _ <-. unfold db_delete.
  destruct (db_tables db !! t); [|done]. do 2 f_equal.
  apply list_filter_iff. intros r. by rewrite (H r).
Qed.

#[export] Instance updated_proper (sets : list (string * cell)) :
  Proper (same_rows ==> (=) ==> (=)) (updated sets).
Proof.
  intros w1 w2 H rows _ <-. unfold updated. apply list_fmap_ext.
  intros i r _. by rewrite (H r).
Qed.

#[export] Instance db_update_proper (t : string) (sets : list (string * cell)) :
  Proper (same_rows ==> (=) ==> (=)) (db_update t sets).
Proof.
  intros w1 w2 H db _ <-. unfold db_update.
  destruct (db_tables db !! t); [|done]. by rewrite (updated_proper sets _ _ H _ _ eq_refl).
Qed.

(** ** The order of conditions *)

#[export] Instance row_matches_perm : Proper ((≡ₚ) ==> (=) ==> (=)) row_matches.
Proof.
  intros c1 c2 H r _ <-. unfold row_matches.
  induction H as [|c l l' _ IH|c c' l|l l' l'' _ IH1 _ IH2]; simpl;
    [done|by rewrite IH| |congruence].
  by destruct (cond_holds r c), (cond_holds r c').
Qed.

#[export] Instance where_holds_perm : Proper ((≡ₚ) ==> (=) ==> (=)) where_holds.
Proof.
  intros w1 w2 H r _ <-. unfold where_holds.
  induction H as [|c l l' _ IH|c c' l|l l' l'' _ IH1 _ IH2]; simpl;
    [done|by rewrite IH| |congruence].
  by destruct (row_matches c r), (row_matches c' r).
Qed.

Section order.
Context {ND : NumberDetect}.

#[export] Instance where_of_perm (any : bool) : Proper ((≡ₚ) ==> same_rows) (where_of any).
Proof.
  intros v1 v2 H r. destruct v1 as [|kv1 v1].
  { by apply Permutation_nil_l in H as ->. }
  destruct v2 as [|kv2 v2]; [by apply Permutation_nil_r in H|].
  unfold where_of. destruct any.
  - apply where_holds_perm; [by apply fmap_Permutation|done].
  - unfold where_holds. cbn [existsb]. f_equal.
    apply row_matches_perm; [by apply fmap_Permutation|done].
Qed.

#[export] Instance eq_of_perm (sqlite : bool) :
  Proper ((≡ₚ) ==> same_rows) (fun conditions => [eq_of sqlite <$> conditions]).
Proof.
  intros c1 c2 H r. unfold where_holds. cbn [existsb]. f_equal.
  apply row_matches_perm; [by apply fmap_Permutation|done].
Qed.

(** The items [update] assigns depend on the keys of the conditions, not
    on their order. *)
Lemma update_items_perm (entry conditions conditions' : pydict) :
  conditions ≡ₚ conditions' ->
  update_items entry conditions = update_items entry conditions'.
Proof.
  intros H. unfold update_items. apply list_filter_iff. intros kv.
  unfold dict_contains, dict_keys. rewrite !bool_decide_eq_false. by rewrite H.
Qed.

Lemma get_permuted (self : DB) (table : string) (any : bool) (values values' : pydict)
    (order : option (string * bool)) (limit offset : option nat) (db : minidb) :
  ident table -> Forall ident (dict_keys values) -> order_ok order ->
  values ≡ₚ values' ->
  get self table (VStr (logic_word any)) (order_value order) (count_value limit)
    (count_value offset) values' db
  = get self table (VStr (logic_word any)) (order_value order) (count_value limit)
      (count_value offset) values db.
Proof.
  intros Ht Hk Ho H. rewrite !mini_get; try done.
  - by rewrite H.
  - unfold dict_keys. by rewrite <- H.
Qed.

(** ** Theorems *)

(** C33: the filters of [get] can be given in any order: the WHERE clauses
    of a keyword map and of a permutation of it are met by the same rows,
    and over the reference database [get] returns the same rows in the same
    order for both, with AND and with OR, although the statements differ
    as texts. *)
Theorem get_filter_order (self : DB) (table : string) (any : bool)
    (values values' : pydict) (order : option (string * bool)) (limit offset : option nat)
    (db : minidb) :
  ident table -> Forall ident (dict_keys values) -> order_ok order ->
  values ≡ₚ values' ->
  same_rows (where_of any values) (where_of any values')
  /\ get self table (VStr (logic_word any)) (order_value order) (count_value limit)
       (count_value offset) values' db
     = get self table (VStr (logic_word any)) (order_value order) (count_value limit)
         (count_value offset) values db.
Proof. intros Ht Hk Ho H. split; [by rewrite H|by apply get_permuted]. Qed.

(** [get_id] returns the same ids whatever the order of its filters. *)
Theorem get_id_filter_order (self : DB) (table : string) (values values' : pydict)
    (db : minidb) :
  ident table -> Forall column (dict_keys values) -> values ≡ₚ values' ->
  get_id self table values' db = get_id self table values db.
Proof.
  intros Ht Hk H. rewrite !mini_get_id; try done; [|unfold dict_keys; by rewrite <- H].
  unfold lookup_ids. destruct (db_tables db !! table); [|done]. do 4 f_equal.
  apply list_filter_iff. intros r. by rewrite H.
Qed.

(** [update] does the same whatever the order of its conditions. *)
Theorem update_condition_order (self : DB) (sqlite : bool) (table : string)
    (entry conditions conditions' : pydict) (db : minidb) :
  _sqlite self = Some sqlite -> ident table ->
  Forall plain_item entry -> Forall plain_item conditions ->
  update_items entry conditions <> [] -> conditions <> [] ->
  conditions ≡ₚ conditions' ->
  update self table entry conditions' db = update self table entry conditions db.
Proof.
  intros Hsq Ht He Hc Hi Hne H.
  rewrite !(mini_update self sqlite); try done.
  - by rewrite <- (update_items_perm _ _ _ H), (eq_of_perm sqlite _ _ H).
  - by rewrite <- H.
  - by rewrite <- (update_items_perm _ _ _ H).
  - intros ->. by apply Permutation_nil_r in H.
Qed.

End order.

(** ** Concrete runs *)

Lemma get_filter_order_witness :
  get (D:=mini_driver) conn "people" (VStr "AND") VNone VNone VNone
    [("age", VInt 7); ("name", VStr "Ann")] crew
  = get (D:=mini_driver) conn "people" (VStr "AND") VNone VNone VNone
      [("name", VStr "Ann"); ("age", VInt 7)] crew.
Proof.
  refine (proj2 (get_filter_order conn "people" false
                   [("name", VStr "Ann"); ("age", VInt 7)]
                   [("age", VInt 7); ("name", VStr "Ann")] None None None crew _ _ _ _));
    [decided|decided|done|apply perm_swap].
Defined.

(** The two statements are different texts. *)
Example get_filter_order_texts :
  get_sql "people" (VStr "AND") VNone VNone VNone [("age", VInt 7); ("name", VStr "Ann")]
  <> get_sql "people" (VStr "AND") VNone VNone VNone [("name", VStr "Ann"); ("age", VInt 7)].
Proof. by vm_compute. Qed.
