(* ===== verification/Race.v ===== *)
(** * The class beside other writers

    [racing_driver] is the reference database with other connections
    writing to it: its state is the database and the statements the
    others will execute, a batch of any length after each statement of
    ours, which gives every interleaving of our statements with theirs.
    The theorems show what [add_unique] returns in the race it is written
    for, and when it is sure to return an id. *)

From stdpp Require Import gmap.
From S2P Require Import Prelude PyValue Escaper SqlScan Driver Builder Injection.
From S2P Require Import Accessors Lexer SqlParse MiniDb Readback Refine.

(** ** Other writers

    The state is the database and the statements other connections will
    execute: one batch after each statement of ours.  What the others do
    before our first statement is part of the database we start from. *)
Definition racing : Type := minidb * list (list stmt).

(** The database after a batch of statements, results dropped. *)
Definition run_all (batch : list stmt) (db : minidb) : minidb :=
  foldl (fun db s => (db_exec s db).2) db batch.

(** The database after the next batch of the other writers. *)
Definition pass (others : list (list stmt)) (db : minidb) : racing :=
  match others with
  | [] => (db, [])
  | batch :: others' => (run_all batch db, others')
  end.

Definition racing_query (sql : string) (fetchall : bool) : serr racing exn (list pydict) :=
  fun st => let '(r, db) := mini_query sql fetchall st.1 in (r, pass st.2 db).

Definition racing_driver : Driver racing := {|
  drv_query := racing_query;
  drv_get_table_names := fun st => (inr (map_to_list (db_tables st.1)).*1, st);
  drv_close := ret tt;
  drv_get_as_dict := None
|}.

Section race.
Context {ND : NumberDetect}.

(** ** The methods beside a second writer *)

Lemma racing_get_id (self : DB) (table : string) (values : pydict) (db : minidb)
    (others : list (list stmt)) :
  ident table -> Forall column (dict_keys values) ->
  get_id (D:=racing_driver) self table values (db, others)
  = (lookup_ids table (cond_of <$> values) db, pass others db).
Proof.
  intros Ht Hc. rewrite get_id_run by by apply columns_spec.
  change (drv_query ?q ?f (db, others)) with (racing_query q f (db, others)).
  unfold racing_query. cbn [fst snd]. rewrite mini_query_select by done.
  unfold lookup_ids.
  destruct (db_tables db !! table) as [tab|]; [|done]. by rewrite ids_of_row_dicts.
Qed.

Lemma racing_add (self : DB) (sqlite : bool) (table : string) (entry : pydict)
    (db : minidb) (others : list (list stmt)) :
  _sqlite self = Some sqlite -> ident table -> entry <> [] ->
  Forall ident (dict_keys entry) -> Forall plain (dict_values entry) ->
  (add (D:=racing_driver) self table entry (db, others)).2
  = pass others (db_insert table (dict_keys entry) (cell_of sqlite <$> dict_values entry) db).2.
Proof.
  intros Hsq Ht Hne Hk Hv. rewrite (add_run _ sqlite) by done.
  change (drv_query ?q ?f (db, others)) with (racing_query q f (db, others)).
  unfold racing_query. cbn [fst snd]. rewrite mini_query_insert by done.
  by destruct (db_insert _ _ _ db) as [[]].
Qed.

(** ** Progress

    When the other writers only insert and select, rows stay: a table
    keeps its rows, in order, and gets more. *)

Lemma run_all_grown (batch : list stmt) (db : minidb) (t : string) (tab : MiniDb.table) :
  forallb harmless batch = true -> db_tables db !! t = Some tab ->
  grown t tab (run_all batch db).
Proof.
  revert db tab. induction batch as [|s batch IH]; intros db tab Hh Ht;
    [by apply grown_refl|].
  apply andb_prop in Hh as [Hs Hh].
  destruct (harmless_grown s db t tab Hs Ht) as [rows Hg].
  eapply grown_trans; [exact Hg|by exists rows|by apply IH].
Qed.

Lemma pass_grown (others : list (list stmt)) (db : minidb) (t : string)
    (tab : MiniDb.table) :
  forallb (forallb harmless) others = true -> db_tables db !! t = Some tab ->
  grown t tab (pass others db).1 /\ forallb (forallb harmless) (pass others db).2 = true.
Proof.
  intros Hh Ht. destruct others as [|batch others]; [by split; [apply grown_refl|]|].
  cbn [forallb] in Hh. apply andb_prop in Hh as [Hb Hh].
  split; [by apply run_all_grown|done].
Qed.

(** A lookup on a text that a row of the table holds returns an id or a
    list of ids. *)
Lemma lookup_ids_present (t u x : string) (db : minidb) :
  present t u x db ->
  exists ids, lookup_ids t [CEq u (Some x)] db = inr ids /\ pyobj_is_None ids = false.
Proof.
  intros (tab & r & Ht & Hr & Hx). unfold lookup_ids. rewrite Ht. eexists. split; [done|].
  assert (r ∈ filter (fun r => row_matches [CEq u (Some x)] r = true) (t_rows tab)) as Hin.
  { apply list_elem_of_filter. split; [|done]. unfold row_matches. simpl.
    rewrite andb_true_r. by apply cond_holds_text. }
  by destruct (filter _ (t_rows tab)) as [|r1 [|r2 rows]]; [apply elem_of_nil in Hin|..].
Qed.

(** ** Theorems *)

(** C15: the race [add_unique] is written for.  The lookup finds nothing;
    before the insert another writer stores a row with the same text in
    the key column, which is unique; the insert of [add_unique] fails, the
    failure is swallowed, and the second lookup returns the id of the
    other writer's row, the only row stored. *)
Theorem add_unique_race (self : DB) (sqlite : bool) (table : string) (entry : pydict)
    (key : string) (v : value) (db : minidb) (tab : MiniDb.table)
    (cols : list string) (cells : list cell) :
  let theirs := {| r_id := db_next db; r_cells := zip cols cells |} in
  _sqlite self = Some sqlite -> ident table -> column key ->
  Forall ident (dict_keys entry) -> Forall plain (dict_values entry) ->
  dict_lookup key entry = Some v -> "id" ∉ dict_keys entry ->
  is_None v = false -> findable sqlite v = true ->
  db_tables db !! table = Some tab -> key ∈ t_unique tab ->
  filter (fun r => row_matches [cond_of (key, v)] r = true) (t_rows tab) = [] ->
  length cols = length cells -> "id" ∉ cols ->
  col_text key theirs = Some (py_str v) ->
  unique_clash (t_unique tab) theirs (t_rows tab) = false ->
  add_unique (D:=racing_driver) self table entry key (db, [[SInsert table cols [cells]]])
  = (inr (OValue (VInt (db_next db))), (db_add_row table tab theirs db, [])).
Proof.
  intros theirs Hsq Ht Hc Hk Hp Hv Hid Hnn Hf Htab Hu Hnone Hlen Hidc Htheirs Hclash.
  assert (Forall column (dict_keys [(key, v)])) as Hcol by by apply Forall_singleton.
  assert (entry <> []) as Hne by by intros ->.
  rewrite (add_unique_run (D:=racing_driver) _ _ _ _ v) by done.
  rewrite racing_get_id by done. change (cond_of <$> [(key, v)]) with [cond_of (key, v)].
  unfold lookup_ids at 1. rewrite Htab, Hnone.
  cbn [fmap list_fmap ids_result pyobj_is_None is_None negb pass run_all foldl db_exec].
  rewrite db_insert_all_one, (db_insert_ok _ _ _ _ tab) by done. cbn [snd]. fold theirs.
  rewrite (racing_add _ sqlite) by done.
  rewrite (db_insert_clash _ _ _ _
             {| t_unique := t_unique tab; t_rows := t_rows tab ++ [theirs] |});
    [|apply db_add_row_lookup|apply row_lengths|done|].
  - cbn [pass snd]. rewrite racing_get_id, lookup_ids_add_row by done.
    change (cond_of <$> [(key, v)]) with [cond_of (key, v)].
    rewrite filter_app, Hnone, app_nil_l, filter_cons_True; [done|].
    unfold cond_of, row_matches. simpl. rewrite Hnn, andb_true_r.
    by apply cond_holds_text.
  - apply (unique_clash_true _ _ theirs _ key (py_str v));
      [done|by apply elem_of_app; right; left| |done].
    unfold col_text. fold (row_of sqlite (db_next (db_add_row table tab theirs db)) entry).
    by rewrite (row_of_cell _ _ _ _ v), findable_cell.
Qed.

(** C16: progress of [add_unique] beside writers that only insert and
    select: on a table where no other column than the key is unique, for
    an entry whose key value is a text or number the filter finds again,
    [add_unique] returns an id or a list of ids, never [None] and never an
    exception, however many statements of the others fall between its
    own.  Either the first lookup finds a row, or the insert stores one,
    or it clashes with a row of another writer, which the second lookup
    finds. *)
Theorem add_unique_progress (self : DB) (sqlite : bool) (table : string) (entry : pydict)
    (key : string) (v : value) (db : minidb) (tab : MiniDb.table)
    (others : list (list stmt)) :
  _sqlite self = Some sqlite -> ident table -> column key ->
  Forall ident (dict_keys entry) -> Forall plain (dict_values entry) ->
  dict_lookup key entry = Some v -> "id" ∉ dict_keys entry ->
  is_None v = false -> findable sqlite v = true ->
  db_tables db !! table = Some tab -> t_unique tab ⊆ [key] ->
  forallb (forallb harmless) others = true ->
  exists ids st',
    add_unique (D:=racing_driver) self table entry key (db, others) = (inr ids, st')
    /\ pyobj_is_None ids = false.
Proof.
  intros Hsq Ht Hc Hk Hp Hv Hid Hnn Hf Htab Hu Hh.
  assert (Forall column (dict_keys [(key, v)])) as Hcol by by apply Forall_singleton.
  assert (entry <> []) as Hne by by intros ->.
  assert (cond_of <$> [(key, v)] = [CEq key (Some (py_str v))]) as Hcond
    by (unfold cond_of; simpl; by rewrite Hnn).
  rewrite (add_unique_run (D:=racing_driver) _ _ _ _ v), racing_get_id by done.
  unfold lookup_ids at 1. rewrite Htab.
  destruct (negb (pyobj_is_None (ids_result _))) eqn:Hids;
    [by do 2 eexists; split; [done|apply negb_true_iff]|].
  destruct (pass_grown others db table tab Hh Htab) as [[rows1 Hg1] Hh1].
  destruct (pass others db) as [db1 others1]. cbn [fst snd] in *.
  rewrite (racing_add _ sqlite) by done.
  destruct (db_insert_present table key (py_str v) (dict_keys entry)
              (cell_of sqlite <$> dict_values entry) db1 _ Hg1 Hu (row_lengths _ _) Hid)
    as (tab2 & r & Ht2 & _ & Hr & Hx).
  { unfold col_text. fold (row_of sqlite (db_next db1) entry).
    by rewrite (row_of_cell _ _ _ _ v), findable_cell. }
  destruct (pass_grown others1 _ table tab2 Hh1 Ht2) as [Hg2 _].
  destruct (pass others1 _) as [db2 others2]. cbn [fst] in Hg2.
  rewrite racing_get_id, Hcond by done.
  destruct (lookup_ids_present table key (py_str v) db2
              (present_grown _ _ _ _ _ _ Hr Hx Hg2)) as (ids & -> & Hn).
  by do 2 eexists.
Qed.

End race.

(** ** Witnesses and examples *)

Lemma add_unique_race_witness :
  add_unique (D:=racing_driver) conn "people" ann "name"
    (people, [[SInsert "people" ["name"; "age"] [[Some "Ann"; Some "8"]]]])
  = (inr (OValue (VInt 1)),
     (db_add_row "people" {| t_unique := ["name"]; t_rows := [] |}
        {| r_id := 1; r_cells := [("name", Some "Ann"); ("age", Some "8")] |} people, [])).
Proof.
  apply (add_unique_race conn true "people" ann "name" (VStr "Ann") people
           {| t_unique := ["name"]; t_rows := [] |} ["name"; "age"] [Some "Ann"; Some "8"]);
    [reflexivity|decided|decided|decided|decided|reflexivity|decided|reflexivity
    |reflexivity|reflexivity|decided|reflexivity|reflexivity|decided|reflexivity
    |reflexivity].
Defined.

(** The race on a column that is not unique: both rows are stored and
    [add_unique] returns a list of two ids. *)
Example add_unique_race_not_unique :
  (add_unique (D:=racing_driver) conn "log" [("at", VStr "noon")] "at"
     (one_table "log" [], [[SInsert "log" ["at"] [[Some "noon"]]]])).1
  = inr (OList [VInt 1; VInt 2]).
Proof. vm_compute. done. Qed.

Lemma add_unique_progress_witness :
  exists ids st',
    add_unique (D:=racing_driver) conn "people" ann "name"
      (people, [[SSelect "people" [[]] None None None;
                 SInsert "people" ["name"] [[Some "Cy"]]];
                [SInsert "people" ["name"] [[Some "Ann"]; [Some "Bob"]];
                 SSelect "people" [[]] None None None]])
    = (inr ids, st')
    /\ pyobj_is_None ids = false.
Proof.
  refine (add_unique_progress conn true "people" ann "name" (VStr "Ann") people
            {| t_unique := ["name"]; t_rows := [] |}
            [[SSelect "people" [[]] None None None;
              SInsert "people" ["name"] [[Some "Cy"]]];
             [SInsert "people" ["name"] [[Some "Ann"]; [Some "Bob"]];
              SSelect "people" [[]] None None None]]
            _ _ _ _ _ _ _ _ _ _ _ _);
    [reflexivity|decided|decided|decided|decided|reflexivity|decided|reflexivity
    |reflexivity|reflexivity|by intros x Hx|reflexivity].
Defined.

(** In the run of the witness the insert of [add_unique] clashes with the
    row of the other writer, whose id it returns. *)
Example add_unique_progress_run :
  (add_unique (D:=racing_driver) conn "people" ann "name"
     (people, [[SSelect "people" [[]] None None None;
                SInsert "people" ["name"] [[Some "Cy"]]];
               [SInsert "people" ["name"] [[Some "Ann"]; [Some "Bob"]];
                SSelect "people" [[]] None None None]])).1
  = inr (OValue (VInt 2)).
Proof. vm_compute. done. Qed.

(** Without the assumptions there is no progress: when another writer
    deletes the row that [add_unique] has just stored, or when the insert
    clashes in another unique column, [add_unique] returns [None]. *)
Example add_unique_deleted :
  (add_unique (D:=racing_driver) conn "people" ann "name"
     (people, [[]; [SDelete "people" [[]]]])).1
  = inr (OValue VNone).
Proof. vm_compute. done. Qed.

Example add_unique_other_clash :
  let db := (add (D:=mini_driver) conn "people" [("name", VStr "Bob"); ("age", VInt 7)]
               (one_table "people" ["name"; "age"])).2 in
  add_unique (D:=mini_driver) conn "people" ann "name" db = (inr (OValue VNone), db).
Proof. vm_compute. done. Qed.
