(* ===== verification/Concurrent.v ===== *)
(** * Two calls of [add_unique] at once

    [add_unique] sends three statements: a lookup, an insert whose failure
    it swallows, and a second lookup.  Between its statements another
    client may send its own.  [phase_step] is one call of [add_unique]
    cut at its statements, [run_schedule] two such calls interleaved in
    the order a schedule gives.  Run alone, the machine is [add_unique].
    Over the reference database, on a table whose only unique column is
    the key, two calls with the same key value return the same id under
    every schedule, and one row holds the value. *)

From stdpp Require Import gmap.
From S2P Require Import Prelude PyValue Escaper SqlScan Driver Builder Injection.
From S2P Require Import Accessors Lexer SqlParse MiniDb Readback Refine.

(** Where a call of [add_unique] stands: before its first lookup, before
    its insert, before its second lookup, or returned. *)
Inductive phase : Type :=
| Looking
| Inserting
| Relooking
| Returned (r : exn + pyobj).

(** The arguments of a call. *)
Record caller : Type := {
  c_self : DB;
  c_table : string;
  c_entry : pydict;
  c_key : string
}.

(** The statements a call has still to send, at most. *)
Definition turns_left (p : phase) : nat :=
  match p with
  | Looking => 3
  | Inserting => 2
  | Relooking => 1
  | Returned _ => 0
  end.

Section machine.
Context {ND : NumberDetect} {St : Type} {D : Driver St}.

(** [self.get_id(table, **{key: entry[key]})]. *)
Definition lookup (c : caller) : serr St exn pyobj :=
  (v ← lift (dict_getitem (c_key c) (c_entry c));
   get_id (c_self c) (c_table c) [(c_key c, v)])%serr.

(** One statement of the call. *)
Definition phase_step (c : caller) (p : phase) (st : St) : phase * St :=
  match p with
  | Looking =>
      if dict_is_empty (c_entry c)
      then (Returned (inl (RuntimeError "No values provided")), st)
      else
        match lookup c st with
        | (inl e, st') => (Returned (inl e), st')
        | (inr ids, st') =>
            (if negb (pyobj_is_None ids) then Returned (inr ids) else Inserting, st')
        end
  | Inserting =>
      (Relooking,
       (try_except (add (c_self c) (c_table c) (c_entry c)) (fun _ => ret tt) st).2)
  | Relooking => let '(r, st') := lookup c st in (Returned r, st')
  | Returned r => (Returned r, st)
  end.

(** The call run alone. *)
Definition run_alone (c : caller) (st : St) : phase * St :=
  let '(p1, st1) := phase_step c Looking st in
  let '(p2, st2) := phase_step c p1 st1 in
  phase_step c p2 st2.

(** Two calls on one database: the first caller takes a step, or the
    second. *)
Definition sched_step (c1 c2 : caller) (s : St * phase * phase) (first : bool) :
    St * phase * phase :=
  let '(st, p1, p2) := s in
  if first then let '(p1', st') := phase_step c1 p1 st in (st', p1', p2)
  else let '(p2', st') := phase_step c2 p2 st in (st', p1, p2').

Definition run_from (c1 c2 : caller) (s : St * phase * phase) (sched : list bool) :
    St * phase * phase :=
  foldl (sched_step c1 c2) s sched.

Definition run_schedule (c1 c2 : caller) (sched : list bool) (st : St) :
    St * phase * phase :=
  run_from c1 c2 (st, Looking, Looking) sched.

End machine.

(** The turns of a caller in a schedule; a schedule is complete when each
    caller has the three turns a call can take. *)
Definition turns (who : bool) (sched : list bool) : nat :=
  length (filter (fun b => b = who) sched).

Definition complete (sched : list bool) : Prop :=
  3 <= turns true sched /\ 3 <= turns false sched.

#[export] Instance complete_dec (sched : list bool) : Decision (complete sched) := _.

(** ** The machine and the method *)

Section machine_lemmas.
Context {ND : NumberDetect} {St : Type} {D : Driver St}.

(** Run alone, the machine is [add_unique]. *)
Lemma run_alone_add_unique (c : caller) (st : St) :
  run_alone c st
  = (Returned (add_unique (c_self c) (c_table c) (c_entry c) (c_key c) st).1,
     (add_unique (c_self c) (c_table c) (c_entry c) (c_key c) st).2).
Proof.
  unfold run_alone. cbn [phase_step]. unfold add_unique, lookup, bind, lift.
  destruct (dict_is_empty (c_entry c)); [done|].
  destruct (dict_getitem _ _) as [e|v] eqn:Hv; [done|].
  destruct (get_id _ _ _ st) as [[e|ids] st1]; [done|].
  destruct (negb (pyobj_is_None ids)); [done|]. cbn [phase_step].
  unfold lookup, try_except, ret, bind, lift. rewrite Hv.
  destruct (add _ _ _ st1) as [[e|[]] st2]; cbn; by destruct (get_id _ _ _ st2).
Qed.

(** A step takes a turn. *)
Lemma phase_step_turns (c : caller) (p : phase) (st : St) :
  turns_left (phase_step c p st).1 <= pred (turns_left p).
Proof.
  destruct p; simpl; [|lia| |lia].
  - destruct (dict_is_empty _); [simpl; lia|].
    destruct (lookup c st) as [[e|ids] st']; [simpl; lia|].
    destruct (negb _); simpl; lia.
  - destruct (lookup c st); simpl; lia.
Qed.

(** After its turns a caller has returned. *)
Lemma run_from_turns (c1 c2 : caller) (sched : list bool) (s : St * phase * phase) :
  turns_left (run_from c1 c2 s sched).1.2 <= turns_left s.1.2 - turns true sched
  /\ turns_left (run_from c1 c2 s sched).2 <= turns_left s.2 - turns false sched.
Proof.
  revert s. induction sched as [|b sched IH]; intros [[st p1] p2];
    [unfold turns; simpl; lia|].
  change (run_from c1 c2 (st, p1, p2) (b :: sched))
    with (run_from c1 c2 (sched_step c1 c2 (st, p1, p2) b) sched).
  destruct (IH (sched_step c1 c2 (st, p1, p2) b)) as [H1 H2]. unfold turns in *.
  destruct b; cbn [sched_step] in H1, H2 |- *.
  - pose proof (phase_step_turns c1 p1 st). destruct (phase_step c1 p1 st).
    rewrite filter_cons_True, filter_cons_False by done. simpl in *. lia.
  - pose proof (phase_step_turns c2 p2 st). destruct (phase_step c2 p2 st).
    rewrite filter_cons_False, filter_cons_True by done. simpl in *. lia.
Qed.

Lemma turns_left_0 (p : phase) : turns_left p = 0 -> exists r, p = Returned r.
Proof. destruct p; try done. by eexists. Qed.

End machine_lemmas.

(** ** Two calls on the reference database *)

(** The table has the key for its only unique column, in a well-formed
    database. *)
Definition keyed (table key : string) (db : minidb) : Prop :=
  db_wf db
  /\ exists tab, db_tables db !! table = Some tab
                 /\ key ∈ t_unique tab /\ t_unique tab ⊆ [key].

(** The row with the id [i] holds the text [x] under the key. *)
Definition holds (table key x : string) (i : Z) (db : minidb) : Prop :=
  exists tab r, db_tables db !! table = Some tab /\ r ∈ t_rows tab
                /\ col_text key r = Some x /\ r_id r = i.

(** What a caller in a phase knows of the database: before the second
    lookup, that a row holds the text; once returned, that the row of the
    id it returned does. *)
Definition phase_ok (table key x : string) (p : phase) (db : minidb) : Prop :=
  match p with
  | Looking | Inserting => True
  | Relooking => exists i, holds table key x i db
  | Returned r => exists i, r = inr (OValue (VInt i)) /\ holds table key x i db
  end.

Section agreement.
Context {ND : NumberDetect} (sqlite : bool) (table key : string) (v : value).
Context (Ht : ident table) (Hc : column key).
Context (Hnn : is_None v = false) (Hf : findable sqlite v = true).

(** A call of [add_unique] on the table, with [v] under the key. *)
Definition calls_for (c : caller) : Prop :=
  _sqlite (c_self c) = Some sqlite /\ c_table c = table /\ c_key c = key
  /\ Forall ident (dict_keys (c_entry c)) /\ Forall plain (dict_values (c_entry c))
  /\ dict_lookup key (c_entry c) = Some v /\ "id" ∉ dict_keys (c_entry c).

Lemma holds_unique (db : minidb) (i j : Z) :
  keyed table key db -> holds table key (py_str v) i db ->
  holds table key (py_str v) j db -> i = j.
Proof.
  intros (Hwf & tab & Htab & Hu & _) (tab1 & r1 & Ht1 & Hr1 & Hx1 & <-)
    (tab2 & r2 & Ht2 & Hr2 & Hx2 & <-). simplify_eq.
  pose proof (unique_one_row _ tab key (py_str v) (Hwf _ _ Htab) Hu) as Hlen.
  assert (forall r, r ∈ t_rows tab -> col_text key r = Some (py_str v) ->
            r ∈ filter (fun r => row_matches [CEq key (Some (py_str v))] r = true)
                  (t_rows tab)) as Hin.
  { intros r Hr Hx. apply list_elem_of_filter. split; [|done]. unfold row_matches.
    simpl. rewrite andb_true_r. by apply cond_holds_text. }
  pose proof (Hin r1 Hr1 Hx1) as H1. pose proof (Hin r2 Hr2 Hx2) as H2.
  destruct (filter _ (t_rows tab)) as [|r [|r' rows]]; simpl in Hlen; [|..|lia].
  - by apply elem_of_nil in H1.
  - apply list_elem_of_singleton in H1, H2. by subst.
Qed.

(** A lookup finds nothing, and no row holds the text; or it finds the id
    of the row that does. *)
Lemma lookup_keyed (c : caller) (db : minidb) :
  calls_for c -> keyed table key db ->
  (lookup c db = (inr (OValue VNone), db) /\ forall i, ~ holds table key (py_str v) i db)
  \/ exists i, lookup c db = (inr (OValue (VInt i)), db) /\ holds table key (py_str v) i db.
Proof.
  intros (_ & Htc & Hkc & _ & _ & Hv & _) (Hwf & tab & Htab & Hu & _).
  unfold lookup, dict_getitem. rewrite Htc, Hkc, Hv, bind_lift_inr. clear Htc Hkc.
  rewrite mini_get_id by (done || by apply Forall_singleton).
  unfold lookup_ids, cond_of. simpl. rewrite Htab, Hnn.
  pose proof (unique_one_row _ tab key (py_str v) (Hwf _ _ Htab) Hu) as Hlen.
  destruct (filter _ (t_rows tab)) as [|r [|r' rows]] eqn:Hfil; simpl in Hlen; [|..|lia].
  - left. split; [done|]. intros i (tab' & r & Ht' & Hr & Hx & _). simplify_eq.
    assert (r ∈ filter (fun r => row_matches [CEq key (Some (py_str v))] r = true)
                  (t_rows tab)) as Hin; [|by rewrite Hfil in Hin; apply elem_of_nil in Hin].
    apply list_elem_of_filter. split; [|done]. unfold row_matches. simpl.
    rewrite andb_true_r. by apply cond_holds_text.
  - right. exists (r_id r). split; [done|]. exists tab, r.
    assert (r ∈ [r]) as Hin by by left. rewrite <- Hfil in Hin.
    apply list_elem_of_filter in Hin as [Hm Hr]. split; [done|]. split; [done|].
    split; [|done]. unfold row_matches in Hm. simpl in Hm. rewrite andb_true_r in Hm.
    by apply cond_holds_text.
Qed.

(** The insert, whether it succeeds or is swallowed, leaves a row that
    holds the text, and the rows that were there. *)
Lemma insert_keyed (c : caller) (db : minidb) :
  calls_for c -> keyed table key db ->
  let db' := (try_except (add (c_self c) (c_table c) (c_entry c)) (fun _ => ret tt) db).2 in
  keyed table key db' /\ (exists i, holds table key (py_str v) i db')
  /\ forall i, holds table key (py_str v) i db -> holds table key (py_str v) i db'.
Proof.
  intros (Hsq & Htc & Hkc & Hk & Hp & Hv & Hid) (Hwf & tab & Htab & Hu & Hsub).
  assert (c_entry c <> []) as Hne by by intros Hnil; rewrite Hnil in Hv.
  unfold try_except. rewrite Htc, (mini_add _ sqlite) by done. clear Htc Hkc.
  pose proof (db_insert_wf table (dict_keys (c_entry c))
                (cell_of sqlite <$> dict_values (c_entry c)) db Hwf) as Hwf'.
  pose proof (db_insert_grown table (dict_keys (c_entry c))
                (cell_of sqlite <$> dict_values (c_entry c)) db _ tab Htab) as [rows Hg].
  destruct (db_insert_present table key (py_str v) (dict_keys (c_entry c))
              (cell_of sqlite <$> dict_values (c_entry c)) db tab Htab Hsub
              (row_lengths _ _) Hid) as (tab' & r & Ht' & Hu' & Hr & Hx).
  { unfold col_text. fold (row_of sqlite (db_next db) (c_entry c)).
    by rewrite (row_of_cell _ _ _ _ v), findable_cell. }
  destruct (db_insert _ _ _ db) as [[e|rs] db']; simpl in *.
  all: split; [split; [done|]; exists tab'; by rewrite Hu'|].
  all: split; [by exists (r_id r), tab', r|].
  all: intros i (tab0 & r0 & Ht0 & Hr0 & Hx0 & Hi0); simplify_eq.
  all: eexists _, r0; split; [exact Hg|]; split; [|done]; simpl; apply elem_of_app; by left.
Qed.

Lemma phase_ok_mono (p : phase) (db db' : minidb) :
  (forall i, holds table key (py_str v) i db -> holds table key (py_str v) i db') ->
  phase_ok table key (py_str v) p db -> phase_ok table key (py_str v) p db'.
Proof.
  intros Hm. destruct p; simpl; [done|done|intros [i Hi]; eauto|].
  intros (i & -> & Hi). eauto.
Qed.

(** A step keeps the database keyed and its rows, and leaves its caller
    with what its phase knows. *)
Lemma phase_step_ok (c : caller) (p : phase) (db : minidb) :
  calls_for c -> keyed table key db -> phase_ok table key (py_str v) p db ->
  keyed table key (phase_step c p db).2
  /\ phase_ok table key (py_str v) (phase_step c p db).1 (phase_step c p db).2
  /\ forall i, holds table key (py_str v) i db ->
               holds table key (py_str v) i (phase_step c p db).2.
Proof.
  intros Hcall Hkey Hp. destruct p; cbn [phase_step].
  - assert (dict_is_empty (c_entry c) = false) as ->.
    { destruct Hcall as (_ & _ & _ & _ & _ & Hv & _). by destruct (c_entry c). }
    destruct (lookup_keyed c db Hcall Hkey) as [[-> _]|(i & -> & Hi)]; simpl; eauto.
  - by apply insert_keyed.
  - destruct Hp as [j Hj].
    destruct (lookup_keyed c db Hcall Hkey) as [[_ Hno]|(i & -> & Hi)]; simpl;
      [by destruct (Hno j)|eauto].
  - done.
Qed.

(** Every schedule keeps what every phase knows. *)
Lemma run_from_ok (c1 c2 : caller) (sched : list bool) (db : minidb) (p1 p2 : phase) :
  calls_for c1 -> calls_for c2 -> keyed table key db ->
  phase_ok table key (py_str v) p1 db -> phase_ok table key (py_str v) p2 db ->
  let '(db', q1, q2) := run_from c1 c2 (db, p1, p2) sched in
  keyed table key db' /\ phase_ok table key (py_str v) q1 db'
  /\ phase_ok table key (py_str v) q2 db'.
Proof.
  intros H1 H2. revert db p1 p2.
  induction sched as [|b sched IH]; intros db p1 p2 Hkey Hp1 Hp2; [done|].
  change (run_from c1 c2 (db, p1, p2) (b :: sched))
    with (run_from c1 c2 (sched_step c1 c2 (db, p1, p2) b) sched).
  destruct b; cbn [sched_step].
  - destruct (phase_step_ok c1 p1 db H1 Hkey Hp1) as (Hk & Hq & Hm).
    destruct (phase_step c1 p1 db) as [q db']. apply IH; [done..|].
    by apply (phase_ok_mono _ db).
  - destruct (phase_step_ok c2 p2 db H2 Hkey Hp2) as (Hk & Hq & Hm).
    destruct (phase_step c2 p2 db) as [q db']. apply IH; [done| |done].
    by apply (phase_ok_mono _ db).
Qed.

(** ** Theorems *)

(** C14: two calls of [add_unique] at once agree.  On a table of a
    well-formed database whose only unique column is the key, two calls
    with the same value under the key, their statements interleaved in
    any order, both return the same id, the id of the one row that holds
    the value: whichever insert comes second fails and is swallowed, and
    its caller finds the row of the first. *)
Theorem add_unique_agree (c1 c2 : caller) (sched : list bool) (db : minidb) :
  calls_for c1 -> calls_for c2 -> keyed table key db -> complete sched ->
  exists i db',
    run_schedule (D:=mini_driver) c1 c2 sched db
    = (db', Returned (inr (OValue (VInt i))), Returned (inr (OValue (VInt i))))
    /\ holds table key (py_str v) i db'
    /\ forall j, holds table key (py_str v) j db' -> j = i.
Proof.
  intros H1 H2 Hkey [Ht1 Ht2]. unfold run_schedule.
  pose proof (run_from_ok c1 c2 sched db Looking Looking H1 H2 Hkey I I) as Hok.
  destruct (run_from_turns (D:=mini_driver) c1 c2 sched (db, Looking, Looking)) as [Hl1 Hl2].
  destruct (run_from c1 c2 (db, Looking, Looking) sched) as [[db' q1] q2].
  destruct Hok as (Hkey' & Hq1 & Hq2). simpl in Hl1, Hl2.
  destruct (turns_left_0 q1) as [r1 ->]; [lia|]. destruct (turns_left_0 q2) as [r2 ->]; [lia|].
  destruct Hq1 as (i & -> & Hi), Hq2 as (j & -> & Hj).
  rewrite (holds_unique db' j i Hkey' Hj Hi). exists i, db'.
  split; [done|]. split; [done|]. intros k Hk. by apply (holds_unique db' k i).
Qed.

End agreement.

(** ** Concurrent runs *)

Definition dan (age : Z) : caller :=
  {| c_self := conn; c_table := "people";
     c_entry := [("name", VStr "Dan"); ("age", VInt age)]; c_key := "name" |}.

(** Both callers look before either inserts. *)
Definition both_look : list bool := [true; false; true; false; false; true].

Lemma add_unique_agree_witness :
  exists i db',
    run_schedule (D:=mini_driver) (dan 8) (dan 9) both_look crew
    = (db', Returned (inr (OValue (VInt i))), Returned (inr (OValue (VInt i))))
    /\ holds "people" "name" "Dan" i db'
    /\ forall j, holds "people" "name" "Dan" j db' -> j = i.
Proof.
  refine (add_unique_agree true "people" "name" (VStr "Dan") _ _ _ _
            (dan 8) (dan 9) both_look crew _ _ _ _);
    [decided|decided|done|done|repeat split; decided|repeat split; decided| |decided].
  split; [decided|]. exists crew_table. repeat split; [decided|]. by intros u ?.
Defined.

(** The first caller's row is stored, with the age it gave; the second
    caller's insert is swallowed. *)
Example both_look_run :
  run_schedule (D:=mini_driver) (dan 8) (dan 9) both_look crew
  = (db_add_row "people" crew_table
       {| r_id := 4; r_cells := [("name", Some "Dan"); ("age", Some "8")] |} crew,
     Returned (inr (OValue (VInt 4))), Returned (inr (OValue (VInt 4)))).
Proof. computed. Qed.

(** Without the unique column both rows are stored, and each caller
    returns the list of both ids. *)
Example both_look_not_unique :
  let loose := {| db_tables := {[ "people" := {| t_unique := []; t_rows := [] |} ]};
                  db_next := 1 |} in
  (run_schedule (D:=mini_driver) (dan 8) (dan 9) both_look loose).1.2
  = Returned (inr (OList [VInt 1; VInt 2])).
Proof. computed. Qed.
