(* ===== verification/CatalogDb.v ===== *)
(** * Table existence on the reference database

    [table_exist] sends the catalog query of PostgreSQL,
    [SELECT to_regclass('name')], through a method [get_as_dict] of the
    driver object.  [catalog_driver] is the reference database behind a
    driver object that has this method, and whose catalog function
    [to_regclass] gives the name of a table that exists and NULL for any
    other name.  On it [table_exist] answers whether the table exists. *)

From stdpp Require Import gmap.
From S2P Require Import Prelude PyValue Escaper SqlScan Driver Builder Injection.
From S2P Require Import Accessors Catalog Lexer SqlParse MiniDb Readback Refine.

(** The words of the catalog query. *)
Definition regclass_words : list string := ["SELECT"; "to_regclass"; "("; "?"; ")"].

(** [to_regclass(name)]: the table as the catalog names it, or NULL. *)
Definition to_regclass (name : string) (db : minidb) : value :=
  if bool_decide (is_Some (db_tables db !! name)) then VStr name else VNone.

(** The method [get_as_dict] of the driver object: the catalog query is
    answered from the tables, any other statement executed. *)
Definition catalog_query (sql : string) : serr minidb exn (list pydict) :=
  fun db =>
    match sql_scan sql with
    | Some (sk, [name]) =>
        if bool_decide (upper <$> tokens sk = upper <$> regclass_words)
        then (inr [[("to_regclass", to_regclass name db)]], db)
        else mini_query sql true db
    | _ => mini_query sql true db
    end.

Definition catalog_driver : Driver minidb := {|
  drv_query := mini_query;
  drv_get_table_names := fun db => (inr (map_to_list (db_tables db)).*1, db);
  drv_close := ret tt;
  drv_get_as_dict := Some catalog_query
|}.

(** The catalog query for a name without a quote is answered by
    [to_regclass]. *)
Lemma catalog_query_regclass (name : string) (db : minidb) :
  name_ok name ->
  catalog_query (table_exist_sql name) db
  = (inr [[("to_regclass", to_regclass name db)]], db).
Proof.
  intros Hn. unfold catalog_query.
  by rewrite (proj1 (table_exist_sql_structure name "" Hn eq_refl)).
Qed.

(** On a driver object with the method [get_as_dict], over the
    reference database with the catalog function [to_regclass],
    [table_exist] of a name without a quote answers whether the table
    exists, and leaves the database as it is. *)
Theorem table_exist_refines (self : DB) (name : string) (db : minidb) :
  name_ok name ->
  table_exist (D:=catalog_driver) self name db
  = (inr (bool_decide (is_Some (db_tables db !! name))), db).
Proof.
  intros Hn. unfold table_exist. cbn [drv_get_as_dict catalog_driver].
  unfold bind at 1. rewrite catalog_query_regclass by done.
  cbn [list_getitem0]. rewrite bind_lift_inr. unfold dict_getitem. simpl.
  rewrite bind_lift_inr. unfold to_regclass. by case_bool_decide.
Qed.

(** ** Concrete runs *)

Lemma table_exist_refines_witness :
  table_exist (D:=catalog_driver) conn "people" crew = (inr true, crew)
  /\ table_exist (D:=catalog_driver) conn "pets" crew = (inr false, crew).
Proof.
  split.
  - refine (eq_trans (table_exist_refines conn "people" crew _) _); [done|computed].
  - refine (eq_trans (table_exist_refines conn "pets" crew _) _); [done|computed].
Defined.

(** A name with a quote ends the literal of the catalog query: the
    database reads another statement, which here is none it knows. *)
Example table_exist_quote :
  table_exist (D:=catalog_driver) conn "a') OR ('b" crew
  = (inl (DriverError "syntax error"), crew).
Proof. computed. Qed.
