(* ===== verification/ScriptDb.v ===== *)
(** * Scripts on the reference database

    [from_file] sends the commands of a script one after the other.  On
    the reference database a script is the list of its statements,
    executed in order up to the first that fails: [db_script].  This file
    shows that [from_file] implements it, that the statements before a
    failing one stay executed, and what becomes of a script whose
    statements are joined with semicolons. *)

From stdpp Require Import gmap.
From S2P Require Import Prelude PyValue Escaper SqlScan Driver Builder Script.
From S2P Require Import Lexer SqlParse MiniDb Readback Refine.

(** The commands of a script as the database reads them: the statement
    of each command that is not blank, [None] for one that is no
    statement. *)
Definition script_stmts (content : string) : list (option stmt) :=
  parse_sql <$> filter (fun command => is_blank command = false) (script_commands content).

(** The statements executed in order, up to the first that fails or is
    not read. *)
Fixpoint db_script (cmds : list (option stmt)) (db : minidb) : (exn + unit) * minidb :=
  match cmds with
  | [] => (inr tt, db)
  | None :: _ => (inl (DriverError "syntax error"), db)
  | Some s :: rest =>
      match db_exec s db with
      | (inl e, db') => (inl e, db')
      | (inr _, db') => db_script rest db'
      end
  end.

(** The command fails in [db]. *)
Definition fails (cmd : option stmt) (db : minidb) : bool :=
  match cmd with
  | None => true
  | Some s => if (db_exec s db).1 is inl _ then true else false
  end.

(** A text a script can hold as one command: no semicolon, no newline,
    not blank. *)
Definition command_ok (t : string) : Prop :=
  Str.mem ";" t = false /\ Str.mem "010" t = false /\ is_blank t = false.

#[export] Instance command_ok_dec (t : string) : Decision (command_ok t) := _.

(** ** Lemmas *)

Lemma exec_seq_script (fetchall : bool) (cmds : list string) (db : minidb) :
  exec_seq (D:=mini_driver) fetchall cmds db = db_script (parse_sql <$> cmds) db.
Proof.
  revert db. induction cmds as [|c cmds IH]; intros db; [done|].
  cbn [exec_seq fmap list_fmap db_script]. unfold bind. cbn [drv_query mini_driver].
  unfold mini_query. destruct (parse_sql c) as [s|]; [|done].
  destruct (db_exec s db) as [[e|rows] db']; [done|apply IH].
Qed.

Lemma db_script_app (cmds more : list (option stmt)) (db : minidb) :
  db_script (cmds ++ more) db
  = match db_script cmds db with
    | (inl e, db') => (inl e, db')
    | (inr _, db') => db_script more db'
    end.
Proof.
  revert db. induction cmds as [|[s|] cmds IH]; intros db; simpl; [done| |done].
  destruct (db_exec s db) as [[e|rows] db']; [done|apply IH].
Qed.

(** A command that fails ends the script where it is. *)
Lemma db_script_fails (cmd : option stmt) (rest : list (option stmt)) (db : minidb) :
  fails cmd db = true -> exists e, db_script (cmd :: rest) db = (inl e, db).
Proof.
  destruct cmd as [s|]; simpl; [|by eexists].
  destruct (db_exec s db) as [[e|rows] db'] eqn:H; [|done].
  intros _. exists e. by rewrite (db_exec_error _ _ _ _ H).
Qed.

Lemma db_script_wf (cmds : list (option stmt)) (db : minidb) :
  db_wf db -> db_wf (db_script cmds db).2.
Proof.
  revert db. induction cmds as [|[s|] cmds IH]; intros db Hwf; simpl; [done| |done].
  pose proof (db_exec_wf s db Hwf) as Hwf'.
  destruct (db_exec s db) as [[e|rows] db']; [done|by apply IH].
Qed.

Lemma str_replace_free (c : ascii) (repl s : string) :
  Str.mem c s = false -> str_replace c repl s = s.
Proof. apply re_sub_char_absent. Qed.

Lemma concat_mem (c : ascii) (sep : string) (parts : list string) :
  Str.mem c sep = false -> Forall (fun part => Str.mem c part = false) parts ->
  Str.mem c (String.concat sep parts) = false.
Proof.
  intros Hsep. induction 1 as [|part parts Hp _ IH]; [done|].
  destruct parts as [|part' parts]; [done|].
  rewrite Str.concat_cons2, !Str.mem_app, Hp, Hsep. apply IH.
Qed.

(** The commands of statements joined with semicolons are the
    statements. *)
Lemma script_commands_joined (texts : list string) :
  texts <> [] -> Forall command_ok texts ->
  script_commands (String.concat ";" texts) = texts.
Proof.
  intros Hne Hok. unfold script_commands.
  rewrite str_replace_free.
  - apply str_split_of_concat; [done|]. eapply Forall_impl; [done|]. by intros t (? & _).
  - apply concat_mem; [done|]. eapply Forall_impl; [done|]. by intros t (_ & ? & _).
Qed.

Lemma from_file_script (self : DB) (fs : filesystem) (filename content : string)
    (db : minidb) :
  fs filename = Some content ->
  from_file (D:=mini_driver) self fs filename db = db_script (script_stmts content) db.
Proof. intros Hfs. by rewrite from_file_exec, Hfs, exec_seq_script. Qed.

(** ** Theorems *)

(** Over the reference database [from_file] executes the statements of
    the script in order up to the first command that fails or is no
    statement, and raises what that command raises; the statements before
    it stay executed, and a database that was well formed stays so. *)
Theorem from_file_refines (self : DB) (fs : filesystem) (filename content : string)
    (db : minidb) :
  fs filename = Some content ->
  from_file (D:=mini_driver) self fs filename db = db_script (script_stmts content) db
  /\ (forall before cmd rest db1,
        script_stmts content = before ++ cmd :: rest ->
        db_script before db = (inr tt, db1) -> fails cmd db1 = true ->
        exists e, from_file (D:=mini_driver) self fs filename db = (inl e, db1))
  /\ (db_wf db -> db_wf (from_file (D:=mini_driver) self fs filename db).2).
Proof.
  intros Hfs. rewrite (from_file_script _ _ _ _ _ Hfs).
  split; [done|]. split; [|apply db_script_wf].
  intros before cmd rest db1 -> Hbefore Hfails. rewrite db_script_app, Hbefore.
  by apply db_script_fails.
Qed.

(** A script of statements joined with semicolons, none of which holds a
    semicolon or a newline, executes those statements. *)
Theorem from_file_joined (self : DB) (fs : filesystem) (filename : string)
    (texts : list string) (db : minidb) :
  fs filename = Some (String.concat ";" texts) ->
  texts <> [] -> Forall command_ok texts ->
  from_file (D:=mini_driver) self fs filename db = db_script (parse_sql <$> texts) db.
Proof.
  intros Hfs Hne Hok. rewrite (from_file_script _ _ _ _ _ Hfs).
  unfold script_stmts. rewrite script_commands_joined by done.
  rewrite filter_all; [done|]. intros t Ht.
  by destruct (proj1 (Forall_forall _ _) Hok t Ht) as (_ & _ & ?).
Qed.

(** ** Concrete runs *)

(** A disk with one file. *)
Definition disk (content : string) : filesystem :=
  fun name => if String.eqb name "setup.sql" then Some content else None.

(** Three statements on three lines. *)
Definition setup : string :=
  "INSERT INTO people (name, age) VALUES ('Dan', 7);"
  +:+ String "010" "UPDATE people set age = 8 WHERE name = 'Dan';"
  +:+ String "010" "DELETE FROM people WHERE id = '1';"
  +:+ String "010" "".

(** The second statement holds a semicolon in a literal. *)
Definition cut : string :=
  "INSERT INTO people (name, age) VALUES ('Dan', 7); INSERT INTO people (name) VALUES ('a;b')".

Lemma from_file_refines_witness :
  from_file (D:=mini_driver) conn (disk setup) "setup.sql" crew
  = (inr tt,
     {| db_tables :=
          {[ "people" :=
               {| t_unique := ["name"];
                  t_rows := [{| r_id := 2; r_cells := [("name", Some "Bob"); ("age", Some "5")] |};
                             {| r_id := 3; r_cells := [("name", Some "Cy"); ("age", Some "7")] |};
                             {| r_id := 4; r_cells := [("name", Some "Dan"); ("age", Some "8")] |}]
               |} ]};
        db_next := 5 |}).
Proof.
  refine (eq_trans (proj1 (from_file_refines conn (disk setup) "setup.sql" setup crew _)) _);
    [done|computed].
Defined.

Lemma from_file_joined_witness :
  (from_file (D:=mini_driver) conn
     (disk "INSERT INTO people (name) VALUES ('Dan');DELETE FROM people WHERE id = '2'")
     "setup.sql" crew).1 = inr tt.
Proof.
  rewrite (from_file_joined conn _ "setup.sql"
             ["INSERT INTO people (name) VALUES ('Dan')"; "DELETE FROM people WHERE id = '2'"]);
    [computed|done|done|decided].
Defined.

(** A semicolon in a literal: the statement is cut in two commands that
    are no statements, the script ends with a syntax error, and the row of
    the statement before it is stored. *)
Example from_file_cut :
  script_stmts cut = [Some (SInsert "people" ["name"; "age"] [[Some "Dan"; Some "7"]]); None; None]
  /\ (from_file (D:=mini_driver) conn (disk cut) "setup.sql" crew).1
     = inl (DriverError "syntax error")
  /\ length (rows_of "people" (from_file (D:=mini_driver) conn (disk cut) "setup.sql" crew).2)
     = 4.
Proof. repeat split; computed. Qed.

(** A statement the database rejects: the name is taken.  The rows the
    script stored before it stay. *)
Example from_file_rejected :
  let script := "INSERT INTO people (name) VALUES ('Dan'); INSERT INTO people (name) VALUES ('Ann'); DELETE FROM people" in
  from_file (D:=mini_driver) conn (disk script) "setup.sql" crew
  = (inl (DriverError "UNIQUE constraint failed"),
     (add (D:=mini_driver) conn "people" [("name", VStr "Dan")] crew).2).
Proof. computed. Qed.
