(* ===== verification/Schema.v ===== *)
(** * Tables made and dropped

    The class makes no table: a table comes from a statement of a setup
    script or of [do].  The reference database reads
    [CREATE TABLE t (column definitions)], with [IF NOT EXISTS] or
    without, and keeps of it the name of the table and the columns
    declared [UNIQUE].  This file follows a table from the statement that
    makes it to the call that drops it: what [table_exist] answers after
    each, and what [add_unique] does on a table with a unique key. *)

From stdpp Require Import gmap.
From S2P Require Import Prelude PyValue Escaper SqlScan Driver Builder Injection.
From S2P Require Import Accessors Script Catalog Lexer SqlParse MiniDb Readback Refine.
From S2P Require Import CatalogDb ScriptDb.

(** The database with the empty table [t]. *)
Definition with_table (t : string) (uniq : list string) (db : minidb) : minidb :=
  {| db_tables := <[t := {| t_unique := uniq; t_rows := [] |}]> (db_tables db);
     db_next := db_next db |}.

(** ** The statements on tables *)

Lemma db_create_fresh (t : string) (lenient : bool) (uniq : list string) (db : minidb) :
  db_tables db !! t = None -> db_create t lenient uniq db = (inr [], with_table t uniq db).
Proof. intros Ht. unfold db_create. by rewrite Ht. Qed.

Lemma db_create_again (t : string) (lenient : bool) (uniq : list string) (db : minidb) :
  is_Some (db_tables db !! t) ->
  db_create t lenient uniq db
  = (if lenient then inr [] else inl (DriverError "table already exists"), db).
Proof. intros [tab Ht]. unfold db_create. rewrite Ht. by destruct lenient. Qed.

(** A table made and dropped leaves the database as it was. *)
Lemma db_create_drop (t : string) (uniq : list string) (db : minidb) :
  db_tables db !! t = None -> (db_drop t (with_table t uniq db)).2 = db.
Proof.
  intros Ht. unfold db_drop, with_table. simpl. rewrite delete_insert_id by done.
  by destruct db.
Qed.

(** A statement that the database reads as [CREATE TABLE], sent with
    [do]. *)
Lemma do_create (D : Driver minidb) (self : DB) (sql t : string) (lenient : bool)
    (uniq : list string) (db : minidb) :
  @drv_query _ D = mini_query -> parse_sql sql = Some (SCreate t lenient uniq) ->
  do (D:=D) self sql db = db_create t lenient uniq db.
Proof. intros HD Hsql. unfold do. rewrite HD. unfold mini_query. by rewrite Hsql. Qed.

Section schema.
Context {ND : NumberDetect}.

(** ** Theorems *)

(** After a statement that makes the table, [table_exist] answers
    [True]; after [drop_table], [False]: the two methods agree with each
    other through the database. *)
Theorem table_exist_after (self : DB) (sql t : string) (lenient : bool)
    (uniq : list string) (db : minidb) :
  ident t -> parse_sql sql = Some (SCreate t lenient uniq) -> db_tables db !! t = None ->
  (_ ← do (D:=catalog_driver) self sql; table_exist (D:=catalog_driver) self t)%serr db
  = (inr true, with_table t uniq db)
  /\ (_ ← drop_table (D:=catalog_driver) self t;
      table_exist (D:=catalog_driver) self t)%serr (with_table t uniq db)
     = (inr false, db).
Proof.
  intros Hid Hsql Hnew. pose proof (proj2 Hid) as Ht. split.
  - unfold bind at 1. rewrite (do_create catalog_driver _ _ _ _ _ _ eq_refl Hsql).
    rewrite db_create_fresh by done. rewrite table_exist_refines by done.
    unfold with_table. simpl. rewrite lookup_insert_eq. by rewrite bool_decide_eq_true_2.
  - unfold bind at 1.
    change (drop_table (D:=catalog_driver) self t) with (drop_table (D:=mini_driver) self t).
    rewrite mini_drop_table by done. rewrite db_create_drop by done.
    rewrite table_exist_refines by done. rewrite Hnew.
    by rewrite bool_decide_eq_false_2 by by intros [? ?].
Qed.

(** The first [add_unique] into a table that has just been made stores
    the row of the entry and returns its id, the counter of the
    database. *)
Theorem add_unique_first (self : DB) (sqlite : bool) (t : string) (entry : pydict)
    (key : string) (v : value) (uniq : list string) (db : minidb) :
  _sqlite self = Some sqlite -> ident t -> column key ->
  Forall ident (dict_keys entry) -> Forall plain (dict_values entry) ->
  dict_lookup key entry = Some v -> "id" ∉ dict_keys entry -> findable sqlite v = true ->
  add_unique (D:=mini_driver) self t entry key (with_table t uniq db)
  = (inr (OValue (VInt (db_next db))),
     db_add_row t {| t_unique := uniq; t_rows := [] |} (row_of sqlite (db_next db) entry)
       (with_table t uniq db)).
Proof.
  intros Hsq Ht Hc Hk Hp Hv Hid Hf.
  rewrite (add_unique_absent _ sqlite _ _ _ v _ {| t_unique := uniq; t_rows := [] |});
    try done.
  - by rewrite Hf.
  - unfold with_table. simpl. by rewrite lookup_insert_eq.
  - unfold unique_clash. induction uniq as [|u uniq IH]; [done|].
    simpl in *. rewrite IH. by destruct (row_cell u _).
Qed.

End schema.

(** ** Concrete runs *)

(** A setup script, as [from_file] reads it. *)
Definition schema_sql : string :=
  "CREATE TABLE IF NOT EXISTS people (id INTEGER PRIMARY KEY, name TEXT UNIQUE, age INT);"
  +:+ String "010" "CREATE TABLE log (at TEXT NOT NULL);"
  +:+ String "010" "INSERT INTO people (name, age) VALUES ('Ann', 7);".

Definition empty_db : minidb := {| db_tables := ∅; db_next := 1 |}.

Lemma table_exist_after_witness :
  (_ ← do (D:=catalog_driver) conn "create table pets (name text unique)";
   table_exist (D:=catalog_driver) conn "pets")%serr crew
  = (inr true, with_table "pets" ["name"] crew).
Proof.
  refine (proj1 (table_exist_after conn "create table pets (name text unique)" "pets"
                   false ["name"] crew _ _ _)); [decided|computed|computed].
Defined.

Lemma add_unique_first_witness :
  (add_unique (D:=mini_driver) conn "pets" [("name", VStr "Rex")] "name"
     (with_table "pets" ["name"] crew)).1
  = inr (OValue (VInt 4)).
Proof.
  rewrite (add_unique_first conn true "pets" [("name", VStr "Rex")] "name" (VStr "Rex"));
    [done|done|decided|decided|decided|decided|done|decided|done].
Defined.

(** From the setup script to the empty database: the script makes two
    tables and stores a row, [add_unique] finds that row and stores
    another, and [drop_tables] leaves nothing. *)
Example lifecycle :
  let setup := (from_file (D:=mini_driver) conn (disk schema_sql) "setup.sql" empty_db).2 in
  let ann := add_unique (D:=mini_driver) conn "people" [("name", VStr "Ann")] "name" setup in
  let bob := add_unique (D:=mini_driver) conn "people" [("name", VStr "Bob")] "name" ann.2 in
  let gone := drop_tables (D:=mini_driver) conn bob.2 in
  (map_to_list (db_tables setup)).*1 = ["log"; "people"]
  /\ ann.1 = inr (OValue (VInt 1)) /\ bob.1 = inr (OValue (VInt 2))
  /\ gone = (inr tt, {| db_tables := ∅; db_next := 3 |}).
Proof. repeat split; computed. Qed.

(** What the reference database does not read in a column definition: a
    type with a length. *)
Example create_with_length :
  parse_sql "CREATE TABLE t (name VARCHAR(80))" = None.
Proof. computed. Qed.
