(* ===== verification/Session.v ===== *)
(** * Sessions

    A database is used by clients that call the methods of the class one
    after the other, each on its own connection.  [call] is a call of a
    public method with its arguments, [run_call] the method it calls with
    the result dropped, and [reachable] the states of the database that
    such calls lead to from a given one; a call that raises leaves the
    state the method left and the session goes on.  The theorem of this
    file is about all of them at once: what the driver keeps invariant,
    every session keeps invariant. *)

From stdpp Require Import gmap.
From S2P Require Import Prelude PyValue Escaper SqlScan Driver Builder Injection.
From S2P Require Import Accessors Script Catalog Lexer SqlParse MiniDb Readback Refine.

(** A call of a public method that reaches the database. *)
Inductive call : Type :=
| CallDo (sql : string)
| CallGetAsDict (sql : string)
| CallCount (sql : string)
| CallTableNames
| CallClose
| CallFromFile (fs : filesystem) (filename : string)
| CallTableExist (name : string)
| CallDropTable (table : string)
| CallDropTables
| CallGet (table : string) (kwargs : pydict)
| CallGetSingle (table : string) (values : pydict)
| CallGetAll (table : string) (order : value)
| CallGetById (table : string) (id : value)
| CallGetId (table : string) (values : pydict)
| CallAdd (table : string) (entry : pydict)
| CallAddUnique (table : string) (entry : pydict) (key : string)
| CallAddBulk (table : string) (entries : list pydict)
| CallUpdate (table : string) (entry conditions : pydict)
| CallDelete (table : string) (id : value)
| CallPurge (table : string).

Section session.
Context {ND : NumberDetect} {St : Type} {D : Driver St}.

(** A computation with its result dropped. *)
Definition ignore {A : Type} (m : serr St exn A) : serr St exn unit :=
  (_ ← m; ret tt)%serr.

(** The method a call stands for, on the connection [self]. *)
Definition run_call (self : DB) (c : call) : serr St exn unit :=
  match c with
  | CallDo sql => ignore (do self sql)
  | CallGetAsDict sql => ignore (get_as_dict self sql)
  | CallCount sql => ignore (count self sql)
  | CallTableNames => ignore (table_names self)
  | CallClose => close self
  | CallFromFile fs filename => from_file self fs filename
  | CallTableExist name => ignore (table_exist self name)
  | CallDropTable table => drop_table self table
  | CallDropTables => drop_tables self
  | CallGet table kwargs => ignore (get_kw self table kwargs)
  | CallGetSingle table values => ignore (get_single self table values)
  | CallGetAll table order => ignore (get_all self table order)
  | CallGetById table id => ignore (get_by_id self table id)
  | CallGetId table values => ignore (get_id self table values)
  | CallAdd table entry => add self table entry
  | CallAddUnique table entry key => ignore (add_unique self table entry key)
  | CallAddBulk table entries => add_bulk self table entries
  | CallUpdate table entry conditions => update self table entry conditions
  | CallDelete table id => delete self table id
  | CallPurge table => purge self table
  end.

(** The states the calls of any clients lead to from [st0]. *)
Inductive reachable (st0 : St) : St -> Prop :=
| reach_start : reachable st0 st0
| reach_call (self : DB) (c : call) (st : St) :
    reachable st0 st -> reachable st0 (run_call self c st).2.

(** The state after a list of calls, each with the connection it is made
    on. *)
Definition run_session (calls : list (DB * call)) (st0 : St) : St :=
  foldl (fun st sc => (run_call sc.1 sc.2 st).2) st0 calls.

(** ** Lemmas *)



Lemma reachable_trans (st0 st1 st2 : St) :
  reachable st0 st1 -> reachable st1 st2 -> reachable st0 st2.
Proof. intros H1. induction 1; [done|by constructor]. Qed.

Section invariant.
Context (I : St -> Prop) {DI : DriverInv D I}.

Lemma ignore_preserves {A : Type} (m : serr St exn A) :
  preserves I m -> preserves I (ignore m).
Proof. intros H. unfold ignore. solve_preserves. Qed.

Lemma run_call_preserves (self : DB) (c : call) : preserves I (run_call self c).
Proof. destruct c; simpl; try apply ignore_preserves; eauto with preserves. Qed.

Lemma reachable_invariant (st0 st : St) : I st0 -> reachable st0 st -> I st.
Proof. intros H0. induction 1; [done|]. by apply run_call_preserves. Qed.

End invariant.
End session.

(** ** Theorems *)


(** After any session on a well-formed reference database, at most one
    row of a table holds a given text in a unique column: calls of
    [add_unique] by any number of clients never store a key twice. *)
Theorem session_unique_key {ND : NumberDetect} (db0 db : minidb) (table key x : string) (tab : MiniDb.table) :
  db_wf db0 -> reachable (D:=mini_driver) db0 db ->
  db_tables db !! table = Some tab -> key ∈ t_unique tab ->
  length (filter (fun r => row_matches [CEq key (Some x)] r = true) (t_rows tab)) <= 1.
Proof.
  intros Hwf Hreach Htab Hkey.
  pose proof (reachable_invariant db_wf db0 db Hwf Hreach) as Hwf'.
  by apply (unique_one_row _ tab key x (Hwf' _ _ Htab)).
Qed.

(** ** Concrete runs *)

(** Two clients, one of them on a connection that is not to sqlite, whose
    [add] raises. *)
Definition busy_session : list (DB * call) :=
  [(conn, CallAdd "people" [("name", VStr "Dan"); ("age", VInt 9)]);
   (__init__ "postgresql://u:p@host/db", CallAdd "people" [("name", VStr "Eve")]);
   (conn, CallAddUnique "people" [("name", VStr "Ann")] "name");
   (conn, CallUpdate "people" [("age", VInt 8)] [("name", VStr "Bob")]);
   (conn, CallDelete "people" (VInt 1));
   (conn, CallGetId "people" [("age", VInt 7)])].


Example busy_session_rows :
  rows_of "people" (run_session (D:=mini_driver) busy_session crew)
  = [{| r_id := 2; r_cells := [("name", Some "Bob"); ("age", Some "8")] |};
     {| r_id := 3; r_cells := [("name", Some "Cy"); ("age", Some "7")] |};
     {| r_id := 4; r_cells := [("name", Some "Dan"); ("age", Some "9")] |}].
Proof. computed. Qed.
