(* ===== verification/Simulation.v ===== *)
(** * Drivers that simulate each other

    The class reaches the database through the driver alone.  [sim R] is
    the relation of two computations that, from states related by [R],
    give the same result and leave related states; [DriverSim D1 D2 R]
    says that the methods of two drivers are so related.  Every method of
    the class is then related to itself on the two drivers
    ([run_call_sim]), and so is every session.  Three uses: the logging
    wrapper is transparent, the database beside other writers that do
    nothing is the database alone, and an invariant is the diagonal of a
    simulation. *)

From stdpp Require Import gmap.
From S2P Require Import Prelude PyValue Escaper SqlScan Driver Builder Injection.
From S2P Require Import Accessors Script Catalog Lexer SqlParse MiniDb Readback Refine.
From S2P Require Import Race Session.

(** [m1] and [m2] give the same result from related states, and leave
    related states. *)
Definition sim {St1 St2 E A : Type} (R : St1 -> St2 -> Prop)
    (m1 : serr St1 E A) (m2 : serr St2 E A) : Prop :=
  forall st1 st2, R st1 st2 -> (m1 st1).1 = (m2 st2).1 /\ R (m1 st1).2 (m2 st2).2.

(** The attribute [get_as_dict] of two driver objects: both have it, and
    related, or none has. *)
Definition sim_attr {St1 St2 : Type} (R : St1 -> St2 -> Prop)
    (m1 : option (string -> serr St1 exn (list pydict)))
    (m2 : option (string -> serr St2 exn (list pydict))) : Prop :=
  match m1, m2 with
  | Some f1, Some f2 => forall sql, sim R (f1 sql) (f2 sql)
  | None, None => True
  | _, _ => False
  end.

Class DriverSim {St1 St2 : Type} (D1 : Driver St1) (D2 : Driver St2)
    (R : St1 -> St2 -> Prop) : Prop := {
  sim_query : forall sql fetchall,
    sim R (@drv_query _ D1 sql fetchall) (@drv_query _ D2 sql fetchall);
  sim_get_table_names : sim R (@drv_get_table_names _ D1) (@drv_get_table_names _ D2);
  sim_close : sim R (@drv_close _ D1) (@drv_close _ D2);
  sim_get_as_dict : sim_attr R (@drv_get_as_dict _ D1) (@drv_get_as_dict _ D2)
}.

(** The logging wrapper and the driver it wraps; the database with other
    writers that have nothing left to do, and the database alone; a state
    that meets an invariant, and itself. *)
Definition unlogged {St : Type} (st1 : St * list string) (st2 : St) : Prop := st1.1 = st2.

Definition quiet (st1 : racing) (st2 : minidb) : Prop := st1.1 = st2 /\ st1.2 = [].

Definition diagonal {St : Type} (I : St -> Prop) (st1 st2 : St) : Prop := st1 = st2 /\ I st1.

Create HintDb sim discriminated.

(** ** The rules of simulation *)

Section rules.
Context {St1 St2 E : Type} (R : St1 -> St2 -> Prop).

Lemma sim_ret {A : Type} (a : A) : sim R (ret (E:=E) a) (ret a).
Proof. by intros st1 st2 H. Qed.

Lemma sim_raise {A : Type} (e : E) : sim R (raise (A:=A) e) (raise e).
Proof. by intros st1 st2 H. Qed.

Lemma sim_lift {A : Type} (m : res E A) : sim R (lift m) (lift m).
Proof. by intros st1 st2 H. Qed.

Lemma sim_bind {A B : Type} (m1 : serr St1 E A) (m2 : serr St2 E A)
    (k1 : A -> serr St1 E B) (k2 : A -> serr St2 E B) :
  sim R m1 m2 -> (forall a, sim R (k1 a) (k2 a)) -> sim R (bind m1 k1) (bind m2 k2).
Proof.
  intros Hm Hk st1 st2 H. unfold bind. destruct (Hm st1 st2 H) as [Hr HR].
  destruct (m1 st1) as [[e|a] st1'], (m2 st2) as [r2 st2']; simpl in *; subst; [done|].
  by apply Hk.
Qed.

Lemma sim_try_except {A : Type} (m1 : serr St1 E A) (m2 : serr St2 E A)
    (h1 : E -> serr St1 E A) (h2 : E -> serr St2 E A) :
  sim R m1 m2 -> (forall e, sim R (h1 e) (h2 e)) ->
  sim R (try_except m1 h1) (try_except m2 h2).
Proof.
  intros Hm Hh st1 st2 H. unfold try_except. destruct (Hm st1 st2 H) as [Hr HR].
  destruct (m1 st1) as [[e|a] st1'], (m2 st2) as [r2 st2']; simpl in *; subst; [|done].
  by apply Hh.
Qed.

Lemma sim_for_each {A : Type} (f1 : A -> serr St1 E unit) (f2 : A -> serr St2 E unit)
    (l : list A) :
  (forall x, sim R (f1 x) (f2 x)) -> sim R (for_each f1 l) (for_each f2 l).
Proof.
  intros Hf. induction l as [|x l IH]; simpl; [apply sim_ret|].
  apply sim_bind; [apply Hf|by intros _].
Qed.

End rules.

#[export] Hint Resolve sim_ret sim_raise sim_lift sim_bind sim_try_except
  sim_for_each : sim.

(** [solve_sim]: a simulation of a computation from those of its parts,
    which are lemmas of the database [sim]. *)
Ltac solve_sim :=
  repeat first
    [ progress intros | case_match
    | apply sim_bind | apply sim_try_except | apply sim_for_each
    | solve [eauto with sim] ].

(** ** The methods of the class *)

Section methods.
Context {ND : NumberDetect} {St1 St2 : Type} (D1 : Driver St1) (D2 : Driver St2)
  (R : St1 -> St2 -> Prop) {DS : DriverSim D1 D2 R}.

Lemma do_sim (self : DB) (sql : string) : sim R (do (D:=D1) self sql) (do (D:=D2) self sql).
Proof. apply sim_query. Qed.

Lemma table_names_sim (self : DB) :
  sim R (table_names (D:=D1) self) (table_names (D:=D2) self).
Proof. apply sim_get_table_names. Qed.

Lemma close_sim (self : DB) : sim R (close (D:=D1) self) (close (D:=D2) self).
Proof. apply sim_close. Qed.

Hint Resolve do_sim table_names_sim close_sim : sim.

Lemma get_as_dict_sim (self : DB) (sql : string) :
  sim R (get_as_dict (D:=D1) self sql) (get_as_dict (D:=D2) self sql).
Proof. unfold get_as_dict. solve_sim. Qed.

Lemma count_sim (self : DB) (sql : string) :
  sim R (count (D:=D1) self sql) (count (D:=D2) self sql).
Proof. unfold count. solve_sim. Qed.

Hint Resolve get_as_dict_sim count_sim : sim.

Lemma get_sim (self : DB) (table : string) (logic order limit offset : value)
    (values : pydict) :
  sim R (get (D:=D1) self table logic order limit offset values)
    (get (D:=D2) self table logic order limit offset values).
Proof. unfold get. solve_sim. Qed.

Lemma add_sim (self : DB) (table : string) (entry : pydict) :
  sim R (add (D:=D1) self table entry) (add (D:=D2) self table entry).
Proof. unfold add. solve_sim. Qed.

Lemma add_bulk_sim (self : DB) (table : string) (entries : list pydict) :
  sim R (add_bulk (D:=D1) self table entries) (add_bulk (D:=D2) self table entries).
Proof. unfold add_bulk. solve_sim. Qed.

Lemma update_sim (self : DB) (table : string) (entry conditions : pydict) :
  sim R (update (D:=D1) self table entry conditions)
    (update (D:=D2) self table entry conditions).
Proof. unfold update. solve_sim. Qed.

Lemma delete_sim (self : DB) (table : string) (id : value) :
  sim R (delete (D:=D1) self table id) (delete (D:=D2) self table id).
Proof. unfold delete. solve_sim. Qed.

Lemma purge_sim (self : DB) (table : string) :
  sim R (purge (D:=D1) self table) (purge (D:=D2) self table).
Proof. unfold purge. solve_sim. Qed.

Lemma drop_table_sim (self : DB) (table : string) :
  sim R (drop_table (D:=D1) self table) (drop_table (D:=D2) self table).
Proof. unfold drop_table. solve_sim. Qed.

Hint Resolve get_sim add_sim add_bulk_sim update_sim delete_sim purge_sim
  drop_table_sim : sim.

Lemma drop_tables_sim (self : DB) :
  sim R (drop_tables (D:=D1) self) (drop_tables (D:=D2) self).
Proof. unfold drop_tables. solve_sim. Qed.

Lemma get_kw_sim (self : DB) (table : string) (kwargs : pydict) :
  sim R (get_kw (D:=D1) self table kwargs) (get_kw (D:=D2) self table kwargs).
Proof. unfold get_kw. solve_sim. Qed.

Hint Resolve drop_tables_sim get_kw_sim : sim.

Lemma get_single_sim (self : DB) (table : string) (values : pydict) :
  sim R (get_single (D:=D1) self table values) (get_single (D:=D2) self table values).
Proof. unfold get_single. solve_sim. Qed.

Lemma get_all_sim (self : DB) (table : string) (order : value) :
  sim R (get_all (D:=D1) self table order) (get_all (D:=D2) self table order).
Proof. unfold get_all. solve_sim. Qed.

Lemma get_id_sim (self : DB) (table : string) (values : pydict) :
  sim R (get_id (D:=D1) self table values) (get_id (D:=D2) self table values).
Proof. unfold get_id. solve_sim. Qed.

Hint Resolve get_single_sim get_all_sim get_id_sim : sim.

Lemma get_by_id_sim (self : DB) (table : string) (id : value) :
  sim R (get_by_id (D:=D1) self table id) (get_by_id (D:=D2) self table id).
Proof. unfold get_by_id. solve_sim. Qed.

Lemma add_unique_sim (self : DB) (table : string) (entry : pydict) (key : string) :
  sim R (add_unique (D:=D1) self table entry key)
    (add_unique (D:=D2) self table entry key).
Proof. unfold add_unique. solve_sim. Qed.

Lemma from_file_sim (self : DB) (fs : filesystem) (filename : string) :
  sim R (from_file (D:=D1) self fs filename) (from_file (D:=D2) self fs filename).
Proof. unfold from_file. solve_sim. Qed.

Lemma table_exist_sim (self : DB) (name : string) :
  sim R (table_exist (D:=D1) self name) (table_exist (D:=D2) self name).
Proof.
  unfold table_exist. pose proof (sim_get_as_dict (DriverSim:=DS)) as H.
  unfold sim_attr in H.
  destruct (@drv_get_as_dict _ D1) as [f1|], (@drv_get_as_dict _ D2) as [f2|];
    [|done..|apply sim_raise].
  solve_sim.
Qed.

Hint Resolve get_by_id_sim add_unique_sim from_file_sim table_exist_sim : sim.

Lemma ignore_sim {A : Type} (m1 : serr St1 exn A) (m2 : serr St2 exn A) :
  sim R m1 m2 -> sim R (ignore m1) (ignore m2).
Proof. intros H. unfold ignore. solve_sim. Qed.

(** Every call is related to itself. *)
Lemma run_call_sim (self : DB) (c : call) :
  sim R (run_call (D:=D1) self c) (run_call (D:=D2) self c).
Proof. destruct c; simpl; try apply ignore_sim; eauto with sim. Qed.


End methods.

(** ** Drivers that are related *)

(** Every driver simulates itself. *)
#[export] Instance eq_sim {St : Type} (D : Driver St) : DriverSim D D eq.
Proof.
  split; try by intros ?? ->.
  - by intros ???? ->.
  - unfold sim_attr. destruct drv_get_as_dict; [|done]. by intros ??? ->.
Qed.

(** The logging wrapper simulates the driver it wraps. *)
#[export] Instance logged_sim {St : Type} (D : Driver St) :
  DriverSim (logged_driver D) D unlogged.
Proof.
  split.
  - intros sql f [st log] st2 <-. simpl. unfold logged_query, logged_query_with.
    by destruct (drv_query sql f st).
  - intros [st log] st2 <-. simpl. by destruct (drv_get_table_names st).
  - intros [st log] st2 <-. simpl. by destruct (drv_close st).
  - unfold sim_attr. simpl. destruct (@drv_get_as_dict _ D) as [m|]; [|done].
    intros sql [st log] st2 <-. simpl. unfold logged_query_with. by destruct (m sql st).
Qed.

(** The database beside writers with nothing left to do simulates the
    database alone. *)
#[export] Instance quiet_sim : DriverSim racing_driver mini_driver quiet.
Proof.
  split; [| | |done].
  - intros sql f [db others] db2 [H1 H2]. simpl in *. subst. unfold racing_query. simpl.
    by destruct (mini_query sql f db2).
  - intros [db others] db2 [H1 H2]. simpl in *. by subst.
  - intros [db others] db2 [H1 H2]. simpl in *. by subst.
Qed.

(** A computation keeps an invariant exactly when it simulates itself on
    the diagonal of the invariant. *)
Lemma sim_diagonal {St E A : Type} (I : St -> Prop) (m : serr St E A) :
  sim (diagonal I) m m <-> preserves I m.
Proof.
  split.
  - intros H st Hst. by destruct (H st st (conj eq_refl Hst)) as [_ [_ ?]].
  - intros H st1 st2 [<- Hst]. repeat split. by apply H.
Qed.

#[export] Instance diagonal_sim {St : Type} (D : Driver St) (I : St -> Prop)
    {DI : DriverInv D I} :
  DriverSim D D (diagonal I).
Proof.
  split; try (intros; apply sim_diagonal; apply DI).
  unfold sim_attr. destruct drv_get_as_dict as [m|] eqn:Hm; [|done].
  intros sql. apply sim_diagonal. by apply (inv_get_as_dict m).
Qed.

(** ** Theorems *)


(** What a method returns on the logging wrapper, and the state it leaves
    in the wrapped driver, are those of the method on the driver itself:
    the theorems on the statements sent are theorems about the driver. *)
Theorem logged_transparent {ND : NumberDetect} {St : Type} (D : Driver St) (self : DB)
    (c : call) (st : St) (log : list string) :
  (run_call (D:=logged_driver D) self c (st, log)).1 = (run_call (D:=D) self c st).1
  /\ (run_call (D:=logged_driver D) self c (st, log)).2.1 = (run_call (D:=D) self c st).2.
Proof. by apply (run_call_sim (logged_driver D) D unlogged). Qed.

(** Beside writers with nothing left to do, [add_unique] is [add_unique]
    on the database alone. *)
Theorem add_unique_quiet {ND : NumberDetect} (self : DB) (table : string)
    (entry : pydict) (key : string) (db : minidb) :
  add_unique (D:=racing_driver) self table entry key (db, [])
  = let '(r, db') := add_unique (D:=mini_driver) self table entry key db in (r, (db', [])).
Proof.
  destruct (add_unique_sim racing_driver mini_driver quiet self table entry key (db, []) db)
    as [Hr [Hdb Ho]]; [done|].
  destruct (add_unique (D:=racing_driver) _ _ _ _ _) as [r [db1 o1]].
  destruct (add_unique (D:=mini_driver) _ _ _ _ _) as [r2 db2]. simpl in *. by subst.
Qed.

(** ** Concrete runs *)

